(** * Kyligence/cron: the cron schedule search of spec.go

    A shallow embedding of [SpecSchedule.Next], [SpecSchedule.Prev],
    [dayMatches], [init] and the bounds of the fields of spec.go, over a
    model of the parts of Go's [time] package that the file calls,
    followed by the properties of the search that the specification
    states and by further properties of the code.

    The functions are embedded over two models of [time.Time].  In [time]
    a location has one fixed offset from UTC; the theorems that hold for
    every schedule and every time are proved over it.  In [tz] a location
    has transitions between offsets; [zoned] holds the same functions over
    it.  The two agree on the locations with a fixed offset ([zoned_Next],
    [zoned_Prev]), and the runs of the search at a transition are
    evaluated in the second. *)

From Stdlib Require Import String DecimalString ZArith Bool Lia List.
Import ListNotations.
Local Open Scope Z_scope.

(** ** The [time] package

    spec.go works on [time.Time] values through [Add], [AddDate], [Date],
    [Truncate], [In] and the field accessors.  A [time.Time] is an instant
    together with a [*time.Location].  The model covers locations with one
    fixed offset from UTC ([time.UTC], [time.FixedZone]); in such a location
    an instant is determined by its civil reading, which is what the record
    below stores.  Locations whose offset changes are those of [tz] below.
    Durations are integers counting nanoseconds. *)
Module time.

(** A location: whether it is the [time.Local] pointer, and its offset
    east of UTC in seconds. *)
Record Location : Set := mkLocation { isLocal : bool; zoneOffset : Z }.

Definition UTC : Location := mkLocation false 0.
Definition FixedZone (offset : Z) : Location := mkLocation false offset.
Definition Local (offset : Z) : Location := mkLocation true offset.

(** The civil reading of an instant in its location: proleptic Gregorian
    year, month 1..12, day of the month, second of the day, nanosecond. *)
Record Time : Set := mkTime {
  tYear : Z; tMonth : Z; tDay : Z; tSod : Z; tNsec : Z; tLoc : Location }.

Definition Nanosecond : Z := 1.
Definition Second : Z := 1000000000.
Definition Minute : Z := 60 * Second.
Definition Hour : Z := 60 * Minute.

Definition January : Z := 1.

Definition isLeap (y : Z) : bool :=
  ((y mod 4 =? 0) && negb (y mod 100 =? 0)) || (y mod 400 =? 0).

Definition daysIn (y m : Z) : Z :=
  match m with
  | 2 => if isLeap y then 29 else 28
  | 4 | 6 | 9 | 11 => 30
  | _ => 31
  end.

(** Days of the year before the first of month [m]. *)
Definition daysBefore (y m : Z) : Z :=
  match m with
  | 1 => 0 | 2 => 31 | 3 => 59 | 4 => 90 | 5 => 120 | 6 => 151
  | 7 => 181 | 8 => 212 | 9 => 243 | 10 => 273 | 11 => 304 | _ => 334
  end + (if isLeap y && (3 <=? m) then 1 else 0).

(** Days from 1970-01-01 to the first of January of year [y]. *)
Definition daysSinceEpoch (y : Z) : Z :=
  365 * (y - 1970) + (y - 1) / 4 - (y - 1) / 100 + (y - 1) / 400 - 477.

(** Days from 1970-01-01 to the given date; [d] need not be a day that
    the month has. *)
Definition daysFromCivil (y m d : Z) : Z :=
  daysSinceEpoch y + daysBefore y m + d - 1.

Definition prevMonth (y m : Z) : Z * Z :=
  if m <=? 1 then (y - 1, 12) else (y, m - 1).
Definition nextMonth (y m : Z) : Z * Z :=
  if 12 <=? m then (y + 1, 1) else (y, m + 1).

(** Brings a day number outside its month back into range, moving the
    month and the year along. *)
Fixpoint normDay (fuel : nat) (y m d : Z) : Z * Z * Z :=
  match fuel with
  | O => (y, m, d)
  | S fuel' =>
      if d <? 1 then
        let '(y', m') := prevMonth y m in
        normDay fuel' y' m' (d + daysIn y' m')
      else if daysIn y m <? d then
        let '(y', m') := nextMonth y m in
        normDay fuel' y' m' (d - daysIn y m)
      else (y, m, d)
  end.

Definition normDate (y m d : Z) : Z * Z * Z :=
  normDay (Z.to_nat (Z.abs d + 2)) y m d.

(** [time.Date]: every argument may be outside its range and is
    normalised, months into years and the clock into days. *)
Definition Date (year month day hour min sec nsec : Z) (loc : Location)
  : Time :=
  let m0 := month - 1 in
  let year := year + m0 / 12 in
  let month := m0 mod 12 + 1 in
  let sec := sec + nsec / 1000000000 in
  let nsec := nsec mod 1000000000 in
  let min := min + sec / 60 in
  let sec := sec mod 60 in
  let hour := hour + min / 60 in
  let min := min mod 60 in
  let day := day + hour / 24 in
  let hour := hour mod 24 in
  let '(y, m, d) := normDate year month day in
  mkTime y m d (hour * 3600 + min * 60 + sec) nsec loc.

Definition Year (t : Time) : Z := tYear t.
Definition Month (t : Time) : Z := tMonth t.
Definition Day (t : Time) : Z := tDay t.
Definition Hour_ (t : Time) : Z := tSod t / 3600.
Definition Minute_ (t : Time) : Z := (tSod t / 60) mod 60.
Definition Second_ (t : Time) : Z := tSod t mod 60.
Definition Nanosecond_ (t : Time) : Z := tNsec t.
Definition LocationOf (t : Time) : Location := tLoc t.

(** [Weekday]: 0 is Sunday; 1970-01-01 was a Thursday. *)
Definition Weekday (t : Time) : Z :=
  (daysFromCivil (tYear t) (tMonth t) (tDay t) + 4) mod 7.

(** Seconds since 1970-01-01T00:00:00Z. *)
Definition Unix (t : Time) : Z :=
  daysFromCivil (tYear t) (tMonth t) (tDay t) * 86400 + tSod t
  - zoneOffset (tLoc t).

(** Nanoseconds since 1970-01-01T00:00:00Z. *)
Definition UnixNano (t : Time) : Z := Unix t * 1000000000 + tNsec t.

(** [t.Add(d)], [d] in nanoseconds. *)
Definition Add (t : Time) (d : Z) : Time :=
  let ns := tNsec t + d in
  let secs := tSod t + ns / 1000000000 in
  let '(y, m, dd) :=
    normDate (tYear t) (tMonth t) (tDay t + secs / 86400) in
  mkTime y m dd (secs mod 86400) (ns mod 1000000000) (tLoc t).

(** [t.AddDate(years, months, days)]. *)
Definition AddDate (t : Time) (years months days : Z) : Time :=
  Date (Year t + years) (Month t + months) (Day t + days)
       (Hour_ t) (Minute_ t) (Second_ t) (Nanosecond_ t) (LocationOf t).

(** [t.In(loc)]: the same instant read in [loc]. *)
Definition In (t : Time) (loc : Location) : Time :=
  let u := Add t ((zoneOffset loc - zoneOffset (tLoc t)) * Second) in
  mkTime (tYear u) (tMonth u) (tDay u) (tSod u) (tNsec u) loc.

(** The zero [time.Time{}]: January 1, year 1, 00:00:00 UTC. *)
Definition zero : Time := mkTime 1 1 1 0 0 UTC.

(** [t.Truncate(d)] rounds the time elapsed since the zero time down to
    a multiple of [d]; it returns [t] when [d <= 0]. *)
Definition Truncate (t : Time) (d : Z) : Time :=
  if d <=? 0 then t
  else Add t (- ((UnixNano t - UnixNano zero) mod d)).

(** [t.Equal(u)]: the same instant, whatever the locations. *)
Definition Equal (t u : Time) : bool := UnixNano t =? UnixNano u.

(** [t.IsZero()]. *)
Definition IsZero (t : Time) : bool := Equal t zero.

(** The values that a [time.Time] can take. *)
Definition valid (t : Time) : bool :=
  (1 <=? tMonth t) && (tMonth t <=? 12) &&
  (1 <=? tDay t) && (tDay t <=? daysIn (tYear t) (tMonth t)) &&
  (0 <=? tSod t) && (tSod t <? 86400) &&
  (0 <=? tNsec t) && (tNsec t <? 1000000000).

Definition Valid (t : Time) : Prop := valid t = true.

(** The day after and the day before a date. *)
Definition dayAfter (y m d : Z) : Z * Z * Z :=
  if d <? daysIn y m then (y, m, d + 1)
  else (fst (nextMonth y m), snd (nextMonth y m), 1).
Definition dayBefore (y m d : Z) : Z * Z * Z :=
  if 1 <? d then (y, m, d - 1)
  else (fst (prevMonth y m), snd (prevMonth y m),
        daysIn (fst (prevMonth y m)) (snd (prevMonth y m))).

(** The date of a time, and a time with another date. *)
Definition dateOf (t : Time) : Z * Z * Z := (tYear t, tMonth t, tDay t).
Definition withDate (t : Time) (ymd : Z * Z * Z) : Time :=
  mkTime (fst (fst ymd)) (snd (fst ymd)) (snd ymd)
         (tSod t) (tNsec t) (tLoc t).

(** Days from 1970-01-01 to the date of [t]. *)
Definition days (t : Time) : Z :=
  daysFromCivil (tYear t) (tMonth t) (tDay t).

(** Seconds from 1970-01-01T00:00:00 of the location of [t] to the
    reading of [t]. *)
Definition wall (t : Time) : Z := days t * 86400 + tSod t.

End time.

(** ** The [time] package with zone transitions

    A [*time.Location] of Go holds the offsets of a zone and the instants
    at which the zone changes from one to the next.  [tz] models such
    locations: a [tz.Time] is an instant, kept as its reading in UTC,
    together with a location, and the reading of the instant in the
    location is computed from the offset that is in force at the instant.
    The calendar arithmetic is that of [time]. *)
Module tz.

(** A location: whether it is the [time.Local] pointer, the offset east
    of UTC in seconds before the first transition, and the transitions in
    increasing order, each with its instant in Unix seconds and the offset
    from that instant on. *)
Record Location : Set := mkLocation {
  isLocal : bool; zoneOffset : Z; tx : list (Z * Z) }.

Definition UTC : Location := mkLocation false 0 [].
Definition FixedZone (offset : Z) : Location := mkLocation false offset [].

(** The bounds of the first and of the last zone of a location. *)
Definition alpha : Z := - 2 ^ 63.
Definition omega : Z := 2 ^ 63 - 1.

(** [Location.lookup]: the offset in force at the instant [sec], with the
    instants at which it starts and ends to be in force. *)
Fixpoint lookupFrom (offset start : Z) (tx : list (Z * Z)) (sec : Z)
  : Z * Z * Z :=
  match tx with
  | [] => (offset, start, omega)
  | (when, offset') :: rest =>
      if sec <? when then (offset, start, when)
      else lookupFrom offset' when rest sec
  end.

Definition lookup (l : Location) (sec : Z) : Z * Z * Z :=
  lookupFrom (zoneOffset l) alpha (tx l) sec.

(** An instant, as its reading in UTC, and a location. *)
Record Time : Set := mkTime { utc : time.Time; tLoc : Location }.

Definition Unix (t : Time) : Z := time.Unix (utc t).
Definition UnixNano (t : Time) : Z := time.UnixNano (utc t).

(** The offset of the location of [t] at the instant of [t]. *)
Definition offsetOf (t : Time) : Z := fst (fst (lookup (tLoc t) (Unix t))).

(** The civil reading of [t] in its location. *)
Definition abs (t : Time) : time.Time :=
  time.In (utc t) (time.FixedZone (offsetOf t)).

Definition Year (t : Time) : Z := time.Year (abs t).
Definition Month (t : Time) : Z := time.Month (abs t).
Definition Day (t : Time) : Z := time.Day (abs t).
Definition Hour_ (t : Time) : Z := time.Hour_ (abs t).
Definition Minute_ (t : Time) : Z := time.Minute_ (abs t).
Definition Second_ (t : Time) : Z := time.Second_ (abs t).
Definition Nanosecond_ (t : Time) : Z := time.Nanosecond_ (abs t).
Definition Weekday (t : Time) : Z := time.Weekday (abs t).
Definition LocationOf (t : Time) : Location := tLoc t.

(** [time.Date]: the arguments are normalised and read as a time of UTC,
    from which the offset of the location is subtracted.  The offset is
    the one in force at that instant of UTC; when the result is outside
    the time for which this offset is in force, it is the one in force at
    the result. *)
Definition Date (year month day hour min sec nsec : Z) (loc : Location)
  : Time :=
  let u := time.Date year month day hour min sec nsec time.UTC in
  let unix := time.Unix u in
  let '(offset, start, end_) := lookup loc unix in
  let offset :=
    if negb (offset =? 0) then
      let utc := unix - offset in
      if (utc <? start) || (utc >=? end_)
      then fst (fst (lookup loc utc)) else offset
    else offset in
  mkTime (time.Add u (- offset * time.Second)) loc.

(** [t.Add(d)], [d] in nanoseconds. *)
Definition Add (t : Time) (d : Z) : Time :=
  mkTime (time.Add (utc t) d) (tLoc t).

(** [t.AddDate(years, months, days)]. *)
Definition AddDate (t : Time) (years months days : Z) : Time :=
  Date (Year t + years) (Month t + months) (Day t + days)
       (Hour_ t) (Minute_ t) (Second_ t) (Nanosecond_ t) (LocationOf t).

(** [t.In(loc)]: the same instant in [loc]. *)
Definition In (t : Time) (loc : Location) : Time := mkTime (utc t) loc.

(** [t.Truncate(d)]. *)
Definition Truncate (t : Time) (d : Z) : Time :=
  mkTime (time.Truncate (utc t) d) (tLoc t).

(** The zero [time.Time{}]. *)
Definition zero : Time := mkTime time.zero UTC.

Definition Equal (t u : Time) : bool := UnixNano t =? UnixNano u.
Definition IsZero (t : Time) : bool := Equal t zero.

End tz.

(** ** The schedule *)

(** [big.Int.Bit]: bit [i] of [x], as 0 or 1. *)
Definition Bit (x : Z) (i : Z) : Z := Z.b2z (Z.testbit x i).

(** [SpecSchedule]: seven bit sets and the override location. *)
Record SpecSchedule : Set := mkSpecSchedule {
  Second : Z; Minute : Z; Hour : Z; Dom : Z; Month : Z; Dow : Z; Year : Z;
  Location : time.Location }.

(** [bounds]: the range of acceptable values of a field. *)
Record bounds : Set := mkBounds { min : Z; max : Z }.

Definition maxBits : Z := 160.
Definition minYear : Z := 1970.
Definition maxYear : Z := 2099.

Definition seconds : bounds := mkBounds 0 59.
Definition minutes : bounds := mkBounds 0 59.
Definition hours : bounds := mkBounds 0 23.
Definition dom : bounds := mkBounds 1 31.
Definition months : bounds := mkBounds 1 12.
Definition dow : bounds := mkBounds 0 6.
Definition years : bounds := mkBounds 0 (maxYear - minYear).

(** The [names] of the bounds are kept beside them: [monthsNames] for
    [months.names], [dowNames] for [dow.names], and the result of [init]
    for [years.names]; the other bounds have none. *)

(** [map[string]uint], as the list of its entries. *)
Definition names : Set := list (string * Z).

(** [m[k]], with whether the key is present. *)
Definition lookup (k : string) (m : names) : option Z :=
  option_map snd (find (fun e => String.eqb (fst e) k) m).

(** [m[k] = v]. *)
Definition assign (k : string) (v : Z) (m : names) : names :=
  (k, v) :: filter (fun e => negb (String.eqb (fst e) k)) m.

Definition monthsNames : names :=
  [("jan", 1); ("feb", 2); ("mar", 3); ("apr", 4); ("may", 5); ("jun", 6);
   ("jul", 7); ("aug", 8); ("sep", 9); ("oct", 10); ("nov", 11);
   ("dec", 12)]%string.

Definition dowNames : names :=
  [("sun", 0); ("mon", 1); ("tue", 2); ("wed", 3); ("thu", 4); ("fri", 5);
   ("sat", 6)]%string.

(** [strconv.Itoa]: the decimal digits of an integer, after a minus sign
    when it is negative. *)
Definition Itoa (i : Z) : string := NilZero.string_of_int (Z.to_int i).

(** The bound on the iterations of the loop of [init]. *)
Definition initFuel : nat := 200.

(** The loop of [init], [for i := minYear; i <= maxYear; i++]: [None]
    stands for the bound of the model that was reached. *)
Fixpoint initLoop (n : nat) (i : Z) (m : names) : option names :=
  match n with
  | O => None
  | S n' =>
      if i <=? maxYear
      then initLoop n' (i + 1) (assign (Itoa i) (i - minYear) m)
      else Some m
  end.

(** [init] makes the map [years.names] and fills it; the model returns the
    map. *)
Definition init : option names := initLoop initFuel minYear [].

(** [dayMatches] returns true if the schedule's day-of-week and day-of-month
    restrictions are satisfied by the given time. *)
Definition dayMatches (s : SpecSchedule) (t : time.Time) : bool :=
  let domMatch := Bit (Dom s) (time.Day t) >? 0 in
  let dowMatch := Bit (Dow s) (time.Weekday t) >? 0 in
  if (Bit (Dom s) maxBits >? 0) || (Bit (Dow s) maxBits >? 0) then
    domMatch && dowMatch
  else
    domMatch || dowMatch.

(** ** Control flow

    Both searches are a cascade of [for] loops that leave by falling
    through to the next statement, by [goto WRAP] or by [return].  A loop
    of the model takes a bound on its iterations and reports [Exhausted]
    when the bound is reached. *)
Inductive flow (S : Type) : Type :=
| Fall (st : S)
| Wrap (st : S)
| Return (t : time.Time)
| Exhausted.
Arguments Fall {S} st.
Arguments Wrap {S} st.
Arguments Return {S} t.
Arguments Exhausted {S}.

Definition andThen {S : Type} (r : flow S) (k : S -> flow S) : flow S :=
  match r with
  | Fall st => k st
  | other => other
  end.

(** The statements from the label [WRAP] to the end of the function are
    [pass]; [goto WRAP] runs them again.  [wrapLoop n] allows [2 ^ n]
    passes. *)
Fixpoint wrapLoop {S : Type} (pass : S -> flow S) (n : nat) (st : S)
  : flow S :=
  match n with
  | O => pass st
  | S n' =>
      match wrapLoop pass n' st with
      | Wrap st' => wrapLoop pass n' st'
      | other => other
      end
  end.

(** The bound given to every field loop, and the exponent of the bound
    on the passes. *)
Definition loopFuel : nat := 70.
Definition wrapFuel : nat := 64.

(** ** [Next] *)

(** The local variables of [Next] that its loops change. *)
Record nextState : Set := mkNext { nT : time.Time; nAdded : bool }.

Section NextLoops.
Variable s : SpecSchedule.
Variable loc : time.Location.
Variable yearLimit : Z.

Definition nextYearExceeded (t : time.Time) : bool :=
  (time.Year t >? yearLimit) || (time.Year t >? maxYear).

Fixpoint nextYearLoop (n : nat) (st : nextState) : flow nextState :=
  match n with
  | O => Exhausted
  | S n' =>
      let t := nT st in
      if (time.Year t <? minYear) || (Bit (Year s) (time.Year t - minYear) =? 0)
      then
        let t := if negb (nAdded st)
                 then time.Date (time.Year t) 1 1 0 0 0 0 loc else t in
        let t := time.AddDate t 1 0 0 in
        if nextYearExceeded t then Return time.zero
        else nextYearLoop n' (mkNext t true)
      else Fall st
  end.

Fixpoint nextMonthLoop (n : nat) (st : nextState) : flow nextState :=
  match n with
  | O => Exhausted
  | S n' =>
      let t := nT st in
      if Bit (Month s) (time.Month t) =? 0 then
        let t := if negb (nAdded st)
                 then time.Date (time.Year t) (time.Month t) 1 0 0 0 0 loc
                 else t in
        let t := time.AddDate t 0 1 0 in
        if time.Month t =? time.January then Wrap (mkNext t true)
        else nextMonthLoop n' (mkNext t true)
      else Fall st
  end.

(** The correction after a step of one day: when the hour is no longer
    midnight, move to the midnight that is nearer. *)
Definition fixMidnight (t : time.Time) : time.Time :=
  if negb (time.Hour_ t =? 0) then
    if time.Hour_ t >? 12
    then time.Add t ((24 - time.Hour_ t) * time.Hour)
    else time.Add t (- time.Hour_ t * time.Hour)
  else t.

Fixpoint nextDayLoop (n : nat) (st : nextState) : flow nextState :=
  match n with
  | O => Exhausted
  | S n' =>
      let t := nT st in
      if negb (dayMatches s t) then
        let t := if negb (nAdded st)
                 then time.Date (time.Year t) (time.Month t) (time.Day t)
                                0 0 0 0 loc
                 else t in
        let t := time.AddDate t 0 0 1 in
        let t := fixMidnight t in
        if time.Day t =? 1 then Wrap (mkNext t true)
        else nextDayLoop n' (mkNext t true)
      else Fall st
  end.

Fixpoint nextHourLoop (n : nat) (st : nextState) : flow nextState :=
  match n with
  | O => Exhausted
  | S n' =>
      let t := nT st in
      if Bit (Hour s) (time.Hour_ t) =? 0 then
        let t := if negb (nAdded st)
                 then time.Date (time.Year t) (time.Month t) (time.Day t)
                                (time.Hour_ t) 0 0 0 loc
                 else t in
        let t := time.Add t (1 * time.Hour) in
        if time.Hour_ t =? 0 then Wrap (mkNext t true)
        else nextHourLoop n' (mkNext t true)
      else Fall st
  end.

Fixpoint nextMinuteLoop (n : nat) (st : nextState) : flow nextState :=
  match n with
  | O => Exhausted
  | S n' =>
      let t := nT st in
      if Bit (Minute s) (time.Minute_ t) =? 0 then
        let t := if negb (nAdded st)
                 then time.Truncate t time.Minute else t in
        let t := time.Add t (1 * time.Minute) in
        if time.Minute_ t =? 0 then Wrap (mkNext t true)
        else nextMinuteLoop n' (mkNext t true)
      else Fall st
  end.

Fixpoint nextSecondLoop (n : nat) (st : nextState) : flow nextState :=
  match n with
  | O => Exhausted
  | S n' =>
      let t := nT st in
      if Bit (Second s) (time.Second_ t) =? 0 then
        let t := if negb (nAdded st)
                 then time.Truncate t time.Second else t in
        let t := time.Add t (1 * time.Second) in
        if time.Second_ t =? 0 then Wrap (mkNext t true)
        else nextSecondLoop n' (mkNext t true)
      else Fall st
  end.

(** From the label [WRAP] to the [return] at the end of [Next]. *)
Definition nextPass (origLocation : time.Location) (st : nextState)
  : flow nextState :=
  if nextYearExceeded (nT st) then Return time.zero
  else
    andThen (nextYearLoop loopFuel st) (fun st =>
    andThen (nextMonthLoop loopFuel st) (fun st =>
    andThen (nextDayLoop loopFuel st) (fun st =>
    andThen (nextHourLoop loopFuel st) (fun st =>
    andThen (nextMinuteLoop loopFuel st) (fun st =>
    andThen (nextSecondLoop loopFuel st) (fun st =>
    Return (time.In (nT st) origLocation))))))).
End NextLoops.

(** The location in which the schedule is read: its own, or that of the
    given time when the schedule has [time.Local]. *)
Definition effectiveLocation (s : SpecSchedule) (t : time.Time)
  : time.Location :=
  if time.isLocal (Location s) then time.LocationOf t else Location s.

(** The given time in the location of the schedule. *)
Definition inSchedule (s : SpecSchedule) (t : time.Time) : time.Time :=
  if negb (time.isLocal (Location s)) then time.In t (Location s) else t.

(** The time at which [Next] starts its search. *)
Definition nextStart (s : SpecSchedule) (t : time.Time) : time.Time :=
  let t := inSchedule s t in
  time.Add t (-1 * time.Second - time.Nanosecond_ t * time.Nanosecond).

(** [Next]: [None] stands for a bound of the model that was reached,
    [Some time.zero] for the zero time that the function returns when it
    finds nothing. *)
Definition Next (s : SpecSchedule) (t : time.Time) : option time.Time :=
  let origLocation := time.LocationOf t in
  let loc := effectiveLocation s t in
  let t := nextStart s t in
  let yearLimit := time.Year t + 5 in
  match wrapLoop (nextPass s loc yearLimit origLocation) wrapFuel
                 (mkNext t false) with
  | Return r => Some r
  | _ => None
  end.

(** ** [Prev] *)

(** The local variables of [Prev] that its loops change. *)
Record prevState : Set := mkPrev {
  pT : time.Time; pAdded : bool;
  addYear : bool; addMonth : bool; addDay : bool; addHour : bool;
  addMinute : bool }.

Section PrevLoops.
Variable s : SpecSchedule.
Variable loc : time.Location.
Variable yearLimit : Z.

Definition prevYearExceeded (t : time.Time) : bool :=
  (time.Year t <? yearLimit) || (time.Year t <? minYear).

Fixpoint prevYearLoop (n : nat) (st : prevState) : flow prevState :=
  match n with
  | O => Exhausted
  | S n' =>
      let t := pT st in
      if (time.Year t <? minYear) || (Bit (Year s) (time.Year t - minYear) =? 0)
      then
        let t := if negb (pAdded st)
                 then time.Date (time.Year t) 1 1 0 0 0 0 loc else t in
        let t := time.AddDate t (-1) 0 0 in
        if prevYearExceeded t then Return time.zero
        else prevYearLoop n' (mkPrev t true true (addMonth st) (addDay st)
                                     (addHour st) (addMinute st))
      else Fall st
  end.

Definition prevYearFix (st : prevState) : prevState :=
  if addYear st then
    let t := time.AddDate (pT st) 1 0 0 in
    let t := time.AddDate t 0 (-1) 0 in
    mkPrev t (pAdded st) false (addMonth st) (addDay st) (addHour st)
           (addMinute st)
  else st.

Fixpoint prevMonthLoop (n : nat) (st : prevState) : flow prevState :=
  match n with
  | O => Exhausted
  | S n' =>
      let t := pT st in
      if Bit (Month s) (time.Month t) =? 0 then
        let t := if negb (pAdded st)
                 then time.Date (time.Year t) (time.Month t) 1 0 0 0 0 loc
                 else t in
        let t := time.AddDate t 0 (-1) 0 in
        let st' := mkPrev t true (addYear st) true (addDay st) (addHour st)
                          (addMinute st) in
        if time.Month t =? time.January then Wrap st'
        else prevMonthLoop n' st'
      else Fall st
  end.

Definition prevMonthFix (st : prevState) : prevState :=
  if addMonth st then
    let t := time.AddDate (pT st) 0 1 0 in
    let t := time.AddDate t 0 0 (-1) in
    mkPrev t (pAdded st) (addYear st) false (addDay st) (addHour st)
           (addMinute st)
  else st.

Fixpoint prevDayLoop (n : nat) (st : prevState) : flow prevState :=
  match n with
  | O => Exhausted
  | S n' =>
      let t := pT st in
      if negb (dayMatches s t) then
        let t := if negb (pAdded st)
                 then time.Date (time.Year t) (time.Month t) (time.Day t)
                                0 0 0 0 loc
                 else t in
        let t := time.AddDate t 0 0 (-1) in
        let t := fixMidnight t in
        let st' := mkPrev t true (addYear st) (addMonth st) true (addHour st)
                          (addMinute st) in
        if time.Day t =? 1 then Wrap st'
        else prevDayLoop n' st'
      else Fall st
  end.

Definition prevDayFix (st : prevState) : prevState :=
  if addDay st then
    let t := time.AddDate (pT st) 0 0 1 in
    let t := time.Add t (-1 * time.Hour) in
    mkPrev t (pAdded st) (addYear st) (addMonth st) false (addHour st)
           (addMinute st)
  else st.

Fixpoint prevHourLoop (n : nat) (st : prevState) : flow prevState :=
  match n with
  | O => Exhausted
  | S n' =>
      let t := pT st in
      if Bit (Hour s) (time.Hour_ t) =? 0 then
        let t := if negb (pAdded st)
                 then time.Date (time.Year t) (time.Month t) (time.Day t)
                                (time.Hour_ t) 0 0 0 loc
                 else t in
        let t := time.Add t (-1 * time.Hour) in
        let st' := mkPrev t true (addYear st) (addMonth st) (addDay st) true
                          (addMinute st) in
        if time.Hour_ t =? 0 then Wrap st'
        else prevHourLoop n' st'
      else Fall st
  end.

Definition prevHourFix (st : prevState) : prevState :=
  if addHour st then
    let t := time.Add (pT st) (1 * time.Hour) in
    let t := time.Add t (-1 * time.Minute) in
    mkPrev t (pAdded st) (addYear st) (addMonth st) (addDay st) false
           (addMinute st)
  else st.

Fixpoint prevMinuteLoop (n : nat) (st : prevState) : flow prevState :=
  match n with
  | O => Exhausted
  | S n' =>
      let t := pT st in
      if Bit (Minute s) (time.Minute_ t) =? 0 then
        let t := if negb (pAdded st)
                 then time.Truncate t time.Minute else t in
        let t := time.Add t (-1 * time.Minute) in
        let st' := mkPrev t true (addYear st) (addMonth st) (addDay st)
                          (addHour st) true in
        if time.Minute_ t =? 0 then Wrap st'
        else prevMinuteLoop n' st'
      else Fall st
  end.

Definition prevMinuteFix (st : prevState) : prevState :=
  if addMinute st then
    let t := time.Add (pT st) (1 * time.Minute) in
    let t := time.Add t (-1 * time.Second) in
    mkPrev t (pAdded st) (addYear st) (addMonth st) (addDay st) (addHour st)
           false
  else st.

Fixpoint prevSecondLoop (n : nat) (st : prevState) : flow prevState :=
  match n with
  | O => Exhausted
  | S n' =>
      let t := pT st in
      if Bit (Second s) (time.Second_ t) =? 0 then
        let t := if negb (pAdded st)
                 then time.Truncate t time.Second else t in
        let t := time.Add t (-1 * time.Second) in
        let st' := mkPrev t true (addYear st) (addMonth st) (addDay st)
                          (addHour st) (addMinute st) in
        if time.Second_ t =? 0 then Wrap st'
        else prevSecondLoop n' st'
      else Fall st
  end.

(** From the label [WRAP] to the [return] at the end of [Prev]. *)
Definition prevPass (origLocation : time.Location) (st : prevState)
  : flow prevState :=
  if prevYearExceeded (pT st) then Return time.zero
  else
    andThen (prevYearLoop loopFuel st) (fun st =>
    andThen (prevMonthLoop loopFuel (prevYearFix st)) (fun st =>
    andThen (prevDayLoop loopFuel (prevMonthFix st)) (fun st =>
    andThen (prevHourLoop loopFuel (prevDayFix st)) (fun st =>
    andThen (prevMinuteLoop loopFuel (prevHourFix st)) (fun st =>
    andThen (prevSecondLoop loopFuel (prevMinuteFix st)) (fun st =>
    Return (time.In (pT st) origLocation))))))).
End PrevLoops.

(** [Prev], with the results read as those of [Next]. *)
Definition Prev (s : SpecSchedule) (t : time.Time) : option time.Time :=
  let origLocation := time.LocationOf t in
  let loc := effectiveLocation s t in
  let t := inSchedule s t in
  let yearLimit := time.Year t - 5 in
  match wrapLoop (prevPass s loc yearLimit origLocation) wrapFuel
                 (mkPrev t false false false false false false) with
  | Return r => Some r
  | _ => None
  end.

(** The guards of the loops. *)
Definition yearOk (s : SpecSchedule) (t : time.Time) : bool :=
  negb ((time.Year t <? minYear) || (Bit (Year s) (time.Year t - minYear) =? 0)).
Definition monthOk (s : SpecSchedule) (t : time.Time) : bool :=
  negb (Bit (Month s) (time.Month t) =? 0).
Definition hourOk (s : SpecSchedule) (t : time.Time) : bool :=
  negb (Bit (Hour s) (time.Hour_ t) =? 0).
Definition minuteOk (s : SpecSchedule) (t : time.Time) : bool :=
  negb (Bit (Minute s) (time.Minute_ t) =? 0).
Definition secondOk (s : SpecSchedule) (t : time.Time) : bool :=
  negb (Bit (Second s) (time.Second_ t) =? 0).

(** A time at which every field of the schedule matches. *)
Definition matches (s : SpecSchedule) (t : time.Time) : bool :=
  yearOk s t && monthOk s t && dayMatches s t && hourOk s t &&
  minuteOk s t && secondOk s t.

(** The year, the month and the day match. *)
Definition dateOk (s : SpecSchedule) (t : time.Time) : bool :=
  yearOk s t && monthOk s t && dayMatches s t.

(** ** Predicates on the states of [Next] *)

(** The times of the search are in the location of the search and have
    no nanoseconds. *)
Definition nextBase (loc : time.Location) (t : time.Time) : Prop :=
  time.Valid t /\ time.tLoc t = loc /\ time.tNsec t = 0.

(** Once a field has been incremented, the time is at hour 0 or on a date
    that matches. *)
Definition nextHeld (s : SpecSchedule) (st : nextState) : Prop :=
  nAdded st = true ->
  time.Hour_ (nT st) = 0 \/ dateOk s (nT st) = true.

(** A loop leaves the state as it is or moves the time forward. *)
Definition advanced (st st' : nextState) : Prop :=
  st' = st \/ (nAdded st' = true /\ time.wall (nT st) < time.wall (nT st')).

(** The last year that [Next] visits. *)
Definition lastYear (yearLimit : Z) : Z := Z.min yearLimit maxYear.

(** ** Predicates on the order of the search of [Next] *)

(** No time from the start [t0] of the search to before [t] matches the
    schedule. *)
Definition skipped (s : SpecSchedule) (t0 t : time.Time) : Prop :=
  forall w, time.Valid w ->
            time.wall t0 <= time.wall w < time.wall t -> matches s w = false.

(** A time at the start of the unit of every field that it fails: the
    first instant of the year when the year fails, of the month when the
    month fails, of the day, of the hour and of the minute. *)
Definition aligned (s : SpecSchedule) (t : time.Time) : Prop :=
  (yearOk s t = false ->
   time.tMonth t = 1 /\ time.tDay t = 1 /\ time.tSod t = 0) /\
  (monthOk s t = false -> time.tDay t = 1 /\ time.tSod t = 0) /\
  (dayMatches s t = false -> time.tSod t = 0) /\
  (hourOk s t = false -> time.tSod t mod 3600 = 0) /\
  (minuteOk s t = false -> time.tSod t mod 60 = 0).

(** The states of the search that starts at [t0]: nothing before the
    time matches, and once a field has been incremented the time is at
    the start of the units that it fails. *)
Definition searching (s : SpecSchedule) (loc : time.Location)
           (t0 : time.Time) (st : nextState) : Prop :=
  nextBase loc (nT st) /\ time.wall t0 <= time.wall (nT st) /\
  skipped s t0 (nT st) /\ (nAdded st = true -> aligned s (nT st)).

(** ** The position of [Prev]

    [Prev] steps a field back and, once the field matches, moves the time
    forward again, to the end of the unit that it reached.  The position
    of a state is the time that the rest of the pass reaches when no
    field is stepped back any more: it applies the corrections that are
    pending for as long as the fields match.  Positions are counted in
    nanoseconds of the wall clock of the location. *)
Definition wallNano (t : time.Time) : Z :=
  time.wall t * 1000000000 + time.tNsec t.

Definition vSecond (st : prevState) : Z := wallNano (pT st).

Definition vMinute (s : SpecSchedule) (st : prevState) : Z :=
  if minuteOk s (pT st) then vSecond (prevMinuteFix st)
  else wallNano (pT st).

Definition vHour (s : SpecSchedule) (st : prevState) : Z :=
  if hourOk s (pT st) then vMinute s (prevHourFix st)
  else wallNano (pT st).

Definition vDay (s : SpecSchedule) (st : prevState) : Z :=
  if dayMatches s (pT st) then vHour s (prevDayFix st)
  else wallNano (pT st).

Definition vMonth (s : SpecSchedule) (st : prevState) : Z :=
  if monthOk s (pT st) then vDay s (prevMonthFix st)
  else wallNano (pT st).

Definition vYear (s : SpecSchedule) (st : prevState) : Z :=
  if yearOk s (pT st) then vMonth s (prevYearFix st)
  else wallNano (pT st).

(** The most that the pending corrections of the minute, of the hour and
    of the day add to the time. *)
Definition slackMinute (st : prevState) : Z :=
  if addMinute st then 59000000000 else 0.
Definition slackHour (st : prevState) : Z :=
  (if addHour st then 3540000000000 else 0) + slackMinute st.
Definition slackDay (st : prevState) : Z :=
  (if addDay st then 82800000000000 else 0) + slackHour st.

(** The times of [Prev] are in the location of the search. *)
Definition prevBase (loc : time.Location) (t : time.Time) : Prop :=
  time.Valid t /\ time.tLoc t = loc.

(** The states of [Prev] at the label [WRAP]: no correction of the year is
    pending, and one of the month is pending in January only. *)
Definition atWrap (st : prevState) : Prop :=
  addYear st = false /\
  (addMonth st = true -> time.tMonth (pT st) = 1).

(** The first year that [Prev] visits. *)
Definition firstYear (yearLimit : Z) : Z := Z.max yearLimit minYear.

(** ** The search in locations with zone transitions

    The functions of spec.go once more, over the times of [tz].  The
    statements are those of [Next] and [Prev] above; the bounds on the
    iterations of the loops and on the passes are arguments, so that a
    search which no bound ends can be told from one that needs a larger
    bound. *)
Module zoned.

(** [SpecSchedule], with a location that has transitions. *)
Record SpecSchedule : Set := mkSpecSchedule {
  Second : Z; Minute : Z; Hour : Z; Dom : Z; Month : Z; Dow : Z; Year : Z;
  Location : tz.Location }.

(** [dayMatches]. *)
Definition dayMatches (s : SpecSchedule) (t : tz.Time) : bool :=
  let domMatch := Bit (Dom s) (tz.Day t) >? 0 in
  let dowMatch := Bit (Dow s) (tz.Weekday t) >? 0 in
  if (Bit (Dom s) maxBits >? 0) || (Bit (Dow s) maxBits >? 0) then
    domMatch && dowMatch
  else
    domMatch || dowMatch.

Inductive flow (S : Type) : Type :=
| Fall (st : S)
| Wrap (st : S)
| Return (t : tz.Time)
| Exhausted.
Arguments Fall {S} st.
Arguments Wrap {S} st.
Arguments Return {S} t.
Arguments Exhausted {S}.

Definition andThen {S : Type} (r : flow S) (k : S -> flow S) : flow S :=
  match r with
  | Fall st => k st
  | other => other
  end.

(** The statements from the label [WRAP] to the end of the function are
    [pass]; [goto WRAP] runs them again.  [wrapLoop n] allows [2 ^ n]
    passes. *)
Fixpoint wrapLoop {S : Type} (pass : S -> flow S) (n : nat) (st : S)
  : flow S :=
  match n with
  | O => pass st
  | S n' =>
      match wrapLoop pass n' st with
      | Wrap st' => wrapLoop pass n' st'
      | other => other
      end
  end.

(** [Next] *)

(** The local variables of [Next] that its loops change. *)
Record nextState : Set := mkNext { nT : tz.Time; nAdded : bool }.

Section NextLoops.
Variable s : SpecSchedule.
Variable loc : tz.Location.
Variable yearLimit : Z.

Definition nextYearExceeded (t : tz.Time) : bool :=
  (tz.Year t >? yearLimit) || (tz.Year t >? maxYear).

Fixpoint nextYearLoop (n : nat) (st : nextState) : flow nextState :=
  match n with
  | O => Exhausted
  | S n' =>
      let t := nT st in
      if (tz.Year t <? minYear) || (Bit (Year s) (tz.Year t - minYear) =? 0)
      then
        let t := if negb (nAdded st)
                 then tz.Date (tz.Year t) 1 1 0 0 0 0 loc else t in
        let t := tz.AddDate t 1 0 0 in
        if nextYearExceeded t then Return tz.zero
        else nextYearLoop n' (mkNext t true)
      else Fall st
  end.

Fixpoint nextMonthLoop (n : nat) (st : nextState) : flow nextState :=
  match n with
  | O => Exhausted
  | S n' =>
      let t := nT st in
      if Bit (Month s) (tz.Month t) =? 0 then
        let t := if negb (nAdded st)
                 then tz.Date (tz.Year t) (tz.Month t) 1 0 0 0 0 loc
                 else t in
        let t := tz.AddDate t 0 1 0 in
        if tz.Month t =? time.January then Wrap (mkNext t true)
        else nextMonthLoop n' (mkNext t true)
      else Fall st
  end.

(** The correction after a step of one day: when the hour is no longer
    midnight, move to the midnight that is nearer. *)
Definition fixMidnight (t : tz.Time) : tz.Time :=
  if negb (tz.Hour_ t =? 0) then
    if tz.Hour_ t >? 12
    then tz.Add t ((24 - tz.Hour_ t) * time.Hour)
    else tz.Add t (- tz.Hour_ t * time.Hour)
  else t.

Fixpoint nextDayLoop (n : nat) (st : nextState) : flow nextState :=
  match n with
  | O => Exhausted
  | S n' =>
      let t := nT st in
      if negb (dayMatches s t) then
        let t := if negb (nAdded st)
                 then tz.Date (tz.Year t) (tz.Month t) (tz.Day t)
                                0 0 0 0 loc
                 else t in
        let t := tz.AddDate t 0 0 1 in
        let t := fixMidnight t in
        if tz.Day t =? 1 then Wrap (mkNext t true)
        else nextDayLoop n' (mkNext t true)
      else Fall st
  end.

Fixpoint nextHourLoop (n : nat) (st : nextState) : flow nextState :=
  match n with
  | O => Exhausted
  | S n' =>
      let t := nT st in
      if Bit (Hour s) (tz.Hour_ t) =? 0 then
        let t := if negb (nAdded st)
                 then tz.Date (tz.Year t) (tz.Month t) (tz.Day t)
                                (tz.Hour_ t) 0 0 0 loc
                 else t in
        let t := tz.Add t (1 * time.Hour) in
        if tz.Hour_ t =? 0 then Wrap (mkNext t true)
        else nextHourLoop n' (mkNext t true)
      else Fall st
  end.

Fixpoint nextMinuteLoop (n : nat) (st : nextState) : flow nextState :=
  match n with
  | O => Exhausted
  | S n' =>
      let t := nT st in
      if Bit (Minute s) (tz.Minute_ t) =? 0 then
        let t := if negb (nAdded st)
                 then tz.Truncate t time.Minute else t in
        let t := tz.Add t (1 * time.Minute) in
        if tz.Minute_ t =? 0 then Wrap (mkNext t true)
        else nextMinuteLoop n' (mkNext t true)
      else Fall st
  end.

Fixpoint nextSecondLoop (n : nat) (st : nextState) : flow nextState :=
  match n with
  | O => Exhausted
  | S n' =>
      let t := nT st in
      if Bit (Second s) (tz.Second_ t) =? 0 then
        let t := if negb (nAdded st)
                 then tz.Truncate t time.Second else t in
        let t := tz.Add t (1 * time.Second) in
        if tz.Second_ t =? 0 then Wrap (mkNext t true)
        else nextSecondLoop n' (mkNext t true)
      else Fall st
  end.

(** From the label [WRAP] to the [return] at the end of [Next]. *)
Definition nextPass (fuel : nat) (origLocation : tz.Location)
           (st : nextState)
  : flow nextState :=
  if nextYearExceeded (nT st) then Return tz.zero
  else
    andThen (nextYearLoop fuel st) (fun st =>
    andThen (nextMonthLoop fuel st) (fun st =>
    andThen (nextDayLoop fuel st) (fun st =>
    andThen (nextHourLoop fuel st) (fun st =>
    andThen (nextMinuteLoop fuel st) (fun st =>
    andThen (nextSecondLoop fuel st) (fun st =>
    Return (tz.In (nT st) origLocation))))))).
End NextLoops.

(** The location in which the schedule is read: its own, or that of the
    given time when the schedule has [time.Local]. *)
Definition effectiveLocation (s : SpecSchedule) (t : tz.Time)
  : tz.Location :=
  if tz.isLocal (Location s) then tz.LocationOf t else Location s.

(** The given time in the location of the schedule. *)
Definition inSchedule (s : SpecSchedule) (t : tz.Time) : tz.Time :=
  if negb (tz.isLocal (Location s)) then tz.In t (Location s) else t.

(** The time at which [Next] starts its search. *)
Definition nextStart (s : SpecSchedule) (t : tz.Time) : tz.Time :=
  let t := inSchedule s t in
  tz.Add t (-1 * time.Second - tz.Nanosecond_ t * time.Nanosecond).

(** [Next] with the bound [fuel] on the iterations of every loop and
    [2 ^ wfuel] on the passes: [None] stands for a bound that was reached,
    [Some tz.zero] for the zero time that the function returns when it
    finds nothing. *)
Definition NextWith (fuel wfuel : nat) (s : SpecSchedule) (t : tz.Time)
  : option tz.Time :=
  let origLocation := tz.LocationOf t in
  let loc := effectiveLocation s t in
  let t := nextStart s t in
  let yearLimit := tz.Year t + 5 in
  match wrapLoop (nextPass s loc yearLimit fuel origLocation) wfuel
                 (mkNext t false) with
  | Return r => Some r
  | _ => None
  end.

(** [Next], with the bounds of the first model. *)
Definition Next (s : SpecSchedule) (t : tz.Time) : option tz.Time :=
  NextWith loopFuel wrapFuel s t.

(** [Prev] *)

(** The local variables of [Prev] that its loops change. *)
Record prevState : Set := mkPrev {
  pT : tz.Time; pAdded : bool;
  addYear : bool; addMonth : bool; addDay : bool; addHour : bool;
  addMinute : bool }.

Section PrevLoops.
Variable s : SpecSchedule.
Variable loc : tz.Location.
Variable yearLimit : Z.

Definition prevYearExceeded (t : tz.Time) : bool :=
  (tz.Year t <? yearLimit) || (tz.Year t <? minYear).

Fixpoint prevYearLoop (n : nat) (st : prevState) : flow prevState :=
  match n with
  | O => Exhausted
  | S n' =>
      let t := pT st in
      if (tz.Year t <? minYear) || (Bit (Year s) (tz.Year t - minYear) =? 0)
      then
        let t := if negb (pAdded st)
                 then tz.Date (tz.Year t) 1 1 0 0 0 0 loc else t in
        let t := tz.AddDate t (-1) 0 0 in
        if prevYearExceeded t then Return tz.zero
        else prevYearLoop n' (mkPrev t true true (addMonth st) (addDay st)
                                     (addHour st) (addMinute st))
      else Fall st
  end.

Definition prevYearFix (st : prevState) : prevState :=
  if addYear st then
    let t := tz.AddDate (pT st) 1 0 0 in
    let t := tz.AddDate t 0 (-1) 0 in
    mkPrev t (pAdded st) false (addMonth st) (addDay st) (addHour st)
           (addMinute st)
  else st.

Fixpoint prevMonthLoop (n : nat) (st : prevState) : flow prevState :=
  match n with
  | O => Exhausted
  | S n' =>
      let t := pT st in
      if Bit (Month s) (tz.Month t) =? 0 then
        let t := if negb (pAdded st)
                 then tz.Date (tz.Year t) (tz.Month t) 1 0 0 0 0 loc
                 else t in
        let t := tz.AddDate t 0 (-1) 0 in
        let st' := mkPrev t true (addYear st) true (addDay st) (addHour st)
                          (addMinute st) in
        if tz.Month t =? time.January then Wrap st'
        else prevMonthLoop n' st'
      else Fall st
  end.

Definition prevMonthFix (st : prevState) : prevState :=
  if addMonth st then
    let t := tz.AddDate (pT st) 0 1 0 in
    let t := tz.AddDate t 0 0 (-1) in
    mkPrev t (pAdded st) (addYear st) false (addDay st) (addHour st)
           (addMinute st)
  else st.

Fixpoint prevDayLoop (n : nat) (st : prevState) : flow prevState :=
  match n with
  | O => Exhausted
  | S n' =>
      let t := pT st in
      if negb (dayMatches s t) then
        let t := if negb (pAdded st)
                 then tz.Date (tz.Year t) (tz.Month t) (tz.Day t)
                                0 0 0 0 loc
                 else t in
        let t := tz.AddDate t 0 0 (-1) in
        let t := fixMidnight t in
        let st' := mkPrev t true (addYear st) (addMonth st) true (addHour st)
                          (addMinute st) in
        if tz.Day t =? 1 then Wrap st'
        else prevDayLoop n' st'
      else Fall st
  end.

Definition prevDayFix (st : prevState) : prevState :=
  if addDay st then
    let t := tz.AddDate (pT st) 0 0 1 in
    let t := tz.Add t (-1 * time.Hour) in
    mkPrev t (pAdded st) (addYear st) (addMonth st) false (addHour st)
           (addMinute st)
  else st.

Fixpoint prevHourLoop (n : nat) (st : prevState) : flow prevState :=
  match n with
  | O => Exhausted
  | S n' =>
      let t := pT st in
      if Bit (Hour s) (tz.Hour_ t) =? 0 then
        let t := if negb (pAdded st)
                 then tz.Date (tz.Year t) (tz.Month t) (tz.Day t)
                                (tz.Hour_ t) 0 0 0 loc
                 else t in
        let t := tz.Add t (-1 * time.Hour) in
        let st' := mkPrev t true (addYear st) (addMonth st) (addDay st) true
                          (addMinute st) in
        if tz.Hour_ t =? 0 then Wrap st'
        else prevHourLoop n' st'
      else Fall st
  end.

Definition prevHourFix (st : prevState) : prevState :=
  if addHour st then
    let t := tz.Add (pT st) (1 * time.Hour) in
    let t := tz.Add t (-1 * time.Minute) in
    mkPrev t (pAdded st) (addYear st) (addMonth st) (addDay st) false
           (addMinute st)
  else st.

Fixpoint prevMinuteLoop (n : nat) (st : prevState) : flow prevState :=
  match n with
  | O => Exhausted
  | S n' =>
      let t := pT st in
      if Bit (Minute s) (tz.Minute_ t) =? 0 then
        let t := if negb (pAdded st)
                 then tz.Truncate t time.Minute else t in
        let t := tz.Add t (-1 * time.Minute) in
        let st' := mkPrev t true (addYear st) (addMonth st) (addDay st)
                          (addHour st) true in
        if tz.Minute_ t =? 0 then Wrap st'
        else prevMinuteLoop n' st'
      else Fall st
  end.

Definition prevMinuteFix (st : prevState) : prevState :=
  if addMinute st then
    let t := tz.Add (pT st) (1 * time.Minute) in
    let t := tz.Add t (-1 * time.Second) in
    mkPrev t (pAdded st) (addYear st) (addMonth st) (addDay st) (addHour st)
           false
  else st.

Fixpoint prevSecondLoop (n : nat) (st : prevState) : flow prevState :=
  match n with
  | O => Exhausted
  | S n' =>
      let t := pT st in
      if Bit (Second s) (tz.Second_ t) =? 0 then
        let t := if negb (pAdded st)
                 then tz.Truncate t time.Second else t in
        let t := tz.Add t (-1 * time.Second) in
        let st' := mkPrev t true (addYear st) (addMonth st) (addDay st)
                          (addHour st) (addMinute st) in
        if tz.Second_ t =? 0 then Wrap st'
        else prevSecondLoop n' st'
      else Fall st
  end.

(** From the label [WRAP] to the [return] at the end of [Prev]. *)
Definition prevPass (fuel : nat) (origLocation : tz.Location)
           (st : prevState)
  : flow prevState :=
  if prevYearExceeded (pT st) then Return tz.zero
  else
    andThen (prevYearLoop fuel st) (fun st =>
    andThen (prevMonthLoop fuel (prevYearFix st)) (fun st =>
    andThen (prevDayLoop fuel (prevMonthFix st)) (fun st =>
    andThen (prevHourLoop fuel (prevDayFix st)) (fun st =>
    andThen (prevMinuteLoop fuel (prevHourFix st)) (fun st =>
    andThen (prevSecondLoop fuel (prevMinuteFix st)) (fun st =>
    Return (tz.In (pT st) origLocation))))))).
End PrevLoops.

(** [Prev], with the results read as those of [Next]. *)
Definition PrevWith (fuel wfuel : nat) (s : SpecSchedule) (t : tz.Time)
  : option tz.Time :=
  let origLocation := tz.LocationOf t in
  let loc := effectiveLocation s t in
  let t := inSchedule s t in
  let yearLimit := tz.Year t - 5 in
  match wrapLoop (prevPass s loc yearLimit fuel origLocation) wfuel
                 (mkPrev t false false false false false false) with
  | Return r => Some r
  | _ => None
  end.

Definition Prev (s : SpecSchedule) (t : tz.Time) : option tz.Time :=
  PrevWith loopFuel wrapFuel s t.

End zoned.

(** ** The first model in the second

    A location with a fixed offset is a location without transitions, and
    a time of [time] is the time of [tz] at the same instant in that
    location. *)
Definition zonedLocation (l : time.Location) : tz.Location :=
  tz.mkLocation (time.isLocal l) (time.zoneOffset l) [].

Definition zonedTime (t : time.Time) : tz.Time :=
  tz.mkTime (time.In t time.UTC) (zonedLocation (time.tLoc t)).

Definition zonedSchedule (s : SpecSchedule) : zoned.SpecSchedule :=
  zoned.mkSpecSchedule (Second s) (Minute s) (Hour s) (Dom s) (Month s)
                       (Dow s) (Year s) (zonedLocation (Location s)).

Definition zonedNext (st : nextState) : zoned.nextState :=
  zoned.mkNext (zonedTime (nT st)) (nAdded st).

Definition zonedPrev (st : prevState) : zoned.prevState :=
  zoned.mkPrev (zonedTime (pT st)) (pAdded st) (addYear st) (addMonth st)
               (addDay st) (addHour st) (addMinute st).

Definition zonedFlow {S S' : Type} (f : S -> S') (r : flow S)
  : zoned.flow S' :=
  match r with
  | Fall st => zoned.Fall (f st)
  | Wrap st => zoned.Wrap (f st)
  | Return t => zoned.Return (zonedTime t)
  | Exhausted => zoned.Exhausted
  end.

(** ** Schedules and times of the examples *)

(** A field that accepts every value has all the bits of its range set; the
    parser also sets bit [maxBits] of a day field written as a star. *)
Definition allBits (lo hi : Z) : Z := Z.shiftl (Z.ones (hi - lo + 1)) lo.
Definition starBit : Z := Z.shiftl 1 maxBits.
Definition oneBit (i : Z) : Z := Z.shiftl 1 i.

(** "* * * * * * *": every second. *)
Definition everySecond : SpecSchedule :=
  mkSpecSchedule (allBits 0 59) (allBits 0 59) (allBits 0 23)
                 (Z.lor (allBits 1 31) starBit) (allBits 1 12)
                 (Z.lor (allBits 0 6) starBit) (allBits 0 129)
                 (time.Local 0).

(** "0 * * * * * *": every minute, at second 0. *)
Definition everyMinute : SpecSchedule :=
  mkSpecSchedule (oneBit 0) (allBits 0 59) (allBits 0 23)
                 (Z.lor (allBits 1 31) starBit) (allBits 1 12)
                 (Z.lor (allBits 0 6) starBit) (allBits 0 129)
                 (time.Local 0).

(** "0 */5 * * * * *": the minutes 0, 5, ..., 55, at second 0. *)
Definition everyFiveMinutes : SpecSchedule :=
  mkSpecSchedule (oneBit 0)
                 (fold_right Z.lor 0
                    (map oneBit [0; 5; 10; 15; 20; 25; 30; 35; 40; 45; 50; 55]))
                 (allBits 0 23)
                 (Z.lor (allBits 1 31) starBit) (allBits 1 12)
                 (Z.lor (allBits 0 6) starBit) (allBits 0 129)
                 (time.Local 0).

(** "0 0 0 31 2 * *": midnight of the 31st of February. *)
Definition february31st : SpecSchedule :=
  mkSpecSchedule (oneBit 0) (oneBit 0) (oneBit 0)
                 (oneBit 31) (oneBit 2)
                 (Z.lor (allBits 0 6) starBit) (allBits 0 129)
                 (time.Local 0).

(** Every second of the year 2030. *)
Definition only2030 : SpecSchedule :=
  mkSpecSchedule (allBits 0 59) (allBits 0 59) (allBits 0 23)
                 (Z.lor (allBits 1 31) starBit) (allBits 1 12)
                 (Z.lor (allBits 0 6) starBit) (oneBit (2030 - minYear))
                 (time.Local 0).

(** "0 0 0 15 * * *": midnight of the 15th of every month. *)
Definition midnight15th : SpecSchedule :=
  mkSpecSchedule (oneBit 0) (oneBit 0) (oneBit 0)
                 (oneBit 15) (allBits 1 12)
                 (Z.lor (allBits 0 6) starBit) (allBits 0 129)
                 (time.Local 0).

(** Every second of December 2030. *)
Definition december2030 : SpecSchedule :=
  mkSpecSchedule (allBits 0 59) (allBits 0 59) (allBits 0 23)
                 (Z.lor (allBits 1 31) starBit) (oneBit 12)
                 (Z.lor (allBits 0 6) starBit) (oneBit (2030 - minYear))
                 (time.Local 0).

(** "0 0 * * * * *" in the location five and a half hours east of UTC:
    the top of every hour there. *)
Definition hourlyEast : SpecSchedule :=
  mkSpecSchedule (oneBit 0) (oneBit 0) (allBits 0 23)
                 (Z.lor (allBits 1 31) starBit) (allBits 1 12)
                 (Z.lor (allBits 0 6) starBit) (allBits 0 129)
                 (time.FixedZone 19800).

(** "0 2 * * * * *" in a location 30 seconds east of UTC: minute 2 of
    every hour there, at second 0. *)
Definition minuteTwoOdd : SpecSchedule :=
  mkSpecSchedule (oneBit 0) (oneBit 2) (allBits 0 23)
                 (Z.lor (allBits 1 31) starBit) (allBits 1 12)
                 (Z.lor (allBits 0 6) starBit) (allBits 0 129)
                 (time.FixedZone 30).

(** *** Locations with a transition, and schedules in them *)

(** Every value of the day of the week, with the bit of a star. *)
Definition anyDow : Z := Z.lor (allBits 0 6) starBit.

(** The location America/Sao_Paulo around 2018-11-04, when the clocks went
    from 00:00 -03:00 to 01:00 -02:00. *)
Definition saoPaulo : tz.Location :=
  tz.mkLocation false (-10800)
    [(time.Unix (time.Date 2018 11 4 3 0 0 0 time.UTC), -7200)].

(** The location Asia/Kathmandu around 1986-01-01, when the offset went
    from +05:30 to +05:45 at 00:00. *)
Definition kathmandu : tz.Location :=
  tz.mkLocation false 19800
    [(time.Unix (time.Date 1985 12 31 18 30 0 0 time.UTC), 20700)].

(** The location Antarctica/Troll around 2023-10-29, when the clocks went
    from 03:00 +02:00 to 01:00 +00:00. *)
Definition troll : tz.Location :=
  tz.mkLocation false 7200
    [(time.Unix (time.Date 2023 10 29 1 0 0 0 time.UTC), 0)].

(** The location Pacific/Apia around 2011-12-30, the day that it left out:
    the clocks went from 24:00 -10:00 of the 29th to 00:00 +14:00 of the
    31st. *)
Definition apia : tz.Location :=
  tz.mkLocation false (-36000)
    [(time.Unix (time.Date 2011 12 30 10 0 0 0 time.UTC), 50400)].

(** "* * 1 3 * * *" in [saoPaulo]: hour 1 of the 3rd of every month. *)
Definition thirdAtOne : zoned.SpecSchedule :=
  zoned.mkSpecSchedule (allBits 0 59) (allBits 0 59) (oneBit 1)
                       (oneBit 3) (allBits 1 12) anyDow (allBits 0 129)
                       saoPaulo.

(** "* 15 * * * * 1985" in [kathmandu]. *)
Definition quarterPast1985 : zoned.SpecSchedule :=
  zoned.mkSpecSchedule (allBits 0 59) (oneBit 15) (allBits 0 23)
                       (Z.lor (allBits 1 31) starBit) (allBits 1 12) anyDow
                       (oneBit (1985 - minYear)) kathmandu.

(** "* * 1 * * * *" in [troll]: hour 1 of every day. *)
Definition hourOne : zoned.SpecSchedule :=
  zoned.mkSpecSchedule (allBits 0 59) (allBits 0 59) (oneBit 1)
                       (Z.lor (allBits 1 31) starBit) (allBits 1 12) anyDow
                       (allBits 0 129) troll.

(** "* * * 31 * * *" in [apia]: the 31st of every month. *)
Definition the31st : zoned.SpecSchedule :=
  zoned.mkSpecSchedule (allBits 0 59) (allBits 0 59) (allBits 0 23)
                       (oneBit 31) (allBits 1 12) anyDow (allBits 0 129)
                       apia.


(** "0 0 0 10 * * *" in [saoPaulo]: midnight of the 10th of every
    month. *)
Definition midnight10th : zoned.SpecSchedule :=
  zoned.mkSpecSchedule (oneBit 0) (oneBit 0) (oneBit 0)
                       (oneBit 10) (allBits 1 12) anyDow (allBits 0 129)
                       saoPaulo.

(** ** The calendar *)

Module timeFacts.
Import time.

Ltac month_cases m :=
  let H := fresh "Hm" in
  assert (H : m = 1 \/ m = 2 \/ m = 3 \/ m = 4 \/ m = 5 \/ m = 6 \/ m = 7 \/
              m = 8 \/ m = 9 \/ m = 10 \/ m = 11 \/ m = 12) by lia;
  repeat (destruct H as [H | H]); subst m.

Lemma isLeap_spec (y : Z) :
  isLeap y = true <->
  (y mod 4 = 0 /\ y mod 100 <> 0) \/ y mod 400 = 0.
Proof.
  unfold isLeap.
  rewrite orb_true_iff, andb_true_iff, negb_true_iff, !Z.eqb_eq, Z.eqb_neq.
  reflexivity.
Qed.

Lemma daysIn_bounds (y m : Z) : 28 <= daysIn y m <= 31.
Proof.
  unfold daysIn.
  repeat match goal with
         | |- context [match ?x with _ => _ end] => destruct x
         end; lia.
Qed.

Lemma yearLength (y : Z) :
  daysSinceEpoch (y + 1) =
  daysSinceEpoch y + (if isLeap y then 366 else 365).
Proof.
  unfold daysSinceEpoch.
  replace (y + 1 - 1) with y by lia.
  destruct (isLeap y) eqn:E.
  - apply isLeap_spec in E.
    Z.div_mod_to_equations. lia.
  - assert (N : ~ ((y mod 4 = 0 /\ y mod 100 <> 0) \/ y mod 400 = 0)).
    { intro H. apply isLeap_spec in H. congruence. }
    Z.div_mod_to_equations. lia.
Qed.

Lemma daysBefore_next (y m : Z) :
  1 <= m < 12 -> daysBefore y (m + 1) = daysBefore y m + daysIn y m.
Proof.
  intros H. month_cases m; try lia;
    unfold daysBefore, daysIn; simpl; destruct (isLeap y); simpl; lia.
Qed.

Lemma daysBefore_dec (y : Z) :
  daysBefore y 12 + 31 = if isLeap y then 366 else 365.
Proof. unfold daysBefore; simpl. destruct (isLeap y); simpl; lia. Qed.

Lemma prevMonth_days (y m d : Z) :
  1 <= m <= 12 ->
  let '(y', m') := prevMonth y m in
  daysFromCivil y' m' (d + daysIn y' m') = daysFromCivil y m d
  /\ 1 <= m' <= 12.
Proof.
  intros H. unfold prevMonth.
  destruct (m <=? 1) eqn:E.
  - apply Z.leb_le in E. assert (m = 1) by lia. subst m.
    unfold daysFromCivil. split; [|lia].
    pose proof (yearLength (y - 1)) as L.
    replace (y - 1 + 1) with y in L by lia.
    pose proof (daysBefore_dec (y - 1)) as B.
    change (daysIn (y - 1) 12) with 31.
    change (daysBefore y 1) with (0 + (if isLeap y && false then 1 else 0)).
    rewrite andb_false_r. lia.
  - apply Z.leb_gt in E. unfold daysFromCivil. split; [|lia].
    pose proof (daysBefore_next y (m - 1)) as B.
    replace (m - 1 + 1) with m in B by lia. lia.
Qed.

Lemma nextMonth_days (y m d : Z) :
  1 <= m <= 12 ->
  let '(y', m') := nextMonth y m in
  daysFromCivil y' m' (d - daysIn y m) = daysFromCivil y m d
  /\ 1 <= m' <= 12.
Proof.
  intros H. unfold nextMonth.
  destruct (12 <=? m) eqn:E.
  - apply Z.leb_le in E. assert (m = 12) by lia. subst m.
    unfold daysFromCivil. split; [|lia].
    pose proof (yearLength y) as L.
    pose proof (daysBefore_dec y) as B.
    change (daysIn y 12) with 31.
    change (daysBefore (y + 1) 1)
      with (0 + (if isLeap (y + 1) && false then 1 else 0)).
    rewrite andb_false_r. lia.
  - apply Z.leb_gt in E. unfold daysFromCivil. split; [|lia].
    pose proof (daysBefore_next y m). lia.
Qed.

Lemma normDay_days (n : nat) : forall y m d y' m' d',
  1 <= m <= 12 ->
  normDay n y m d = (y', m', d') ->
  daysFromCivil y' m' d' = daysFromCivil y m d /\ 1 <= m' <= 12.
Proof.
  induction n as [|n IH]; intros y m d y' m' d' Hm E; simpl in E.
  - inversion E; subst. split; [reflexivity | lia].
  - destruct (d <? 1).
    + pose proof (prevMonth_days y m d Hm) as P.
      destruct (prevMonth y m) as [y1 m1]. destruct P as [P1 P2].
      apply IH in E; [|assumption]. destruct E as [E1 E2].
      split; [congruence | assumption].
    + destruct (daysIn y m <? d).
      * pose proof (nextMonth_days y m d Hm) as P.
        destruct (nextMonth y m) as [y1 m1]. destruct P as [P1 P2].
        apply IH in E; [|assumption]. destruct E as [E1 E2].
        split; [congruence | assumption].
      * inversion E; subst. split; [reflexivity | lia].
Qed.

Lemma normDay_range (n : nat) : forall y m d y' m' d',
  1 <= m <= 12 ->
  (d < 1 -> 1 - d <= 28 * (Z.of_nat n - 1)) ->
  (daysIn y m < d -> d <= 28 * Z.of_nat n) ->
  (1 <= Z.of_nat n) ->
  normDay n y m d = (y', m', d') ->
  1 <= d' <= daysIn y' m'.
Proof.
  induction n as [|n IH]; intros y m d y' m' d' Hm Hlo Hhi Hn E; simpl in E.
  - lia.
  - destruct (d <? 1) eqn:E1.
    + apply Z.ltb_lt in E1.
      pose proof (prevMonth_days y m d Hm) as P.
      destruct (prevMonth y m) as [y1 m1]. destruct P as [_ P2].
      pose proof (daysIn_bounds y1 m1).
      eapply IH; [exact P2 | | | | exact E]; lia.
    + apply Z.ltb_ge in E1.
      destruct (daysIn y m <? d) eqn:E2.
      * apply Z.ltb_lt in E2.
        pose proof (nextMonth_days y m d Hm) as P.
        destruct (nextMonth y m) as [y1 m1]. destruct P as [_ P2].
        pose proof (daysIn_bounds y m).
        pose proof (daysIn_bounds y1 m1).
        eapply IH; [exact P2 | | | | exact E]; lia.
      * apply Z.ltb_ge in E2. inversion E; subst. lia.
Qed.

Lemma normDate_spec (y m d y' m' d' : Z) :
  1 <= m <= 12 ->
  normDate y m d = (y', m', d') ->
  daysFromCivil y' m' d' = daysFromCivil y m d /\
  1 <= m' <= 12 /\ 1 <= d' <= daysIn y' m'.
Proof.
  intros Hm E. unfold normDate in E.
  pose proof (normDay_days _ _ _ _ _ _ _ Hm E) as [A B].
  split; [assumption | split; [assumption|]].
  pose proof (daysIn_bounds y m).
  eapply normDay_range; [exact Hm | | | | exact E];
    rewrite Z2Nat.id by lia; lia.
Qed.

Ltac fields :=
  cbn [tYear tMonth tDay tSod tNsec tLoc zoneOffset isLocal] in *.


Lemma Valid_iff (t : Time) :
  Valid t <->
  1 <= tMonth t <= 12 /\ 1 <= tDay t <= daysIn (tYear t) (tMonth t) /\
  0 <= tSod t < 86400 /\ 0 <= tNsec t < 1000000000.
Proof.
  unfold Valid, valid.
  rewrite !andb_true_iff, !Z.leb_le, !Z.ltb_lt. tauto.
Qed.

Lemma clock_sum (t : Time) :
  Hour_ t * 3600 + Minute_ t * 60 + Second_ t = tSod t.
Proof.
  unfold Hour_, Minute_, Second_.
  Z.div_mod_to_equations. lia.
Qed.

Lemma clock_bounds (t : Time) :
  0 <= tSod t < 86400 ->
  0 <= Hour_ t < 24 /\ 0 <= Minute_ t < 60 /\ 0 <= Second_ t < 60.
Proof.
  unfold Hour_, Minute_, Second_. intros H.
  Z.div_mod_to_equations. lia.
Qed.

(** [Date] on a clock reading that is in range. *)
Lemma Date_clock (y m d h mi sc ns : Z) (loc : Location) :
  0 <= h < 24 -> 0 <= mi < 60 -> 0 <= sc < 60 -> 0 <= ns < 1000000000 ->
  Date y m d h mi sc ns loc =
  let '(y', m', d') := normDate (y + (m - 1) / 12) ((m - 1) mod 12 + 1) d in
  mkTime y' m' d' (h * 3600 + mi * 60 + sc) ns loc.
Proof.
  intros Hh Hmi Hs Hns. unfold Date.
  rewrite (Z.div_small ns), (Z.mod_small ns) by lia.
  rewrite Z.add_0_r.
  rewrite (Z.div_small sc), (Z.mod_small sc) by lia.
  rewrite Z.add_0_r.
  rewrite (Z.div_small mi), (Z.mod_small mi) by lia.
  rewrite Z.add_0_r.
  rewrite (Z.div_small h), (Z.mod_small h) by lia.
  rewrite Z.add_0_r. reflexivity.
Qed.

Lemma AddDate_eq (t : Time) (yy mm dd : Z) :
  Valid t ->
  AddDate t yy mm dd =
  let '(y', m', d') :=
    normDate (tYear t + yy + (tMonth t + mm - 1) / 12)
             ((tMonth t + mm - 1) mod 12 + 1) (tDay t + dd) in
  mkTime y' m' d' (tSod t) (tNsec t) (tLoc t).
Proof.
  intros V. apply Valid_iff in V. destruct V as (Vm & Vd & Vs & Vn).
  unfold AddDate.
  pose proof (clock_bounds t Vs) as (Bh & Bm & Bs).
  rewrite Date_clock by (assumption || exact Vn).
  unfold Year, Month, Day, Nanosecond_, LocationOf.
  rewrite clock_sum. reflexivity.
Qed.

Lemma Unix_days (t : Time) :
  Unix t = days t * 86400 + tSod t - zoneOffset (tLoc t).
Proof. reflexivity. Qed.

Lemma Add_spec (t : Time) (d : Z) :
  Valid t ->
  Valid (Add t d) /\ UnixNano (Add t d) = UnixNano t + d /\
  tLoc (Add t d) = tLoc t /\
  tSod (Add t d) = (tSod t + (tNsec t + d) / 1000000000) mod 86400 /\
  tNsec (Add t d) = (tNsec t + d) mod 1000000000 /\
  days (Add t d) = days t + (tSod t + (tNsec t + d) / 1000000000) / 86400.
Proof.
  intros V. apply Valid_iff in V. destruct V as (Vm & Vd & Vs & Vn).
  unfold Add.
  destruct (normDate _ _ _) as [[y' m'] d'] eqn:E.
  apply normDate_spec in E; [|exact Vm].
  destruct E as (E1 & E2 & E3).
  assert (D : days (mkTime y' m' d'
                 ((tSod t + (tNsec t + d) / 1000000000) mod 86400)
                 ((tNsec t + d) mod 1000000000) (tLoc t))
              = days t + (tSod t + (tNsec t + d) / 1000000000) / 86400).
  { unfold days; fields. rewrite E1. unfold daysFromCivil. lia. }
  split; [|split; [|split; [|split; [|split]]]];
    try reflexivity; try exact D.
  - apply Valid_iff; fields.
    pose proof (Z.mod_pos_bound (tSod t + (tNsec t + d) / 1000000000) 86400).
    pose proof (Z.mod_pos_bound (tNsec t + d) 1000000000).
    lia.
  - unfold UnixNano. rewrite !Unix_days, D. fields.
    Z.div_mod_to_equations. lia.
Qed.

Lemma AddDate_spec (t : Time) (yy mm dd : Z) :
  Valid t ->
  Valid (AddDate t yy mm dd) /\
  tLoc (AddDate t yy mm dd) = tLoc t /\
  tSod (AddDate t yy mm dd) = tSod t /\
  tNsec (AddDate t yy mm dd) = tNsec t /\
  days (AddDate t yy mm dd) =
    daysFromCivil (tYear t + yy + (tMonth t + mm - 1) / 12)
                  ((tMonth t + mm - 1) mod 12 + 1) (tDay t + dd).
Proof.
  intros V. rewrite AddDate_eq by exact V.
  apply Valid_iff in V. destruct V as (Vm & Vd & Vs & Vn).
  destruct (normDate _ _ _) as [[y' m'] d'] eqn:E.
  apply normDate_spec in E.
  2:{ pose proof (Z.mod_pos_bound (tMonth t + mm - 1) 12). lia. }
  destruct E as (E1 & E2 & E3).
  split; [|split; [|split; [|split]]]; try reflexivity.
  - apply Valid_iff; fields. lia.
  - unfold days; fields. exact E1.
Qed.

Lemma normDate_fuel (d : Z) :
  exists k, Z.to_nat (Z.abs d + 2) = S (S k).
Proof.
  exists (Z.to_nat (Z.abs d)).
  rewrite Z2Nat.inj_add by lia. change (Z.to_nat 2) with 2%nat.
  rewrite Nat.add_comm. reflexivity.
Qed.

Lemma normDate_id (y m d : Z) :
  1 <= d <= daysIn y m -> normDate y m d = (y, m, d).
Proof.
  intros H. unfold normDate.
  destruct (normDate_fuel d) as [k ->]. cbn [normDay].
  replace (d <? 1) with false by (symmetry; apply Z.ltb_ge; lia).
  replace (daysIn y m <? d) with false by (symmetry; apply Z.ltb_ge; lia).
  reflexivity.
Qed.

Lemma normDate_over (y m d : Z) :
  1 <= d -> daysIn y m < d <= daysIn y m + 28 ->
  normDate y m d =
  (fst (nextMonth y m), snd (nextMonth y m), d - daysIn y m).
Proof.
  intros H1 H. unfold normDate.
  destruct (normDate_fuel d) as [k ->]. cbn [normDay].
  replace (d <? 1) with false by (symmetry; apply Z.ltb_ge; lia).
  replace (daysIn y m <? d) with true by (symmetry; apply Z.ltb_lt; lia).
  destruct (nextMonth y m) as [y' m']. cbn [fst snd].
  pose proof (daysIn_bounds y' m').
  replace (d - daysIn y m <? 1) with false by (symmetry; apply Z.ltb_ge; lia).
  replace (daysIn y' m' <? d - daysIn y m) with false
    by (symmetry; apply Z.ltb_ge; lia).
  reflexivity.
Qed.

Lemma normDate_under (y m d : Z) :
  d < 1 -> 1 <= d + daysIn (fst (prevMonth y m)) (snd (prevMonth y m)) ->
  normDate y m d =
  (fst (prevMonth y m), snd (prevMonth y m),
   d + daysIn (fst (prevMonth y m)) (snd (prevMonth y m))).
Proof.
  intros H1 H. unfold normDate.
  destruct (normDate_fuel d) as [k ->]. cbn [normDay].
  replace (d <? 1) with true by (symmetry; apply Z.ltb_lt; lia).
  destruct (prevMonth y m) as [y' m']. cbn [fst snd] in *.
  replace (d + daysIn y' m' <? 1) with false
    by (symmetry; apply Z.ltb_ge; lia).
  replace (daysIn y' m' <? d + daysIn y' m') with false
    by (symmetry; apply Z.ltb_ge; lia).
  reflexivity.
Qed.

(** The date of [Date] on arguments in range. *)
Lemma Date_id (y m d h mi sc ns : Z) (loc : Location) :
  1 <= m <= 12 -> 1 <= d <= daysIn y m ->
  0 <= h < 24 -> 0 <= mi < 60 -> 0 <= sc < 60 -> 0 <= ns < 1000000000 ->
  Date y m d h mi sc ns loc = mkTime y m d (h * 3600 + mi * 60 + sc) ns loc.
Proof.
  intros Hm Hd Hh Hmi Hs Hns.
  rewrite Date_clock by assumption.
  rewrite Z.div_small, Z.mod_small by lia.
  replace (y + 0) with y by lia. replace (m - 1 + 1) with m by lia.
  rewrite normDate_id by assumption. reflexivity.
Qed.

Lemma daysIn_feb_only (y y' m : Z) :
  1 <= m <= 12 -> daysIn y m <> daysIn y' m -> m = 2.
Proof.
  intros Hm H. month_cases m; try reflexivity; exfalso; apply H; reflexivity.
Qed.

(** A step of whole years keeps the month and the day, except from
    February 29 to a year without one, where it gives March 1. *)
Lemma AddDate_years (t : Time) (k : Z) :
  Valid t ->
  tYear (AddDate t k 0 0) = tYear t + k /\
  ((tMonth (AddDate t k 0 0) = tMonth t /\ tDay (AddDate t k 0 0) = tDay t) \/
   (tMonth t = 2 /\ tDay t = 29 /\
    tMonth (AddDate t k 0 0) = 3 /\ tDay (AddDate t k 0 0) = 1)).
Proof.
  intros V. rewrite AddDate_eq by exact V.
  apply Valid_iff in V. destruct V as (Vm & Vd & Vs & Vn).
  rewrite Z.add_0_r.
  rewrite Z.div_small, Z.mod_small by lia.
  replace (tYear t + k + 0) with (tYear t + k) by lia.
  replace (tMonth t - 1 + 1) with (tMonth t) by lia.
  rewrite Z.add_0_r.
  destruct (Z_le_gt_dec (tDay t) (daysIn (tYear t + k) (tMonth t))) as [L|G].
  - rewrite normDate_id by lia. fields. auto.
  - assert (M : tMonth t = 2) by (apply (daysIn_feb_only (tYear t) (tYear t + k)); lia).
    rewrite M in *.
    assert (D : daysIn (tYear t + k) 2 = 28 /\ tDay t = 29).
    { cbn [daysIn] in *. destruct (isLeap (tYear t));
        destruct (isLeap (tYear t + k)); lia. }
    destruct D as [D1 D2].
    rewrite normDate_over by lia.
    fields. rewrite D1, D2. cbn.
    split; [reflexivity | right; repeat split; reflexivity].
Qed.

Lemma normDate_succ (y m d : Z) :
  1 <= d <= daysIn y m -> normDate y m (d + 1) = dayAfter y m d.
Proof.
  intros H. unfold dayAfter.
  pose proof (daysIn_bounds y m).
  destruct (d <? daysIn y m) eqn:E.
  - apply Z.ltb_lt in E. apply normDate_id. lia.
  - apply Z.ltb_ge in E. rewrite normDate_over by lia.
    f_equal. lia.
Qed.

Lemma normDate_pred (y m d : Z) :
  1 <= d <= daysIn y m -> normDate y m (d - 1) = dayBefore y m d.
Proof.
  intros H. unfold dayBefore.
  destruct (1 <? d) eqn:E.
  - apply Z.ltb_lt in E. apply normDate_id. lia.
  - apply Z.ltb_ge in E.
    pose proof (daysIn_bounds (fst (prevMonth y m)) (snd (prevMonth y m))).
    rewrite normDate_under by lia.
    f_equal. lia.
Qed.

(** [Add] moves the date by the days that the clock carries. *)
Lemma Add_date (t : Time) (d : Z) :
  Valid t ->
  let c := (tSod t + (tNsec t + d) / 1000000000) / 86400 in
  (c = 0 -> dateOf (Add t d) = dateOf t) /\
  (c = 1 -> dateOf (Add t d) = dayAfter (tYear t) (tMonth t) (tDay t)) /\
  (c = -1 -> dateOf (Add t d) = dayBefore (tYear t) (tMonth t) (tDay t)).
Proof.
  intros V c. apply Valid_iff in V. destruct V as (Vm & Vd & Vs & Vn).
  unfold Add. fold c.
  repeat split; intros ->.
  - rewrite Z.add_0_r, normDate_id by assumption. reflexivity.
  - rewrite normDate_succ by assumption.
    destruct (dayAfter _ _ _) as [[y' m'] d']. reflexivity.
  - change (tDay t + -1) with (tDay t - 1).
    rewrite normDate_pred by assumption.
    destruct (dayBefore _ _ _) as [[y' m'] d']. reflexivity.
Qed.

Lemma dayBefore_year (y m d : Z) :
  1 <= m <= 12 -> fst (fst (dayBefore y m d)) <= y.
Proof.
  intros H. unfold dayBefore, prevMonth.
  destruct (1 <? d); cbn [fst snd]; [lia|].
  destruct (m <=? 1); cbn [fst snd]; lia.
Qed.

Lemma daysSinceEpoch_span (n : nat) (y : Z) :
  daysSinceEpoch y + 365 * Z.of_nat n <= daysSinceEpoch (y + Z.of_nat n)
  <= daysSinceEpoch y + 366 * Z.of_nat n.
Proof.
  induction n as [|n IH].
  - change (Z.of_nat 0) with 0. replace (y + 0) with y by lia. lia.
  - rewrite Nat2Z.inj_succ.
    replace (y + Z.succ (Z.of_nat n)) with (y + Z.of_nat n + 1) by lia.
    rewrite yearLength. destruct (isLeap (y + Z.of_nat n)); lia.
Qed.

Lemma daysSinceEpoch_le (y y' : Z) :
  y <= y' ->
  daysSinceEpoch y + 365 * (y' - y) <= daysSinceEpoch y'
  <= daysSinceEpoch y + 366 * (y' - y).
Proof.
  intros H. pose proof (daysSinceEpoch_span (Z.to_nat (y' - y)) y) as S.
  rewrite Z2Nat.id in S by lia.
  replace (y + (y' - y)) with y' in S by lia. exact S.
Qed.

(** The day of the year of a date lies within the year. *)
Lemma dayOfYear_bounds (y m d : Z) :
  1 <= m <= 12 -> 1 <= d <= daysIn y m ->
  0 <= daysBefore y m + d - 1 < (if isLeap y then 366 else 365).
Proof.
  intros Hm Hd.
  assert (B : 0 <= daysBefore y m /\
              daysBefore y m + daysIn y m <= if isLeap y then 366 else 365).
  { clear Hd. month_cases m; unfold daysBefore, daysIn; simpl;
      destruct (isLeap y); simpl; lia. }
  destruct (isLeap y); lia.
Qed.

Lemma daysBefore_mono (y m m' : Z) :
  1 <= m -> m < m' -> m' <= 12 ->
  daysBefore y m + daysIn y m <= daysBefore y m'.
Proof.
  intros H1 H2 H3.
  month_cases m; month_cases m'; try lia;
    unfold daysBefore, daysIn; simpl; destruct (isLeap y); simpl; lia.
Qed.

Lemma days_year_lt (a b : Time) :
  Valid a -> Valid b -> tYear a < tYear b -> days a < days b.
Proof.
  intros Va Vb H. apply Valid_iff in Va. apply Valid_iff in Vb.
  destruct Va as (Am & Ad & _). destruct Vb as (Bm & Bd & _).
  unfold days, daysFromCivil.
  pose proof (dayOfYear_bounds _ _ _ Am Ad) as Da.
  pose proof (dayOfYear_bounds _ _ _ Bm Bd) as Db.
  pose proof (yearLength (tYear a)) as L.
  pose proof (daysSinceEpoch_le (tYear a + 1) (tYear b)) as S.
  destruct (isLeap (tYear a)); lia.
Qed.

Lemma days_inj (a b : Time) :
  Valid a -> Valid b -> days a = days b -> dateOf a = dateOf b.
Proof.
  intros Va Vb H.
  assert (Y : tYear a = tYear b).
  { destruct (Z.lt_trichotomy (tYear a) (tYear b)) as [L|[E|G]];
      [|exact E|].
    - pose proof (days_year_lt a b Va Vb L). lia.
    - pose proof (days_year_lt b a Vb Va). lia. }
  apply Valid_iff in Va. apply Valid_iff in Vb.
  destruct Va as (Am & Ad & _). destruct Vb as (Bm & Bd & _).
  unfold days, daysFromCivil in H. rewrite Y in *.
  assert (M : tMonth a = tMonth b).
  { destruct (Z.lt_trichotomy (tMonth a) (tMonth b)) as [L|[E|G]];
      [|exact E|].
    - pose proof (daysBefore_mono (tYear b) (tMonth a) (tMonth b)). lia.
    - pose proof (daysBefore_mono (tYear b) (tMonth b) (tMonth a)). lia. }
  rewrite M in *. unfold dateOf. rewrite Y, M. f_equal. lia.
Qed.

(** A time is determined by its instant and its location. *)
Lemma Time_ext (a b : Time) :
  Valid a -> Valid b -> tLoc a = tLoc b -> UnixNano a = UnixNano b -> a = b.
Proof.
  intros Va Vb L U.
  assert (D : days a = days b /\ tSod a = tSod b /\ tNsec a = tNsec b).
  { pose proof Va as Wa. pose proof Vb as Wb.
    apply Valid_iff in Wa. apply Valid_iff in Wb.
    destruct Wa as (_ & _ & As & An). destruct Wb as (_ & _ & Bs & Bn).
    unfold UnixNano in U. rewrite !Unix_days, L in U. lia. }
  destruct D as (D & S & N).
  pose proof (days_inj a b Va Vb D) as E. unfold dateOf in E.
  destruct a, b. cbn in *. inversion E. congruence.
Qed.

Lemma UnixNano_eq (t : Time) :
  UnixNano t =
  (days t * 86400 + tSod t - zoneOffset (tLoc t)) * 1000000000 + tNsec t.
Proof. reflexivity. Qed.

Lemma In_spec (t : Time) (loc : Location) :
  Valid t ->
  Valid (In t loc) /\ UnixNano (In t loc) = UnixNano t /\
  tLoc (In t loc) = loc.
Proof.
  intros V. unfold In.
  pose proof (Add_spec t ((zoneOffset loc - zoneOffset (tLoc t)) * Second) V)
    as (A1 & A2 & A3 & _).
  destruct (Add t ((zoneOffset loc - zoneOffset (tLoc t)) * Second))
    as [y m d sd ns l].
  cbn [tYear tMonth tDay tSod tNsec tLoc] in *. subst l.
  split; [|split]; [| |reflexivity].
  - apply Valid_iff in A1; apply Valid_iff; exact A1.
  - (rewrite UnixNano_eq in A2 |- *).
    (rewrite (UnixNano_eq t) in A2 |- *).
    unfold days in *.
    cbn [tYear tMonth tDay tSod tNsec tLoc] in *.
    unfold Second in A2.
    lia.
Qed.

(** *** The clock and the date from the seconds of the wall *)

Lemma wall_split (t : Time) :
  Valid t -> tSod t = wall t mod 86400 /\ days t = wall t / 86400.
Proof.
  intros V. apply Valid_iff in V. destruct V as (_ & _ & Vs & _).
  unfold wall. Z.div_mod_to_equations. lia.
Qed.

Lemma UnixNano_wall (t : Time) :
  UnixNano t = (wall t - zoneOffset (tLoc t)) * 1000000000 + tNsec t.
Proof. reflexivity. Qed.

Lemma date_of_days (a b : Time) :
  Valid a -> Valid b -> days a = days b ->
  tYear a = tYear b /\ tMonth a = tMonth b /\ tDay a = tDay b.
Proof.
  intros Va Vb H. pose proof (days_inj a b Va Vb H) as E.
  unfold dateOf in E. inversion E. auto.
Qed.

Lemma Year_mono (a b : Time) :
  Valid a -> Valid b -> wall a <= wall b -> tYear a <= tYear b.
Proof.
  intros Va Vb H.
  destruct (Z_le_gt_dec (tYear a) (tYear b)) as [L|G]; [exact L|].
  assert (D : days b < days a) by (apply days_year_lt; auto; lia).
  apply Valid_iff in Va. apply Valid_iff in Vb.
  unfold wall in H. lia.
Qed.

(** [Add] of whole seconds. *)
Lemma Add_seconds (t : Time) (k : Z) :
  Valid t ->
  Valid (Add t (k * 1000000000)) /\
  wall (Add t (k * 1000000000)) = wall t + k /\
  tNsec (Add t (k * 1000000000)) = tNsec t /\
  tLoc (Add t (k * 1000000000)) = tLoc t.
Proof.
  intros V. destruct (Add_spec t (k * 1000000000) V)
    as (A1 & A2 & A3 & _ & A5 & _).
  apply Valid_iff in V. destruct V as (_ & _ & _ & Vn).
  assert (N : tNsec (Add t (k * 1000000000)) = tNsec t).
  { rewrite A5. Z.div_mod_to_equations. lia. }
  split; [exact A1|]. split; [|split; [exact N | exact A3]].
  rewrite !UnixNano_wall, A3, N in A2. lia.
Qed.

Lemma UnixNano_zero : UnixNano zero = -62135596800000000000.
Proof. vm_compute. reflexivity. Qed.

(** [Truncate] to the minute takes off the nanoseconds and less than 60
    seconds; [Truncate] to the second takes off the nanoseconds. *)
Lemma Truncate_Minute (t : Time) :
  Valid t ->
  Valid (Truncate t Minute) /\ tNsec (Truncate t Minute) = 0 /\
  tLoc (Truncate t Minute) = tLoc t /\
  wall t - 59 <= wall (Truncate t Minute) <= wall t /\
  (wall (Truncate t Minute) - zoneOffset (tLoc t)) mod 60 = 0.
Proof.
  intros V. unfold Truncate.
  change (Minute <=? 0) with false. cbv iota.
  rewrite UnixNano_zero. change Minute with 60000000000.
  set (r := (UnixNano t - -62135596800000000000) mod 60000000000).
  destruct (Add_spec t (- r) V) as (A1 & A2 & A3 & _ & A5 & _).
  pose proof V as W. apply Valid_iff in W. destruct W as (_ & _ & _ & Vn).
  assert (R : exists q, 0 <= q < 60 /\ r = q * 1000000000 + tNsec t /\
              (wall t - zoneOffset (tLoc t) - q) mod 60 = 0).
  { exists (r / 1000000000). unfold r. rewrite UnixNano_wall.
    Z.div_mod_to_equations. lia. }
  destruct R as (q & Q1 & Q2 & Q3). clearbody r.
  assert (N : tNsec (Add t (- r)) = 0).
  { rewrite A5, Q2. Z.div_mod_to_equations. lia. }
  split; [exact A1|]. split; [exact N|]. split; [exact A3|].
  rewrite !UnixNano_wall, A3, N in A2.
  assert (Wq : wall (Add t (- r)) = wall t - q) by lia.
  rewrite Wq. split; [lia|].
  replace (wall t - q - zoneOffset (tLoc t))
    with (wall t - zoneOffset (tLoc t) - q) by lia.
  exact Q3.
Qed.

Lemma Truncate_Second (t : Time) :
  Valid t ->
  Valid (Truncate t Second) /\ tNsec (Truncate t Second) = 0 /\
  tLoc (Truncate t Second) = tLoc t /\
  wall (Truncate t Second) = wall t.
Proof.
  intros V. unfold Truncate.
  change (Second <=? 0) with false. cbv iota.
  rewrite UnixNano_zero. change Second with 1000000000.
  set (r := (UnixNano t - -62135596800000000000) mod 1000000000).
  destruct (Add_spec t (- r) V) as (A1 & A2 & A3 & _ & A5 & _).
  pose proof V as W. apply Valid_iff in W. destruct W as (_ & _ & _ & Vn).
  assert (R : r = tNsec t).
  { unfold r. rewrite UnixNano_wall. Z.div_mod_to_equations. lia. }
  clearbody r.
  assert (N : tNsec (Add t (- r)) = 0).
  { rewrite A5, R. Z.div_mod_to_equations. lia. }
  split; [exact A1|]. split; [exact N|]. split; [exact A3|].
  rewrite !UnixNano_wall, A3, N in A2. lia.
Qed.

(** *** Steps of one month and of one day *)

Lemma AddDate_month_next (t : Time) :
  Valid t ->
  days (AddDate t 0 1 0) = days t + daysIn (tYear t) (tMonth t) /\
  ((tMonth (AddDate t 0 1 0) = 1 /\ tYear (AddDate t 0 1 0) = tYear t + 1) \/
   (tYear (AddDate t 0 1 0) = tYear t /\
    tMonth t < tMonth (AddDate t 0 1 0) <= 12)).
Proof.
  intros V. destruct (AddDate_spec t 0 1 0 V) as (_ & _ & _ & _ & D).
  rewrite D. clear D. rewrite AddDate_eq by exact V.
  apply Valid_iff in V. destruct V as (Vm & Vd & _).
  replace (tMonth t + 1 - 1) with (tMonth t) by lia.
  rewrite !Z.add_0_r.
  destruct (Z.eq_dec (tMonth t) 12) as [E|N].
  - rewrite E in *. change (12 / 12) with 1. change (12 mod 12 + 1) with 1.
    rewrite normDate_id by (cbn [daysIn] in *; lia). fields.
    split; [|left; auto].
    unfold days, daysFromCivil. rewrite E.
    pose proof (yearLength (tYear t)). pose proof (daysBefore_dec (tYear t)).
    change (daysIn (tYear t) 12) with 31.
    change (daysBefore (tYear t + 1) 1)
      with (0 + (if isLeap (tYear t + 1) && false then 1 else 0)).
    rewrite andb_false_r. lia.
  - rewrite Z.div_small, Z.mod_small by lia. rewrite Z.add_0_r.
    split.
    + unfold days, daysFromCivil.
      pose proof (daysBefore_next (tYear t) (tMonth t)). lia.
    + right.
      pose proof (daysIn_bounds (tYear t) (tMonth t)).
      pose proof (daysIn_bounds (tYear t) (tMonth t + 1)).
      destruct (Z_le_gt_dec (tDay t) (daysIn (tYear t) (tMonth t + 1)))
        as [L|G].
      * rewrite normDate_id by lia. fields. lia.
      * rewrite normDate_over by lia. unfold nextMonth.
        destruct (12 <=? tMonth t + 1) eqn:E.
        -- apply Z.leb_le in E. assert (M : tMonth t = 11) by lia.
           rewrite M in G. cbn [Z.add daysIn] in G. cbn in G. lia.
        -- apply Z.leb_gt in E. fields. cbn [fst snd]. lia.
Qed.

Lemma AddDate_month_prev (t : Time) :
  Valid t ->
  let u := AddDate t 0 (-1) 0 in
  let p := prevMonth (tYear t) (tMonth t) in
  days u = days t - daysIn (fst p) (snd p) /\
  ((tYear u = fst p /\ tMonth u = snd p /\ tDay u = tDay t) \/
   (1 < tMonth t /\ tYear u = tYear t /\ tMonth u = tMonth t /\
    daysIn (fst p) (snd p) < tDay t /\
    tDay u = tDay t - daysIn (fst p) (snd p))).
Proof.
  intros V u p. subst u.
  destruct (AddDate_spec t 0 (-1) 0 V) as (_ & _ & _ & _ & D).
  rewrite D. clear D. rewrite AddDate_eq by exact V.
  pose proof (prevMonth_days (tYear t) (tMonth t) 0) as P.
  apply Valid_iff in V. destruct V as (Vm & Vd & _).
  specialize (P Vm). subst p. unfold prevMonth in *.
  rewrite !Z.add_0_r.
  destruct (tMonth t <=? 1) eqn:E.
  - apply Z.leb_le in E. assert (M : tMonth t = 1) by lia.
    rewrite M in *. cbn [fst snd].
    change ((1 + -1 - 1) / 12) with (-1).
    change ((1 + -1 - 1) mod 12 + 1) with 12.
    replace (tYear t + -1) with (tYear t - 1) by lia.
    rewrite normDate_id by (cbn [daysIn] in *; lia). fields.
    split; [|left; auto].
    destruct P as [P _]. unfold days, daysFromCivil in *. rewrite M. lia.
  - apply Z.leb_gt in E. cbn [fst snd].
    replace (tMonth t + -1 - 1) with (tMonth t - 2) by lia.
    rewrite Z.div_small, Z.mod_small by lia. rewrite Z.add_0_r.
    replace (tMonth t - 2 + 1) with (tMonth t - 1) by lia.
    destruct P as [P _].
    split; [unfold days, daysFromCivil in *; lia|].
    pose proof (daysIn_bounds (tYear t) (tMonth t - 1)).
    destruct (Z_le_gt_dec (tDay t) (daysIn (tYear t) (tMonth t - 1)))
      as [L|G].
    + rewrite normDate_id by lia. fields. left. auto.
    + pose proof (daysIn_bounds (tYear t) (tMonth t)).
      rewrite normDate_over by lia. unfold nextMonth.
      replace (12 <=? tMonth t - 1) with false
        by (symmetry; apply Z.leb_gt; lia).
      fields. cbn [fst snd]. right. repeat split; lia.
Qed.

Lemma AddDate_day_next (t : Time) :
  Valid t ->
  days (AddDate t 0 0 1) = days t + 1 /\
  dateOf (AddDate t 0 0 1) = dayAfter (tYear t) (tMonth t) (tDay t).
Proof.
  intros V. destruct (AddDate_spec t 0 0 1 V) as (_ & _ & _ & _ & D).
  rewrite D. clear D. rewrite AddDate_eq by exact V.
  apply Valid_iff in V. destruct V as (Vm & Vd & _).
  replace (tMonth t + 0 - 1) with (tMonth t - 1) by lia.
  rewrite Z.div_small, Z.mod_small by lia. rewrite Z.add_0_r.
  replace (tMonth t - 1 + 1) with (tMonth t) by lia.
  rewrite Z.add_0_r.
  split; [unfold days, daysFromCivil; lia|].
  rewrite normDate_succ by assumption.
  destruct (dayAfter _ _ _) as [[y' m'] d']. reflexivity.
Qed.

Lemma AddDate_day_prev (t : Time) :
  Valid t ->
  days (AddDate t 0 0 (-1)) = days t - 1 /\
  dateOf (AddDate t 0 0 (-1)) = dayBefore (tYear t) (tMonth t) (tDay t).
Proof.
  intros V. destruct (AddDate_spec t 0 0 (-1) V) as (_ & _ & _ & _ & D).
  rewrite D. clear D. rewrite AddDate_eq by exact V.
  apply Valid_iff in V. destruct V as (Vm & Vd & _).
  replace (tMonth t + 0 - 1) with (tMonth t - 1) by lia.
  rewrite Z.div_small, Z.mod_small by lia. rewrite Z.add_0_r.
  replace (tMonth t - 1 + 1) with (tMonth t) by lia.
  rewrite Z.add_0_r.
  split; [unfold days, daysFromCivil; lia|].
  change (tDay t + -1) with (tDay t - 1).
  rewrite normDate_pred by assumption.
  destruct (dayBefore _ _ _) as [[y' m'] d']. reflexivity.
Qed.

(** *** Steps of the clock *)

Lemma clock_of_wall (t : Time) :
  Valid t ->
  Hour_ t = (wall t mod 86400) / 3600 /\
  Minute_ t = ((wall t mod 86400) / 60) mod 60 /\
  Second_ t = (wall t mod 86400) mod 60 /\
  days t = wall t / 86400.
Proof.
  intros V. destruct (wall_split t V) as [S D].
  unfold Hour_, Minute_, Second_. rewrite S. auto.
Qed.

(** A step forward of at most one hour that does not reach hour 0 stays
    in the day. *)
Lemma forward_hour (a b : Time) :
  Valid a -> Valid b -> wall a < wall b <= wall a + 3600 ->
  Hour_ b <> 0 ->
  days b = days a /\ Hour_ a <= Hour_ b <= Hour_ a + 1.
Proof.
  intros Va Vb H N.
  destruct (clock_of_wall a Va) as (Ha & _ & _ & Da).
  destruct (clock_of_wall b Vb) as (Hb & _ & _ & Db).
  rewrite Ha, Hb, Da, Db in *. clear Ha Hb Da Db.
  Z.div_mod_to_equations. lia.
Qed.

(** A step forward of at most one minute that does not reach minute 0
    stays in the hour. *)
Lemma forward_minute (a b : Time) :
  Valid a -> Valid b -> wall a < wall b <= wall a + 60 ->
  Minute_ b <> 0 ->
  days b = days a /\ Hour_ b = Hour_ a /\
  Minute_ a <= Minute_ b <= Minute_ a + 1.
Proof.
  intros Va Vb H N.
  destruct (clock_of_wall a Va) as (Ha & Ma & _ & Da).
  destruct (clock_of_wall b Vb) as (Hb & Mb & _ & Db).
  rewrite Ha, Hb, Ma, Mb, Da, Db in *. clear Ha Hb Ma Mb Da Db.
  Z.div_mod_to_equations. lia.
Qed.

Lemma forward_minute_exact (a b : Time) :
  Valid a -> Valid b -> wall b = wall a + 60 ->
  Minute_ b <> 0 -> Minute_ b = Minute_ a + 1.
Proof.
  intros Va Vb H N.
  destruct (clock_of_wall a Va) as (_ & Ma & _ & _).
  destruct (clock_of_wall b Vb) as (_ & Mb & _ & _).
  rewrite Ma, Mb in *. clear Ma Mb.
  Z.div_mod_to_equations. lia.
Qed.

(** A step forward of one second that does not reach second 0 stays in
    the minute. *)
Lemma forward_second (a b : Time) :
  Valid a -> Valid b -> wall b = wall a + 1 ->
  Second_ b <> 0 ->
  days b = days a /\ Hour_ b = Hour_ a /\ Minute_ b = Minute_ a /\
  Second_ b = Second_ a + 1.
Proof.
  intros Va Vb H N.
  destruct (clock_of_wall a Va) as (Ha & Ma & Sa & Da).
  destruct (clock_of_wall b Vb) as (Hb & Mb & Sb & Db).
  rewrite Ha, Hb, Ma, Mb, Sa, Sb, Da, Db in *.
  clear Ha Hb Ma Mb Sa Sb Da Db.
  Z.div_mod_to_equations. lia.
Qed.

Lemma forward_hour_exact (a b : Time) :
  Valid a -> Valid b -> wall b = wall a + 3600 ->
  Hour_ b <> 0 -> Hour_ b = Hour_ a + 1.
Proof.
  intros Va Vb H N.
  destruct (clock_of_wall a Va) as (Ha & _).
  destruct (clock_of_wall b Vb) as (Hb & _).
  rewrite Ha, Hb in *. clear Ha Hb.
  Z.div_mod_to_equations. lia.
Qed.

(** *** Steps back of the clock *)

Lemma backward_second (a b : Time) :
  Valid a -> Valid b -> wall b = wall a - 1 ->
  Second_ b = if Second_ a =? 0 then 59 else Second_ a - 1.
Proof.
  intros Va Vb H.
  destruct (clock_of_wall a Va) as (_ & _ & Sa & _).
  destruct (clock_of_wall b Vb) as (_ & _ & Sb & _).
  rewrite Sa, Sb, H. clear Sa Sb H.
  destruct (_ =? 0) eqn:E; [apply Z.eqb_eq in E|apply Z.eqb_neq in E];
    Z.div_mod_to_equations; lia.
Qed.

Lemma backward_minute (a b : Time) :
  Valid a -> Valid b -> wall b = wall a - 60 ->
  Minute_ b = if Minute_ a =? 0 then 59 else Minute_ a - 1.
Proof.
  intros Va Vb H.
  destruct (clock_of_wall a Va) as (_ & Sa & _ & _).
  destruct (clock_of_wall b Vb) as (_ & Sb & _ & _).
  rewrite Sa, Sb, H. clear Sa Sb H.
  destruct (_ =? 0) eqn:E; [apply Z.eqb_eq in E|apply Z.eqb_neq in E];
    Z.div_mod_to_equations; lia.
Qed.

Lemma backward_hour (a b : Time) :
  Valid a -> Valid b -> wall b = wall a - 3600 ->
  Hour_ b = if Hour_ a =? 0 then 23 else Hour_ a - 1.
Proof.
  intros Va Vb H.
  destruct (clock_of_wall a Va) as (Sa & _ & _ & _).
  destruct (clock_of_wall b Vb) as (Sb & _ & _ & _).
  rewrite Sa, Sb, H. clear Sa Sb H.
  destruct (_ =? 0) eqn:E; [apply Z.eqb_eq in E|apply Z.eqb_neq in E];
    Z.div_mod_to_equations; lia.
Qed.

(** *** Steps of one year *)

Lemma year_shift (y m d : Z) :
  1 <= m <= 12 ->
  365 <= daysFromCivil (y + 1) m d - daysFromCivil y m d <= 366.
Proof.
  intros Hm. unfold daysFromCivil. rewrite yearLength.
  assert (B : daysBefore (y + 1) m - daysBefore y m
              = (if isLeap (y + 1) && (3 <=? m) then 1 else 0)
                - (if isLeap y && (3 <=? m) then 1 else 0)).
  { unfold daysBefore. lia. }
  destruct (isLeap y), (isLeap (y + 1)), (3 <=? m); cbn [andb] in B; lia.
Qed.

Lemma AddDate_year_days (t : Time) (k : Z) :
  Valid t ->
  days (AddDate t k 0 0) = daysFromCivil (tYear t + k) (tMonth t) (tDay t).
Proof.
  intros V. destruct (AddDate_spec t k 0 0 V) as (_ & _ & _ & _ & D).
  rewrite D. apply Valid_iff in V. destruct V as (Vm & _).
  replace (tMonth t + 0 - 1) with (tMonth t - 1) by lia.
  rewrite Z.div_small, Z.mod_small by lia.
  rewrite !Z.add_0_r. f_equal. lia.
Qed.

(** A year back, a year forward and a month back: the steps of the year
    loop of [Prev] and of the correction that follows it. *)
Lemma year_round_trip (t : Time) :
  Valid t ->
  let t2 := AddDate t (-1) 0 0 in
  let x := AddDate t2 1 0 0 in
  let t3 := AddDate x 0 (-1) 0 in
  365 <= days t - days t2 <= 366 /\
  days t <= days x <= days t + 1 /\
  days x - 31 <= days t3 <= days x - 28 /\
  (tMonth t = 1 ->
   tMonth t2 = 1 /\ days x = days t /\ days t3 = days t - 31 /\
   tMonth t3 = 12 /\ tYear t3 = tYear t - 1).
Proof.
  intros V t2 x t3.
  destruct (AddDate_spec t (-1) 0 0 V) as (V2 & _).
  destruct (AddDate_spec t2 1 0 0 V2) as (Vx & _).
  pose proof (AddDate_year_days t (-1) V) as D2.
  pose proof (AddDate_year_days t2 1 V2) as Dx.
  destruct (AddDate_years t (-1) V) as (Y2 & C2).
  destruct (AddDate_years t2 1 V2) as (Yx & Cx).
  destruct (AddDate_month_prev x Vx) as (D3 & C3).
  fold t2 in D2, Y2, C2, Dx, Yx, Cx. fold x in Dx, Yx, Cx, D3, C3.
  fold t3 in D3, C3. cbv zeta in D3, C3.
  pose proof V as W. apply Valid_iff in W. destruct W as (Vm & Vd & _).
  pose proof (year_shift (tYear t - 1) (tMonth t) (tDay t) Vm) as S1.
  replace (tYear t - 1 + 1) with (tYear t) in S1 by lia.
  replace (tYear t + -1) with (tYear t - 1) in * by lia.
  assert (A1 : 365 <= days t - days t2 <= 366).
  { rewrite D2. unfold days. lia. }
  assert (A2 : days t <= days x <= days t + 1 /\
               (tMonth t = 1 -> days x = days t)).
  { rewrite Dx, Y2. replace (tYear t - 1 + 1) with (tYear t) by lia.
    destruct C2 as [(M2 & Dd2)|(M & Dd & M2 & Dd2)].
    - rewrite M2, Dd2. unfold days. lia.
    - rewrite M2, Dd2. unfold days. rewrite M, Dd in *.
      assert (Lp : isLeap (tYear t) = true).
      { cbn [daysIn] in Vd. destruct (isLeap (tYear t)); [reflexivity|lia]. }
      unfold daysFromCivil, daysBefore. rewrite Lp. cbn. lia. }
  destruct A2 as (A2 & A2').
  pose proof (daysIn_bounds (fst (prevMonth (tYear x) (tMonth x)))
                            (snd (prevMonth (tYear x) (tMonth x)))) as Bp.
  split; [exact A1|]. split; [exact A2|]. split; [lia|].
  intros M1.
  assert (Mt2 : tMonth t2 = 1) by (destruct C2 as [(M2 & _)|(M & _)]; lia).
  assert (Mx : tMonth x = 1) by (destruct Cx as [(M2 & _)|(M & _)]; lia).
  split; [exact Mt2|]. split; [auto|].
  rewrite Mx in *. unfold prevMonth in *.
  change (1 <=? 1) with true in *. cbv iota in *. cbn [fst snd] in *.
  change (daysIn (tYear x - 1) 12) with 31 in *.
  destruct C3 as [(C31 & C32 & C33)|(C31 & _)]; [|lia].
  rewrite A2' in D3 by exact M1. repeat split; lia.
Qed.

End timeFacts.

(** ** The loops *)

Import timeFacts.

Lemma wrapLoop_Return {S : Type} (pass : S -> flow S) (n : nat) (st : S)
      (r : time.Time) :
  pass st = Return r -> wrapLoop pass n st = Return r.
Proof.
  induction n as [|n IH]; intros H; simpl.
  - exact H.
  - rewrite IH by exact H. reflexivity.
Qed.

Lemma Bit_cases (x i : Z) : Bit x i = 0 \/ Bit x i = 1.
Proof. unfold Bit. destruct (Z.testbit x i); simpl; auto. Qed.

Lemma Bit_set (x i : Z) : (Bit x i >? 0) = Z.testbit x i.
Proof. unfold Bit. destruct (Z.testbit x i); reflexivity. Qed.

Lemma Bit_one (x i : Z) : (Bit x i =? 0) = false <-> Bit x i = 1.
Proof.
  rewrite Z.eqb_neq. destruct (Bit_cases x i) as [E|E]; rewrite E; split;
    intros H; try reflexivity; try discriminate; try lia.
Qed.

(** A time matches when the bits of its fields are set and [dayMatches]
    holds; a bit of the year mask is set for a year from 1970 only. *)
Lemma matches_bits (s : SpecSchedule) (u : time.Time) :
  matches s u = true <->
  Bit (Second s) (time.Second_ u) = 1 /\
  Bit (Minute s) (time.Minute_ u) = 1 /\
  Bit (Hour s) (time.Hour_ u) = 1 /\
  Bit (Month s) (time.Month u) = 1 /\
  dayMatches s u = true /\
  Bit (Year s) (time.Year u - minYear) = 1.
Proof.
  unfold matches, yearOk, monthOk, hourOk, minuteOk, secondOk.
  rewrite !andb_true_iff, !negb_true_iff, orb_false_iff, !Bit_one.
  rewrite Z.ltb_ge.
  split.
  - intros (((((Y & M) & D) & H) & Mi) & S). tauto.
  - intros (S & Mi & H & M & D & Y). repeat split; try assumption.
    destruct (Z_le_gt_dec minYear (time.Year u)) as [L|G]; [exact L|].
    unfold Bit in Y. rewrite Z.testbit_neg_r in Y by lia. discriminate Y.
Qed.

Section PrevFall.
Variables (s : SpecSchedule) (loc : time.Location) (yearLimit : Z).

Lemma prevYearLoop_ok n st :
  yearOk s (pT st) = true ->
  prevYearLoop s loc yearLimit (S n) st = Fall st.
Proof.
  unfold yearOk. intros H. apply negb_true_iff in H.
  cbn [prevYearLoop]. rewrite H. reflexivity.
Qed.

Lemma prevMonthLoop_ok n st :
  monthOk s (pT st) = true -> prevMonthLoop s loc (S n) st = Fall st.
Proof.
  unfold monthOk. intros H. apply negb_true_iff in H.
  cbn [prevMonthLoop]. rewrite H. reflexivity.
Qed.

Lemma prevDayLoop_ok n st :
  dayMatches s (pT st) = true -> prevDayLoop s loc (S n) st = Fall st.
Proof. intros H. cbn [prevDayLoop]. rewrite H. reflexivity. Qed.

Lemma prevHourLoop_ok n st :
  hourOk s (pT st) = true -> prevHourLoop s loc (S n) st = Fall st.
Proof.
  unfold hourOk. intros H. apply negb_true_iff in H.
  cbn [prevHourLoop]. rewrite H. reflexivity.
Qed.

Lemma prevMinuteLoop_ok n st :
  minuteOk s (pT st) = true -> prevMinuteLoop s (S n) st = Fall st.
Proof.
  unfold minuteOk. intros H. apply negb_true_iff in H.
  cbn [prevMinuteLoop]. rewrite H. reflexivity.
Qed.

Lemma prevSecondLoop_ok n st :
  secondOk s (pT st) = true -> prevSecondLoop s (S n) st = Fall st.
Proof.
  unfold secondOk. intros H. apply negb_true_iff in H.
  cbn [prevSecondLoop]. rewrite H. reflexivity.
Qed.
End PrevFall.

Lemma inSchedule_spec (s : SpecSchedule) (t : time.Time) :
  time.Valid t ->
  time.Valid (inSchedule s t) /\ time.UnixNano (inSchedule s t) = time.UnixNano t /\
  time.tLoc (inSchedule s t) = effectiveLocation s t.
Proof.
  intros V. unfold inSchedule, effectiveLocation, time.LocationOf.
  destruct (time.isLocal (Location s)); cbn [negb].
  - auto.
  - apply In_spec. exact V.
Qed.

(** ** The start of [Next] and its year loop *)

Lemma nextStart_spec (s : SpecSchedule) (t : time.Time) :
  time.Valid t ->
  time.Valid (nextStart s t) /\
  time.UnixNano (nextStart s t) =
    time.UnixNano t - 1000000000 - time.tNsec (inSchedule s t) /\
  time.Year (nextStart s t) <= time.Year (inSchedule s t) /\
  time.tLoc (nextStart s t) = effectiveLocation s t.
Proof.
  intros V. destruct (inSchedule_spec s t V) as (Vu & Uu & Lu).
  unfold nextStart. set (u := inSchedule s t) in *.
  unfold time.Nanosecond_, time.Nanosecond, time.Second.
  set (d := -1 * 1000000000 - time.tNsec u * 1).
  destruct (Add_spec u d Vu) as (A1 & A2 & A3 & _).
  split; [exact A1|]. split; [rewrite A2, Uu; unfold d; lia|].
  split; [|congruence].
  pose proof (Add_date u d Vu) as (D0 & _ & D1).
  pose proof Vu as W. apply Valid_iff in W. destruct W as (Vm & Vd & Vs & Vn).
  assert (N : (time.tNsec u + d) / 1000000000 = -1).
  { unfold d. Z.div_mod_to_equations. lia. }
  rewrite N in D0, D1.
  assert (C : (time.tSod u + -1) / 86400 = 0 \/
              (time.tSod u + -1) / 86400 = -1).
  { Z.div_mod_to_equations. lia. }
  unfold time.Year.
  destruct C as [C|C].
  - apply D0 in C. unfold time.dateOf in C. inversion C. lia.
  - apply D1 in C. unfold time.dateOf in C.
    pose proof (dayBefore_year (time.tYear u) (time.tMonth u) (time.tDay u) Vm).
    destruct (time.dayBefore _ _ _) as [[y' m'] d']. inversion C.
    cbn [fst] in *. lia.
Qed.

Lemma Date_first_of_year (y : Z) (loc : time.Location) :
  time.Date y 1 1 0 0 0 0 loc = time.mkTime y 1 1 0 0 loc.
Proof. apply Date_id; cbn; lia. Qed.

Section NextYear.
Variables (s : SpecSchedule) (loc : time.Location) (yearLimit : Z).

Lemma nextYearExceeded_iff (t : time.Time) :
  nextYearExceeded yearLimit t = true <-> lastYear yearLimit < time.Year t.
Proof.
  unfold nextYearExceeded, lastYear.
  rewrite orb_true_iff, !Z.gtb_ltb, !Z.ltb_lt. lia.
Qed.

(** When no year up to the bound is in the schedule, the year loop
    returns the zero time. *)
Lemma nextYearLoop_none (n : nat) : forall st,
  time.Valid (nT st) ->
  time.Year (nT st) <= lastYear yearLimit ->
  lastYear yearLimit - time.Year (nT st) < Z.of_nat n ->
  (forall y, time.Year (nT st) <= y <= lastYear yearLimit ->
             y < minYear \/ Bit (Year s) (y - minYear) = 0) ->
  nextYearLoop s loc yearLimit n st = Return time.zero.
Proof.
  induction n as [|n IH]; intros st V Hy Hn Hno; [lia|].
  cbn [nextYearLoop].
  assert (G : (time.Year (nT st) <? minYear)
              || (Bit (Year s) (time.Year (nT st) - minYear) =? 0) = true).
  { apply orb_true_iff. rewrite Z.ltb_lt, Z.eqb_eq. apply Hno. lia. }
  rewrite G.
  set (t1 := if negb (nAdded st)
             then time.Date (time.Year (nT st)) 1 1 0 0 0 0 loc
             else nT st).
  assert (V1 : time.Valid t1 /\ time.Year t1 = time.Year (nT st)).
  { unfold t1. destruct (nAdded st); cbn [negb]; [auto|].
    rewrite Date_first_of_year. split; [reflexivity|reflexivity]. }
  destruct V1 as [V1 Y1].
  destruct (AddDate_years t1 1 V1) as [Y2 _].
  destruct (AddDate_spec t1 1 0 0 V1) as [V2 _].
  destruct (nextYearExceeded yearLimit (time.AddDate t1 1 0 0)) eqn:E;
    [reflexivity|].
  assert (L : ~ lastYear yearLimit < time.Year (time.AddDate t1 1 0 0)).
  { intro H. apply nextYearExceeded_iff in H. congruence. }
  unfold time.Year in *.
  apply IH; cbn [nT]; try assumption; try lia.
  intros y Hy'. apply Hno. lia.
Qed.
End NextYear.

(** [Next] returns the zero time when no year from that of its start to
    the bound is in the schedule. *)
Lemma Next_none (s : SpecSchedule) (t : time.Time) :
  time.Valid t ->
  (forall y, time.Year (nextStart s t) <= y <=
             lastYear (time.Year (nextStart s t) + 5) ->
             y < minYear \/ Bit (Year s) (y - minYear) = 0) ->
  Next s t = Some time.zero.
Proof.
  intros V Hno. destruct (nextStart_spec s t V) as (Vs & _).
  unfold Next.
  rewrite wrapLoop_Return with (r := time.zero); [reflexivity|].
  unfold nextPass. cbn [nT].
  destruct (nextYearExceeded _ _) eqn:E; [reflexivity|].
  assert (L : ~ lastYear (time.Year (nextStart s t) + 5)
                < time.Year (nextStart s t)).
  { intro H. apply nextYearExceeded_iff in H. congruence. }
  rewrite nextYearLoop_none; [reflexivity | exact Vs | cbn [nT]; lia | |
                              exact Hno].
  cbn [nT]. unfold lastYear, loopFuel in *. lia.
Qed.

(** ** The claims on single steps and on single runs *)

(** C5.  [dayMatches] is the conjunction of the day-of-month bit of the day
    and the day-of-week bit of the weekday when bit 160 is set in the
    day-of-month mask or in the day-of-week mask, and their disjunction
    otherwise; the weekday is a number from 0 to 6, and it counts from 0 on
    a Sunday: the week from Sunday 2024-01-07 to Saturday 2024-01-13 has the
    weekdays 0 to 6. *)
Theorem dayMatches_rule (s : SpecSchedule) (t : time.Time) :
  dayMatches s t =
    (let domMatch := Z.testbit (Dom s) (time.Day t) in
     let dowMatch := Z.testbit (Dow s) (time.Weekday t) in
     if Z.testbit (Dom s) 160 || Z.testbit (Dow s) 160
     then domMatch && dowMatch else domMatch || dowMatch)
  /\ 0 <= time.Weekday t <= 6
  /\ map (fun d => time.Weekday (time.Date 2024 1 d 0 0 0 0 time.UTC))
         [7; 8; 9; 10; 11; 12; 13] = [0; 1; 2; 3; 4; 5; 6].
Proof.
  split; [|split].
  - unfold dayMatches, maxBits. rewrite !Bit_set. reflexivity.
  - unfold time.Weekday.
    pose proof (Z.mod_pos_bound
      (time.daysFromCivil (time.tYear t) (time.tMonth t) (time.tDay t) + 4) 7).
    lia.
  - reflexivity.
Qed.

(** C1 fails on the code.  With the schedule of every second, [Next] at
    2024-05-05T10:00:30Z returns 10:00:29, one second before the given
    time: the search starts one second before the given time, not at the
    second after it. *)
Theorem Next_returns_earlier_instant :
  let t := time.Date 2024 5 5 10 0 30 0 time.UTC in
  Next everySecond t = Some (time.Date 2024 5 5 10 0 29 0 time.UTC) /\
  time.IsZero (time.Date 2024 5 5 10 0 29 0 time.UTC) = false /\
  time.UnixNano (time.Date 2024 5 5 10 0 29 0 time.UTC) < time.UnixNano t.
Proof. vm_compute. repeat split; reflexivity. Qed.

(** C3 fails on the code.  With the schedule of every second of December
    2030, [Prev] at 2030-06-15T10:00:00Z steps the month back from January
    2030 to December 2029 and returns 2029-12-31T00:00:00Z without going
    back to the year step: the year 2029 is not in the schedule. *)
Theorem Prev_returns_unchecked_year :
  let t := time.Date 2030 6 15 10 0 0 0 time.UTC in
  Prev december2030 t = Some (time.Date 2029 12 31 0 0 0 0 time.UTC) /\
  time.IsZero (time.Date 2029 12 31 0 0 0 0 time.UTC) = false /\
  Bit (Year december2030) (2029 - minYear) = 0.
Proof. vm_compute. repeat split; reflexivity. Qed.

(** C6.  [Next] returns the zero time when every year from the year at
    which the search starts to the year of the given time plus 5, and no
    further than 2099, is before 1970 or not in the year mask: advancing
    the year then goes past the year of the given time plus 5 or past
    2099.  For the schedule of the year 2030 alone, [Next] at
    2035-01-01T00:00:00Z returns the zero time. *)
Theorem Next_zero_beyond_horizon (s : SpecSchedule) (t : time.Time) :
  time.Valid t ->
  (forall y, time.Year (nextStart s t) <= y <=
             Z.min (time.Year (inSchedule s t) + 5) maxYear ->
             y < minYear \/ Bit (Year s) (y - minYear) = 0) ->
  Next s t = Some time.zero /\
  Next only2030 (time.Date 2035 1 1 0 0 0 0 time.UTC) = Some time.zero.
Proof.
  intros V H. split.
  - apply Next_none; [exact V|].
    destruct (nextStart_spec s t V) as (_ & _ & Y & _).
    intros y Hy. apply H. unfold lastYear in Hy. lia.
  - vm_compute. reflexivity.
Qed.

(** C10, amended.  In locations with a fixed offset, [Next] returns the
    zero time at every time whose year, read in the location of the
    schedule, is at most 1964, whatever the schedule: the years that the
    search visits end at that year plus 5, before 1970. *)
Theorem Next_zero_before_1965 (s : SpecSchedule) (t : time.Time) :
  time.Valid t ->
  time.Year (inSchedule s t) <= 1964 ->
  Next s t = Some time.zero.
Proof.
  intros V H. apply Next_none; [exact V|].
  destruct (nextStart_spec s t V) as (_ & _ & Y & _).
  intros y Hy. left. unfold lastYear, minYear, maxYear in *. lia.
Qed.

(** C10 fails on the code as it is stated.  The year that bounds the search
    is the one of the given time in the location of the schedule: 23:00 of
    1964-12-31 in UTC is in 1965 five and a half hours east of UTC, and
    [Next] with the schedule of every hour there returns the first hour of
    1970 of that location. *)
Theorem Next_from_1964_returns_time :
  let t := time.Date 1964 12 31 23 0 0 0 time.UTC in
  let r := time.Date 1969 12 31 18 30 0 0 time.UTC in
  time.Year t = 1964 /\ Next hourlyEast t = Some r /\
  time.IsZero r = false /\
  time.In r (effectiveLocation hourlyEast t)
  = time.Date 1970 1 1 0 0 0 0 (time.FixedZone 19800).
Proof.
  repeat split; vm_compute; reflexivity.
Qed.

(** ** The loops of [Next] *)

Lemma wall_lt_of_days (a b : time.Time) :
  time.Valid a -> time.Valid b -> time.days a < time.days b ->
  time.wall a < time.wall b.
Proof.
  intros Va Vb H. apply Valid_iff in Va. apply Valid_iff in Vb.
  unfold time.wall. lia.
Qed.

Lemma yearOk_year (s : SpecSchedule) (a b : time.Time) :
  time.tYear a = time.tYear b -> yearOk s a = yearOk s b.
Proof. intros H. unfold yearOk, time.Year. rewrite H. reflexivity. Qed.

Lemma monthOk_month (s : SpecSchedule) (a b : time.Time) :
  time.tMonth a = time.tMonth b -> monthOk s a = monthOk s b.
Proof. intros H. unfold monthOk, time.Month. rewrite H. reflexivity. Qed.

Lemma dayMatches_date (s : SpecSchedule) (a b : time.Time) :
  time.tYear a = time.tYear b -> time.tMonth a = time.tMonth b ->
  time.tDay a = time.tDay b -> dayMatches s a = dayMatches s b.
Proof.
  intros Y M D. unfold dayMatches, time.Day, time.Weekday.
  rewrite Y, M, D. reflexivity.
Qed.

Lemma dateOk_days (s : SpecSchedule) (a b : time.Time) :
  time.Valid a -> time.Valid b -> time.days a = time.days b ->
  dateOk s a = dateOk s b.
Proof.
  intros Va Vb H. destruct (date_of_days a b Va Vb H) as (Y & M & D).
  unfold dateOk.
  rewrite (yearOk_year s a b Y), (monthOk_month s a b M),
          (dayMatches_date s a b Y M D).
  reflexivity.
Qed.

Lemma dateOk_parts (s : SpecSchedule) (t : time.Time) :
  dateOk s t = true <->
  yearOk s t = true /\ monthOk s t = true /\ dayMatches s t = true.
Proof. unfold dateOk. rewrite !andb_true_iff. tauto. Qed.

Lemma advanced_trans (a b c : nextState) :
  time.wall (nT a) <= time.wall (nT b) ->
  advanced a b -> advanced b c -> advanced a c.
Proof.
  intros W [->|[A1 A2]] [->|[B1 B2]]; unfold advanced; auto.
  right. split; [assumption | lia].
Qed.

Lemma advanced_wall (a b : nextState) :
  advanced a b -> time.wall (nT a) <= time.wall (nT b).
Proof. intros [->|[_ H]]; lia. Qed.

Section NextSound.
Variables (s : SpecSchedule) (loc : time.Location) (yearLimit : Z).

Lemma nextHeld_hour (st : nextState) :
  nextHeld s st -> nAdded st = true -> dateOk s (nT st) = false ->
  time.Hour_ (nT st) = 0.
Proof. intros J A D. destruct (J A) as [H|H]; [exact H | congruence]. Qed.

Lemma nextYearLoop_spec (n : nat) : forall st,
  nextBase loc (nT st) -> nextHeld s st ->
  time.Year (nT st) <= lastYear yearLimit ->
  lastYear yearLimit - time.Year (nT st) < Z.of_nat n ->
  match nextYearLoop s loc yearLimit n st with
  | Fall st' =>
      nextBase loc (nT st') /\ nextHeld s st' /\
      yearOk s (nT st') = true /\ advanced st st' /\
      time.Year (nT st') <= lastYear yearLimit
  | Return r => r = time.zero
  | _ => False
  end.
Proof.
  induction n as [|n IH]; intros st B J Hy Hn; [lia|].
  cbn [nextYearLoop].
  destruct ((time.Year (nT st) <? minYear)
            || (Bit (Year s) (time.Year (nT st) - minYear) =? 0)) eqn:G.
  2:{ unfold yearOk. rewrite G.
      split; [assumption|split; [assumption|split;
        [reflexivity|split; [left; reflexivity|exact Hy]]]]. }
  assert (NY : yearOk s (nT st) = false) by (unfold yearOk; rewrite G; auto).
  assert (ND : dateOk s (nT st) = false) by (unfold dateOk; rewrite NY; auto).
  destruct B as (V & L & N).
  set (t1 := if negb (nAdded st)
             then time.Date (time.Year (nT st)) 1 1 0 0 0 0 loc
             else nT st).
  assert (T1 : time.Valid t1 /\ time.tLoc t1 = loc /\ time.tNsec t1 = 0 /\
               time.tYear t1 = time.tYear (nT st) /\ time.Hour_ t1 = 0).
  { unfold t1. destruct (nAdded st) eqn:A; cbn [negb].
    - repeat split; try assumption. apply nextHeld_hour; assumption.
    - rewrite Date_first_of_year. repeat split. }
  destruct T1 as (V1 & L1 & N1 & Y1 & H1).
  destruct (AddDate_years t1 1 V1) as [Y2 _].
  destruct (AddDate_spec t1 1 0 0 V1) as (V2 & L2 & S2 & N2 & _).
  set (u := time.AddDate t1 1 0 0) in *.
  destruct (nextYearExceeded yearLimit u) eqn:E; [reflexivity|].
  assert (Le : ~ lastYear yearLimit < time.Year u).
  { intro H. apply nextYearExceeded_iff in H. congruence. }
  assert (W : time.wall (nT st) < time.wall u).
  { apply wall_lt_of_days; try assumption.
    apply days_year_lt; try assumption. lia. }
  unfold time.Year in *.
  assert (Hu : time.Hour_ u = 0).
  { unfold time.Hour_ in *. rewrite S2. exact H1. }
  assert (Bu : nextBase loc u) by (unfold nextBase; repeat split; congruence).
  assert (Ju : nextHeld s (mkNext u true)) by (intros _; left; exact Hu).
  assert (R := IH (mkNext u true) Bu Ju).
  cbn [nT] in R. specialize (R ltac:(lia) ltac:(lia)).
  destruct (nextYearLoop s loc yearLimit n (mkNext u true)) as [st'| | |];
    try exact R.
  destruct R as (B' & J' & Y' & A' & L').
  split; [assumption|split; [assumption|split; [assumption|split;
    [|exact L']]]].
  eapply advanced_trans; [| |exact A'].
  - cbn [nT]. lia.
  - right. cbn [nT nAdded]. auto.
Qed.

Lemma Date_first_of_month (t : time.Time) :
  time.Valid t ->
  time.Date (time.Year t) (time.Month t) 1 0 0 0 0 loc =
  time.mkTime (time.tYear t) (time.tMonth t) 1 0 0 loc.
Proof.
  intros V. apply Valid_iff in V. destruct V as (Vm & Vd & _).
  pose proof (daysIn_bounds (time.tYear t) (time.tMonth t)).
  apply Date_id; unfold time.Year, time.Month; lia.
Qed.

Lemma nextMonthLoop_spec (n : nat) : forall st,
  nextBase loc (nT st) -> nextHeld s st ->
  yearOk s (nT st) = true ->
  12 - time.Month (nT st) < Z.of_nat n ->
  match nextMonthLoop s loc n st with
  | Fall st' =>
      nextBase loc (nT st') /\ nextHeld s st' /\
      yearOk s (nT st') = true /\ monthOk s (nT st') = true /\
      advanced st st' /\ time.tYear (nT st') = time.tYear (nT st)
  | Wrap st' =>
      nextBase loc (nT st') /\ nAdded st' = true /\
      time.Hour_ (nT st') = 0 /\ time.wall (nT st) < time.wall (nT st')
  | _ => False
  end.
Proof.
  induction n as [|n IH]; intros st B J Yk Hn.
  { destruct B as (V & _). apply Valid_iff in V. unfold time.Month in Hn.
    lia. }
  cbn [nextMonthLoop].
  destruct (Bit (Month s) (time.Month (nT st)) =? 0) eqn:G.
  2:{ unfold monthOk. rewrite G.
      split; [assumption|split; [assumption|split; [assumption|split;
        [reflexivity|split; [left; reflexivity|reflexivity]]]]]. }
  assert (NM : monthOk s (nT st) = false) by (unfold monthOk; rewrite G; auto).
  assert (ND : dateOk s (nT st) = false).
  { unfold dateOk. rewrite NM. apply andb_false_iff. left.
    apply andb_false_r. }
  destruct B as (V & L & N).
  pose proof V as W0. apply Valid_iff in W0.
  destruct W0 as (Vm & Vd & Vs & Vn).
  set (t1 := if negb (nAdded st)
             then time.Date (time.Year (nT st)) (time.Month (nT st)) 1
                            0 0 0 0 loc
             else nT st).
  assert (T1 : time.Valid t1 /\ time.tLoc t1 = loc /\ time.tNsec t1 = 0 /\
               time.tYear t1 = time.tYear (nT st) /\
               time.tMonth t1 = time.tMonth (nT st) /\
               time.Hour_ t1 = 0 /\
               time.days (nT st) < time.days t1
                 + time.daysIn (time.tYear t1) (time.tMonth t1)).
  { unfold t1. destruct (nAdded st) eqn:A; cbn [negb].
    - repeat split; try assumption.
      + apply nextHeld_hour; assumption.
      + lia.
    - rewrite Date_first_of_month by exact V.
      pose proof (daysIn_bounds (time.tYear (nT st)) (time.tMonth (nT st))).
      repeat split; fields; try lia.
      + apply Valid_iff. fields. lia.
      + unfold time.days, time.daysFromCivil. fields. lia. }
  destruct T1 as (V1 & L1 & N1 & Y1 & M1 & H1 & D1).
  destruct (AddDate_month_next t1 V1) as [D2 C2].
  destruct (AddDate_spec t1 0 1 0 V1) as (V2 & L2 & S2 & N2 & _).
  set (u := time.AddDate t1 0 1 0) in *.
  assert (W : time.wall (nT st) < time.wall u).
  { apply wall_lt_of_days; try assumption. lia. }
  assert (Hu : time.Hour_ u = 0).
  { unfold time.Hour_ in *. rewrite S2. exact H1. }
  assert (Bu : nextBase loc u) by (unfold nextBase; repeat split; congruence).
  unfold time.Month, time.January in *.
  destruct (time.tMonth u =? 1) eqn:E.
  { cbn [nT nAdded]. auto. }
  apply Z.eqb_neq in E.
  destruct C2 as [[C2 _]|[Yu Mu]]; [congruence|].
  assert (Ju : nextHeld s (mkNext u true)) by (intros _; left; exact Hu).
  assert (R := IH (mkNext u true) Bu Ju).
  cbn [nT] in R.
  rewrite (yearOk_year s u (nT st)) in R by congruence.
  specialize (R Yk ltac:(lia)).
  destruct (nextMonthLoop s loc n (mkNext u true)) as [st'|st'| |];
    try exact R.
  - destruct R as (B' & J' & Y' & M' & A' & E'). cbn [nT] in E'.
    split; [assumption|split; [assumption|split; [assumption|split;
      [assumption|split; [|congruence]]]]].
    eapply advanced_trans; [| |exact A'].
    + cbn [nT]. lia.
    + right. cbn [nT nAdded]. auto.
  - destruct R as (B' & A' & H' & W').
    cbn [nT] in W'.
    split; [assumption|split; [assumption|split; [assumption|lia]]].
Qed.

Lemma fixMidnight_id (t : time.Time) :
  time.Hour_ t = 0 -> fixMidnight t = t.
Proof. intros H. unfold fixMidnight. rewrite H. reflexivity. Qed.

Lemma Date_midnight (t : time.Time) :
  time.Valid t ->
  time.Date (time.Year t) (time.Month t) (time.Day t) 0 0 0 0 loc =
  time.mkTime (time.tYear t) (time.tMonth t) (time.tDay t) 0 0 loc.
Proof.
  intros V. apply Valid_iff in V. destruct V as (Vm & Vd & _).
  apply Date_id; unfold time.Year, time.Month, time.Day; lia.
Qed.

Lemma dayAfter_cases (t u : time.Time) :
  time.dateOf u = time.dayAfter (time.tYear t) (time.tMonth t) (time.tDay t) ->
  time.tDay u = 1 \/
  (time.tYear u = time.tYear t /\ time.tMonth u = time.tMonth t /\
   time.tDay u = time.tDay t + 1).
Proof.
  unfold time.dateOf, time.dayAfter. intros H.
  destruct (time.tDay t <? _); inversion H; auto.
Qed.

Lemma nextDayLoop_spec (n : nat) : forall st,
  nextBase loc (nT st) -> nextHeld s st ->
  yearOk s (nT st) = true -> monthOk s (nT st) = true ->
  31 - time.Day (nT st) < Z.of_nat n ->
  match nextDayLoop s loc n st with
  | Fall st' =>
      nextBase loc (nT st') /\ dateOk s (nT st') = true /\ advanced st st' /\
      time.tYear (nT st') = time.tYear (nT st)
  | Wrap st' =>
      nextBase loc (nT st') /\ nAdded st' = true /\
      time.Hour_ (nT st') = 0 /\ time.wall (nT st) < time.wall (nT st')
  | _ => False
  end.
Proof.
  induction n as [|n IH]; intros st B J Yk Mk Hn.
  { destruct B as (V & _). apply Valid_iff in V. unfold time.Day in Hn.
    pose proof (daysIn_bounds (time.tYear (nT st)) (time.tMonth (nT st))).
    lia. }
  cbn [nextDayLoop].
  destruct (dayMatches s (nT st)) eqn:G; cbn [negb].
  { split; [assumption|split; [|split; [left; reflexivity|reflexivity]]].
    apply dateOk_parts. auto. }
  assert (ND : dateOk s (nT st) = false).
  { unfold dateOk. rewrite G. apply andb_false_r. }
  destruct B as (V & L & N).
  pose proof V as W0. apply Valid_iff in W0.
  destruct W0 as (Vm & Vd & Vs & Vn).
  set (t1 := if negb (nAdded st)
             then time.Date (time.Year (nT st)) (time.Month (nT st))
                            (time.Day (nT st)) 0 0 0 0 loc
             else nT st).
  assert (T1 : time.Valid t1 /\ time.tLoc t1 = loc /\ time.tNsec t1 = 0 /\
               time.dateOf t1 = time.dateOf (nT st) /\
               time.Hour_ t1 = 0).
  { unfold t1. destruct (nAdded st) eqn:A; cbn [negb].
    - repeat split; try assumption. apply nextHeld_hour; assumption.
    - rewrite Date_midnight by exact V.
      repeat split. apply Valid_iff. fields. lia. }
  destruct T1 as (V1 & L1 & N1 & E1 & H1).
  destruct (AddDate_day_next t1 V1) as [D2 C2].
  destruct (AddDate_spec t1 0 0 1 V1) as (V2 & L2 & S2 & N2 & _).
  assert (Hu : time.Hour_ (time.AddDate t1 0 0 1) = 0).
  { unfold time.Hour_ in *. rewrite S2. exact H1. }
  rewrite fixMidnight_id by exact Hu.
  set (u := time.AddDate t1 0 0 1) in *.
  unfold time.dateOf in E1. inversion E1 as [[Ey Em Ed]].
  assert (W : time.wall (nT st) < time.wall u).
  { apply wall_lt_of_days; try assumption.
    unfold time.days in *. rewrite Ey, Em, Ed in D2. lia. }
  assert (Bu : nextBase loc u) by (unfold nextBase; repeat split; congruence).
  unfold time.Day in *.
  destruct (time.tDay u =? 1) eqn:E.
  { cbn [nT nAdded]. auto. }
  apply Z.eqb_neq in E.
  apply dayAfter_cases in C2.
  destruct C2 as [C2|(Yu & Mu & Du)]; [congruence|].
  assert (Ju : nextHeld s (mkNext u true)) by (intros _; left; exact Hu).
  assert (R := IH (mkNext u true) Bu Ju).
  cbn [nT] in R.
  rewrite (yearOk_year s u (nT st)) in R by congruence.
  rewrite (monthOk_month s u (nT st)) in R by congruence.
  specialize (R Yk Mk ltac:(lia)).
  destruct (nextDayLoop s loc n (mkNext u true)) as [st'|st'| |];
    try exact R.
  - destruct R as (B' & D' & A' & E'). cbn [nT] in E'.
    split; [assumption|split; [assumption|split; [|congruence]]].
    eapply advanced_trans; [| |exact A'].
    + cbn [nT]. lia.
    + right. cbn [nT nAdded]. auto.
  - destruct R as (B' & A' & H' & W').
    cbn [nT] in W'.
    split; [assumption|split; [assumption|split; [assumption|lia]]].
Qed.

Lemma Date_top_of_hour (t : time.Time) :
  time.Valid t ->
  let u := time.Date (time.Year t) (time.Month t) (time.Day t)
                     (time.Hour_ t) 0 0 0 loc in
  time.Valid u /\ time.tLoc u = loc /\ time.tNsec u = 0 /\
  time.days u = time.days t /\ time.Hour_ u = time.Hour_ t /\
  time.wall u <= time.wall t < time.wall u + 3600.
Proof.
  intros V u. subst u. pose proof V as W. apply Valid_iff in W.
  destruct W as (Vm & Vd & Vs & Vn).
  destruct (clock_bounds (nT (mkNext t true)) Vs) as (Bh & _).
  cbn [nT] in Bh.
  rewrite Date_id by (unfold time.Year, time.Month, time.Day; lia).
  unfold time.wall, time.days, time.Hour_, time.Year, time.Month,
    time.Day in *. fields.
  split; [apply Valid_iff; fields; lia|].
  repeat split; try (Z.div_mod_to_equations; lia).
Qed.

Lemma hourOk_hour (a b : time.Time) :
  time.Hour_ a = time.Hour_ b -> hourOk s a = hourOk s b.
Proof. intros H. unfold hourOk. rewrite H. reflexivity. Qed.

Lemma minuteOk_minute (a b : time.Time) :
  time.Minute_ a = time.Minute_ b -> minuteOk s a = minuteOk s b.
Proof. intros H. unfold minuteOk. rewrite H. reflexivity. Qed.

Lemma nextHourLoop_spec (n : nat) : forall st,
  nextBase loc (nT st) -> dateOk s (nT st) = true ->
  23 - time.Hour_ (nT st) < Z.of_nat n ->
  match nextHourLoop s loc n st with
  | Fall st' =>
      nextBase loc (nT st') /\ dateOk s (nT st') = true /\
      hourOk s (nT st') = true /\ advanced st st' /\
      time.tYear (nT st') = time.tYear (nT st)
  | Wrap st' =>
      nextBase loc (nT st') /\ nAdded st' = true /\
      time.Hour_ (nT st') = 0 /\ time.wall (nT st) < time.wall (nT st')
  | _ => False
  end.
Proof.
  induction n as [|n IH]; intros st B Dk Hn.
  { destruct B as (V & _). apply Valid_iff in V.
    destruct V as (_ & _ & Vs & _).
    destruct (clock_bounds _ Vs) as (Bh & _). lia. }
  cbn [nextHourLoop].
  destruct (Bit (Hour s) (time.Hour_ (nT st)) =? 0) eqn:G.
  2:{ unfold hourOk. rewrite G.
      split; [assumption|split; [assumption|split;
        [reflexivity|split; [left; reflexivity|reflexivity]]]]. }
  destruct B as (V & L & N).
  set (t1 := if negb (nAdded st)
             then time.Date (time.Year (nT st)) (time.Month (nT st))
                            (time.Day (nT st)) (time.Hour_ (nT st))
                            0 0 0 loc
             else nT st).
  assert (T1 : time.Valid t1 /\ time.tLoc t1 = loc /\ time.tNsec t1 = 0 /\
               time.days t1 = time.days (nT st) /\
               time.Hour_ t1 = time.Hour_ (nT st) /\
               time.wall t1 <= time.wall (nT st) < time.wall t1 + 3600).
  { unfold t1. destruct (nAdded st) eqn:A; cbn [negb].
    - repeat split; try assumption; lia.
    - apply Date_top_of_hour. exact V. }
  destruct T1 as (V1 & L1 & N1 & D1 & H1 & W1).
  change (1 * time.Hour) with (3600 * 1000000000).
  destruct (Add_seconds t1 3600 V1) as (V2 & W2 & N2 & L2).
  set (u := time.Add t1 (3600 * 1000000000)) in *.
  assert (Bu : nextBase loc u) by (unfold nextBase; repeat split; congruence).
  destruct (time.Hour_ u =? 0) eqn:E.
  { apply Z.eqb_eq in E. cbn [nT nAdded].
    split; [assumption|split; [reflexivity|split; [assumption|lia]]]. }
  apply Z.eqb_neq in E.
  pose proof (forward_hour_exact t1 u V1 V2 W2 E) as Hx.
  destruct (forward_hour t1 u V1 V2 ltac:(lia) E) as [Dx _].
  assert (R := IH (mkNext u true) Bu).
  cbn [nT] in R.
  rewrite (dateOk_days s u (nT st)) in R by (assumption || congruence).
  specialize (R Dk ltac:(lia)).
  destruct (nextHourLoop s loc n (mkNext u true)) as [st'|st'| |];
    try exact R.
  - destruct R as (B' & D' & H' & A' & E'). cbn [nT] in E'.
    destruct (date_of_days u (nT st) V2 V ltac:(congruence)) as (Yx & _).
    split; [assumption|split; [assumption|split; [assumption|split;
      [|congruence]]]].
    eapply advanced_trans; [| |exact A'].
    + cbn [nT]. lia.
    + right. cbn [nT nAdded]. split; [reflexivity|lia].
  - destruct R as (B' & A' & H' & W').
    cbn [nT] in W'.
    split; [assumption|split; [assumption|split; [assumption|lia]]].
Qed.

Lemma nextMinuteLoop_spec (n : nat) : forall st,
  nextBase loc (nT st) -> dateOk s (nT st) = true ->
  hourOk s (nT st) = true ->
  60 - time.Minute_ (nT st) + (if nAdded st then 0 else 1) <= Z.of_nat n ->
  match nextMinuteLoop s n st with
  | Fall st' =>
      nextBase loc (nT st') /\ dateOk s (nT st') = true /\
      hourOk s (nT st') = true /\ minuteOk s (nT st') = true /\
      advanced st st' /\ time.tYear (nT st') = time.tYear (nT st)
  | Wrap st' =>
      nextBase loc (nT st') /\ nAdded st' = true /\
      (time.Hour_ (nT st') = 0 \/ dateOk s (nT st') = true) /\
      time.wall (nT st) < time.wall (nT st')
  | _ => False
  end.
Proof.
  induction n as [|n IH]; intros st B Dk Hk Hn.
  { destruct B as (V & _). apply Valid_iff in V.
    destruct V as (_ & _ & Vs & _).
    destruct (clock_bounds _ Vs) as (_ & Bm & _).
    destruct (nAdded st); lia. }
  cbn [nextMinuteLoop].
  destruct (Bit (Minute s) (time.Minute_ (nT st)) =? 0) eqn:G.
  2:{ unfold minuteOk. rewrite G.
      split; [assumption|split; [assumption|split; [assumption|split;
        [reflexivity|split; [left; reflexivity|reflexivity]]]]]. }
  destruct B as (V & L & N).
  set (t1 := if negb (nAdded st)
             then time.Truncate (nT st) time.Minute else nT st).
  assert (T1 : time.Valid t1 /\ time.tLoc t1 = loc /\ time.tNsec t1 = 0 /\
               time.wall (nT st) - 59 <= time.wall t1 <= time.wall (nT st) /\
               (nAdded st = true -> t1 = nT st)).
  { unfold t1. destruct (nAdded st) eqn:A; cbn [negb].
    - repeat split; try assumption; lia.
    - destruct (Truncate_Minute (nT st) V) as (T1 & T2 & T3 & T4 & _).
      repeat split; try assumption; try congruence; lia. }
  destruct T1 as (V1 & L1 & N1 & W1 & A1).
  change (1 * time.Minute) with (60 * 1000000000).
  destruct (Add_seconds t1 60 V1) as (V2 & W2 & N2 & L2).
  set (u := time.Add t1 (60 * 1000000000)) in *.
  assert (Bu : nextBase loc u) by (unfold nextBase; repeat split; congruence).
  assert (Wu : time.wall (nT st) < time.wall u <= time.wall (nT st) + 60)
    by lia.
  destruct (time.Minute_ u =? 0) eqn:E.
  { apply Z.eqb_eq in E. cbn [nT nAdded].
    split; [assumption|split; [reflexivity|split; [|lia]]].
    destruct (Z.eq_dec (time.Hour_ u) 0) as [H0|H0]; [left; exact H0|].
    right.
    destruct (forward_hour (nT st) u V V2 ltac:(lia) H0) as [Dx _].
    rewrite (dateOk_days s u (nT st)) by assumption. exact Dk. }
  apply Z.eqb_neq in E.
  destruct (forward_minute (nT st) u V V2 Wu E) as (Dx & Hx & Mx).
  assert (Mu : 60 - time.Minute_ u <= Z.of_nat n).
  { destruct (nAdded st) eqn:A.
    - rewrite (A1 eq_refl) in *.
      pose proof (forward_minute_exact (nT st) u V V2 W2 E). lia.
    - lia. }
  assert (R := IH (mkNext u true) Bu).
  cbn [nT nAdded] in R.
  rewrite (dateOk_days s u (nT st)) in R by assumption.
  rewrite (hourOk_hour u (nT st)) in R by assumption.
  specialize (R Dk Hk ltac:(lia)).
  destruct (nextMinuteLoop s n (mkNext u true)) as [st'|st'| |];
    try exact R.
  - destruct R as (B' & D' & H' & M' & A' & E'). cbn [nT] in E'.
    destruct (date_of_days u (nT st) V2 V Dx) as (Yx & _).
    split; [assumption|split; [assumption|split; [assumption|split;
      [assumption|split; [|congruence]]]]].
    eapply advanced_trans; [| |exact A'].
    + cbn [nT]. lia.
    + right. cbn [nT nAdded]. split; [reflexivity|lia].
  - destruct R as (B' & A' & H' & W').
    cbn [nT] in W'.
    split; [assumption|split; [assumption|split; [assumption|lia]]].
Qed.

Lemma nextSecondLoop_spec (n : nat) : forall st,
  nextBase loc (nT st) -> dateOk s (nT st) = true ->
  hourOk s (nT st) = true -> minuteOk s (nT st) = true ->
  59 - time.Second_ (nT st) < Z.of_nat n ->
  match nextSecondLoop s n st with
  | Fall st' =>
      nextBase loc (nT st') /\ dateOk s (nT st') = true /\
      hourOk s (nT st') = true /\ minuteOk s (nT st') = true /\
      secondOk s (nT st') = true /\ advanced st st' /\
      time.tYear (nT st') = time.tYear (nT st)
  | Wrap st' =>
      nextBase loc (nT st') /\ nAdded st' = true /\
      (time.Hour_ (nT st') = 0 \/ dateOk s (nT st') = true) /\
      time.wall (nT st) < time.wall (nT st')
  | _ => False
  end.
Proof.
  induction n as [|n IH]; intros st B Dk Hk Mk Hn.
  { destruct B as (V & _). apply Valid_iff in V.
    destruct V as (_ & _ & Vs & _).
    destruct (clock_bounds _ Vs) as (_ & _ & Bs). lia. }
  cbn [nextSecondLoop].
  destruct (Bit (Second s) (time.Second_ (nT st)) =? 0) eqn:G.
  2:{ unfold secondOk. rewrite G.
      split; [assumption|split; [assumption|split; [assumption|split;
        [assumption|split; [reflexivity|split;
          [left; reflexivity|reflexivity]]]]]]. }
  destruct B as (V & L & N).
  set (t1 := if negb (nAdded st)
             then time.Truncate (nT st) time.Second else nT st).
  assert (T1 : time.Valid t1 /\ time.tLoc t1 = loc /\ time.tNsec t1 = 0 /\
               time.wall t1 = time.wall (nT st)).
  { unfold t1. destruct (nAdded st) eqn:A; cbn [negb].
    - repeat split; assumption.
    - destruct (Truncate_Second (nT st) V) as (T1 & T2 & T3 & T4).
      repeat split; try assumption; congruence. }
  destruct T1 as (V1 & L1 & N1 & W1).
  change (1 * time.Second) with (1 * 1000000000).
  destruct (Add_seconds t1 1 V1) as (V2 & W2 & N2 & L2).
  set (u := time.Add t1 (1 * 1000000000)) in *.
  assert (Bu : nextBase loc u) by (unfold nextBase; repeat split; congruence).
  assert (Wu : time.wall u = time.wall (nT st) + 1) by lia.
  destruct (time.Second_ u =? 0) eqn:E.
  { apply Z.eqb_eq in E. cbn [nT nAdded].
    split; [assumption|split; [reflexivity|split; [|lia]]].
    destruct (Z.eq_dec (time.Hour_ u) 0) as [H0|H0]; [left; exact H0|].
    right.
    destruct (forward_hour (nT st) u V V2 ltac:(lia) H0) as [Dx _].
    rewrite (dateOk_days s u (nT st)) by assumption. exact Dk. }
  apply Z.eqb_neq in E.
  destruct (forward_second (nT st) u V V2 Wu E) as (Dx & Hx & Mx & Sx).
  assert (R := IH (mkNext u true) Bu).
  cbn [nT nAdded] in R.
  rewrite (dateOk_days s u (nT st)) in R by assumption.
  rewrite (hourOk_hour u (nT st)) in R by assumption.
  rewrite (minuteOk_minute u (nT st)) in R by assumption.
  specialize (R Dk Hk Mk ltac:(lia)).
  destruct (nextSecondLoop s n (mkNext u true)) as [st'|st'| |];
    try exact R.
  - destruct R as (B' & D' & H' & M' & S' & A' & E'). cbn [nT] in E'.
    destruct (date_of_days u (nT st) V2 V Dx) as (Yx & _).
    split; [assumption|split; [assumption|split; [assumption|split;
      [assumption|split; [assumption|split; [|congruence]]]]]].
    eapply advanced_trans; [| |exact A'].
    + cbn [nT]. lia.
    + right. cbn [nT nAdded]. split; [reflexivity|lia].
  - destruct R as (B' & A' & H' & W').
    cbn [nT] in W'.
    split; [assumption|split; [assumption|split; [assumption|lia]]].
Qed.

Lemma nextPass_spec (orig : time.Location) (st : nextState) :
  nextBase loc (nT st) -> nextHeld s st ->
  lastYear yearLimit - 69 <= time.Year (nT st) ->
  match nextPass s loc yearLimit orig st with
  | Return r =>
      (r = time.zero /\
       forall o, nextPass s loc yearLimit o st = Return time.zero) \/
      exists u, r = time.In u orig /\ nextBase loc u /\ matches s u = true /\
                time.wall (nT st) <= time.wall u /\
                time.tYear u <= lastYear yearLimit /\
                forall o, nextPass s loc yearLimit o st
                          = Return (time.In u o)
  | Wrap st' =>
      nextBase loc (nT st') /\ nextHeld s st' /\
      time.wall (nT st) < time.wall (nT st') /\
      time.Year (nT st) <= lastYear yearLimit /\
      forall o, nextPass s loc yearLimit o st = Wrap st'
  | _ => False
  end.
Proof.
  intros B J Hy. unfold nextPass.
  destruct (nextYearExceeded yearLimit (nT st)) eqn:E;
    [left; split; [reflexivity|intros; reflexivity]|].
  assert (Le : time.Year (nT st) <= lastYear yearLimit).
  { destruct (Z_le_gt_dec (time.Year (nT st)) (lastYear yearLimit));
      [assumption|].
    assert (X : nextYearExceeded yearLimit (nT st) = true)
      by (apply nextYearExceeded_iff; lia).
    congruence. }
  pose proof (nextYearLoop_spec loopFuel st B J Le) as R1.
  specialize (R1 ltac:(unfold loopFuel; lia)).
  destruct (nextYearLoop s loc yearLimit loopFuel st) as [s1| |r|];
    cbn [andThen]; try contradiction;
    [|left; split; [exact R1|intros; rewrite R1; reflexivity]].
  destruct R1 as (B1 & J1 & Y1 & A1 & L1).
  pose proof (advanced_wall _ _ A1) as W1.
  assert (M1b : 1 <= time.Month (nT s1)).
  { destruct B1 as (V & _). apply Valid_iff in V. unfold time.Month. lia. }
  pose proof (nextMonthLoop_spec loopFuel s1 B1 J1 Y1) as R2.
  specialize (R2 ltac:(unfold loopFuel; lia)).
  destruct (nextMonthLoop s loc loopFuel s1) as [s2|s2| |];
    cbn [andThen]; try contradiction.
  2:{ destruct R2 as (B2 & A2 & H2 & W2).
      split; [assumption|split; [|split; [lia|split;
        [assumption|intros; reflexivity]]]].
      intros _. left. exact H2. }
  destruct R2 as (B2 & J2 & Y2 & M2 & A2 & E2).
  pose proof (advanced_wall _ _ A2) as W2.
  assert (D2b : 1 <= time.Day (nT s2)).
  { destruct B2 as (V & _). apply Valid_iff in V. unfold time.Day. lia. }
  pose proof (nextDayLoop_spec loopFuel s2 B2 J2 Y2 M2) as R3.
  specialize (R3 ltac:(unfold loopFuel; lia)).
  destruct (nextDayLoop s loc loopFuel s2) as [s3|s3| |];
    cbn [andThen]; try contradiction.
  2:{ destruct R3 as (B3 & A3 & H3 & W3).
      split; [assumption|split; [|split; [lia|split;
        [assumption|intros; reflexivity]]]].
      intros _. left. exact H3. }
  destruct R3 as (B3 & D3 & A3 & E3).
  pose proof (advanced_wall _ _ A3) as W3.
  assert (C3 : 0 <= time.Hour_ (nT s3) /\ 0 <= time.Minute_ (nT s3)).
  { destruct B3 as (V & _). apply Valid_iff in V.
    destruct V as (_ & _ & Vs & _).
    destruct (clock_bounds _ Vs) as (? & ? & ?). lia. }
  pose proof (nextHourLoop_spec loopFuel s3 B3 D3) as R4.
  specialize (R4 ltac:(unfold loopFuel; lia)).
  destruct (nextHourLoop s loc loopFuel s3) as [s4|s4| |];
    cbn [andThen]; try contradiction.
  2:{ destruct R4 as (B4 & A4 & H4 & W4).
      split; [assumption|split; [|split; [lia|split;
        [assumption|intros; reflexivity]]]].
      intros _. left. exact H4. }
  destruct R4 as (B4 & D4 & H4 & A4 & E4).
  pose proof (advanced_wall _ _ A4) as W4.
  assert (C4 : 0 <= time.Minute_ (nT s4) /\ 0 <= time.Second_ (nT s4)).
  { destruct B4 as (V & _). apply Valid_iff in V.
    destruct V as (_ & _ & Vs & _).
    destruct (clock_bounds _ Vs) as (? & ? & ?). lia. }
  pose proof (nextMinuteLoop_spec loopFuel s4 B4 D4 H4) as R5.
  specialize (R5 ltac:(unfold loopFuel; destruct (nAdded s4); lia)).
  destruct (nextMinuteLoop s loopFuel s4) as [s5|s5| |];
    cbn [andThen]; try contradiction.
  2:{ destruct R5 as (B5 & A5 & H5 & W5).
      split; [assumption|split; [|split; [lia|split;
        [assumption|intros; reflexivity]]]].
      intros _. exact H5. }
  destruct R5 as (B5 & D5 & H5 & M5 & A5 & E5).
  pose proof (advanced_wall _ _ A5) as W5.
  assert (C5 : 0 <= time.Second_ (nT s5)).
  { destruct B5 as (V & _). apply Valid_iff in V.
    destruct V as (_ & _ & Vs & _).
    destruct (clock_bounds _ Vs) as (? & ? & ?). lia. }
  pose proof (nextSecondLoop_spec loopFuel s5 B5 D5 H5 M5) as R6.
  specialize (R6 ltac:(unfold loopFuel; lia)).
  destruct (nextSecondLoop s loopFuel s5) as [s6|s6| |];
    cbn [andThen]; try contradiction.
  2:{ destruct R6 as (B6 & A6 & H6 & W6).
      split; [assumption|split; [|split; [lia|split;
        [assumption|intros; reflexivity]]]].
      intros _. exact H6. }
  destruct R6 as (B6 & D6 & H6 & M6 & S6 & A6 & E6).
  pose proof (advanced_wall _ _ A6) as W6.
  right. exists (nT s6). split; [reflexivity|split; [assumption|]].
  apply dateOk_parts in D6. destruct D6 as (Y6 & Mo6 & Dm6).
  split; [unfold matches; rewrite Y6, Mo6, Dm6, H6, M6, S6; reflexivity|].
  split; [lia|]. unfold time.Year in L1.
  split; [congruence|intros; reflexivity].
Qed.
End NextSound.

(** ** Passes *)

(** When every pass that does not return lowers a measure that stays
    above 0, [wrapLoop n] returns on states of measure below [2 ^ n]. *)
Lemma wrapLoop_spec {S : Type} (pass : S -> flow S) (P : S -> Prop)
      (mu : S -> Z) (Q : time.Time -> Prop) :
  (forall st, P st ->
     match pass st with
     | Return r => Q r
     | Wrap st' => P st' /\ mu st' < mu st /\ 0 <= mu st'
     | _ => False
     end) ->
  forall n st, P st ->
    match wrapLoop pass n st with
    | Return r => Q r
    | Wrap st' => P st' /\ mu st' + 2 ^ Z.of_nat n <= mu st /\ 0 <= mu st'
    | _ => False
    end.
Proof.
  intros Hpass. induction n as [|n IH]; intros st Pst.
  - cbn [wrapLoop]. specialize (Hpass st Pst).
    destruct (pass st); try assumption.
    change (2 ^ Z.of_nat 0) with 1.
    destruct Hpass as (H1 & H2 & H3).
    split; [assumption|split; lia].
  - cbn [wrapLoop]. pose proof (IH st Pst) as R.
    destruct (wrapLoop pass n st) as [x|st1|r|]; try assumption.
    destruct R as (P1 & M1 & N1).
    pose proof (IH st1 P1) as R2.
    destruct (wrapLoop pass n st1) as [x|st2|r|]; try assumption.
    destruct R2 as (P2 & M2 & N2).
    split; [assumption|split; [|assumption]].
    rewrite Nat2Z.inj_succ, Z.pow_succ_r by lia. lia.
Qed.

Lemma wrapLoop_total {S : Type} (pass : S -> flow S) (P : S -> Prop)
      (mu : S -> Z) (Q : time.Time -> Prop) (n : nat) (st : S) :
  (forall st, P st ->
     match pass st with
     | Return r => Q r
     | Wrap st' => P st' /\ mu st' < mu st /\ 0 <= mu st'
     | _ => False
     end) ->
  P st -> mu st < 2 ^ Z.of_nat n ->
  exists r, wrapLoop pass n st = Return r /\ Q r.
Proof.
  intros Hpass Pst Hmu.
  pose proof (wrapLoop_spec pass P mu Q Hpass n st Pst) as R.
  destruct (wrapLoop pass n st) as [x|st1|r|]; try contradiction.
  - lia.
  - exists r. auto.
Qed.

(** The first instant of a year. *)
Lemma first_of_year (y : Z) (loc : time.Location) (t : time.Time) :
  time.Valid t ->
  (time.tYear t < y -> time.wall t < time.daysSinceEpoch y * 86400) /\
  (y <= time.tYear t -> time.daysSinceEpoch y * 86400 <= time.wall t).
Proof.
  intros V.
  assert (Vb : time.Valid (time.mkTime y 1 1 0 0 loc)) by reflexivity.
  assert (Wb : time.wall (time.mkTime y 1 1 0 0 loc)
               = time.daysSinceEpoch y * 86400).
  { unfold time.wall, time.days, time.daysFromCivil. fields.
    change (time.daysBefore y 1)
      with (0 + (if time.isLeap y && false then 1 else 0)).
    rewrite andb_false_r. lia. }
  split; intros H.
  - rewrite <- Wb. apply wall_lt_of_days; try assumption.
    apply days_year_lt; assumption.
  - rewrite <- Wb.
    pose proof V as W. apply Valid_iff in W.
    destruct W as (Vm & Vd & Vs & _).
    pose proof (dayOfYear_bounds _ _ _ Vm Vd).
    pose proof (daysSinceEpoch_le y (time.tYear t) H).
    unfold time.wall, time.days, time.daysFromCivil in *. fields. lia.
Qed.

(** The result of [Next]: the search ends, with the zero time or with a
    time that matches every field of the schedule, at or after the start
    of the search and in a year that the search visits. *)
Lemma Next_spec_full (s : SpecSchedule) (t : time.Time) :
  time.Valid t ->
  exists r, Next s t = Some r /\
    (r = time.zero \/
     exists u, r = time.In u (time.LocationOf t) /\
               nextBase (effectiveLocation s t) u /\ matches s u = true /\
               time.wall (nextStart s t) <= time.wall u /\
               time.tYear u <= lastYear (time.Year (nextStart s t) + 5)).
Proof.
  intros V. destruct (nextStart_spec s t V) as (Vs & Us & Ys & Ls).
  unfold Next.
  set (loc := effectiveLocation s t) in *.
  set (t0 := nextStart s t) in *.
  set (lim := time.Year t0 + 5).
  set (bound := time.daysSinceEpoch (lastYear lim + 1) * 86400).
  assert (N0 : time.tNsec t0 = 0).
  { pose proof Vs as W. apply Valid_iff in W. destruct W as (_ & _ & _ & Vn).
    destruct (inSchedule_spec s t V) as (Vi & Ui & Li).
    pose proof Vi as Wi. apply Valid_iff in Wi.
    destruct Wi as (_ & _ & _ & Vin).
    rewrite !UnixNano_wall in Us. rewrite !UnixNano_wall in Ui.
    lia. }
  pose proof (wrapLoop_total
    (nextPass s loc lim (time.LocationOf t))
    (fun st => nextBase loc (nT st) /\ nextHeld s st /\
               time.wall t0 <= time.wall (nT st))
    (fun st => Z.max 0 (bound - time.wall (nT st)))
    (fun r => r = time.zero \/
              exists u, r = time.In u (time.LocationOf t) /\
                        nextBase loc u /\ matches s u = true /\
                        time.wall t0 <= time.wall u /\
                        time.tYear u <= lastYear lim)
    wrapFuel (mkNext t0 false)) as T.
  destruct T as (r & R1 & R2).
  - intros st (B & J & W).
    assert (Y : lim - 5 <= time.Year (nT st)).
    { unfold lim, time.Year.
      pose proof (Year_mono t0 (nT st) Vs (proj1 B) W). lia. }
    pose proof (nextPass_spec s loc lim (time.LocationOf t) st B J) as R.
    specialize (R ltac:(unfold lastYear; lia)).
    destruct (nextPass s loc lim (time.LocationOf t) st) as [x|st'|r|];
      try assumption.
    2:{ destruct R as [[-> _]|(u & Ru & Bu & Mu & Wu & Yu & _)];
          [left; reflexivity|].
        right. exists u. repeat (split; [assumption|]).
        split; [lia|assumption]. }
    destruct R as (B' & J' & W' & Y' & _).
    split; [split; [assumption|split; [assumption|lia]]|].
    destruct (first_of_year (lastYear lim + 1) loc (nT st) (proj1 B))
      as [F _].
    unfold time.Year in Y'. specialize (F ltac:(lia)). fold bound in F. lia.
  - cbn [nT nAdded]. split; [|split; [|lia]].
    + unfold nextBase. auto.
    + intros A. discriminate A.
  - cbn [nT].
    destruct (first_of_year (time.tYear t0) loc t0 Vs) as [_ F].
    specialize (F ltac:(lia)).
    assert (Bd : bound <= time.daysSinceEpoch (time.tYear t0) * 86400
                          + 2196 * 86400).
    { unfold bound.
      destruct (Z_le_gt_dec (time.tYear t0) (lastYear lim + 1)) as [L|G].
      - pose proof (daysSinceEpoch_le (time.tYear t0) (lastYear lim + 1) L).
        unfold lastYear, lim, time.Year in *. lia.
      - pose proof (daysSinceEpoch_le (lastYear lim + 1) (time.tYear t0)).
        lia. }
    change (2 ^ Z.of_nat wrapFuel) with 18446744073709551616. lia.
  - exists r. rewrite R1. auto.
Qed.

Lemma Next_spec (s : SpecSchedule) (t : time.Time) :
  time.Valid t ->
  exists r, Next s t = Some r /\
    (r = time.zero \/
     exists u, r = time.In u (time.LocationOf t) /\
               nextBase (effectiveLocation s t) u /\ matches s u = true).
Proof.
  intros V. destruct (Next_spec_full s t V) as (r & E & R).
  exists r. split; [exact E|].
  destruct R as [R|(u & Ru & Bu & Mu & _)]; [left; exact R|].
  right. exists u. auto.
Qed.

Lemma In_In (t : time.Time) (l1 l2 : time.Location) :
  time.Valid t -> time.In (time.In t l1) l2 = time.In t l2.
Proof.
  intros V.
  destruct (In_spec t l1 V) as (V1 & U1 & L1).
  destruct (In_spec (time.In t l1) l2 V1) as (V2 & U2 & L2).
  destruct (In_spec t l2 V) as (V3 & U3 & L3).
  apply Time_ext; congruence.
Qed.

Lemma In_same (t : time.Time) :
  time.Valid t -> time.In t (time.tLoc t) = t.
Proof.
  intros V. destruct (In_spec t (time.tLoc t) V) as (V1 & U1 & L1).
  apply Time_ext; congruence.
Qed.

(** X22.  In locations with a fixed offset, a result of [Next] that is not
    the zero time, read in the location in which the schedule is
    evaluated, matches every field of the schedule: the bits of its
    second, minute, hour and month are set, [dayMatches] holds, and the
    bit of its year is set. *)
Theorem Next_result_matches (s : SpecSchedule) (t r : time.Time) :
  time.Valid t ->
  Next s t = Some r ->
  time.IsZero r = false ->
  let u := time.In r (effectiveLocation s t) in
  Bit (Second s) (time.Second_ u) = 1 /\
  Bit (Minute s) (time.Minute_ u) = 1 /\
  Bit (Hour s) (time.Hour_ u) = 1 /\
  Bit (Month s) (time.Month u) = 1 /\
  dayMatches s u = true /\
  Bit (Year s) (time.Year u - minYear) = 1.
Proof.
  intros V E Z u.
  destruct (Next_spec s t V) as (r' & E' & R).
  rewrite E in E'. inversion E'. subst r'. clear E'.
  destruct R as [->|(w & Rw & (Vw & Lw & Nw) & M)].
  { discriminate Z. }
  assert (U : u = w).
  { unfold u. rewrite Rw, In_In by assumption.
    rewrite <- Lw. apply In_same. assumption. }
  rewrite U. apply matches_bits. exact M.
Qed.

(** ** Positions *)

Lemma wallNano_Unix (t : time.Time) :
  time.UnixNano t = wallNano t - time.zoneOffset (time.tLoc t) * 1000000000.
Proof. unfold wallNano. rewrite UnixNano_wall. lia. Qed.

Lemma wallNano_Add (t : time.Time) (d : Z) :
  time.Valid t ->
  time.Valid (time.Add t d) /\ time.tLoc (time.Add t d) = time.tLoc t /\
  wallNano (time.Add t d) = wallNano t + d.
Proof.
  intros V. destruct (Add_spec t d V) as (A1 & A2 & A3 & _).
  split; [exact A1|]. split; [exact A3|].
  rewrite !wallNano_Unix, A3 in A2. lia.
Qed.

Lemma wallNano_Truncate (t : time.Time) (d : Z) :
  time.Valid t -> 0 < d ->
  time.Valid (time.Truncate t d) /\
  time.tLoc (time.Truncate t d) = time.tLoc t /\
  wallNano t - d < wallNano (time.Truncate t d) <= wallNano t.
Proof.
  intros V Hd. unfold time.Truncate.
  replace (d <=? 0) with false by (symmetry; apply Z.leb_gt; exact Hd).
  set (r := (time.UnixNano t - time.UnixNano time.zero) mod d).
  assert (R : 0 <= r < d) by (apply Z.mod_pos_bound; exact Hd).
  clearbody r.
  destruct (wallNano_Add t (- r) V) as (A1 & A2 & A3).
  split; [exact A1|]. split; [exact A2|]. lia.
Qed.

Lemma wallNano_AddDate (t : time.Time) (yy mm dd : Z) :
  time.Valid t ->
  time.Valid (time.AddDate t yy mm dd) /\
  time.tLoc (time.AddDate t yy mm dd) = time.tLoc t /\
  time.tSod (time.AddDate t yy mm dd) = time.tSod t /\
  wallNano (time.AddDate t yy mm dd) =
    wallNano t
    + (time.days (time.AddDate t yy mm dd) - time.days t) * 86400000000000.
Proof.
  intros V. destruct (AddDate_spec t yy mm dd V) as (A1 & A2 & A3 & A4 & _).
  split; [exact A1|]. split; [exact A2|]. split; [exact A3|].
  unfold wallNano, time.wall. rewrite A3, A4. lia.
Qed.

Lemma wallNano_wall (a b : time.Time) :
  time.Valid a -> time.Valid b -> wallNano a <= wallNano b ->
  time.wall a <= time.wall b.
Proof.
  intros Va Vb H. apply Valid_iff in Va. apply Valid_iff in Vb.
  unfold wallNano in H. lia.
Qed.

Section PrevFix.
Variable s : SpecSchedule.
Variable loc : time.Location.

Lemma prevMinuteFix_spec (st : prevState) :
  prevBase loc (pT st) ->
  prevBase loc (pT (prevMinuteFix st)) /\
  wallNano (pT (prevMinuteFix st)) = wallNano (pT st) + slackMinute st /\
  pAdded (prevMinuteFix st) = pAdded st /\
  addYear (prevMinuteFix st) = addYear st /\
  addMonth (prevMinuteFix st) = addMonth st /\
  addDay (prevMinuteFix st) = addDay st /\
  addHour (prevMinuteFix st) = addHour st /\
  addMinute (prevMinuteFix st) = false.
Proof.
  intros (V & L). unfold prevMinuteFix, slackMinute.
  destruct (addMinute st) eqn:A.
  - cbn [pT pAdded addYear addMonth addDay addHour addMinute].
    destruct (wallNano_Add (pT st) (1 * time.Minute) V) as (V1 & L1 & W1).
    destruct (wallNano_Add _ (-1 * time.Second) V1) as (V2 & L2 & W2).
    change (1 * time.Minute) with 60000000000 in *.
    change (-1 * time.Second) with (-1000000000) in *.
    unfold prevBase. repeat split; try congruence. lia.
  - unfold prevBase. repeat split; try assumption. lia.
Qed.

Lemma prevHourFix_spec (st : prevState) :
  prevBase loc (pT st) ->
  prevBase loc (pT (prevHourFix st)) /\
  wallNano (pT (prevHourFix st)) =
    wallNano (pT st) + (if addHour st then 3540000000000 else 0) /\
  pAdded (prevHourFix st) = pAdded st /\
  addYear (prevHourFix st) = addYear st /\
  addMonth (prevHourFix st) = addMonth st /\
  addDay (prevHourFix st) = addDay st /\
  addHour (prevHourFix st) = false /\
  addMinute (prevHourFix st) = addMinute st.
Proof.
  intros (V & L). unfold prevHourFix.
  destruct (addHour st) eqn:A.
  - cbn [pT pAdded addYear addMonth addDay addHour addMinute].
    destruct (wallNano_Add (pT st) (1 * time.Hour) V) as (V1 & L1 & W1).
    destruct (wallNano_Add _ (-1 * time.Minute) V1) as (V2 & L2 & W2).
    change (1 * time.Hour) with 3600000000000 in *.
    change (-1 * time.Minute) with (-60000000000) in *.
    unfold prevBase. repeat split; try congruence. lia.
  - unfold prevBase. repeat split; try assumption. lia.
Qed.

Lemma prevDayFix_spec (st : prevState) :
  prevBase loc (pT st) ->
  prevBase loc (pT (prevDayFix st)) /\
  wallNano (pT (prevDayFix st)) =
    wallNano (pT st) + (if addDay st then 82800000000000 else 0) /\
  pAdded (prevDayFix st) = pAdded st /\
  addYear (prevDayFix st) = addYear st /\
  addMonth (prevDayFix st) = addMonth st /\
  addDay (prevDayFix st) = false /\
  addHour (prevDayFix st) = addHour st /\
  addMinute (prevDayFix st) = addMinute st.
Proof.
  intros (V & L). unfold prevDayFix.
  destruct (addDay st) eqn:A.
  - cbn [pT pAdded addYear addMonth addDay addHour addMinute].
    destruct (wallNano_AddDate (pT st) 0 0 1 V) as (V1 & L1 & _ & W1).
    destruct (AddDate_day_next (pT st) V) as (D1 & _).
    destruct (wallNano_Add _ (-1 * time.Hour) V1) as (V2 & L2 & W2).
    change (-1 * time.Hour) with (-3600000000000) in *.
    unfold prevBase. repeat split; try congruence. lia.
  - unfold prevBase. repeat split; try assumption. lia.
Qed.

Lemma prevMonthFix_spec (st : prevState) :
  prevBase loc (pT st) ->
  prevBase loc (pT (prevMonthFix st)) /\
  wallNano (pT (prevMonthFix st)) =
    wallNano (pT st) +
    (if addMonth st
     then (time.daysIn (time.tYear (pT st)) (time.tMonth (pT st)) - 1)
          * 86400000000000
     else 0) /\
  pAdded (prevMonthFix st) = pAdded st /\
  addYear (prevMonthFix st) = addYear st /\
  addMonth (prevMonthFix st) = false /\
  addDay (prevMonthFix st) = addDay st /\
  addHour (prevMonthFix st) = addHour st /\
  addMinute (prevMonthFix st) = addMinute st.
Proof.
  intros (V & L). unfold prevMonthFix.
  destruct (addMonth st) eqn:A.
  - cbn [pT pAdded addYear addMonth addDay addHour addMinute].
    destruct (wallNano_AddDate (pT st) 0 1 0 V) as (V1 & L1 & _ & W1).
    destruct (AddDate_month_next (pT st) V) as (D1 & _).
    destruct (wallNano_AddDate _ 0 0 (-1) V1) as (V2 & L2 & _ & W2).
    destruct (AddDate_day_prev _ V1) as (D2 & _).
    unfold prevBase. repeat split; try congruence. lia.
  - unfold prevBase. repeat split; try assumption. lia.
Qed.

(** The position is at or after the time, by at most the pending
    corrections. *)
Lemma vMinute_bounds (st : prevState) :
  prevBase loc (pT st) ->
  wallNano (pT st) <= vMinute s st <= wallNano (pT st) + slackMinute st.
Proof.
  intros B. unfold vMinute, vSecond.
  destruct (prevMinuteFix_spec st B) as (_ & W & _).
  unfold slackMinute in *. destruct (minuteOk s (pT st)), (addMinute st); lia.
Qed.

Lemma vHour_bounds (st : prevState) :
  prevBase loc (pT st) ->
  wallNano (pT st) <= vHour s st <= wallNano (pT st) + slackHour st.
Proof.
  intros B. unfold vHour.
  destruct (prevHourFix_spec st B) as (B1 & W & _ & _ & _ & _ & _ & M).
  pose proof (vMinute_bounds (prevHourFix st) B1) as V1.
  unfold slackHour, slackMinute in *. rewrite M in V1.
  destruct (hourOk s (pT st)), (addHour st), (addMinute st); lia.
Qed.

Lemma vDay_bounds (st : prevState) :
  prevBase loc (pT st) ->
  wallNano (pT st) <= vDay s st <= wallNano (pT st) + slackDay st.
Proof.
  intros B. unfold vDay.
  destruct (prevDayFix_spec st B) as (B1 & W & _ & _ & _ & _ & H & M).
  pose proof (vHour_bounds (prevDayFix st) B1) as V1.
  unfold slackDay, slackHour, slackMinute in *. rewrite H, M in V1.
  destruct (dayMatches s (pT st)), (addDay st), (addHour st),
    (addMinute st); lia.
Qed.

Lemma slackDay_lt (st : prevState) : 0 <= slackDay st < 86400000000000.
Proof.
  unfold slackDay, slackHour, slackMinute.
  destruct (addDay st), (addHour st), (addMinute st); lia.
Qed.

Lemma slackHour_lt (st : prevState) : 0 <= slackHour st < 3600000000000.
Proof.
  unfold slackHour, slackMinute.
  destruct (addHour st), (addMinute st); lia.
Qed.

Lemma slackMinute_lt (st : prevState) : 0 <= slackMinute st < 60000000000.
Proof. unfold slackMinute. destruct (addMinute st); lia. Qed.
End PrevFix.

(** ** The correction of midnight *)

(** [fixMidnight] moves a time to hour 0: back by its hour when the hour
    is at most 12, forward by 24 minus its hour otherwise. *)
Lemma fixMidnight_spec (t : time.Time) :
  time.Valid t ->
  let u := fixMidnight t in
  let h := time.Hour_ t in
  time.Valid u /\ time.tLoc u = time.tLoc t /\ time.Hour_ u = 0 /\
  ((h <= 12 /\ time.days u = time.days t /\
    wallNano u = wallNano t - h * 3600000000000) \/
   (12 < h /\ time.days u = time.days t + 1 /\
    wallNano u = wallNano t + (24 - h) * 3600000000000)).
Proof.
  intros V u h. subst u. unfold fixMidnight. fold h.
  destruct (clock_of_wall t V) as (Hh & _ & _ & Dt).
  pose proof V as W. apply Valid_iff in W. destruct W as (_ & _ & Vs & _).
  destruct (wall_split t V) as (St & _).
  destruct (h =? 0) eqn:E0; cbn [negb].
  { apply Z.eqb_eq in E0. repeat split; try assumption.
    left. repeat split; lia. }
  apply Z.eqb_neq in E0.
  change time.Hour with 3600000000000.
  destruct (h >? 12) eqn:E1.
  - rewrite Z.gtb_ltb in E1. apply Z.ltb_lt in E1.
    replace ((24 - h) * 3600000000000)
      with ((24 - h) * 3600 * 1000000000) by lia.
    destruct (Add_seconds t ((24 - h) * 3600) V) as (V2 & W2 & _ & L2).
    destruct (wallNano_Add t ((24 - h) * 3600 * 1000000000) V)
      as (_ & _ & N2).
    destruct (clock_of_wall _ V2) as (Hu & _ & _ & Du).
    split; [exact V2|]. split; [exact L2|].
    assert (X : time.Hour_ (time.Add t ((24 - h) * 3600 * 1000000000)) = 0 /\
                time.days (time.Add t ((24 - h) * 3600 * 1000000000))
                = time.days t + 1).
    { rewrite Hu, Du, Dt, W2. unfold h in *. rewrite Hh in *.
      Z.div_mod_to_equations. lia. }
    destruct X as [X1 X2].
    split; [exact X1|]. right. repeat split; lia.
  - rewrite Z.gtb_ltb in E1. apply Z.ltb_ge in E1.
    replace (- h * 3600000000000)
      with (- h * 3600 * 1000000000) by lia.
    destruct (Add_seconds t (- h * 3600) V) as (V2 & W2 & _ & L2).
    destruct (wallNano_Add t (- h * 3600 * 1000000000) V)
      as (_ & _ & N2).
    destruct (clock_of_wall _ V2) as (Hu & _ & _ & Du).
    split; [exact V2|]. split; [exact L2|].
    assert (X : time.Hour_ (time.Add t (- h * 3600 * 1000000000)) = 0 /\
                time.days (time.Add t (- h * 3600 * 1000000000))
                = time.days t).
    { rewrite Hu, Du, Dt, W2. unfold h in *. rewrite Hh in *.
      Z.div_mod_to_equations. lia. }
    destruct X as [X1 X2].
    split; [exact X1|]. left. repeat split; lia.
Qed.

(** ** The loops of [Prev] *)

Lemma clock_ranges (t : time.Time) :
  time.Valid t ->
  0 <= time.Hour_ t < 24 /\ 0 <= time.Minute_ t < 60 /\
  0 <= time.Second_ t < 60.
Proof.
  intros V. apply Valid_iff in V. destruct V as (_ & _ & Vs & _).
  apply clock_bounds. exact Vs.
Qed.

(** Case analysis on the tests of a goal. *)
Ltac tests :=
  repeat match goal with
         | H : context [if ?b then _ else _] |- _ => destruct b eqn:?
         | |- context [if ?b then _ else _] => destruct b eqn:?
         end;
  repeat match goal with
         | H : (_ =? _) = true |- _ => apply Z.eqb_eq in H
         | H : (_ =? _) = false |- _ => apply Z.eqb_neq in H
         | H : (_ <? _) = true |- _ => apply Z.ltb_lt in H
         | H : (_ <? _) = false |- _ => apply Z.ltb_ge in H
         | H : (_ <=? _) = true |- _ => apply Z.leb_le in H
         | H : (_ <=? _) = false |- _ => apply Z.leb_gt in H
         end.

(** The month loop of [Prev] lowers its measure: a step goes to the
    month before, or stays in the month and leaves the days past 28. *)
Lemma month_measure (m d m' d' : Z) (n : nat) :
  1 <= m <= 12 ->
  2 * (if m =? 1 then 13 else m) + (if 28 <? d then 1 else 0)
    <= Z.of_nat (S n) ->
  m' <> 1 ->
  (m = 1 /\ m' = 12 /\ d' <= d) \/ (1 < m /\ m' = m - 1 /\ d' <= d) \/
  (m' = m /\ 28 < d /\ d' <= 3) ->
  2 * (if m' =? 1 then 13 else m') + (if 28 <? d' then 1 else 0)
    <= Z.of_nat n.
Proof.
  intros Hm Hn Ne C. rewrite Nat2Z.inj_succ in Hn. tests; lia.
Qed.

Lemma wall_first_of_year (y : Z) (loc : time.Location) :
  time.wall (time.mkTime y 1 1 0 0 loc) = time.daysSinceEpoch y * 86400.
Proof.
  unfold time.wall, time.days, time.daysFromCivil. fields.
  change (time.daysBefore y 1)
    with (0 + (if time.isLeap y && false then 1 else 0)).
  rewrite andb_false_r. lia.
Qed.

Lemma wallNano_first_of_year (loc : time.Location) (t : time.Time) :
  time.Valid t ->
  wallNano (time.mkTime (time.Year t) 1 1 0 0 loc) <= wallNano t.
Proof.
  intros V. destruct (first_of_year (time.tYear t) loc t V) as [_ F].
  specialize (F ltac:(lia)).
  apply Valid_iff in V. destruct V as (_ & _ & _ & Vn).
  unfold wallNano. rewrite wall_first_of_year. fields.
  unfold time.Year. lia.
Qed.

Section PrevSound.
Variables (s : SpecSchedule) (loc : time.Location) (yearLimit : Z).

(** With no correction pending for a field, the position at the field
    is the time or the position at the next field. *)
Lemma vMinute_clear (st : prevState) :
  addMinute st = false -> vMinute s st = wallNano (pT st).
Proof.
  intros A. unfold vMinute, vSecond, prevMinuteFix. rewrite A.
  destruct (minuteOk s (pT st)); reflexivity.
Qed.

Lemma vHour_clear (st : prevState) :
  addHour st = false ->
  vHour s st <= Z.max (wallNano (pT st)) (vMinute s st).
Proof.
  intros A. unfold vHour, prevHourFix. rewrite A.
  destruct (hourOk s (pT st)); lia.
Qed.

Lemma vDay_clear (st : prevState) :
  addDay st = false ->
  vDay s st <= Z.max (wallNano (pT st)) (vHour s st).
Proof.
  intros A. unfold vDay, prevDayFix. rewrite A.
  destruct (dayMatches s (pT st)); lia.
Qed.

Lemma vMonth_clear (st : prevState) :
  addMonth st = false ->
  vMonth s st <= Z.max (wallNano (pT st)) (vDay s st).
Proof.
  intros A. unfold vMonth, prevMonthFix. rewrite A.
  destruct (monthOk s (pT st)); lia.
Qed.

Lemma vYear_clear (st : prevState) :
  addYear st = false ->
  vYear s st <= Z.max (wallNano (pT st)) (vMonth s st).
Proof.
  intros A. unfold vYear, prevYearFix. rewrite A.
  destruct (yearOk s (pT st)); lia.
Qed.

Lemma vYear_all_clear (st : prevState) :
  addYear st = false -> addMonth st = false -> addDay st = false ->
  addHour st = false -> addMinute st = false ->
  vYear s st <= wallNano (pT st).
Proof.
  intros F1 F2 F3 F4 F5.
  pose proof (vYear_clear st F1). pose proof (vMonth_clear st F2).
  pose proof (vDay_clear st F3). pose proof (vHour_clear st F4).
  pose proof (vMinute_clear st F5). lia.
Qed.

Lemma prevSecondLoop_spec (n : nat) : forall st,
  prevBase loc (pT st) ->
  addYear st = false -> addMonth st = false -> addDay st = false ->
  addHour st = false -> addMinute st = false ->
  (if time.Second_ (pT st) =? 0 then 60 else time.Second_ (pT st))
    <= Z.of_nat n ->
  match prevSecondLoop s n st with
  | Fall st' =>
      prevBase loc (pT st') /\ secondOk s (pT st') = true /\
      wallNano (pT st') <= wallNano (pT st) /\
      (st' = st \/ wallNano (pT st') < wallNano (pT st))
  | Wrap st' =>
      prevBase loc (pT st') /\ atWrap st' /\
      vYear s st' < wallNano (pT st)
  | _ => False
  end.
Proof.
  induction n as [|n IH]; intros st B F1 F2 F3 F4 F5 Hn.
  { destruct B as (V & _). destruct (clock_ranges _ V) as (_ & _ & Bs).
    destruct (_ =? 0) eqn:E; [lia|apply Z.eqb_neq in E; lia]. }
  cbn [prevSecondLoop].
  destruct (Bit (Second s) (time.Second_ (pT st)) =? 0) eqn:G.
  2:{ unfold secondOk. rewrite G.
      split; [assumption|split; [reflexivity|split;
        [lia|left; reflexivity]]]. }
  destruct B as (V & L).
  set (t1 := if negb (pAdded st)
             then time.Truncate (pT st) time.Second else pT st).
  assert (T1 : time.Valid t1 /\ time.tLoc t1 = loc /\
               time.wall t1 = time.wall (pT st) /\
               wallNano t1 <= wallNano (pT st)).
  { unfold t1. destruct (pAdded st); cbn [negb].
    - repeat split; try assumption; lia.
    - destruct (Truncate_Second (pT st) V) as (T1 & T2 & T3 & T4).
      destruct (wallNano_Truncate (pT st) time.Second V) as (_ & _ & T5);
        [reflexivity|].
      repeat split; try assumption; try congruence; lia. }
  destruct T1 as (V1 & L1 & W1 & N1).
  change (-1 * time.Second) with (-1 * 1000000000).
  destruct (Add_seconds t1 (-1) V1) as (V2 & W2 & _ & L2).
  destruct (wallNano_Add t1 (-1 * 1000000000) V1) as (_ & _ & N2).
  set (u := time.Add t1 (-1 * 1000000000)) in *.
  set (st2 := mkPrev u true (addYear st) (addMonth st) (addDay st)
                     (addHour st) (addMinute st)).
  assert (Bu : prevBase loc u) by (unfold prevBase; split; congruence).
  assert (Vy : vYear s st2 <= wallNano u).
  { apply (vYear_all_clear st2); assumption. }
  pose proof (backward_second (pT st) u V V2 ltac:(lia)) as Sx.
  destruct (time.Second_ u =? 0) eqn:E.
  { split; [exact Bu|split; [|lia]].
    split; [exact F1|]. cbn [addMonth st2]. congruence. }
  apply Z.eqb_neq in E.
  assert (R := IH st2 Bu F1 F2 F3 F4 F5). cbn [pT st2] in R.
  specialize (R ltac:(
    destruct (time.Second_ (pT st) =? 0) eqn:E0;
    destruct (time.Second_ u =? 0) eqn:E1;
    try (apply Z.eqb_eq in E1); lia)).
  destruct (prevSecondLoop s n st2) as [st'|st'| |]; try contradiction.
  - destruct R as (B' & S' & W' & _). cbn [pT st2] in W'.
    split; [assumption|split; [assumption|split; [lia|right; lia]]].
  - destruct R as (B' & A' & W'). cbn [pT st2] in W'.
    split; [assumption|split; [assumption|lia]].
Qed.

Lemma vYear_to_minute (st : prevState) :
  addYear st = false -> addMonth st = false -> addDay st = false ->
  addHour st = false ->
  vYear s st <= Z.max (wallNano (pT st)) (vMinute s st).
Proof.
  intros F1 F2 F3 F4.
  pose proof (vYear_clear st F1). pose proof (vMonth_clear st F2).
  pose proof (vDay_clear st F3). pose proof (vHour_clear st F4). lia.
Qed.

Lemma vYear_to_hour (st : prevState) :
  addYear st = false -> addMonth st = false -> addDay st = false ->
  vYear s st <= Z.max (wallNano (pT st)) (vHour s st).
Proof.
  intros F1 F2 F3.
  pose proof (vYear_clear st F1). pose proof (vMonth_clear st F2).
  pose proof (vDay_clear st F3). lia.
Qed.

Lemma vYear_to_day (st : prevState) :
  addYear st = false -> addMonth st = false ->
  vYear s st <= Z.max (wallNano (pT st)) (vDay s st).
Proof.
  intros F1 F2.
  pose proof (vYear_clear st F1). pose proof (vMonth_clear st F2). lia.
Qed.

Lemma prevMinuteLoop_spec (n : nat) : forall st,
  prevBase loc (pT st) ->
  addYear st = false -> addMonth st = false -> addDay st = false ->
  addHour st = false ->
  (if pAdded st
   then (if time.Minute_ (pT st) =? 0 then 60 else time.Minute_ (pT st))
   else 61) <= Z.of_nat n ->
  match prevMinuteLoop s n st with
  | Fall st' =>
      prevBase loc (pT st') /\ minuteOk s (pT st') = true /\
      addYear st' = false /\ addMonth st' = false /\ addDay st' = false /\
      addHour st' = false /\ vMinute s st' <= vMinute s st /\
      (st' = st \/ vMinute s st' < vMinute s st)
  | Wrap st' =>
      prevBase loc (pT st') /\ atWrap st' /\ vYear s st' < vMinute s st
  | _ => False
  end.
Proof.
  induction n as [|n IH]; intros st B F1 F2 F3 F4 Hn.
  { destruct B as (V & _). destruct (clock_ranges _ V) as (_ & Bm & _).
    destruct (pAdded st); [|lia].
    destruct (_ =? 0) eqn:E; [lia|apply Z.eqb_neq in E; lia]. }
  cbn [prevMinuteLoop].
  destruct (Bit (Minute s) (time.Minute_ (pT st)) =? 0) eqn:G.
  2:{ unfold minuteOk. rewrite G. split; [assumption|].
      repeat split; try assumption; [lia|left; reflexivity]. }
  assert (V0 : vMinute s st = wallNano (pT st)).
  { unfold vMinute, minuteOk. rewrite G. reflexivity. }
  destruct B as (V & L).
  set (t1 := if negb (pAdded st)
             then time.Truncate (pT st) time.Minute else pT st).
  assert (T1 : time.Valid t1 /\ time.tLoc t1 = loc /\
               wallNano t1 <= wallNano (pT st) /\
               (pAdded st = true -> t1 = pT st)).
  { unfold t1. destruct (pAdded st); cbn [negb].
    - repeat split; try assumption; lia.
    - destruct (wallNano_Truncate (pT st) time.Minute V)
        as (T1 & T2 & T3); [reflexivity|].
      repeat split; try assumption; try congruence; try lia. }
  destruct T1 as (V1 & L1 & N1 & A1).
  change (-1 * time.Minute) with (-60 * 1000000000).
  destruct (Add_seconds t1 (-60) V1) as (V2 & W2 & _ & L2).
  destruct (wallNano_Add t1 (-60 * 1000000000) V1) as (_ & _ & N2).
  set (u := time.Add t1 (-60 * 1000000000)) in *.
  set (st2 := mkPrev u true (addYear st) (addMonth st) (addDay st)
                     (addHour st) true).
  assert (Bu : prevBase loc u) by (unfold prevBase; split; congruence).
  pose proof (vMinute_bounds s loc st2 Bu) as Vm.
  pose proof (slackMinute_lt st2) as Sl.
  pose proof (vYear_to_minute st2 F1 F2 F3 F4) as Vy.
  change (pT st2) with u in *.
  destruct (time.Minute_ u =? 0) eqn:E.
  { split; [exact Bu|split; [|lia]].
    split; [exact F1|]. cbn [addMonth st2]. congruence. }
  apply Z.eqb_neq in E.
  assert (R := IH st2 Bu F1 F2 F3 F4). cbn [pT pAdded st2] in R.
  destruct (clock_ranges _ V2) as (_ & Bm & _).
  specialize (R ltac:(
    destruct (time.Minute_ u =? 0) eqn:E1;
    [apply Z.eqb_eq in E1; lia|];
    destruct (pAdded st) eqn:A; [|lia];
    rewrite (A1 eq_refl) in *;
    pose proof (backward_minute (pT st) u V V2 ltac:(lia)) as Mx;
    destruct (time.Minute_ (pT st) =? 0); lia)).
  destruct (prevMinuteLoop s n st2) as [st'|st'| |]; try contradiction.
  - destruct R as (B' & M' & G1 & G2 & G3 & G4 & W' & _).
    split; [assumption|]. repeat split; try assumption; [lia|right; lia].
  - destruct R as (B' & A' & W').
    split; [assumption|split; [assumption|lia]].
Qed.

Lemma prevHourLoop_spec (n : nat) : forall st,
  prevBase loc (pT st) ->
  addYear st = false -> addMonth st = false -> addDay st = false ->
  (if time.Hour_ (pT st) =? 0 then 24 else time.Hour_ (pT st))
    <= Z.of_nat n ->
  match prevHourLoop s loc n st with
  | Fall st' =>
      prevBase loc (pT st') /\ hourOk s (pT st') = true /\
      addYear st' = false /\ addMonth st' = false /\ addDay st' = false /\
      vHour s st' <= vHour s st /\
      (st' = st \/ vHour s st' < vHour s st)
  | Wrap st' =>
      prevBase loc (pT st') /\ atWrap st' /\ vYear s st' < vHour s st
  | _ => False
  end.
Proof.
  induction n as [|n IH]; intros st B F1 F2 F3 Hn.
  { destruct B as (V & _). destruct (clock_ranges _ V) as (Bh & _).
    destruct (_ =? 0) eqn:E; [lia|apply Z.eqb_neq in E; lia]. }
  cbn [prevHourLoop].
  destruct (Bit (Hour s) (time.Hour_ (pT st)) =? 0) eqn:G.
  2:{ unfold hourOk. rewrite G. split; [assumption|].
      repeat split; try assumption; [lia|left; reflexivity]. }
  assert (V0 : vHour s st = wallNano (pT st)).
  { unfold vHour, hourOk. rewrite G. reflexivity. }
  destruct B as (V & L).
  set (t1 := if negb (pAdded st)
             then time.Date (time.Year (pT st)) (time.Month (pT st))
                            (time.Day (pT st)) (time.Hour_ (pT st))
                            0 0 0 loc
             else pT st).
  assert (T1 : time.Valid t1 /\ time.tLoc t1 = loc /\
               wallNano t1 <= wallNano (pT st) /\
               time.Hour_ t1 = time.Hour_ (pT st)).
  { unfold t1. destruct (pAdded st); cbn [negb].
    - repeat split; try assumption; lia.
    - destruct (Date_top_of_hour loc (pT st) V)
        as (T1 & T2 & T3 & _ & T5 & T6).
      repeat split; try assumption.
      pose proof V as W. apply Valid_iff in W.
      unfold wallNano. rewrite T3. lia. }
  destruct T1 as (V1 & L1 & N1 & H1).
  change (-1 * time.Hour) with (-3600 * 1000000000).
  destruct (Add_seconds t1 (-3600) V1) as (V2 & W2 & _ & L2).
  destruct (wallNano_Add t1 (-3600 * 1000000000) V1) as (_ & _ & N2).
  set (u := time.Add t1 (-3600 * 1000000000)) in *.
  set (st2 := mkPrev u true (addYear st) (addMonth st) (addDay st)
                     true (addMinute st)).
  assert (Bu : prevBase loc u) by (unfold prevBase; split; congruence).
  pose proof (vHour_bounds s loc st2 Bu) as Vm.
  pose proof (slackHour_lt st2) as Sl.
  pose proof (vYear_to_hour st2 F1 F2 F3) as Vy.
  change (pT st2) with u in *.
  destruct (time.Hour_ u =? 0) eqn:E.
  { split; [exact Bu|split; [|lia]].
    split; [exact F1|]. cbn [addMonth st2]. congruence. }
  apply Z.eqb_neq in E.
  assert (R := IH st2 Bu F1 F2 F3). cbn [pT pAdded st2] in R.
  destruct (clock_ranges _ V2) as (Bh & _).
  pose proof (backward_hour t1 u V1 V2 ltac:(lia)) as Hx.
  rewrite H1 in Hx.
  specialize (R ltac:(
    destruct (time.Hour_ u =? 0) eqn:E1;
    [apply Z.eqb_eq in E1; lia|];
    destruct (time.Hour_ (pT st) =? 0); lia)).
  destruct (prevHourLoop s loc n st2) as [st'|st'| |]; try contradiction.
  - destruct R as (B' & M' & G1 & G2 & G3 & W' & _).
    split; [assumption|]. repeat split; try assumption; [lia|right; lia].
  - destruct R as (B' & A' & W').
    split; [assumption|split; [assumption|lia]].
Qed.

Lemma dayBefore_cases (t u : time.Time) :
  time.Valid t ->
  time.dateOf u
    = time.dayBefore (time.tYear t) (time.tMonth t) (time.tDay t) ->
  (1 < time.tDay t /\ time.tDay u = time.tDay t - 1) \/
  (time.tDay t = 1 /\ 28 <= time.tDay u <= 31).
Proof.
  intros V. apply Valid_iff in V. destruct V as (_ & Vd & _).
  unfold time.dateOf, time.dayBefore. intros H.
  destruct (1 <? time.tDay t) eqn:E.
  - apply Z.ltb_lt in E. inversion H. left. lia.
  - apply Z.ltb_ge in E. inversion H as [[H1 H2 H3]]. right.
    split; [lia|]. rewrite H3. apply daysIn_bounds.
Qed.

Lemma prevDayLoop_spec (n : nat) : forall st,
  prevBase loc (pT st) ->
  addYear st = false -> addMonth st = false ->
  (if time.Day (pT st) =? 1 then 32 else time.Day (pT st))
  + (if time.Hour_ (pT st) =? 0 then 0 else 1) <= Z.of_nat n ->
  match prevDayLoop s loc n st with
  | Fall st' =>
      prevBase loc (pT st') /\ dayMatches s (pT st') = true /\
      addYear st' = false /\ addMonth st' = false /\
      vDay s st' <= vDay s st /\
      (st' = st \/ vDay s st' < vDay s st)
  | Wrap st' =>
      prevBase loc (pT st') /\ atWrap st' /\ vYear s st' < vDay s st
  | _ => False
  end.
Proof.
  induction n as [|n IH]; intros st B F1 F2 Hn.
  { destruct B as (V & _). apply Valid_iff in V. unfold time.Day in Hn.
    destruct (_ =? 1) eqn:E; [|apply Z.eqb_neq in E];
      destruct (_ =? 0); lia. }
  cbn [prevDayLoop].
  destruct (dayMatches s (pT st)) eqn:G; cbn [negb].
  { split; [assumption|]. repeat split; try assumption; [lia|left; reflexivity]. }
  assert (V0 : vDay s st = wallNano (pT st)).
  { unfold vDay. rewrite G. reflexivity. }
  destruct B as (V & L).
  pose proof V as W0. apply Valid_iff in W0.
  destruct W0 as (Vm & Vd & Vs & Vn).
  set (t1 := if negb (pAdded st)
             then time.Date (time.Year (pT st)) (time.Month (pT st))
                            (time.Day (pT st)) 0 0 0 0 loc
             else pT st).
  assert (T1 : time.Valid t1 /\ time.tLoc t1 = loc /\
               wallNano t1 <= wallNano (pT st) /\
               time.dateOf t1 = time.dateOf (pT st) /\
               (time.Hour_ t1 = 0 \/ time.Hour_ t1 = time.Hour_ (pT st))).
  { unfold t1. destruct (pAdded st); cbn [negb].
    - repeat split; try assumption; lia.
    - rewrite (Date_midnight loc) by exact V.
      repeat split.
      + apply Valid_iff. fields. lia.
      + unfold wallNano, time.wall, time.days. fields. lia.
      + left. reflexivity. }
  destruct T1 as (V1 & L1 & N1 & E1 & H1).
  unfold time.dateOf in E1. inversion E1 as [[Ey Em Ed]].
  destruct (wallNano_AddDate t1 0 0 (-1) V1) as (V2 & L2 & S2 & N2).
  destruct (AddDate_day_prev t1 V1) as (D2 & C2).
  set (t2 := time.AddDate t1 0 0 (-1)) in *.
  assert (H2 : time.Hour_ t2 = time.Hour_ t1).
  { unfold time.Hour_. rewrite S2. reflexivity. }
  destruct (fixMidnight_spec t2 V2) as (V3 & L3 & H3 & C3).
  set (u := fixMidnight t2) in *.
  set (st2 := mkPrev u true (addYear st) (addMonth st) true (addHour st)
                     (addMinute st)).
  assert (Bu : prevBase loc u) by (unfold prevBase; split; congruence).
  pose proof (vDay_bounds s loc st2 Bu) as Vb.
  pose proof (slackDay_lt st2) as Sl.
  pose proof (vYear_to_day st2 F1 F2) as Vy.
  change (pT st2) with u in *.
  destruct (clock_ranges _ V2) as (Bh & _).
  (* the position of the new state is before the time of the old one,
     and the new state has a smaller measure *)
  assert (K : vDay s st2 < wallNano t1 /\
              (time.tDay u <> 1 ->
               (if time.Day u =? 1 then 32 else time.Day u)
               + (if time.Hour_ u =? 0 then 0 else 1) <= Z.of_nat n)).
  { rewrite H3. cbn [Z.eqb]. unfold time.Day in *.
    destruct C3 as [(C31 & C32 & C33)|(C31 & C32 & C33)].
    - split; [lia|]. intros Du.
      assert (Dt : time.dateOf u = time.dayBefore (time.tYear t1)
                                     (time.tMonth t1) (time.tDay t1)).
      { rewrite <- C2. unfold time.dateOf.
        destruct (date_of_days u t2 V3 V2 C32) as (A1 & A2 & A3).
        congruence. }
      apply (dayBefore_cases t1 u V1) in Dt.
      replace (time.tDay u =? 1) with false
        by (symmetry; apply Z.eqb_neq; exact Du).
      rewrite Ed in Dt.
      destruct (time.tDay (pT st) =? 1) eqn:E;
        [apply Z.eqb_eq in E|apply Z.eqb_neq in E];
        destruct (time.Hour_ (pT st) =? 0); lia.
    - assert (Dd : time.days u = time.days (pT st)).
      { unfold time.days in *. rewrite <- Ey, <- Em, <- Ed. lia. }
      destruct (date_of_days u (pT st) V3 V Dd) as (A1 & A2 & A3).
      assert (Nm : dayMatches s u = false).
      { rewrite (dayMatches_date s u (pT st)) by assumption. exact G. }
      split.
      + unfold vDay. change (pT st2) with u. rewrite Nm. lia.
      + intros Du.
        replace (time.tDay u =? 1) with false
          by (symmetry; apply Z.eqb_neq; exact Du).
        assert (Hh : time.Hour_ (pT st) <> 0) by (destruct H1; lia).
        replace (time.Hour_ (pT st) =? 0) with false in Hn
          by (symmetry; apply Z.eqb_neq; exact Hh).
        rewrite A3.
        destruct (time.tDay (pT st) =? 1) eqn:E;
          [apply Z.eqb_eq in E; lia|lia]. }
  destruct K as (K1 & K2).
  unfold time.Day in *.
  assert (R := IH st2 Bu F1 F2). cbn [pT st2] in R.
  destruct (time.tDay u =? 1) eqn:E.
  { split; [exact Bu|split; [|lia]].
    split; [exact F1|]. cbn [addMonth st2]. congruence. }
  apply Z.eqb_neq in E.
  specialize (R (K2 E)).
  destruct (prevDayLoop s loc n st2) as [st'|st'| |]; try contradiction.
  - destruct R as (B' & M' & G1 & G2 & W' & _).
    split; [assumption|]. repeat split; try assumption; [lia|right; lia].
  - destruct R as (B' & A' & W').
    split; [assumption|split; [assumption|lia]].
Qed.

Lemma prevMonthLoop_spec (n : nat) : forall st,
  prevBase loc (pT st) ->
  addYear st = false ->
  2 * (if time.Month (pT st) =? 1 then 13 else time.Month (pT st))
  + (if 28 <? time.Day (pT st) then 1 else 0) <= Z.of_nat n ->
  match prevMonthLoop s loc n st with
  | Fall st' =>
      prevBase loc (pT st') /\ monthOk s (pT st') = true /\
      addYear st' = false /\ vMonth s st' <= vMonth s st /\
      (st' = st \/ vMonth s st' < vMonth s st)
  | Wrap st' =>
      prevBase loc (pT st') /\ atWrap st' /\ vYear s st' < vMonth s st
  | _ => False
  end.
Proof.
  induction n as [|n IH]; intros st B F1 Hn.
  { destruct B as (V & _). apply Valid_iff in V.
    unfold time.Month, time.Day in Hn.
    destruct (_ =? 1) eqn:E; [|apply Z.eqb_neq in E];
      destruct (28 <? _); lia. }
  cbn [prevMonthLoop].
  destruct (Bit (Month s) (time.Month (pT st)) =? 0) eqn:G.
  2:{ unfold monthOk. rewrite G. split; [assumption|].
      repeat split; try assumption; [lia|left; reflexivity]. }
  assert (NM : monthOk s (pT st) = false) by (unfold monthOk; rewrite G; auto).
  assert (V0 : vMonth s st = wallNano (pT st)).
  { unfold vMonth. rewrite NM. reflexivity. }
  destruct B as (V & L).
  pose proof V as W0. apply Valid_iff in W0.
  destruct W0 as (Vm & Vd & Vs & Vn).
  set (t1 := if negb (pAdded st)
             then time.Date (time.Year (pT st)) (time.Month (pT st)) 1
                            0 0 0 0 loc
             else pT st).
  assert (T1 : time.Valid t1 /\ time.tLoc t1 = loc /\
               wallNano t1 <= wallNano (pT st) /\
               time.tYear t1 = time.tYear (pT st) /\
               time.tMonth t1 = time.tMonth (pT st) /\
               time.tDay t1 <= time.tDay (pT st)).
  { unfold t1. destruct (pAdded st); cbn [negb].
    - repeat split; try assumption; lia.
    - rewrite (Date_first_of_month loc) by exact V.
      pose proof (daysIn_bounds (time.tYear (pT st)) (time.tMonth (pT st))).
      repeat split; fields; try lia.
      + apply Valid_iff. fields. lia.
      + unfold wallNano, time.wall, time.days, time.daysFromCivil.
        fields. lia. }
  destruct T1 as (V1 & L1 & N1 & Ey & Em & Ed).
  destruct (wallNano_AddDate t1 0 (-1) 0 V1) as (V2 & L2 & S2 & N2).
  destruct (AddDate_month_prev t1 V1) as (D2 & C2).
  set (u := time.AddDate t1 0 (-1) 0) in *. cbv zeta in D2, C2.
  set (p := time.prevMonth (time.tYear t1) (time.tMonth t1)) in *.
  pose proof (daysIn_bounds (fst p) (snd p)) as Bp.
  set (st2 := mkPrev u true (addYear st) true (addDay st) (addHour st)
                     (addMinute st)).
  assert (Bu : prevBase loc u) by (unfold prevBase; split; congruence).
  pose proof (vYear_clear st2 F1) as Vy. change (pT st2) with u in Vy.
  assert (K : vMonth s st2 < wallNano t1).
  { unfold vMonth. change (pT st2) with u.
    destruct (monthOk s u) eqn:Mu; [|lia].
    destruct C2 as [(C21 & C22 & C23)|(C21 & C22 & C23 & _)].
    - destruct (prevMonthFix_spec loc st2 Bu)
        as (B3 & W3 & _ & _ & _ & _ & _ & _).
      pose proof (vDay_bounds s loc _ B3) as Vb.
      pose proof (slackDay_lt (prevMonthFix st2)) as Sl.
      cbn [pT addMonth st2] in W3. rewrite C21, C22 in W3. lia.
    - rewrite (monthOk_month s u (pT st)) in Mu by congruence.
      congruence. }
  unfold time.Month, time.Day, time.January in *.
  assert (R := IH st2 Bu F1). cbn [pT st2] in R.
  assert (Mz : time.tMonth u <> 1 ->
               2 * (if time.tMonth u =? 1 then 13 else time.tMonth u)
               + (if 28 <? time.tDay u then 1 else 0) <= Z.of_nat n).
  { intros Ne.
    apply (month_measure (time.tMonth (pT st)) (time.tDay (pT st)));
      try assumption; try lia.
    unfold p, time.prevMonth in *. rewrite Em in *.
    pose proof (daysIn_bounds (time.tYear (pT st)) (time.tMonth (pT st))).
    destruct C2 as [(C21 & C22 & C23)|(C21 & C22 & C23 & C24 & C25)].
    - destruct (time.tMonth (pT st) <=? 1) eqn:E1;
        [apply Z.leb_le in E1|apply Z.leb_gt in E1]; cbn [fst snd] in *.
      + left. lia.
      + right. left. lia.
    - right. right. lia. }
  destruct (time.tMonth u =? 1) eqn:E.
  { apply Z.eqb_eq in E.
    split; [exact Bu|split; [|lia]].
    split; [exact F1|]. intros _. exact E. }
  apply Z.eqb_neq in E.
  specialize (R (Mz E)).
  destruct (prevMonthLoop s loc n st2) as [st'|st'| |]; try contradiction.
  - destruct R as (B' & M' & G1 & W' & _).
    split; [assumption|]. repeat split; try assumption; [lia|right; lia].
  - destruct R as (B' & A' & W').
    split; [assumption|split; [assumption|lia]].
Qed.

Lemma prevYearExceeded_iff (t : time.Time) :
  prevYearExceeded yearLimit t = true <->
  time.Year t < firstYear yearLimit.
Proof.
  unfold prevYearExceeded, firstYear.
  rewrite orb_true_iff, !Z.ltb_lt. lia.
Qed.

Lemma prevYearFix_spec (st : prevState) :
  prevBase loc (pT st) ->
  prevBase loc (pT (prevYearFix st)) /\
  wallNano (pT st) <= wallNano (pT (prevYearFix st)) /\
  pAdded (prevYearFix st) = pAdded st /\
  addYear (prevYearFix st) = false /\
  addMonth (prevYearFix st) = addMonth st /\
  addDay (prevYearFix st) = addDay st /\
  addHour (prevYearFix st) = addHour st /\
  addMinute (prevYearFix st) = addMinute st.
Proof.
  intros (V & L). unfold prevYearFix.
  destruct (addYear st) eqn:A.
  - cbn [pT pAdded addYear addMonth addDay addHour addMinute].
    destruct (wallNano_AddDate (pT st) 1 0 0 V) as (V1 & L1 & _ & W1).
    pose proof (AddDate_year_days (pT st) 1 V) as D1.
    destruct (wallNano_AddDate _ 0 (-1) 0 V1) as (V2 & L2 & _ & W2).
    destruct (AddDate_month_prev _ V1) as (D2 & _). cbv zeta in D2.
    pose proof V as W. apply Valid_iff in W. destruct W as (Vm & _).
    pose proof (year_shift (time.tYear (pT st)) (time.tMonth (pT st))
                           (time.tDay (pT st)) Vm) as S1.
    match type of D2 with
    | _ = _ - time.daysIn ?a ?b => pose proof (daysIn_bounds a b)
    end.
    unfold prevBase. repeat split; try congruence.
    pose proof (eq_refl : time.days (pT st)
                          = time.daysFromCivil (time.tYear (pT st))
                              (time.tMonth (pT st)) (time.tDay (pT st)))
      as D0.
    lia.
  - unfold prevBase. repeat split; try assumption. lia.
Qed.

Lemma vMonth_lower (st : prevState) :
  prevBase loc (pT st) -> wallNano (pT st) <= vMonth s st.
Proof.
  intros B. unfold vMonth.
  destruct (monthOk s (pT st)); [|lia].
  destruct (prevMonthFix_spec loc st B) as (B1 & W1 & _).
  pose proof (vDay_bounds s loc _ B1).
  pose proof (daysIn_bounds (time.tYear (pT st)) (time.tMonth (pT st))).
  destruct (addMonth st); lia.
Qed.

Lemma vYear_lower (st : prevState) :
  prevBase loc (pT st) -> wallNano (pT st) <= vYear s st.
Proof.
  intros B. unfold vYear.
  destruct (yearOk s (pT st)); [|lia].
  destruct (prevYearFix_spec st B) as (B1 & W1 & _).
  pose proof (vMonth_lower _ B1). lia.
Qed.

Lemma prevYearLoop_spec (n : nat) : forall st,
  prevBase loc (pT st) ->
  (addMonth st = true -> time.tMonth (pT st) = 1) ->
  firstYear yearLimit <= time.Year (pT st) ->
  time.Year (pT st) - firstYear yearLimit < Z.of_nat n ->
  match prevYearLoop s loc yearLimit n st with
  | Fall st' =>
      prevBase loc (pT st') /\ yearOk s (pT st') = true /\
      vYear s st' <= vYear s st /\
      (st' = st \/ vYear s st' < vYear s st)
  | Return r => r = time.zero
  | _ => False
  end.
Proof.
  induction n as [|n IH]; intros st B J Hy Hn; [lia|].
  cbn [prevYearLoop].
  destruct ((time.Year (pT st) <? minYear)
            || (Bit (Year s) (time.Year (pT st) - minYear) =? 0)) eqn:G.
  2:{ unfold yearOk. rewrite G. split; [assumption|].
      split; [reflexivity|split; [lia|left; reflexivity]]. }
  assert (NY : yearOk s (pT st) = false) by (unfold yearOk; rewrite G; auto).
  assert (V0 : vYear s st = wallNano (pT st)).
  { unfold vYear. rewrite NY. reflexivity. }
  destruct B as (V & L).
  set (t1 := if negb (pAdded st)
             then time.Date (time.Year (pT st)) 1 1 0 0 0 0 loc
             else pT st).
  assert (T1 : time.Valid t1 /\ time.tLoc t1 = loc /\
               wallNano t1 <= wallNano (pT st) /\
               time.tYear t1 = time.tYear (pT st) /\
               (addMonth st = true -> time.tMonth t1 = 1)).
  { unfold t1. destruct (pAdded st); cbn [negb].
    - repeat split; try assumption; lia.
    - rewrite Date_first_of_year.
      repeat split. apply wallNano_first_of_year. exact V. }
  destruct T1 as (V1 & L1 & N1 & Ey & Jm).
  destruct (year_round_trip t1 V1) as (R1 & R2 & R3 & R4).
  destruct (AddDate_years t1 (-1) V1) as (Y2 & C2).
  destruct (wallNano_AddDate t1 (-1) 0 0 V1) as (V2 & L2 & _ & N2).
  set (t2 := time.AddDate t1 (-1) 0 0) in *.
  destruct (wallNano_AddDate t2 1 0 0 V2) as (Vx & Lx & _ & Nx).
  set (x := time.AddDate t2 1 0 0) in *.
  destruct (wallNano_AddDate x 0 (-1) 0 Vx) as (V3 & L3 & _ & N3).
  set (t3 := time.AddDate x 0 (-1) 0) in *.
  destruct (prevYearExceeded yearLimit t2) eqn:E; [reflexivity|].
  assert (Le : firstYear yearLimit <= time.Year t2).
  { destruct (Z_le_gt_dec (firstYear yearLimit) (time.Year t2));
      [assumption|].
    assert (X : prevYearExceeded yearLimit t2 = true)
      by (apply prevYearExceeded_iff; lia).
    congruence. }
  set (st2 := mkPrev t2 true true (addMonth st) (addDay st) (addHour st)
                     (addMinute st)).
  assert (B2 : prevBase loc t2) by (unfold prevBase; split; congruence).
  assert (K : vYear s st2 < wallNano t1).
  { unfold vYear. change (pT st2) with t2.
    destruct (yearOk s t2); [|lia].
    change (prevYearFix st2)
      with (mkPrev t3 true false (addMonth st) (addDay st) (addHour st)
                   (addMinute st)).
    set (st3 := mkPrev t3 true false (addMonth st) (addDay st)
                       (addHour st) (addMinute st)).
    assert (B3 : prevBase loc t3) by (unfold prevBase; split; congruence).
    destruct (addMonth st) eqn:Am.
    - destruct (R4 (Jm eq_refl)) as (M2 & Dx & D3 & M3 & Y3).
      unfold vMonth. change (pT st3) with t3.
      destruct (monthOk s t3); [|lia].
      destruct (prevMonthFix_spec loc st3 B3) as (B4 & W4 & _).
      pose proof (vDay_bounds s loc _ B4) as Vb.
      pose proof (slackDay_lt (prevMonthFix st3)) as Sl.
      change (pT st3) with t3 in W4. change (addMonth st3) with true in W4.
      cbv iota in W4. rewrite M3 in W4.
      change (time.daysIn (time.tYear t3) 12) with 31 in W4. lia.
    - pose proof (vMonth_clear st3
                    ltac:(first [reflexivity | exact Am])) as Vm.
      pose proof (vDay_bounds s loc st3 B3) as Vb.
      pose proof (slackDay_lt st3) as Sl.
      change (pT st3) with t3 in *. lia. }
  assert (R := IH st2 B2). cbn [pT addMonth st2] in R.
  unfold time.Year in *.
  specialize (R ltac:(intros Am;
                      destruct C2 as [(M2 & _)|(M & _)];
                      [rewrite M2; auto|rewrite (Jm Am) in M; lia])
                Le ltac:(lia)).
  destruct (prevYearLoop s loc yearLimit n st2) as [st'| |r|];
    try contradiction; [|exact R].
  destruct R as (B' & Y' & W' & _).
  split; [assumption|split; [assumption|split; [lia|right; lia]]].
Qed.

Lemma prevPass_spec (orig : time.Location) (st : prevState) :
  prevBase loc (pT st) -> atWrap st ->
  time.Year (pT st) <= yearLimit + 60 ->
  match prevPass s loc yearLimit orig st with
  | Return r =>
      (r = time.zero /\
       forall o, prevPass s loc yearLimit o st = Return time.zero) \/
      exists u, r = time.In u orig /\ prevBase loc u /\
                wallNano u <= vYear s st /\ secondOk s u = true /\
                (addMonth st = false -> addDay st = false ->
                 addHour st = false -> addMinute st = false ->
                 (u = pT st /\ matches s (pT st) = true) \/
                 wallNano u < vYear s st) /\
                forall o, prevPass s loc yearLimit o st
                          = Return (time.In u o)
  | Wrap st' =>
      prevBase loc (pT st') /\ atWrap st' /\ vYear s st' < vYear s st /\
      firstYear yearLimit <= time.Year (pT st) /\
      forall o, prevPass s loc yearLimit o st = Wrap st'
  | _ => False
  end.
Proof.
  intros B (A1 & A2) Hy. unfold prevPass.
  destruct (prevYearExceeded yearLimit (pT st)) eqn:E;
    [left; split; [reflexivity|intros; reflexivity]|].
  assert (Le : firstYear yearLimit <= time.Year (pT st)).
  { destruct (Z_le_gt_dec (firstYear yearLimit) (time.Year (pT st)));
      [assumption|].
    assert (X : prevYearExceeded yearLimit (pT st) = true)
      by (apply prevYearExceeded_iff; lia).
    congruence. }
  (* the year *)
  pose proof (prevYearLoop_spec loopFuel st B A2 Le) as R1.
  specialize (R1 ltac:(unfold loopFuel, firstYear in *; lia)).
  destruct (prevYearLoop s loc yearLimit loopFuel st) as [s1| |r|];
    cbn [andThen]; try contradiction;
    [|left; split; [exact R1|intros; rewrite R1; reflexivity]].
  destruct R1 as (B1 & Y1 & W1 & X1).
  assert (E1 : vMonth s (prevYearFix s1) = vYear s s1).
  { unfold vYear. rewrite Y1. reflexivity. }
  destruct (prevYearFix_spec s1 B1) as (B1' & _ & _ & F1 & _).
  (* the month *)
  assert (M1 : 1 <= time.Month (pT (prevYearFix s1)) <= 12).
  { destruct B1' as (V & _). apply Valid_iff in V. unfold time.Month. lia. }
  pose proof (prevMonthLoop_spec loopFuel (prevYearFix s1) B1' F1) as R2.
  specialize (R2 ltac:(unfold loopFuel; tests; lia)).
  destruct (prevMonthLoop s loc loopFuel (prevYearFix s1)) as [s2|s2| |];
    cbn [andThen]; try contradiction.
  2:{ destruct R2 as (B2 & A & W2).
      split; [assumption|split; [assumption|split; [lia|split;
        [assumption|intros; reflexivity]]]]. }
  destruct R2 as (B2 & Mk & G1 & W2 & X2).
  assert (E2 : vDay s (prevMonthFix s2) = vMonth s s2).
  { unfold vMonth. rewrite Mk. reflexivity. }
  destruct (prevMonthFix_spec loc s2 B2)
    as (B2' & _ & _ & F21 & F22 & _).
  rewrite G1 in F21.
  (* the day *)
  assert (D1 : 1 <= time.Day (pT (prevMonthFix s2)) <= 31).
  { destruct B2' as (V & _). apply Valid_iff in V. unfold time.Day.
    pose proof (daysIn_bounds (time.tYear (pT (prevMonthFix s2)))
                              (time.tMonth (pT (prevMonthFix s2)))).
    lia. }
  pose proof (prevDayLoop_spec loopFuel (prevMonthFix s2) B2' F21 F22)
    as R3.
  specialize (R3 ltac:(unfold loopFuel; tests; lia)).
  destruct (prevDayLoop s loc loopFuel (prevMonthFix s2)) as [s3|s3| |];
    cbn [andThen]; try contradiction.
  2:{ destruct R3 as (B3 & A & W3).
      split; [assumption|split; [assumption|split; [lia|split;
        [assumption|intros; reflexivity]]]]. }
  destruct R3 as (B3 & Dk & G31 & G32 & W3 & X3).
  assert (E3 : vHour s (prevDayFix s3) = vDay s s3).
  { unfold vDay. rewrite Dk. reflexivity. }
  destruct (prevDayFix_spec loc s3 B3)
    as (B3' & _ & _ & F31 & F32 & F33 & _).
  rewrite G31 in F31. rewrite G32 in F32.
  (* the hour *)
  destruct (clock_ranges _ (proj1 B3')) as (Ch & _).
  pose proof (prevHourLoop_spec loopFuel (prevDayFix s3) B3' F31 F32 F33)
    as R4.
  specialize (R4 ltac:(unfold loopFuel; tests; lia)).
  destruct (prevHourLoop s loc loopFuel (prevDayFix s3)) as [s4|s4| |];
    cbn [andThen]; try contradiction.
  2:{ destruct R4 as (B4 & A & W4).
      split; [assumption|split; [assumption|split; [lia|split;
        [assumption|intros; reflexivity]]]]. }
  destruct R4 as (B4 & Hk & G41 & G42 & G43 & W4 & X4).
  assert (E4 : vMinute s (prevHourFix s4) = vHour s s4).
  { unfold vHour. rewrite Hk. reflexivity. }
  destruct (prevHourFix_spec loc s4 B4)
    as (B4' & _ & _ & F41 & F42 & F43 & F44 & _).
  rewrite G41 in F41. rewrite G42 in F42. rewrite G43 in F43.
  (* the minute *)
  destruct (clock_ranges _ (proj1 B4')) as (_ & Cm & _).
  pose proof (prevMinuteLoop_spec loopFuel (prevHourFix s4) B4'
                                  F41 F42 F43 F44) as R5.
  specialize (R5 ltac:(unfold loopFuel; tests; lia)).
  destruct (prevMinuteLoop s loopFuel (prevHourFix s4)) as [s5|s5| |];
    cbn [andThen]; try contradiction.
  2:{ destruct R5 as (B5 & A & W5).
      split; [assumption|split; [assumption|split; [lia|split;
        [assumption|intros; reflexivity]]]]. }
  destruct R5 as (B5 & Mi & G51 & G52 & G53 & G54 & W5 & X5).
  assert (E5 : vSecond (prevMinuteFix s5) = vMinute s s5).
  { unfold vMinute. rewrite Mi. reflexivity. }
  destruct (prevMinuteFix_spec loc s5 B5)
    as (B5' & _ & _ & F51 & F52 & F53 & F54 & F55).
  rewrite G51 in F51. rewrite G52 in F52. rewrite G53 in F53.
  rewrite G54 in F54.
  (* the second *)
  destruct (clock_ranges _ (proj1 B5')) as (_ & _ & Cs).
  pose proof (prevSecondLoop_spec loopFuel (prevMinuteFix s5) B5'
                                  F51 F52 F53 F54 F55) as R6.
  specialize (R6 ltac:(unfold loopFuel; tests; lia)).
  destruct (prevSecondLoop s loopFuel (prevMinuteFix s5)) as [s6|s6| |];
    cbn [andThen]; try contradiction.
  2:{ destruct R6 as (B6 & A & W6). unfold vSecond in E5.
      split; [assumption|split; [assumption|split; [lia|split;
        [assumption|intros; reflexivity]]]]. }
  destruct R6 as (B6 & Sk & W6 & X6). unfold vSecond in E5.
  right. exists (pT s6).
  split; [reflexivity|split; [assumption|split; [lia|split;
    [assumption|split; [|intros; reflexivity]]]]].
  intros C2 C3 C4 C5.
  destruct X1 as [X1|X1]; [|right; lia]. subst s1.
  destruct X2 as [X2|X2]; [|right; lia].
  unfold prevYearFix in X2. rewrite A1 in X2. subst s2.
  destruct X3 as [X3|X3]; [|right; lia].
  unfold prevMonthFix in X3. rewrite C2 in X3. subst s3.
  destruct X4 as [X4|X4]; [|right; lia].
  unfold prevDayFix in X4. rewrite C3 in X4. subst s4.
  destruct X5 as [X5|X5]; [|right; lia].
  unfold prevHourFix in X5. rewrite C4 in X5. subst s5.
  destruct X6 as [X6|X6]; [|right; lia].
  unfold prevMinuteFix in X6. rewrite C5 in X6. subst s6.
  left. split; [reflexivity|].
  unfold matches. rewrite Y1, Mk, Dk, Hk, Mi, Sk. reflexivity.
Qed.
End PrevSound.

(** The result of [Prev]: the search ends, with the zero time or with a
    time that is not after the given one and whose second is in the
    schedule. *)
Lemma Prev_spec_full (s : SpecSchedule) (t : time.Time) :
  time.Valid t ->
  exists r, Prev s t = Some r /\
    (r = time.zero \/
     exists u, r = time.In u (time.LocationOf t) /\
               prevBase (effectiveLocation s t) u /\
               wallNano u <= wallNano (inSchedule s t) /\
               secondOk s u = true /\
               ((u = inSchedule s t /\
                 matches s (inSchedule s t) = true) \/
                wallNano u < wallNano (inSchedule s t))).
Proof.
  intros V. destruct (inSchedule_spec s t V) as (V0 & U0 & L0).
  unfold Prev.
  set (loc := effectiveLocation s t) in *.
  set (t0 := inSchedule s t) in *.
  set (lim := time.Year t0 - 5).
  set (bound := time.daysSinceEpoch (firstYear lim) * 86400 * 1000000000).
  set (st0 := mkPrev t0 false false false false false false).
  pose proof V0 as W0. apply Valid_iff in W0.
  destruct W0 as (_ & _ & _ & Vn0).
  pose proof (wrapLoop_total
    (prevPass s loc lim (time.LocationOf t))
    (fun st => prevBase loc (pT st) /\ atWrap st /\
               vYear s st <= wallNano t0 /\
               (st = st0 \/ vYear s st < wallNano t0))
    (fun st => Z.max 0 (vYear s st - bound + 1))
    (fun r => r = time.zero \/
              exists u, r = time.In u (time.LocationOf t) /\
                        prevBase loc u /\ wallNano u <= wallNano t0 /\
                        secondOk s u = true /\
                        ((u = t0 /\ matches s t0 = true) \/
                         wallNano u < wallNano t0))
    wrapFuel st0) as T.
  destruct T as (r & R1 & R2).
  - intros st (B & A & W & X).
    pose proof (vYear_lower s loc st B) as Lo.
    assert (Y : time.Year (pT st) <= lim + 60).
    { unfold lim, time.Year.
      pose proof (Year_mono (pT st) t0 (proj1 B) V0
                    (wallNano_wall _ _ (proj1 B) V0 ltac:(lia))).
      lia. }
    pose proof (prevPass_spec s loc lim (time.LocationOf t) st B A Y) as R.
    destruct (prevPass s loc lim (time.LocationOf t) st) as [x|st'|r|];
      try assumption.
    + destruct R as (B' & A' & W' & Y' & _).
      split; [split; [assumption|split; [assumption|split;
        [lia|right; lia]]]|].
      destruct (first_of_year (firstYear lim) loc (pT st) (proj1 B))
        as [_ F].
      unfold time.Year in Y'. specialize (F Y').
      pose proof (proj1 B) as Vt. apply Valid_iff in Vt.
      destruct Vt as (_ & _ & _ & Vn).
      assert (wallNano (pT st) >= bound) by (unfold wallNano, bound; lia).
      lia.
    + destruct R as [[-> _]|(u & Ru & Bu & Wu & Su & Xu & _)];
        [left; reflexivity|].
      right. exists u.
      split; [assumption|split; [assumption|split; [lia|split;
        [assumption|]]]].
      destruct X as [->|X]; [|right; lia].
      destruct (Xu eq_refl eq_refl eq_refl eq_refl) as [Xm|Xl];
        [left; exact Xm|right; lia].
  - split; [unfold prevBase; auto|]. split; [|split].
    + split; [reflexivity|]. intros A. discriminate A.
    + apply vYear_all_clear; reflexivity.
    + left. reflexivity.
  - pose proof (vYear_all_clear s st0 eq_refl eq_refl eq_refl eq_refl eq_refl)
      as Up. change (pT st0) with t0 in Up.
    destruct (first_of_year (time.tYear t0 + 1) loc t0 V0) as [F _].
    specialize (F ltac:(lia)).
    assert (Bd : time.daysSinceEpoch (time.tYear t0 + 1)
                 <= time.daysSinceEpoch (firstYear lim) + 2196).
    { assert (L5 : time.tYear t0 - 5 <= firstYear lim)
        by (unfold firstYear, lim, time.Year; lia).
      pose proof (daysSinceEpoch_le (time.tYear t0 - 5) (firstYear lim) L5).
      pose proof (daysSinceEpoch_le (time.tYear t0 - 5) (time.tYear t0 + 1)).
      lia. }
    change (2 ^ Z.of_nat wrapFuel) with 18446744073709551616.
    unfold wallNano, bound in *. lia.
  - exists r. rewrite R1. auto.
Qed.

Lemma Prev_spec (s : SpecSchedule) (t : time.Time) :
  time.Valid t ->
  exists r, Prev s t = Some r /\
    (r = time.zero \/
     exists u, r = time.In u (time.LocationOf t) /\
               prevBase (effectiveLocation s t) u /\
               wallNano u <= wallNano (inSchedule s t)).
Proof.
  intros V. destruct (Prev_spec_full s t V) as (r & E & R).
  exists r. split; [exact E|].
  destruct R as [R|(u & Ru & Bu & Wu & _)]; [left; exact R|].
  right. exists u. auto.
Qed.

(** C2 fails on the code as it is stated.  With the schedule of every
    second, [Prev] at 2024-05-05T10:00:30Z returns that same time, which
    is not strictly before it. *)
Theorem Prev_returns_given_time :
  let t := time.Date 2024 5 5 10 0 30 0 time.UTC in
  Prev everySecond t = Some t /\ time.IsZero t = false /\
  ~ time.UnixNano t < time.UnixNano t.
Proof.
  split; [vm_compute; reflexivity|].
  split; [vm_compute; reflexivity|]. lia.
Qed.

(** X23.  In locations with a fixed offset, [Next] and [Prev] end on every
    schedule and every time, with the zero time or with a time: the bounds
    of the model on the iterations of the loops and on the passes are
    never reached. *)
Theorem Next_Prev_terminate (s : SpecSchedule) (t : time.Time) :
  time.Valid t ->
  (exists r, Next s t = Some r) /\ (exists r, Prev s t = Some r).
Proof.
  intros V. split.
  - destruct (Next_spec s t V) as (r & E & _). exists r. exact E.
  - destruct (Prev_spec s t V) as (r & E & _). exists r. exact E.
Qed.

(** C9.  When the given time, read in the location of the schedule,
    satisfies every constraint of the schedule (the bits of its second,
    minute, hour, month and year are set, [dayMatches] holds), [Prev]
    returns the given time itself, converted back to its location, and not
    an earlier time. *)
Theorem Prev_returns_matching_input (s : SpecSchedule) (t : time.Time) :
  time.Valid t ->
  Bit (Second s) (time.Second_ (inSchedule s t)) = 1 ->
  Bit (Minute s) (time.Minute_ (inSchedule s t)) = 1 ->
  Bit (Hour s) (time.Hour_ (inSchedule s t)) = 1 ->
  Bit (Month s) (time.Month (inSchedule s t)) = 1 ->
  Bit (Year s) (time.Year (inSchedule s t) - minYear) = 1 ->
  dayMatches s (inSchedule s t) = true ->
  exists r, Prev s t = Some r /\
            r = time.In (inSchedule s t) (time.LocationOf t) /\
            time.UnixNano r = time.UnixNano t /\
            time.LocationOf r = time.LocationOf t /\ r = t.
Proof.
  intros V Hs Hmi Hh Hmo Hy Hd.
  assert (M : matches s (inSchedule s t) = true)
    by (apply matches_bits; tauto).
  destruct (inSchedule_spec s t V) as (Vu & Uu & _).
  exists (time.In (inSchedule s t) (time.LocationOf t)).
  destruct (In_spec (inSchedule s t) (time.LocationOf t) Vu)
    as (I1 & I2 & I3).
  split; [|split; [reflexivity|split; [congruence|split; [exact I3|]]]].
  2:{ apply Time_ext; try assumption; congruence. }
  unfold matches in M.
  repeat (apply andb_true_iff in M; destruct M as [M ?]).
  unfold Prev.
  rewrite wrapLoop_Return
    with (r := time.In (inSchedule s t) (time.LocationOf t)); [reflexivity|].
  unfold prevPass. cbn [pT].
  assert (E : prevYearExceeded (time.Year (inSchedule s t) - 5)
                               (inSchedule s t) = false).
  { unfold prevYearExceeded. apply orb_false_iff. split.
    - apply Z.ltb_ge. lia.
    - unfold yearOk in M. apply negb_true_iff in M.
      apply orb_false_iff in M. tauto. }
  rewrite E. change loopFuel with (S 69).
  rewrite prevYearLoop_ok by assumption. cbn [andThen].
  unfold prevYearFix; cbn [addYear pT].
  rewrite prevMonthLoop_ok by assumption. cbn [andThen].
  unfold prevMonthFix; cbn [addMonth pT].
  rewrite prevDayLoop_ok by assumption. cbn [andThen].
  unfold prevDayFix; cbn [addDay pT].
  rewrite prevHourLoop_ok by assumption. cbn [andThen].
  unfold prevHourFix; cbn [addHour pT].
  rewrite prevMinuteLoop_ok by assumption. cbn [andThen].
  unfold prevMinuteFix; cbn [addMinute pT].
  rewrite prevSecondLoop_ok by assumption. cbn [andThen].
  reflexivity.
Qed.

(** ** The scenarios of the specification *)

(** Every minute at second 0: [Next] at 10:00:30 is 10:01:00. *)
Example scenario_1 :
  Next everyMinute (time.Date 2024 5 5 10 0 30 0 time.UTC)
  = Some (time.Date 2024 5 5 10 1 0 0 time.UTC).
Proof. vm_compute. reflexivity. Qed.

(** Minutes 0, 5, ..., 55: [Next] at 10:03:00 is 10:05:00 and [Prev] at
    10:03:00 is 10:00:00. *)
Example scenario_2 :
  Next everyFiveMinutes (time.Date 2024 5 5 10 3 0 0 time.UTC)
  = Some (time.Date 2024 5 5 10 5 0 0 time.UTC) /\
  Prev everyFiveMinutes (time.Date 2024 5 5 10 3 0 0 time.UTC)
  = Some (time.Date 2024 5 5 10 0 0 0 time.UTC).
Proof. split; vm_compute; reflexivity. Qed.

(** Midnight of the 15th: [Next] at 2024-01-01T00:00:00 is
    2024-01-15T00:00:00. *)
Example scenario_3 :
  Next midnight15th (time.Date 2024 1 1 0 0 0 0 time.UTC)
  = Some (time.Date 2024 1 15 0 0 0 0 time.UTC).
Proof. vm_compute. reflexivity. Qed.

(** February 31st: [Next] finds nothing. *)
Example scenario_unsatisfiable :
  Next february31st (time.Date 2024 1 1 0 0 0 0 time.UTC) = Some time.zero.
Proof. vm_compute. reflexivity. Qed.

(** A schedule in another location: the result comes back in the
    location of the given time. *)
Example scenario_location :
  Next (mkSpecSchedule (oneBit 0) (oneBit 0) (oneBit 0)
                       (Z.lor (allBits 1 31) starBit) (allBits 1 12)
                       (Z.lor (allBits 0 6) starBit) (allBits 0 129)
                       (time.FixedZone 19800))
       (time.Date 2024 5 5 10 0 0 0 time.UTC)
  = Some (time.Date 2024 5 5 18 30 0 0 time.UTC).
Proof. vm_compute. reflexivity. Qed.

(** ** The theorems at an input *)

Lemma Next_result_matches_witness :
  let t := time.Date 2024 5 5 10 0 30 0 time.UTC in
  let r := time.Date 2024 5 5 10 1 0 0 time.UTC in
  time.Valid t /\ Next everyMinute t = Some r /\ time.IsZero r = false /\
  Bit (Second everyMinute)
      (time.Second_ (time.In r (effectiveLocation everyMinute t))) = 1.
Proof.
  intros t r.
  assert (H1 : time.Valid t) by reflexivity.
  assert (H2 : Next everyMinute t = Some r) by (vm_compute; reflexivity).
  assert (H3 : time.IsZero r = false) by (vm_compute; reflexivity).
  split; [exact H1|]. split; [exact H2|]. split; [exact H3|].
  apply (Next_result_matches everyMinute t r H1 H2 H3).
Defined.

Lemma Next_zero_beyond_horizon_witness :
  let t := time.Date 2035 1 1 0 0 0 0 time.UTC in
  time.Valid t /\
  (forall y, 2034 <= y <= 2040 ->
             y < minYear \/ Bit (Year only2030) (y - minYear) = 0) /\
  Next only2030 t = Some time.zero.
Proof.
  intros t.
  assert (H1 : time.Valid t) by reflexivity.
  assert (H2 : forall y, 2034 <= y <= 2040 ->
                 y < minYear \/ Bit (Year only2030) (y - minYear) = 0).
  { intros y Hy. right.
    assert (C : y = 2034 \/ y = 2035 \/ y = 2036 \/ y = 2037 \/ y = 2038 \/
                y = 2039 \/ y = 2040) by lia.
    repeat (destruct C as [C|C]); subst y; vm_compute; reflexivity. }
  split; [exact H1|]. split; [exact H2|].
  apply (Next_zero_beyond_horizon only2030 t H1).
  assert (Y1 : time.Year (nextStart only2030 t) = 2034)
    by (vm_compute; reflexivity).
  assert (Y2 : time.Year (inSchedule only2030 t) = 2035)
    by (vm_compute; reflexivity).
  rewrite Y1, Y2. intros y Hy. apply H2. unfold maxYear in Hy. lia.
Defined.

Lemma Next_Prev_terminate_witness :
  let t := time.Date 2024 2 29 23 59 59 999 (time.FixedZone 19800) in
  time.Valid t /\
  (exists r, Next midnight15th t = Some r) /\
  (exists r, Prev midnight15th t = Some r).
Proof.
  intros t.
  assert (H1 : time.Valid t) by reflexivity.
  split; [exact H1|].
  apply (Next_Prev_terminate midnight15th t H1).
Defined.

Lemma Prev_returns_matching_input_witness :
  let t := time.Date 2024 5 5 10 0 30 250 time.UTC in
  time.Valid t /\ matches everySecond (inSchedule everySecond t) = true /\
  exists r, Prev everySecond t = Some r /\
            r = time.In (inSchedule everySecond t) (time.LocationOf t) /\
            time.UnixNano r = time.UnixNano t /\
            time.LocationOf r = time.LocationOf t /\ r = t.
Proof.
  intros t.
  assert (H1 : time.Valid t) by reflexivity.
  assert (H2 : matches everySecond (inSchedule everySecond t) = true)
    by (vm_compute; reflexivity).
  split; [exact H1|]. split; [exact H2|].
  apply (Prev_returns_matching_input everySecond t H1);
    vm_compute; reflexivity.
Defined.

Lemma Next_zero_before_1965_witness :
  let t := time.Date 1964 12 31 23 59 59 0 time.UTC in
  time.Valid t /\ time.Year (inSchedule everySecond t) <= 1964 /\
  matches everySecond (time.Date 1970 1 1 0 0 0 0 time.UTC) = true /\
  Next everySecond t = Some time.zero.
Proof.
  intros t.
  assert (H1 : time.Valid t) by reflexivity.
  assert (Y : time.Year (inSchedule everySecond t) = 1964)
    by (vm_compute; reflexivity).
  assert (H2 : time.Year (inSchedule everySecond t) <= 1964)
    by (rewrite Y; lia).
  split; [exact H1|]. split; [exact H2|].
  split; [vm_compute; reflexivity|].
  apply (Next_zero_before_1965 everySecond t H1 H2).
Defined.

(** ** Further properties of [Next] *)

Section NextFall.
Variables (s : SpecSchedule) (loc : time.Location) (yearLimit : Z).

Lemma nextYearLoop_ok n st :
  yearOk s (nT st) = true ->
  nextYearLoop s loc yearLimit (S n) st = Fall st.
Proof.
  unfold yearOk. intros H. apply negb_true_iff in H.
  cbn [nextYearLoop]. rewrite H. reflexivity.
Qed.

Lemma nextMonthLoop_ok n st :
  monthOk s (nT st) = true -> nextMonthLoop s loc (S n) st = Fall st.
Proof.
  unfold monthOk. intros H. apply negb_true_iff in H.
  cbn [nextMonthLoop]. rewrite H. reflexivity.
Qed.

Lemma nextDayLoop_ok n st :
  dayMatches s (nT st) = true -> nextDayLoop s loc (S n) st = Fall st.
Proof. intros H. cbn [nextDayLoop]. rewrite H. reflexivity. Qed.

Lemma nextHourLoop_ok n st :
  hourOk s (nT st) = true -> nextHourLoop s loc (S n) st = Fall st.
Proof.
  unfold hourOk. intros H. apply negb_true_iff in H.
  cbn [nextHourLoop]. rewrite H. reflexivity.
Qed.

Lemma nextMinuteLoop_ok n st :
  minuteOk s (nT st) = true -> nextMinuteLoop s (S n) st = Fall st.
Proof.
  unfold minuteOk. intros H. apply negb_true_iff in H.
  cbn [nextMinuteLoop]. rewrite H. reflexivity.
Qed.

Lemma nextSecondLoop_ok n st :
  secondOk s (nT st) = true -> nextSecondLoop s (S n) st = Fall st.
Proof.
  unfold secondOk. intros H. apply negb_true_iff in H.
  cbn [nextSecondLoop]. rewrite H. reflexivity.
Qed.
End NextFall.

(** A change of location keeps the nanoseconds. *)
Lemma In_nsec (t : time.Time) (l : time.Location) :
  time.Valid t -> time.tNsec (time.In t l) = time.tNsec t.
Proof.
  intros V. destruct (In_spec t l V) as (V1 & U1 & _).
  rewrite !UnixNano_wall in U1.
  apply Valid_iff in V. apply Valid_iff in V1. lia.
Qed.

(** The start of [Next] is a whole second. *)
Lemma nextStart_whole (s : SpecSchedule) (t : time.Time) :
  time.Valid t ->
  time.tNsec (nextStart s t) = 0 /\
  time.tNsec (inSchedule s t) = time.tNsec t.
Proof.
  intros V. destruct (nextStart_spec s t V) as (Vs & Us & _ & _).
  destruct (inSchedule_spec s t V) as (Vi & Ui & _).
  rewrite !UnixNano_wall in Us. rewrite !UnixNano_wall in Ui.
  apply Valid_iff in V. apply Valid_iff in Vs. apply Valid_iff in Vi. lia.
Qed.

(** A result of [Next] that is not the zero time is the time [u] that the
    search reached, in the location of the given time. *)
Lemma Next_result (s : SpecSchedule) (t r : time.Time) :
  time.Valid t -> Next s t = Some r -> time.IsZero r = false ->
  exists u, r = time.In u (time.LocationOf t) /\
            time.In r (effectiveLocation s t) = u /\
            nextBase (effectiveLocation s t) u /\ matches s u = true /\
            time.wall (nextStart s t) <= time.wall u /\
            time.tYear u <= lastYear (time.Year (nextStart s t) + 5).
Proof.
  intros V E Z.
  destruct (Next_spec_full s t V) as (r' & E' & R).
  rewrite E in E'. inversion E'. subst r'. clear E'.
  destruct R as [->|(w & Rw & (Vw & Lw & Nw) & M)]; [discriminate Z|].
  exists w. split; [exact Rw|]. split; [|split; [split; auto|exact M]].
  rewrite Rw, In_In by assumption.
  rewrite <- Lw. apply In_same. assumption.
Qed.

(** X7.  A result of [Next] that is not the zero time is in the location of
    the given time and has no nanoseconds. *)
Theorem Next_result_in_location (s : SpecSchedule) (t r : time.Time) :
  time.Valid t ->
  Next s t = Some r ->
  time.IsZero r = false ->
  time.LocationOf r = time.LocationOf t /\ time.Nanosecond_ r = 0.
Proof.
  intros V E Z.
  destruct (Next_result s t r V E Z) as (u & Ru & _ & (Vu & Lu & Nu) & _).
  destruct (In_spec u (time.LocationOf t) Vu) as (_ & _ & L).
  pose proof (In_nsec u (time.LocationOf t) Vu) as N.
  unfold time.LocationOf, time.Nanosecond_ in *. rewrite Ru.
  split; [exact L|congruence].
Qed.

(** X6.  A result of [Next] that is not the zero time is not before the start
    of the search: the given time without its nanoseconds, less one second. *)
Theorem Next_not_before_start (s : SpecSchedule) (t r : time.Time) :
  time.Valid t ->
  Next s t = Some r ->
  time.IsZero r = false ->
  time.UnixNano t - time.Nanosecond_ t * time.Nanosecond - 1 * time.Second
    <= time.UnixNano r.
Proof.
  intros V E Z.
  destruct (Next_result s t r V E Z)
    as (u & Ru & _ & (Vu & Lu & Nu) & _ & W & _).
  destruct (In_spec u (time.LocationOf t) Vu) as (_ & U & _).
  destruct (nextStart_spec s t V) as (_ & Us & _ & Ls).
  destruct (nextStart_whole s t V) as (N0 & Nt).
  rewrite Ru, U.
  rewrite (UnixNano_wall (nextStart s t)), Ls, N0, Nt in Us.
  rewrite (UnixNano_wall u), Lu, Nu.
  unfold time.Nanosecond_, time.Nanosecond, time.Second. lia.
Qed.

(** X8.  The year of a result of [Next] that is not the zero time, read in the
    location of the schedule, is one of the years 1970 to 2099 and at most 5
    more than the year of the given time. *)
Theorem Next_year_range (s : SpecSchedule) (t r : time.Time) :
  time.Valid t ->
  Next s t = Some r ->
  time.IsZero r = false ->
  minYear <= time.Year (time.In r (effectiveLocation s t)) <= maxYear /\
  time.Year (time.In r (effectiveLocation s t))
    <= time.Year (inSchedule s t) + 5.
Proof.
  intros V E Z.
  destruct (Next_result s t r V E Z) as (u & _ & Iu & _ & M & _ & Y).
  destruct (nextStart_spec s t V) as (_ & _ & Ys & _).
  rewrite Iu. apply matches_bits in M.
  destruct M as (_ & _ & _ & _ & _ & B).
  assert (L : minYear <= time.Year u).
  { destruct (Z_le_gt_dec minYear (time.Year u)) as [L|G]; [exact L|].
    unfold Bit in B. rewrite Z.testbit_neg_r in B by lia. discriminate B. }
  unfold lastYear, time.Year in *. lia.
Qed.

(** A start that matches is returned at once. *)
Lemma Next_at_match (s : SpecSchedule) (t : time.Time) :
  time.Valid t ->
  matches s (nextStart s t) = true ->
  time.Year (nextStart s t) <= maxYear ->
  Next s t = Some (time.In (nextStart s t) (time.LocationOf t)).
Proof.
  intros V M Y.
  unfold matches in M.
  repeat (apply andb_true_iff in M; destruct M as [M ?]).
  unfold Next.
  rewrite wrapLoop_Return
    with (r := time.In (nextStart s t) (time.LocationOf t)); [reflexivity|].
  unfold nextPass. cbn [nT].
  assert (E : nextYearExceeded (time.Year (nextStart s t) + 5)
                               (nextStart s t) = false).
  { unfold nextYearExceeded. apply orb_false_iff.
    rewrite !Z.gtb_ltb, !Z.ltb_ge. lia. }
  rewrite E. change loopFuel with (S 69).
  rewrite nextYearLoop_ok by assumption. cbn [andThen].
  rewrite nextMonthLoop_ok by assumption. cbn [andThen].
  rewrite nextDayLoop_ok by assumption. cbn [andThen].
  rewrite nextHourLoop_ok by assumption. cbn [andThen].
  rewrite nextMinuteLoop_ok by assumption. cbn [andThen].
  rewrite nextSecondLoop_ok by assumption. cbn [andThen].
  reflexivity.
Qed.

(** X4.  When the time at which the search starts, one second before the given
    time without its nanoseconds, matches the schedule and its year is at most
    2099, [Next] returns that time. *)
Theorem Next_returns_matching_start (s : SpecSchedule) (t : time.Time) :
  time.Valid t ->
  matches s (nextStart s t) = true ->
  time.Year (nextStart s t) <= maxYear ->
  Next s t = Some (time.In (nextStart s t) (time.LocationOf t)).
Proof. apply Next_at_match. Qed.

(** X5.  [Next] does not step past its own results: at a result that is not
    the zero time, moved one second forward, [Next] returns the same result
    again. *)
Theorem Next_again (s : SpecSchedule) (t r : time.Time) :
  time.Valid t ->
  Next s t = Some r ->
  time.IsZero r = false ->
  Next s (time.Add r (1 * time.Second)) = Some r.
Proof.
  intros V E Z.
  destruct (Next_result s t r V E Z)
    as (u & Ru & Iu & (Vu & Lu & Nu) & Mu & _ & Yu).
  destruct (In_spec u (time.LocationOf t) Vu) as (Vr & Ur & Lr).
  rewrite <- Ru in Vr, Ur, Lr.
  pose proof (In_nsec u (time.LocationOf t) Vu) as Nr. rewrite <- Ru in Nr.
  set (t' := time.Add r (1 * time.Second)).
  destruct (Add_spec r (1 * time.Second) Vr) as (Vt' & Ut' & Lt' & _ & Nt' & _).
  fold t' in Vt', Ut', Lt', Nt'.
  assert (Nt0 : time.tNsec t' = 0).
  { rewrite Nt', Nr, Nu. reflexivity. }
  assert (Le : effectiveLocation s t' = effectiveLocation s t).
  { unfold effectiveLocation, time.LocationOf. rewrite Lt', Lr. reflexivity. }
  destruct (nextStart_spec s t' Vt') as (Vs & Us & _ & Ls).
  destruct (nextStart_whole s t' Vt') as (_ & Ni).
  assert (S0 : nextStart s t' = u).
  { apply Time_ext; try assumption; [congruence|].
    rewrite Us, Ni, Nt0, Ut', Ur. unfold time.Second. lia. }
  assert (X := Next_at_match s t' Vt').
  rewrite S0 in X. unfold lastYear, time.Year in *.
  rewrite X; [|exact Mu|lia].
  unfold time.LocationOf. rewrite Lt', Lr. fold (time.LocationOf t).
  rewrite <- Ru. reflexivity.
Qed.

(** ** Further properties of [Prev] *)

(** A result of [Prev] that is not the zero time is the time [u] that the
    search reached, in the location of the given time. *)
Lemma Prev_result (s : SpecSchedule) (t r : time.Time) :
  time.Valid t -> Prev s t = Some r -> time.IsZero r = false ->
  exists u, r = time.In u (time.LocationOf t) /\
            time.In r (effectiveLocation s t) = u /\
            prevBase (effectiveLocation s t) u /\
            wallNano u <= wallNano (inSchedule s t) /\
            secondOk s u = true /\
            ((u = inSchedule s t /\ matches s (inSchedule s t) = true) \/
             wallNano u < wallNano (inSchedule s t)).
Proof.
  intros V E Z.
  destruct (Prev_spec_full s t V) as (r' & E' & R).
  rewrite E in E'. inversion E'. subst r'. clear E'.
  destruct R as [->|(w & Rw & (Vw & Lw) & M)]; [discriminate Z|].
  exists w. split; [exact Rw|]. split; [|split; [split; auto|exact M]].
  rewrite Rw, In_In by assumption.
  rewrite <- Lw. apply In_same. assumption.
Qed.

(** When no year from the bound to that of the time is in the schedule,
    the year loop of [Prev] returns the zero time. *)
Lemma prevYearLoop_none (s : SpecSchedule) (loc : time.Location)
      (yearLimit : Z) (n : nat) : forall st,
  time.Valid (pT st) ->
  firstYear yearLimit <= time.Year (pT st) ->
  time.Year (pT st) - firstYear yearLimit < Z.of_nat n ->
  (forall y, firstYear yearLimit <= y <= time.Year (pT st) ->
             Bit (Year s) (y - minYear) = 0) ->
  prevYearLoop s loc yearLimit n st = Return time.zero.
Proof.
  induction n as [|n IH]; intros st V Hy Hn Hno; [lia|].
  cbn [prevYearLoop].
  assert (G : (time.Year (pT st) <? minYear)
              || (Bit (Year s) (time.Year (pT st) - minYear) =? 0) = true).
  { apply orb_true_iff. right. apply Z.eqb_eq. apply Hno. lia. }
  rewrite G.
  set (t1 := if negb (pAdded st)
             then time.Date (time.Year (pT st)) 1 1 0 0 0 0 loc
             else pT st).
  assert (V1 : time.Valid t1 /\ time.Year t1 = time.Year (pT st)).
  { unfold t1. destruct (pAdded st); cbn [negb]; [auto|].
    rewrite Date_first_of_year. split; reflexivity. }
  destruct V1 as [V1 Y1].
  destruct (AddDate_years t1 (-1) V1) as [Y2 _].
  destruct (AddDate_spec t1 (-1) 0 0 V1) as [V2 _].
  destruct (prevYearExceeded yearLimit (time.AddDate t1 (-1) 0 0)) eqn:E;
    [reflexivity|].
  assert (L : ~ time.Year (time.AddDate t1 (-1) 0 0) < firstYear yearLimit).
  { intro H. apply prevYearExceeded_iff in H. congruence. }
  unfold time.Year in *.
  apply IH; cbn [pT]; try assumption; try lia.
  intros y Hy'. apply Hno. lia.
Qed.

(** X15.  A result of [Prev] that is not the zero time is in the location of
    the given time. *)
Theorem Prev_result_in_location (s : SpecSchedule) (t r : time.Time) :
  time.Valid t ->
  Prev s t = Some r ->
  time.IsZero r = false ->
  time.LocationOf r = time.LocationOf t.
Proof.
  intros V E Z.
  destruct (Prev_result s t r V E Z) as (u & Ru & _ & (Vu & Lu) & _).
  destruct (In_spec u (time.LocationOf t) Vu) as (_ & _ & L).
  rewrite Ru. exact L.
Qed.

(** X13.  The second of a result of [Prev] that is not the zero time, read in
    the location of the schedule, is in the second mask of the schedule. *)
Theorem Prev_second_allowed (s : SpecSchedule) (t r : time.Time) :
  time.Valid t ->
  Prev s t = Some r ->
  time.IsZero r = false ->
  Bit (Second s) (time.Second_ (time.In r (effectiveLocation s t))) = 1.
Proof.
  intros V E Z.
  destruct (Prev_result s t r V E Z) as (u & _ & Iu & _ & _ & Sk & _).
  rewrite Iu. apply Bit_one. unfold secondOk in Sk.
  apply negb_true_iff in Sk. exact Sk.
Qed.

(** X11.  When the given time, read in the location of the schedule, does not
    match the schedule, a result of [Prev] that is not the zero time is before
    the given time. *)
Theorem Prev_before_unless_match (s : SpecSchedule) (t r : time.Time) :
  time.Valid t ->
  Prev s t = Some r ->
  time.IsZero r = false ->
  matches s (inSchedule s t) = false ->
  time.UnixNano r < time.UnixNano t.
Proof.
  intros V E Z N.
  destruct (Prev_result s t r V E Z)
    as (u & Ru & _ & (Vu & Lu) & _ & _ & X).
  destruct X as [[_ M]|X]; [congruence|].
  destruct (inSchedule_spec s t V) as (V0 & U0 & L0).
  destruct (In_spec u (time.LocationOf t) Vu) as (_ & Ur & _).
  rewrite Ru, Ur, <- U0, !wallNano_Unix, Lu, L0. lia.
Qed.

(** X14.  [Prev] returns the zero time when the year mask has none of the
    years from the later of 1970 and the year of the given time less 5 to the
    year of the given time, read in the location of the schedule; so it does
    at every time before 1970. *)
Theorem Prev_zero_without_year (s : SpecSchedule) (t : time.Time) :
  time.Valid t ->
  (forall y, Z.max (time.Year (inSchedule s t) - 5) minYear <= y
             <= time.Year (inSchedule s t) ->
             Bit (Year s) (y - minYear) = 0) ->
  Prev s t = Some time.zero.
Proof.
  intros V Hno. destruct (inSchedule_spec s t V) as (Vs & _).
  unfold Prev.
  rewrite wrapLoop_Return with (r := time.zero); [reflexivity|].
  unfold prevPass. cbn [pT].
  destruct (prevYearExceeded _ _) eqn:E; [reflexivity|].
  assert (L : ~ time.Year (inSchedule s t)
                < firstYear (time.Year (inSchedule s t) - 5)).
  { intro H. apply prevYearExceeded_iff in H. congruence. }
  rewrite prevYearLoop_none; [reflexivity | exact Vs | cbn [pT]; lia | |
                              exact Hno].
  cbn [pT]. unfold firstYear, loopFuel in *. lia.
Qed.

(** ** Further properties of [dayMatches] *)

(** The bits from [lo] on that a list of tests finds set. *)
Lemma testbit_range (x lo : Z) (n : nat) :
  forallb (fun i => Z.testbit x (lo + Z.of_nat i)) (seq 0 n) = true ->
  forall d, lo <= d < lo + Z.of_nat n -> Z.testbit x d = true.
Proof.
  intros H d Hd. rewrite forallb_forall in H.
  specialize (H (Z.to_nat (d - lo))).
  replace (lo + Z.of_nat (Z.to_nat (d - lo))) with d in H by lia.
  apply H. apply in_seq. lia.
Qed.

(** X19.  A day field written as a star leaves the decision to the other day
    field. When the day-of-month mask has bit 160 and the days 1 to 31,
    [dayMatches] is the day-of-week bit of the weekday; when the day-of-week
    mask has bit 160 and the weekdays 0 to 6, [dayMatches] is the day-of-month
    bit of the day. *)
Theorem dayMatches_star_field (s : SpecSchedule) (t : time.Time) :
  time.Valid t ->
  (Z.testbit (Dom s) maxBits = true ->
   (forall d, 1 <= d <= 31 -> Z.testbit (Dom s) d = true) ->
   dayMatches s t = Z.testbit (Dow s) (time.Weekday t)) /\
  (Z.testbit (Dow s) maxBits = true ->
   (forall d, 0 <= d <= 6 -> Z.testbit (Dow s) d = true) ->
   dayMatches s t = Z.testbit (Dom s) (time.Day t)).
Proof.
  intros V. apply Valid_iff in V. destruct V as (Vm & Vd & _).
  pose proof (daysIn_bounds (time.tYear t) (time.tMonth t)) as Db.
  assert (W : 0 <= time.Weekday t <= 6).
  { unfold time.Weekday.
    pose proof (Z.mod_pos_bound
      (time.daysFromCivil (time.tYear t) (time.tMonth t) (time.tDay t) + 4) 7).
    lia. }
  unfold dayMatches. rewrite !Bit_set. split; intros St All.
  - rewrite St. cbn [orb].
    rewrite (All (time.Day t)) by (unfold time.Day; lia). reflexivity.
  - rewrite St, orb_true_r.
    rewrite (All (time.Weekday t)) by exact W. apply andb_true_r.
Qed.
(** ** The location of the given time *)

(** Two passes that wrap to the same states return together. *)
Lemma wrapLoop_both {S : Type} (p1 p2 : S -> flow S) (P : S -> Prop)
      (Q : time.Time -> time.Time -> Prop) :
  (forall st, P st ->
     match p1 st with
     | Return a => exists b, p2 st = Return b /\ Q a b
     | Wrap st' => P st' /\ p2 st = Wrap st'
     | _ => True
     end) ->
  forall n st, P st ->
    match wrapLoop p1 n st with
    | Return a => exists b, wrapLoop p2 n st = Return b /\ Q a b
    | Wrap st' => P st' /\ wrapLoop p2 n st = Wrap st'
    | _ => True
    end.
Proof.
  intros H. induction n as [|n IH]; intros st Pst.
  - cbn [wrapLoop]. apply H. exact Pst.
  - cbn [wrapLoop]. pose proof (IH st Pst) as R.
    destruct (wrapLoop p1 n st) as [x|st1|a|]; try exact I.
    + destruct R as (P1 & E1). rewrite E1.
      apply IH. exact P1.
    + destruct R as (b & E1 & Qab). rewrite E1. exists b. auto.
Qed.

Lemma Equal_In (u : time.Time) (l1 l2 : time.Location) :
  time.Valid u -> time.Equal (time.In u l1) (time.In u l2) = true.
Proof.
  intros V. unfold time.Equal. apply Z.eqb_eq.
  destruct (In_spec u l1 V) as (_ & U1 & _).
  destruct (In_spec u l2 V) as (_ & U2 & _). congruence.
Qed.

Lemma Next_unfold (s : SpecSchedule) (t : time.Time) :
  Next s t =
  match wrapLoop (nextPass s (effectiveLocation s t)
                           (time.Year (nextStart s t) + 5)
                           (time.LocationOf t))
                 wrapFuel (mkNext (nextStart s t) false) with
  | Return r => Some r
  | _ => None
  end.
Proof. reflexivity. Qed.

(** The passes of [Next] for two locations of the given time. *)
Lemma nextLoop_any_location (s : SpecSchedule) (loc o1 o2 : time.Location)
      (t0 : time.Time) (n : nat) :
  nextBase loc t0 ->
  match wrapLoop (nextPass s loc (time.Year t0 + 5) o1) n (mkNext t0 false)
  with
  | Return a =>
      exists b, wrapLoop (nextPass s loc (time.Year t0 + 5) o2) n
                         (mkNext t0 false) = Return b /\
                time.Equal a b = true
  | _ => True
  end.
Proof.
  intros B0. set (lim := time.Year t0 + 5).
  pose proof (wrapLoop_both
    (nextPass s loc lim o1) (nextPass s loc lim o2)
    (fun st => nextBase loc (nT st) /\ nextHeld s st /\
               time.wall t0 <= time.wall (nT st))
    (fun a b => time.Equal a b = true)) as T.
  assert (H : forall st,
    nextBase loc (nT st) /\ nextHeld s st /\
    time.wall t0 <= time.wall (nT st) ->
    match nextPass s loc lim o1 st with
    | Return a => exists b, nextPass s loc lim o2 st = Return b /\
                            time.Equal a b = true
    | Wrap st' => (nextBase loc (nT st') /\ nextHeld s st' /\
                   time.wall t0 <= time.wall (nT st')) /\
                  nextPass s loc lim o2 st = Wrap st'
    | _ => True
    end).
  { intros st (B & J & W).
    assert (Y : lim - 5 <= time.Year (nT st)).
    { unfold lim, time.Year.
      pose proof (Year_mono t0 (nT st) (proj1 B0) (proj1 B) W). lia. }
    pose proof (nextPass_spec s loc lim o1 st B J
                  ltac:(unfold lastYear; lia)) as R.
    destruct (nextPass s loc lim o1 st) as [x|st'|a|]; try exact I.
    - destruct R as (B' & J' & W' & _ & O).
      split; [split; [assumption|split; [assumption|lia]]|apply O].
    - destruct R as [[-> O]|(u & Ru & Bu & _ & _ & _ & O)].
      + exists time.zero. split; [apply O|reflexivity].
      + exists (time.In u o2).
        split; [apply O|rewrite Ru; apply Equal_In; apply Bu]. }
  specialize (T H n (mkNext t0 false)).
  specialize (T ltac:(
    cbn [nT nAdded]; split;
    [exact B0|split; [intros A; discriminate A|lia]])).
  destruct (wrapLoop (nextPass s loc lim o1) n (mkNext t0 false));
    try exact I. exact T.
Qed.

(** X10.  For a schedule with a location of its own, the instant that [Next]
    returns does not depend on the location in which the given time is
    expressed. *)
Theorem Next_any_location (s : SpecSchedule) (t : time.Time)
        (l : time.Location) :
  time.Valid t ->
  time.isLocal (Location s) = false ->
  exists r r', Next s t = Some r /\ Next s (time.In t l) = Some r' /\
               time.Equal r r' = true.
Proof.
  intros V NL.
  destruct (Next_spec_full s t V) as (r & E & _). exists r.
  destruct (nextStart_spec s t V) as (Vs & _ & _ & Ls).
  destruct (nextStart_whole s t V) as (N0 & _).
  assert (S0 : nextStart s (time.In t l) = nextStart s t).
  { unfold nextStart, inSchedule. rewrite NL. cbn [negb].
    rewrite In_In by exact V. reflexivity. }
  assert (L0 : effectiveLocation s (time.In t l) = effectiveLocation s t).
  { unfold effectiveLocation. rewrite NL. reflexivity. }
  pose proof (nextLoop_any_location s (effectiveLocation s t)
                (time.LocationOf t) (time.LocationOf (time.In t l))
                (nextStart s t) wrapFuel
                (conj Vs (conj Ls N0))) as T.
  rewrite (Next_unfold s (time.In t l)), S0, L0.
  pose proof E as E0. rewrite Next_unfold in E.
  revert T E.
  generalize (wrapLoop (nextPass s (effectiveLocation s t)
                (time.Year (nextStart s t) + 5) (time.LocationOf t))
                wrapFuel (mkNext (nextStart s t) false)).
  generalize (wrapLoop (nextPass s (effectiveLocation s t)
                (time.Year (nextStart s t) + 5)
                (time.LocationOf (time.In t l)))
                wrapFuel (mkNext (nextStart s t) false)).
  intros f2 f1 T E.
  destruct f1 as [x|st1|a|]; try discriminate E.
  inversion E. subst a.
  destruct T as (b & E2 & Q). exists b. rewrite E2. auto.
Qed.

(** X17.  [Next] does not look at the nanoseconds of the given time: it
    returns at a time what it returns at the start of the second of that time. *)
Theorem Next_ignores_nanoseconds (s : SpecSchedule) (t : time.Time) :
  time.Valid t ->
  Next s (time.Truncate t time.Second) = Next s t.
Proof.
  intros V.
  destruct (Truncate_Second t V) as (V' & N' & L' & W').
  set (t' := time.Truncate t time.Second) in *.
  assert (Le : effectiveLocation s t' = effectiveLocation s t).
  { unfold effectiveLocation, time.LocationOf. rewrite L'. reflexivity. }
  destruct (nextStart_spec s t V) as (Vs & Us & _ & Ls).
  destruct (nextStart_spec s t' V') as (Vs' & Us' & _ & Ls').
  destruct (nextStart_whole s t V) as (_ & Ni).
  destruct (nextStart_whole s t' V') as (_ & Ni').
  assert (S0 : nextStart s t' = nextStart s t).
  { apply Time_ext; try assumption; [congruence|].
    rewrite Us, Us', Ni, Ni', N', !UnixNano_wall, W', L', N'. lia. }
  rewrite !Next_unfold, S0, Le. unfold time.LocationOf. rewrite L'.
  reflexivity.
Qed.

Lemma Prev_unfold (s : SpecSchedule) (t : time.Time) :
  Prev s t =
  match wrapLoop (prevPass s (effectiveLocation s t)
                           (time.Year (inSchedule s t) - 5)
                           (time.LocationOf t))
                 wrapFuel
                 (mkPrev (inSchedule s t) false false false false false false)
  with
  | Return r => Some r
  | _ => None
  end.
Proof. reflexivity. Qed.

(** The passes of [Prev] for two locations of the given time. *)
Lemma prevLoop_any_location (s : SpecSchedule) (loc o1 o2 : time.Location)
      (t0 : time.Time) (n : nat) :
  prevBase loc t0 ->
  match wrapLoop (prevPass s loc (time.Year t0 - 5) o1) n
                 (mkPrev t0 false false false false false false)
  with
  | Return a =>
      exists b, wrapLoop (prevPass s loc (time.Year t0 - 5) o2) n
                  (mkPrev t0 false false false false false false)
                = Return b /\
                time.Equal a b = true
  | _ => True
  end.
Proof.
  intros B0. set (lim := time.Year t0 - 5).
  set (st0 := mkPrev t0 false false false false false false).
  pose proof (wrapLoop_both
    (prevPass s loc lim o1) (prevPass s loc lim o2)
    (fun st => prevBase loc (pT st) /\ atWrap st /\
               vYear s st <= wallNano t0)
    (fun a b => time.Equal a b = true)) as T.
  assert (H : forall st,
    prevBase loc (pT st) /\ atWrap st /\ vYear s st <= wallNano t0 ->
    match prevPass s loc lim o1 st with
    | Return a => exists b, prevPass s loc lim o2 st = Return b /\
                            time.Equal a b = true
    | Wrap st' => (prevBase loc (pT st') /\ atWrap st' /\
                   vYear s st' <= wallNano t0) /\
                  prevPass s loc lim o2 st = Wrap st'
    | _ => True
    end).
  { intros st (B & A & W).
    pose proof (vYear_lower s loc st B) as Lo.
    assert (Y : time.Year (pT st) <= lim + 60).
    { unfold lim, time.Year.
      pose proof (Year_mono (pT st) t0 (proj1 B) (proj1 B0)
                    (wallNano_wall _ _ (proj1 B) (proj1 B0) ltac:(lia))).
      lia. }
    pose proof (prevPass_spec s loc lim o1 st B A Y) as R.
    destruct (prevPass s loc lim o1 st) as [x|st'|a|]; try exact I.
    - destruct R as (B' & A' & W' & _ & O).
      split; [split; [assumption|split; [assumption|lia]]|apply O].
    - destruct R as [[-> O]|(u & Ru & Bu & _ & _ & O)].
      + exists time.zero. split; [apply O|reflexivity].
      + exists (time.In u o2).
        split; [apply O|rewrite Ru; apply Equal_In; apply Bu]. }
  specialize (T H n st0).
  specialize (T ltac:(
    split; [exact B0|split;
      [split; [reflexivity|intros A; discriminate A]
      |apply vYear_all_clear; reflexivity]])).
  destruct (wrapLoop (prevPass s loc lim o1) n st0); try exact I. exact T.
Qed.

(** X16.  For a schedule with a location of its own, the instant that [Prev]
    returns does not depend on the location in which the given time is
    expressed. *)
Theorem Prev_any_location (s : SpecSchedule) (t : time.Time)
        (l : time.Location) :
  time.Valid t ->
  time.isLocal (Location s) = false ->
  exists r r', Prev s t = Some r /\ Prev s (time.In t l) = Some r' /\
               time.Equal r r' = true.
Proof.
  intros V NL.
  destruct (Prev_spec_full s t V) as (r & E & _). exists r.
  destruct (inSchedule_spec s t V) as (Vs & _ & Ls).
  assert (S0 : inSchedule s (time.In t l) = inSchedule s t).
  { unfold inSchedule. rewrite NL. cbn [negb].
    rewrite In_In by exact V. reflexivity. }
  assert (L0 : effectiveLocation s (time.In t l) = effectiveLocation s t).
  { unfold effectiveLocation. rewrite NL. reflexivity. }
  pose proof (prevLoop_any_location s (effectiveLocation s t)
                (time.LocationOf t) (time.LocationOf (time.In t l))
                (inSchedule s t) wrapFuel (conj Vs Ls)) as T.
  rewrite (Prev_unfold s (time.In t l)), S0, L0.
  pose proof E as E0. rewrite Prev_unfold in E.
  revert T E.
  generalize (wrapLoop (prevPass s (effectiveLocation s t)
                (time.Year (inSchedule s t) - 5) (time.LocationOf t))
                wrapFuel
                (mkPrev (inSchedule s t) false false false false false
                        false)).
  generalize (wrapLoop (prevPass s (effectiveLocation s t)
                (time.Year (inSchedule s t) - 5)
                (time.LocationOf (time.In t l)))
                wrapFuel
                (mkPrev (inSchedule s t) false false false false false
                        false)).
  intros f2 f1 T E.
  destruct f1 as [x|st1|a|]; try discriminate E.
  inversion E. subst a.
  destruct T as (b & E2 & Q). exists b. rewrite E2. auto.
Qed.

(** ** [Next] returns the first time that matches *)

(** The first multiple of a unit after a number of seconds. *)
Lemma next_multiple (U A B : Z) :
  U = 1 \/ U = 60 \/ U = 3600 \/ U = 86400 ->
  A < B <= A + U -> B mod U = 0 ->
  (B / 86400 = A / 86400 \/
   (B / 86400 = A / 86400 + 1 /\ B mod 86400 = 0)) /\
  ((B mod 86400) / 3600 = (A mod 86400) / 3600 /\ B / 86400 = A / 86400 \/
   (B mod 86400) mod 3600 = 0) /\
  (((B mod 86400) / 60) mod 60 = ((A mod 86400) / 60) mod 60 /\
   (B mod 86400) / 3600 = (A mod 86400) / 3600 /\ B / 86400 = A / 86400 \/
   (B mod 86400) mod 60 = 0) /\
  (U = 86400 -> B mod 86400 = 0) /\
  (3600 <= U -> (B mod 86400) mod 3600 = 0) /\
  (60 <= U -> (B mod 86400) mod 60 = 0).
Proof.
  intros HU HB HM.
  destruct HU as [->|[->|[->| ->]]]; Z.div_mod_to_equations; lia.
Qed.

Lemma same_unit (U A B W : Z) :
  U = 1 \/ U = 60 \/ U = 3600 \/ U = 86400 ->
  A < B <= A + U -> B mod U = 0 -> A <= W < B ->
  W / 86400 = A / 86400 /\
  (U <= 3600 -> (W mod 86400) / 3600 = (A mod 86400) / 3600) /\
  (U <= 60 -> ((W mod 86400) / 60) mod 60 = ((A mod 86400) / 60) mod 60) /\
  (U <= 1 -> (W mod 86400) mod 60 = (A mod 86400) mod 60).
Proof.
  intros HU HB HM HW.
  destruct HU as [->|[->|[->| ->]]]; Z.div_mod_to_equations; lia.
Qed.

(** The day after a day. *)
Lemma date_of_next_day (a b : time.Time) :
  time.Valid a -> time.Valid b -> time.days b = time.days a + 1 ->
  time.dateOf b = time.dayAfter (time.tYear a) (time.tMonth a) (time.tDay a).
Proof.
  intros Va Vb D.
  destruct (AddDate_day_next a Va) as [D1 C1].
  destruct (AddDate_spec a 0 0 1 Va) as (V1 & _).
  rewrite <- C1. apply days_inj; try assumption. lia.
Qed.

Lemma next_day_cases (a b : time.Time) :
  time.Valid a -> time.Valid b -> time.days b = time.days a + 1 ->
  (time.tYear b = time.tYear a \/ (time.tMonth b = 1 /\ time.tDay b = 1)) /\
  (time.tMonth b = time.tMonth a \/ time.tDay b = 1).
Proof.
  intros Va Vb D. pose proof (date_of_next_day a b Va Vb D) as E.
  unfold time.dateOf, time.dayAfter, time.nextMonth in E.
  destruct (time.tDay a <? _); [inversion E; auto|].
  destruct (12 <=? time.tMonth a); cbn [fst snd] in E; inversion E; auto.
Qed.

Lemma secondOk_second (s : SpecSchedule) (a b : time.Time) :
  time.Second_ a = time.Second_ b -> secondOk s a = secondOk s b.
Proof. intros H. unfold secondOk. rewrite H. reflexivity. Qed.

Lemma matches_false (s : SpecSchedule) (w : time.Time) :
  yearOk s w = false \/ monthOk s w = false \/ dayMatches s w = false \/
  hourOk s w = false \/ minuteOk s w = false \/ secondOk s w = false ->
  matches s w = false.
Proof.
  unfold matches. intros [H|[H|[H|[H|[H|H]]]]]; rewrite H;
    rewrite ?andb_false_r; reflexivity.
Qed.

(** The times from [a] to before the first multiple [b] of the unit after
    [a] are in the unit of [a]: they fail the field that [a] fails. *)
Lemma skip_step (s : SpecSchedule) (U : Z) (a b w : time.Time) :
  time.Valid a -> time.Valid b -> time.Valid w ->
  time.wall a < time.wall b <= time.wall a + U ->
  time.wall b mod U = 0 ->
  (U = 86400 /\ dayMatches s a = false) \/
  (U = 3600 /\ hourOk s a = false) \/
  (U = 60 /\ minuteOk s a = false) \/
  (U = 1 /\ secondOk s a = false) ->
  time.wall a <= time.wall w < time.wall b ->
  matches s w = false.
Proof.
  intros Va Vb Vw HB HM G HW.
  assert (HU : U = 1 \/ U = 60 \/ U = 3600 \/ U = 86400)
    by (destruct G as [[? _]|[[? _]|[[? _]|[? _]]]]; auto).
  destruct (same_unit U _ _ _ HU HB HM HW) as (S1 & S2 & S3 & S4).
  destruct (clock_of_wall a Va) as (Ha & Ma & Sa & Da).
  destruct (clock_of_wall w Vw) as (Hw & Mw & Sw & Dw).
  apply matches_false.
  destruct G as [[-> G]|[[-> G]|[[-> G]|[-> G]]]].
  - right. right. left.
    destruct (date_of_days w a Vw Va ltac:(congruence)) as (Y & M & D).
    rewrite (dayMatches_date s w a Y M D). exact G.
  - right. right. right. left.
    rewrite (hourOk_hour s w a); [exact G|].
    rewrite Hw, Ha. apply S2. lia.
  - right. right. right. right. left.
    rewrite (minuteOk_minute s w a); [exact G|].
    rewrite Mw, Ma. apply S3. lia.
  - right. right. right. right. right.
    rewrite (secondOk_second s w a); [exact G|].
    rewrite Sw, Sa. apply S4. lia.
Qed.

(** The first multiple [b] of a unit after [a] is at the start of every
    unit that it leaves. *)
Lemma aligned_step (s : SpecSchedule) (U : Z) (a b : time.Time) :
  time.Valid a -> time.Valid b ->
  U = 1 \/ U = 60 \/ U = 3600 \/ U = 86400 ->
  time.wall a < time.wall b <= time.wall a + U ->
  time.wall b mod U = 0 ->
  yearOk s a = true -> monthOk s a = true ->
  dayMatches s a = true \/ U = 86400 ->
  hourOk s a = true \/ 3600 <= U ->
  minuteOk s a = true \/ 60 <= U ->
  aligned s b.
Proof.
  intros Va Vb HU HB HM Yk Mk Dk Hk Mik.
  destruct (next_multiple U _ _ HU HB HM) as (N1 & N2 & N3 & N4 & N5 & N6).
  destruct (clock_of_wall a Va) as (Ha & Ma & Sa & Da).
  destruct (clock_of_wall b Vb) as (Hb & Mb & Sb & Db).
  destruct (wall_split b Vb) as (Sod & _).
  rewrite <- Da, <- Db in *.
  assert (Same : time.days b = time.days a ->
                 time.tYear b = time.tYear a /\ time.tMonth b = time.tMonth a /\
                 time.tDay b = time.tDay a).
  { intros E. apply date_of_days; assumption. }
  assert (Next : time.days b <> time.days a ->
                 time.tSod b = 0 /\
                 (time.tYear b = time.tYear a \/
                  (time.tMonth b = 1 /\ time.tDay b = 1)) /\
                 (time.tMonth b = time.tMonth a \/ time.tDay b = 1)).
  { intros E. destruct N1 as [N1|[N1 N1']]; [congruence|].
    split; [congruence|]. apply next_day_cases; assumption. }
  unfold aligned. split; [|split; [|split; [|split]]]; intros F.
  - destruct (Z.eq_dec (time.days b) (time.days a)) as [E|E].
    + destruct (Same E) as (Y & _). rewrite (yearOk_year s b a Y) in F.
      congruence.
    + destruct (Next E) as (Z0 & [Y|[M D]] & _); [|auto].
      rewrite (yearOk_year s b a Y) in F. congruence.
  - destruct (Z.eq_dec (time.days b) (time.days a)) as [E|E].
    + destruct (Same E) as (_ & M & _). rewrite (monthOk_month s b a M) in F.
      congruence.
    + destruct (Next E) as (Z0 & _ & [M|D]); [|auto].
      rewrite (monthOk_month s b a M) in F. congruence.
  - destruct Dk as [Dk| ->]; [|rewrite Sod; apply N4; reflexivity].
    destruct (Z.eq_dec (time.days b) (time.days a)) as [E|E].
    + destruct (Same E) as (Y & M & D).
      rewrite (dayMatches_date s b a Y M D) in F. congruence.
    + apply (Next E).
  - rewrite Sod.
    destruct Hk as [Hk|Hk]; [|apply N5; exact Hk].
    destruct N2 as [[N2 _]|N2]; [|exact N2].
    rewrite (hourOk_hour s b a) in F by congruence. congruence.
  - rewrite Sod.
    destruct Mik as [Mik|Mik]; [|apply N6; exact Mik].
    destruct N3 as [[N3 _]|N3]; [|exact N3].
    rewrite (minuteOk_minute s b a) in F by congruence. congruence.
Qed.

Lemma first_of_next_year (y : Z) (loc : time.Location) :
  time.AddDate (time.mkTime y 1 1 0 0 loc) 1 0 0 = time.mkTime (y + 1) 1 1 0 0 loc.
Proof.
  rewrite AddDate_eq by reflexivity. fields.
  change ((1 + 0 - 1) / 12) with 0.
  change ((1 + 0 - 1) mod 12 + 1) with 1. change (1 + 0) with 1.
  rewrite Z.add_0_r, normDate_id by (change (time.daysIn (y + 1) 1) with 31; lia).
  reflexivity.
Qed.

Lemma first_of_next_month (y m : Z) (loc : time.Location) :
  1 <= m <= 12 ->
  time.AddDate (time.mkTime y m 1 0 0 loc) 0 1 0 =
  time.mkTime (y + m / 12) (m mod 12 + 1) 1 0 0 loc.
Proof.
  intros Hm.
  assert (V : time.Valid (time.mkTime y m 1 0 0 loc)).
  { apply Valid_iff. fields. pose proof (daysIn_bounds y m). lia. }
  rewrite AddDate_eq by exact V. fields.
  replace (y + 0 + (m + 1 - 1) / 12) with (y + m / 12)
    by (replace (m + 1 - 1) with m by lia; lia).
  replace ((m + 1 - 1) mod 12 + 1) with (m mod 12 + 1)
    by (replace (m + 1 - 1) with m by lia; lia).
  change (1 + 0) with 1.
  rewrite normDate_id; [reflexivity|].
  pose proof (daysIn_bounds (y + m / 12) (m mod 12 + 1)). lia.
Qed.

(** The times of a month. *)
Lemma same_month (w : time.Time) (y m : Z) :
  time.Valid w -> 1 <= m <= 12 ->
  time.daysFromCivil y m 1 <= time.days w
    < time.daysFromCivil y m 1 + time.daysIn y m ->
  time.tYear w = y /\ time.tMonth w = m.
Proof.
  intros V Hm H.
  set (c := time.mkTime y m (time.days w - time.daysFromCivil y m 1 + 1)
                        0 0 (time.tLoc w)).
  assert (Vc : time.Valid c).
  { apply Valid_iff. unfold c. fields. lia. }
  assert (Dc : time.days c = time.days w).
  { unfold c, time.days, time.daysFromCivil in *. fields. lia. }
  pose proof (days_inj c w Vc V Dc) as E.
  unfold time.dateOf, c in E. fields. inversion E. auto.
Qed.

(** The times of a year. *)
Lemma same_year (w : time.Time) (y : Z) :
  time.Valid w ->
  time.daysSinceEpoch y * 86400 <= time.wall w
    < time.daysSinceEpoch (y + 1) * 86400 ->
  time.tYear w = y.
Proof.
  intros V H.
  destruct (first_of_year y (time.tLoc w) w V) as [F1 _].
  destruct (first_of_year (y + 1) (time.tLoc w) w V) as [_ F2].
  lia.
Qed.

Lemma aligned_midnight (s : SpecSchedule) (b : time.Time) :
  time.tDay b = 1 -> time.tSod b = 0 ->
  yearOk s b = true \/ time.tMonth b = 1 ->
  aligned s b.
Proof.
  intros D Z Y. unfold aligned. rewrite Z.
  split; [|split; [|split; [|split]]]; intros F; auto.
  destruct Y as [Y|Y]; [congruence|auto].
Qed.

Section NextFirst.
Variables (s : SpecSchedule) (loc : time.Location) (yearLimit : Z).
Variable t0 : time.Time.
Hypothesis Hoff : time.zoneOffset loc mod 60 = 0.

Lemma skipped_extend (a b : time.Time) :
  skipped s t0 a ->
  (forall w, time.Valid w -> time.wall a <= time.wall w < time.wall b ->
             matches s w = false) ->
  skipped s t0 b.
Proof.
  intros Sa H w Vw Hw.
  destruct (Z_lt_ge_dec (time.wall w) (time.wall a)) as [L|G].
  - apply Sa; [exact Vw|lia].
  - apply H; [exact Vw|lia].
Qed.

Lemma record_eq (a : time.Time) (y m d sd ns : Z) (l : time.Location) :
  time.tYear a = y -> time.tMonth a = m -> time.tDay a = d ->
  time.tSod a = sd -> time.tNsec a = ns -> time.tLoc a = l ->
  a = time.mkTime y m d sd ns l.
Proof. destruct a. cbn. intros. subst. reflexivity. Qed.

Lemma nextYearLoop_first (n : nat) : forall st,
  searching s loc t0 st ->
  match nextYearLoop s loc yearLimit n st with
  | Fall st' => searching s loc t0 st' /\ yearOk s (nT st') = true
  | Return r =>
      r = time.zero /\
      exists u, time.Valid u /\ skipped s t0 u /\
                lastYear yearLimit < time.tYear u
  | Wrap _ => False
  | Exhausted => True
  end.
Proof.
  induction n as [|n IH]; intros st Inv; [exact I|].
  cbn [nextYearLoop].
  destruct ((time.Year (nT st) <? minYear)
            || (Bit (Year s) (time.Year (nT st) - minYear) =? 0)) eqn:G.
  2:{ split; [exact Inv|]. unfold yearOk. rewrite G. reflexivity. }
  assert (NY : yearOk s (nT st) = false)
    by (unfold yearOk; rewrite G; reflexivity).
  destruct Inv as ((V & L & N) & W & Sk & Al).
  assert (T1 : (if negb (nAdded st)
                then time.Date (time.Year (nT st)) 1 1 0 0 0 0 loc
                else nT st)
               = time.mkTime (time.tYear (nT st)) 1 1 0 0 loc).
  { destruct (nAdded st); cbn [negb].
    - destruct (Al eq_refl) as (Ay & _). destruct (Ay NY) as (M1 & D1 & S1).
      apply record_eq; auto.
    - apply Date_first_of_year. }
  rewrite T1, first_of_next_year.
  set (y := time.tYear (nT st)) in *.
  set (u := time.mkTime (y + 1) 1 1 0 0 loc).
  assert (Vu : time.Valid u) by reflexivity.
  assert (Wu : time.wall u = time.daysSinceEpoch (y + 1) * 86400)
    by apply wall_first_of_year.
  destruct (first_of_year y loc (nT st) V) as [_ F1].
  specialize (F1 ltac:(unfold y; lia)).
  destruct (first_of_year (y + 1) loc (nT st) V) as [F2 _].
  specialize (F2 ltac:(unfold y; lia)).
  assert (Su : skipped s t0 u).
  { apply (skipped_extend (nT st)); [exact Sk|].
    intros w Vw Hw. apply matches_false. left.
    rewrite (yearOk_year s w (nT st)); [exact NY|].
    apply same_year; [exact Vw|]. fold y. lia. }
  assert (Iu : searching s loc t0 (mkNext u true)).
  { split; [split; [exact Vu|split; reflexivity]|].
    split; [cbn [nT]; lia|]. split; [exact Su|].
    intros _. apply aligned_midnight; auto. }
  destruct (nextYearExceeded yearLimit u) eqn:E.
  - split; [reflexivity|]. exists u.
    split; [exact Vu|split; [exact Su|]].
    apply nextYearExceeded_iff in E. exact E.
  - apply IH. exact Iu.
Qed.

Lemma nextMonthLoop_first (n : nat) : forall st,
  searching s loc t0 st -> yearOk s (nT st) = true ->
  match nextMonthLoop s loc n st with
  | Fall st' =>
      searching s loc t0 st' /\ yearOk s (nT st') = true /\
      monthOk s (nT st') = true
  | Wrap st' => searching s loc t0 st'
  | Return _ => False
  | Exhausted => True
  end.
Proof.
  induction n as [|n IH]; intros st Inv Yk; [exact I|].
  cbn [nextMonthLoop].
  destruct (Bit (Month s) (time.Month (nT st)) =? 0) eqn:G.
  2:{ split; [exact Inv|split; [exact Yk|]].
      unfold monthOk. rewrite G. reflexivity. }
  assert (NM : monthOk s (nT st) = false)
    by (unfold monthOk; rewrite G; reflexivity).
  destruct Inv as ((V & L & N) & W & Sk & Al).
  pose proof V as V'. apply Valid_iff in V'.
  destruct V' as (Vm & Vd & Vs & Vn).
  assert (T1 : (if negb (nAdded st)
                then time.Date (time.Year (nT st)) (time.Month (nT st)) 1
                               0 0 0 0 loc
                else nT st)
               = time.mkTime (time.tYear (nT st)) (time.tMonth (nT st)) 1
                             0 0 loc).
  { destruct (nAdded st); cbn [negb].
    - destruct (Al eq_refl) as (_ & Am & _). destruct (Am NM) as (D1 & S1).
      apply record_eq; auto.
    - apply Date_first_of_month. exact V. }
  rewrite T1, first_of_next_month by exact Vm.
  set (y := time.tYear (nT st)) in *. set (m := time.tMonth (nT st)) in *.
  set (t1 := time.mkTime y m 1 0 0 loc).
  set (u := time.mkTime (y + m / 12) (m mod 12 + 1) 1 0 0 loc).
  assert (Vu : time.Valid u).
  { apply Valid_iff. unfold u. fields.
    pose proof (daysIn_bounds (y + m / 12) (m mod 12 + 1)).
    pose proof (Z.mod_pos_bound m 12). lia. }
  assert (Vt1 : time.Valid t1).
  { apply Valid_iff. unfold t1. fields. lia. }
  assert (Du : time.days u = time.days t1 + time.daysIn y m).
  { destruct (AddDate_month_next t1 Vt1) as [D _].
    unfold t1 in D at 1. rewrite first_of_next_month in D by exact Vm.
    exact D. }
  assert (D1 : time.days t1 <= time.days (nT st)).
  { unfold t1, time.days, time.daysFromCivil. fields. fold y m. lia. }
  assert (D2 : time.days (nT st) < time.days u).
  { rewrite Du. unfold t1, time.days, time.daysFromCivil. fields.
    fold y m. lia. }
  assert (Wu : time.wall (nT st) < time.wall u).
  { apply wall_lt_of_days; assumption. }
  assert (Su : skipped s t0 u).
  { apply (skipped_extend (nT st)); [exact Sk|].
    intros w Vw Hw. apply matches_false. right. left.
    rewrite (monthOk_month s w (nT st)); [exact NM|].
    destruct (wall_split w Vw) as (_ & Dw).
    destruct (wall_split (nT st) V) as (_ & Da).
    assert (Wu0 : time.wall u = time.days u * 86400)
      by (unfold time.wall, u; fields; lia).
    apply (same_month w y m Vw Vm).
    change (time.daysFromCivil y m 1) with (time.days t1).
    rewrite <- Du. rewrite Dw. rewrite Da in D1.
    Z.div_mod_to_equations. lia. }
  assert (Cu : (time.tYear u = y /\ time.tMonth u <> 1) \/
               time.tMonth u = 1).
  { unfold u. fields. Z.div_mod_to_equations. lia. }
  assert (Iu : searching s loc t0 (mkNext u true)).
  { split; [split; [exact Vu|split; reflexivity]|].
    split; [cbn [nT]; lia|]. split; [exact Su|].
    intros _. cbn [nT]. apply aligned_midnight; auto.
    destruct Cu as [[Yu _]|Mu]; [left|right; exact Mu].
    rewrite (yearOk_year s u (nT st)); [exact Yk|exact Yu]. }
  unfold time.Month, time.January.
  destruct (time.tMonth u =? 1) eqn:E; [exact Iu|].
  apply Z.eqb_neq in E.
  apply IH; [exact Iu|]. cbn [nT].
  destruct Cu as [[Yu _]|Mu]; [|congruence].
  rewrite (yearOk_year s u (nT st)); [exact Yk|exact Yu].
Qed.

(** A step from a time [a] that fails the field of a unit, from the start
    [t1] of the unit of [a] to the start [u] of the next unit. *)
Lemma unit_step (U : Z) (a t1 u : time.Time) :
  time.Valid a -> time.Valid u ->
  time.wall t0 <= time.wall a -> skipped s t0 a ->
  time.wall t1 <= time.wall a < time.wall t1 + U ->
  time.wall t1 mod U = 0 -> time.wall u = time.wall t1 + U ->
  (U = 86400 /\ dayMatches s a = false) \/
  (U = 3600 /\ hourOk s a = false) \/
  (U = 60 /\ minuteOk s a = false) \/
  (U = 1 /\ secondOk s a = false) ->
  yearOk s a = true -> monthOk s a = true ->
  dayMatches s a = true \/ U = 86400 ->
  hourOk s a = true \/ 3600 <= U ->
  minuteOk s a = true \/ 60 <= U ->
  skipped s t0 u /\ aligned s u /\
  time.wall a < time.wall u <= time.wall a + U.
Proof.
  intros Va Vu W Sk H1 M1 Wu G Yk Mk Dk Hk Mik.
  assert (HU : U = 1 \/ U = 60 \/ U = 3600 \/ U = 86400)
    by (destruct G as [[? _]|[[? _]|[[? _]|[? _]]]]; auto).
  assert (HB : time.wall a < time.wall u <= time.wall a + U) by lia.
  assert (HM : time.wall u mod U = 0).
  { rewrite Wu. destruct HU as [->|[->|[->| ->]]];
      Z.div_mod_to_equations; lia. }
  split; [|split; [|exact HB]].
  - apply (skipped_extend a); [exact Sk|].
    intros w Vw Hw. apply (skip_step s U a u w); assumption.
  - apply (aligned_step s U a u); assumption.
Qed.

Lemma searching_step (u : time.Time) :
  time.Valid u -> time.tLoc u = loc -> time.tNsec u = 0 ->
  time.wall t0 <= time.wall u -> skipped s t0 u -> aligned s u ->
  searching s loc t0 (mkNext u true).
Proof.
  intros V L N W Sk Al. unfold searching, nextBase. cbn [nT nAdded]. auto.
Qed.

Lemma wall_midnight (y m d : Z) (l : time.Location) :
  time.wall (time.mkTime y m d 0 0 l) = time.daysFromCivil y m d * 86400.
Proof. unfold time.wall, time.days. fields. lia. Qed.

Lemma nextDayLoop_first (n : nat) : forall st,
  searching s loc t0 st ->
  yearOk s (nT st) = true -> monthOk s (nT st) = true ->
  match nextDayLoop s loc n st with
  | Fall st' => searching s loc t0 st' /\ dateOk s (nT st') = true
  | Wrap st' => searching s loc t0 st'
  | Return _ => False
  | Exhausted => True
  end.
Proof.
  induction n as [|n IH]; intros st Inv Yk Mk; [exact I|].
  cbn [nextDayLoop].
  destruct (dayMatches s (nT st)) eqn:G; cbn [negb].
  { split; [exact Inv|]. apply dateOk_parts. auto. }
  destruct Inv as ((V & L & N) & W & Sk & Al).
  pose proof V as V'. apply Valid_iff in V'.
  destruct V' as (Vm & Vd & Vs & Vn).
  assert (T1 : (if negb (nAdded st)
                then time.Date (time.Year (nT st)) (time.Month (nT st))
                               (time.Day (nT st)) 0 0 0 0 loc
                else nT st)
               = time.mkTime (time.tYear (nT st)) (time.tMonth (nT st))
                             (time.tDay (nT st)) 0 0 loc).
  { destruct (nAdded st); cbn [negb].
    - destruct (Al eq_refl) as (_ & _ & Ad & _).
      apply record_eq; auto.
    - apply Date_midnight. exact V. }
  rewrite T1.
  set (t1 := time.mkTime (time.tYear (nT st)) (time.tMonth (nT st))
                         (time.tDay (nT st)) 0 0 loc).
  assert (Vt1 : time.Valid t1) by (apply Valid_iff; unfold t1; fields; lia).
  destruct (AddDate_day_next t1 Vt1) as [D2 C2].
  destruct (AddDate_spec t1 0 0 1 Vt1) as (V2 & L2 & S2 & N2 & _).
  assert (Hu : time.Hour_ (time.AddDate t1 0 0 1) = 0).
  { unfold time.Hour_. rewrite S2. reflexivity. }
  rewrite fixMidnight_id by exact Hu.
  set (u := time.AddDate t1 0 0 1) in *.
  assert (W1 : time.wall t1 = time.days (nT st) * 86400)
    by apply wall_midnight.
  assert (Wu : time.wall u = time.wall t1 + 86400).
  { unfold time.wall at 1. rewrite D2, S2, W1. unfold t1, time.days. fields.
    lia. }
  destruct (unit_step 86400 (nT st) t1 u V V2 W Sk) as (Su & Au & Hu');
    auto; try lia.
  { rewrite W1. unfold time.wall. lia. }
  { rewrite W1. apply Z.mod_mul. lia. }
  assert (Iu : searching s loc t0 (mkNext u true)).
  { apply searching_step; try assumption; lia. }
  unfold time.Day.
  destruct (time.tDay u =? 1) eqn:E; [exact Iu|].
  apply Z.eqb_neq in E.
  apply dayAfter_cases in C2. unfold t1 in C2. fields.
  destruct C2 as [C2|(Yu & Mu & Du)]; [congruence|].
  apply IH; [exact Iu| |]; cbn [nT].
  - rewrite (yearOk_year s u (nT st)); assumption.
  - rewrite (monthOk_month s u (nT st)); assumption.
Qed.

Lemma wall_top_of_hour (t : time.Time) :
  time.Valid t ->
  time.wall (time.Date (time.Year t) (time.Month t) (time.Day t)
                       (time.Hour_ t) 0 0 0 loc) mod 3600 = 0.
Proof.
  intros V. pose proof V as V'. apply Valid_iff in V'.
  destruct V' as (Vm & Vd & Vs & Vn).
  destruct (clock_bounds t Vs) as (Bh & _).
  rewrite Date_id by (unfold time.Year, time.Month, time.Day; lia).
  unfold time.wall. fields. Z.div_mod_to_equations. lia.
Qed.

Lemma nextHourLoop_first (n : nat) : forall st,
  searching s loc t0 st -> dateOk s (nT st) = true ->
  match nextHourLoop s loc n st with
  | Fall st' =>
      searching s loc t0 st' /\ dateOk s (nT st') = true /\
      hourOk s (nT st') = true
  | Wrap st' => searching s loc t0 st'
  | Return _ => False
  | Exhausted => True
  end.
Proof.
  induction n as [|n IH]; intros st Inv Dk; [exact I|].
  cbn [nextHourLoop].
  destruct (Bit (Hour s) (time.Hour_ (nT st)) =? 0) eqn:G.
  2:{ split; [exact Inv|split; [exact Dk|]].
      unfold hourOk. rewrite G. reflexivity. }
  assert (NH : hourOk s (nT st) = false)
    by (unfold hourOk; rewrite G; reflexivity).
  pose proof Dk as Dk'. apply dateOk_parts in Dk'.
  destruct Dk' as (Yk & Mk & Dmk).
  destruct Inv as ((V & L & N) & W & Sk & Al).
  pose proof V as V'. apply Valid_iff in V'.
  destruct V' as (Vm & Vd & Vs & Vn).
  set (t1 := if negb (nAdded st)
             then time.Date (time.Year (nT st)) (time.Month (nT st))
                            (time.Day (nT st)) (time.Hour_ (nT st))
                            0 0 0 loc
             else nT st).
  assert (T1 : time.Valid t1 /\ time.tLoc t1 = loc /\ time.tNsec t1 = 0 /\
               time.wall t1 <= time.wall (nT st) < time.wall t1 + 3600 /\
               time.wall t1 mod 3600 = 0).
  { unfold t1. destruct (nAdded st); cbn [negb].
    - destruct (Al eq_refl) as (_ & _ & _ & Ah & _). specialize (Ah NH).
      repeat split; try assumption; try lia.
      unfold time.wall. Z.div_mod_to_equations. lia.
    - destruct (Date_top_of_hour loc (nT st) V) as (A1 & A2 & A3 & _ & _ & A6).
      repeat split; try assumption; try lia.
      apply wall_top_of_hour. exact V. }
  destruct T1 as (V1 & L1 & N1 & W1 & M1).
  change (1 * time.Hour) with (3600 * 1000000000).
  destruct (Add_seconds t1 3600 V1) as (V2 & W2 & N2 & L2).
  set (u := time.Add t1 (3600 * 1000000000)) in *.
  destruct (unit_step 3600 (nT st) t1 u V V2 W Sk) as (Su & Au & Hu);
    auto; try lia.
  assert (Iu : searching s loc t0 (mkNext u true)).
  { apply searching_step; try assumption; try congruence; lia. }
  destruct (time.Hour_ u =? 0) eqn:E; [exact Iu|].
  apply Z.eqb_neq in E.
  destruct (forward_hour (nT st) u V V2 Hu E) as [Dx _].
  apply IH; [exact Iu|]. cbn [nT].
  rewrite (dateOk_days s u (nT st)); assumption.
Qed.

Lemma nextMinuteLoop_first (n : nat) : forall st,
  searching s loc t0 st -> dateOk s (nT st) = true ->
  hourOk s (nT st) = true ->
  match nextMinuteLoop s n st with
  | Fall st' =>
      searching s loc t0 st' /\ dateOk s (nT st') = true /\
      hourOk s (nT st') = true /\ minuteOk s (nT st') = true
  | Wrap st' => searching s loc t0 st'
  | Return _ => False
  | Exhausted => True
  end.
Proof.
  induction n as [|n IH]; intros st Inv Dk Hk; [exact I|].
  cbn [nextMinuteLoop].
  destruct (Bit (Minute s) (time.Minute_ (nT st)) =? 0) eqn:G.
  2:{ split; [exact Inv|split; [exact Dk|split; [exact Hk|]]].
      unfold minuteOk. rewrite G. reflexivity. }
  assert (NM : minuteOk s (nT st) = false)
    by (unfold minuteOk; rewrite G; reflexivity).
  pose proof Dk as Dk'. apply dateOk_parts in Dk'.
  destruct Dk' as (Yk & Mk & Dmk).
  destruct Inv as ((V & L & N) & W & Sk & Al).
  set (t1 := if negb (nAdded st)
             then time.Truncate (nT st) time.Minute else nT st).
  assert (T1 : time.Valid t1 /\ time.tLoc t1 = loc /\ time.tNsec t1 = 0 /\
               time.wall t1 <= time.wall (nT st) < time.wall t1 + 60 /\
               time.wall t1 mod 60 = 0).
  { unfold t1. destruct (nAdded st); cbn [negb].
    - destruct (Al eq_refl) as (_ & _ & _ & _ & Am). specialize (Am NM).
      repeat split; try assumption; try lia.
      unfold time.wall. Z.div_mod_to_equations. lia.
    - destruct (Truncate_Minute (nT st) V) as (A1 & A2 & A3 & A4 & A5).
      rewrite L in A5.
      repeat split; try assumption; try congruence; try lia.
      Z.div_mod_to_equations. lia. }
  destruct T1 as (V1 & L1 & N1 & W1 & M1).
  change (1 * time.Minute) with (60 * 1000000000).
  destruct (Add_seconds t1 60 V1) as (V2 & W2 & N2 & L2).
  set (u := time.Add t1 (60 * 1000000000)) in *.
  destruct (unit_step 60 (nT st) t1 u V V2 W Sk) as (Su & Au & Hu);
    auto; try lia.
  assert (Iu : searching s loc t0 (mkNext u true)).
  { apply searching_step; try assumption; try congruence; lia. }
  destruct (time.Minute_ u =? 0) eqn:E; [exact Iu|].
  apply Z.eqb_neq in E.
  destruct (forward_minute (nT st) u V V2 Hu E) as (Dx & Hx & _).
  apply IH; [exact Iu| |]; cbn [nT].
  - rewrite (dateOk_days s u (nT st)); assumption.
  - rewrite (hourOk_hour s u (nT st)); assumption.
Qed.

Lemma nextSecondLoop_first (n : nat) : forall st,
  searching s loc t0 st -> dateOk s (nT st) = true ->
  hourOk s (nT st) = true -> minuteOk s (nT st) = true ->
  match nextSecondLoop s n st with
  | Fall st' => searching s loc t0 st' /\ matches s (nT st') = true
  | Wrap st' => searching s loc t0 st'
  | Return _ => False
  | Exhausted => True
  end.
Proof.
  induction n as [|n IH]; intros st Inv Dk Hk Mik; [exact I|].
  cbn [nextSecondLoop].
  pose proof Dk as Dk'. apply dateOk_parts in Dk'.
  destruct Dk' as (Yk & Mk & Dmk).
  destruct (Bit (Second s) (time.Second_ (nT st)) =? 0) eqn:G.
  2:{ split; [exact Inv|]. unfold matches, secondOk.
      rewrite Yk, Mk, Dmk, Hk, Mik, G. reflexivity. }
  assert (NS : secondOk s (nT st) = false)
    by (unfold secondOk; rewrite G; reflexivity).
  destruct Inv as ((V & L & N) & W & Sk & Al).
  set (t1 := if negb (nAdded st)
             then time.Truncate (nT st) time.Second else nT st).
  assert (T1 : time.Valid t1 /\ time.tLoc t1 = loc /\ time.tNsec t1 = 0 /\
               time.wall t1 = time.wall (nT st)).
  { unfold t1. destruct (nAdded st); cbn [negb].
    - repeat split; assumption.
    - destruct (Truncate_Second (nT st) V) as (A1 & A2 & A3 & A4).
      repeat split; try assumption; congruence. }
  destruct T1 as (V1 & L1 & N1 & W1).
  change (1 * time.Second) with (1 * 1000000000).
  destruct (Add_seconds t1 1 V1) as (V2 & W2 & N2 & L2).
  set (u := time.Add t1 (1 * 1000000000)) in *.
  destruct (unit_step 1 (nT st) t1 u V V2 W Sk) as (Su & Au & Hu);
    auto; try lia.
  { apply Z.mod_1_r. }
  assert (Iu : searching s loc t0 (mkNext u true)).
  { apply searching_step; try assumption; try congruence; lia. }
  destruct (time.Second_ u =? 0) eqn:E; [exact Iu|].
  apply Z.eqb_neq in E.
  destruct (forward_second (nT st) u V V2 ltac:(lia) E) as (Dx & Hx & Mx & _).
  apply IH; [exact Iu| | |]; cbn [nT].
  - rewrite (dateOk_days s u (nT st)); assumption.
  - rewrite (hourOk_hour s u (nT st)); assumption.
  - rewrite (minuteOk_minute s u (nT st)); assumption.
Qed.

Lemma nextPass_first (orig : time.Location) (st : nextState) :
  searching s loc t0 st ->
  match nextPass s loc yearLimit orig st with
  | Return r =>
      (r = time.zero /\
       exists u, time.Valid u /\ skipped s t0 u /\
                 lastYear yearLimit < time.tYear u) \/
      (exists u, r = time.In u orig /\ nextBase loc u /\
                 matches s u = true /\ time.wall t0 <= time.wall u /\
                 skipped s t0 u)
  | Wrap st' => searching s loc t0 st'
  | _ => True
  end.
Proof.
  intros Inv. unfold nextPass.
  destruct (nextYearExceeded yearLimit (nT st)) eqn:E.
  { left. split; [reflexivity|]. exists (nT st).
    destruct Inv as ((V & _) & _ & Sk & _).
    split; [exact V|split; [exact Sk|]].
    apply nextYearExceeded_iff in E. exact E. }
  pose proof (nextYearLoop_first loopFuel st Inv) as R1.
  destruct (nextYearLoop s loc yearLimit loopFuel st) as [s1| |r|];
    cbn [andThen]; try exact I; try contradiction; [|left; exact R1].
  destruct R1 as (I1 & Y1).
  pose proof (nextMonthLoop_first loopFuel s1 I1 Y1) as R2.
  destruct (nextMonthLoop s loc loopFuel s1) as [s2|s2| |];
    cbn [andThen]; try exact I; try contradiction; [|exact R2].
  destruct R2 as (I2 & Y2 & M2).
  pose proof (nextDayLoop_first loopFuel s2 I2 Y2 M2) as R3.
  destruct (nextDayLoop s loc loopFuel s2) as [s3|s3| |];
    cbn [andThen]; try exact I; try contradiction; [|exact R3].
  destruct R3 as (I3 & D3).
  pose proof (nextHourLoop_first loopFuel s3 I3 D3) as R4.
  destruct (nextHourLoop s loc loopFuel s3) as [s4|s4| |];
    cbn [andThen]; try exact I; try contradiction; [|exact R4].
  destruct R4 as (I4 & D4 & H4).
  pose proof (nextMinuteLoop_first loopFuel s4 I4 D4 H4) as R5.
  destruct (nextMinuteLoop s loopFuel s4) as [s5|s5| |];
    cbn [andThen]; try exact I; try contradiction; [|exact R5].
  destruct R5 as (I5 & D5 & H5 & M5).
  pose proof (nextSecondLoop_first loopFuel s5 I5 D5 H5 M5) as R6.
  destruct (nextSecondLoop s loopFuel s5) as [s6|s6| |];
    cbn [andThen]; try exact I; try contradiction; [|exact R6].
  destruct R6 as ((B6 & W6 & S6 & _) & M6).
  right. exists (nT s6). auto.
Qed.

End NextFirst.

(** A property of the states at [WRAP] holds of the result. *)
Lemma wrapLoop_inv {S : Type} (pass : S -> flow S) (P : S -> Prop)
      (Q : time.Time -> Prop) :
  (forall st, P st ->
     match pass st with
     | Return r => Q r
     | Wrap st' => P st'
     | _ => True
     end) ->
  forall n st, P st ->
    match wrapLoop pass n st with
    | Return r => Q r
    | Wrap st' => P st'
    | _ => True
    end.
Proof.
  intros H. induction n as [|n IH]; intros st Pst.
  - cbn [wrapLoop]. apply H. exact Pst.
  - cbn [wrapLoop]. pose proof (IH st Pst) as R.
    destruct (wrapLoop pass n st) as [x|st1|a|]; try exact I.
    + apply IH. exact R.
    + exact R.
Qed.

(** The result of [Next], in a location whose offset is a whole number of
    minutes: the zero time when the search passes the last year without a
    match, or else the first time from the start that matches. *)
Lemma Next_first_spec (s : SpecSchedule) (t r : time.Time) :
  time.Valid t ->
  time.zoneOffset (effectiveLocation s t) mod 60 = 0 ->
  Next s t = Some r ->
  (r = time.zero /\
   exists u, time.Valid u /\ skipped s (nextStart s t) u /\
             lastYear (time.Year (nextStart s t) + 5) < time.tYear u) \/
  (exists u, r = time.In u (time.LocationOf t) /\
             nextBase (effectiveLocation s t) u /\
             matches s u = true /\
             time.wall (nextStart s t) <= time.wall u /\
             skipped s (nextStart s t) u).
Proof.
  intros V Hoff E.
  destruct (nextStart_spec s t V) as (Vs & _ & _ & Ls).
  destruct (nextStart_whole s t V) as (N0 & _).
  pose proof (wrapLoop_inv
    (nextPass s (effectiveLocation s t) (time.Year (nextStart s t) + 5)
              (time.LocationOf t))
    (searching s (effectiveLocation s t) (nextStart s t))
    (fun r =>
       (r = time.zero /\
        exists u, time.Valid u /\ skipped s (nextStart s t) u /\
                  lastYear (time.Year (nextStart s t) + 5) < time.tYear u) \/
       (exists u, r = time.In u (time.LocationOf t) /\
                  nextBase (effectiveLocation s t) u /\
                  matches s u = true /\
                  time.wall (nextStart s t) <= time.wall u /\
                  skipped s (nextStart s t) u))
    (fun st => nextPass_first s (effectiveLocation s t)
                 (time.Year (nextStart s t) + 5) (nextStart s t) Hoff
                 (time.LocationOf t) st)
    wrapFuel (mkNext (nextStart s t) false)) as T.
  specialize (T ltac:(
    split; [split; [exact Vs|split; [exact Ls|exact N0]]|];
    split; [cbn [nT]; lia|];
    split; [intros w Vw Hw; cbn [nT] in Hw; lia|];
    intros A; discriminate A)).
  rewrite Next_unfold in E. revert T E.
  generalize (wrapLoop
    (nextPass s (effectiveLocation s t) (time.Year (nextStart s t) + 5)
              (time.LocationOf t)) wrapFuel (mkNext (nextStart s t) false)).
  intros f T E. destruct f as [x|st1|a|]; try discriminate E.
  inversion E. subst a. exact T.
Qed.

(** Whole seconds of a location are ordered as their instants. *)
Lemma wall_le_UnixNano (a b : time.Time) :
  time.tLoc a = time.tLoc b -> time.tNsec a = 0 -> time.Valid b ->
  time.wall a <= time.wall b <-> time.UnixNano a <= time.UnixNano b.
Proof.
  intros L N V. rewrite !UnixNano_wall, L, N.
  apply Valid_iff in V. lia.
Qed.

(** X1.  In a location whose offset from UTC is a whole number of minutes, a
    result of [Next] that is not the zero time is the first time from the
    start of the search that matches the schedule: no instant from the start
    that matches, read in the location of the schedule, is before the result. *)
Theorem Next_first (s : SpecSchedule) (t r w : time.Time) :
  time.Valid t ->
  time.zoneOffset (effectiveLocation s t) mod 60 = 0 ->
  Next s t = Some r ->
  time.IsZero r = false ->
  time.Valid w ->
  time.UnixNano (nextStart s t) <= time.UnixNano w ->
  matches s (time.In w (effectiveLocation s t)) = true ->
  time.UnixNano r <= time.UnixNano w.
Proof.
  intros V Hoff E Z Vw Hw Mw.
  destruct (Next_first_spec s t r V Hoff E)
    as [[-> _]|(u & Ru & (Vu & Lu & Nu) & _ & _ & Sk)]; [discriminate Z|].
  destruct (nextStart_spec s t V) as (Vs & _ & _ & Ls).
  destruct (nextStart_whole s t V) as (N0 & _).
  destruct (In_spec w (effectiveLocation s t) Vw) as (Vw' & Uw' & Lw').
  destruct (In_spec u (time.LocationOf t) Vu) as (_ & Ur & _).
  rewrite Ru, Ur, <- Uw'. rewrite <- Uw' in Hw.
  apply wall_le_UnixNano; try assumption; try congruence.
  apply wall_le_UnixNano in Hw; try assumption; try congruence.
  destruct (Z_le_gt_dec (time.wall u) (time.wall (time.In w (effectiveLocation s t))))
    as [Le|Gt]; [exact Le|].
  rewrite (Sk _ Vw') in Mw by lia. discriminate Mw.
Qed.

(** X2.  In a location whose offset from UTC is a whole number of minutes,
    [Next] finds a time when there is one: when an instant from the start of
    the search matches the schedule, read in its location, in a year that is
    at most 2099 and at most 5 after that of the start, [Next] returns a time
    that matches, from the start and not after that instant. *)
Theorem Next_finds (s : SpecSchedule) (t w : time.Time) :
  time.Valid t ->
  time.zoneOffset (effectiveLocation s t) mod 60 = 0 ->
  time.Valid w ->
  time.UnixNano (nextStart s t) <= time.UnixNano w ->
  matches s (time.In w (effectiveLocation s t)) = true ->
  time.Year (time.In w (effectiveLocation s t))
    <= Z.min (time.Year (nextStart s t) + 5) maxYear ->
  exists r, Next s t = Some r /\
            matches s (time.In r (effectiveLocation s t)) = true /\
            time.UnixNano (nextStart s t) <= time.UnixNano r
              <= time.UnixNano w.
Proof.
  intros V Hoff Vw Hw Mw Yw.
  destruct (Next_spec_full s t V) as (r & E & _). exists r.
  split; [exact E|].
  destruct (nextStart_spec s t V) as (Vs & _ & _ & Ls).
  destruct (nextStart_whole s t V) as (N0 & _).
  destruct (In_spec w (effectiveLocation s t) Vw) as (Vw' & Uw' & Lw').
  rewrite <- Uw'. rewrite <- Uw' in Hw.
  apply wall_le_UnixNano in Hw; try assumption; try congruence.
  set (w' := time.In w (effectiveLocation s t)) in *.
  destruct (Next_first_spec s t r V Hoff E)
    as [[_ (u & Vu & Sk & Yu)]|(u & Ru & (Vu & Lu & Nu) & Mu & Wu & Sk)].
  - exfalso.
    destruct (Z_le_gt_dec (time.wall u) (time.wall w')) as [Le|Gt].
    + pose proof (Year_mono u w' Vu Vw' Le).
      unfold lastYear, time.Year in *. lia.
    + rewrite (Sk _ Vw') in Mw by lia. discriminate Mw.
  - destruct (In_spec u (time.LocationOf t) Vu) as (_ & Ur & _).
    assert (Iu : time.In r (effectiveLocation s t) = u).
    { rewrite Ru, In_In by assumption.
      rewrite <- Lu. apply In_same. assumption. }
    rewrite Iu. split; [exact Mu|].
    rewrite Ru, Ur. split.
    + apply wall_le_UnixNano; try assumption; congruence.
    + apply wall_le_UnixNano; try assumption; try congruence.
      destruct (Z_le_gt_dec (time.wall u) (time.wall w')) as [Le|Gt];
        [exact Le|].
      rewrite (Sk _ Vw') in Mw by lia. discriminate Mw.
Qed.

(** The offset of the location matters.  [Truncate] rounds the time that
    has passed since the zero time, in UTC; in a location 30 seconds east
    of UTC the minute loop then steps from half minute to half minute,
    and the search for minute 2 at second 0 that starts at 10:00:09 passes
    10:02:00, which matches, and returns 11:02:00. *)
Example Next_in_odd_location :
  let l := time.FixedZone 30 in
  Next minuteTwoOdd (time.Date 2024 5 5 10 0 10 0 l)
  = Some (time.Date 2024 5 5 11 2 0 0 l) /\
  matches minuteTwoOdd (time.Date 2024 5 5 10 2 0 0 l) = true.
Proof. vm_compute. split; reflexivity. Qed.

(** ** The names of the fields *)

Lemma lookup_In (k : string) (v : Z) (m : names) :
  lookup k m = Some v -> In (k, v) m.
Proof.
  unfold lookup. destruct (find _ m) as [[k' v']|] eqn:E; [|discriminate].
  cbn [option_map snd]. intros H. inversion H. subst v'.
  apply find_some in E. destruct E as [E1 E2]. cbn [fst] in E2.
  apply String.eqb_eq in E2. subst k'. exact E1.
Qed.

(** A test that holds of the numbers [lo], [lo + 1], ... holds of each. *)
Lemma range_check (f : Z -> bool) (lo : Z) (n : nat) :
  forallb (fun i => f (lo + Z.of_nat i)) (seq 0 n) = true ->
  forall y, lo <= y < lo + Z.of_nat n -> f y = true.
Proof.
  intros H y Hy. rewrite forallb_forall in H.
  specialize (H (Z.to_nat (y - lo))).
  replace (lo + Z.of_nat (Z.to_nat (y - lo))) with y in H by lia.
  apply H. apply in_seq. lia.
Qed.

Lemma entries_check (f : string * Z -> bool) (m : names) :
  forallb f m = true ->
  forall k v, lookup k m = Some v -> f (k, v) = true.
Proof.
  intros H k v L. rewrite forallb_forall in H. apply H.
  apply lookup_In. exact L.
Qed.

(** X20.  [init] gives every year from 1970 to 2099 its decimal name in
    [years.names], with the distance of the year from 1970 as its value, and
    no other name: the map has 130 entries, and their values are the values
    that [years] bounds. *)
Theorem init_names :
  exists m, init = Some m /\ length m = 130%nat /\
    (forall y, minYear <= y <= maxYear ->
               lookup (Itoa y) m = Some (y - minYear)) /\
    (forall k v, lookup k m = Some v ->
                 min years <= v <= max years /\ k = Itoa (minYear + v)).
Proof.
  eexists. split; [vm_compute; reflexivity|].
  split; [reflexivity|]. split.
  - intros y Hy.
    match goal with |- lookup _ ?m = _ => set (m0 := m) end.
    pose proof (range_check
      (fun y => match lookup (Itoa y) m0 with
                | Some v => v =? y - minYear
                | None => false
                end) minYear 130) as R.
    specialize (R ltac:(vm_compute; reflexivity) y
                  ltac:(unfold minYear, maxYear in *; lia)).
    cbv beta in R. destruct (lookup (Itoa y) m0) as [v|]; [|discriminate R].
    apply Z.eqb_eq in R. congruence.
  - intros k v L.
    match type of L with lookup _ ?m = _ => set (m0 := m) in * end.
    pose proof (entries_check
      (fun e => (0 <=? snd e) && (snd e <=? 129)
                && String.eqb (fst e) (Itoa (minYear + snd e))) m0) as R.
    specialize (R ltac:(vm_compute; reflexivity) k v L).
    cbn [fst snd] in R.
    apply andb_true_iff in R. destruct R as [R R3].
    apply andb_true_iff in R. destruct R as [R1 R2].
    apply String.eqb_eq in R3. apply Z.leb_le in R1, R2.
    change (min years) with 0. change (max years) with 129.
    split; [lia|exact R3].
Qed.

(** X21.  The names of the months and of the days of the week stand for the
    values that the bounds of their fields allow, and every such value has a
    name. *)
Theorem names_within_bounds :
  (forall k v, lookup k monthsNames = Some v ->
               min months <= v <= max months) /\
  (forall v, min months <= v <= max months ->
             exists k, lookup k monthsNames = Some v) /\
  (forall k v, lookup k dowNames = Some v -> min dow <= v <= max dow) /\
  (forall v, min dow <= v <= max dow ->
             exists k, lookup k dowNames = Some v).
Proof.
  split; [|split; [|split]].
  - intros k v L.
    pose proof (entries_check (fun e => (1 <=? snd e) && (snd e <=? 12))
                  monthsNames eq_refl k v L) as R.
    cbn [snd] in R. apply andb_true_iff in R. destruct R as [R1 R2].
    apply Z.leb_le in R1, R2.
    change (min months) with 1. change (max months) with 12. lia.
  - intros v Hv. change (min months) with 1 in Hv.
    change (max months) with 12 in Hv.
    pose proof (range_check
      (fun v => existsb (fun e => snd e =? v) monthsNames) 1 12 eq_refl v)
      as R.
    specialize (R ltac:(lia)). apply existsb_exists in R.
    destruct R as ([k v'] & I & E). cbn [snd] in E. apply Z.eqb_eq in E.
    subst v'. exists k.
    repeat (destruct I as [I|I]; [inversion I; reflexivity|]).
    destruct I.
  - intros k v L.
    pose proof (entries_check (fun e => (0 <=? snd e) && (snd e <=? 6))
                  dowNames eq_refl k v L) as R.
    cbn [snd] in R. apply andb_true_iff in R. destruct R as [R1 R2].
    apply Z.leb_le in R1, R2.
    change (min dow) with 0. change (max dow) with 6. lia.
  - intros v Hv. change (min dow) with 0 in Hv.
    change (max dow) with 6 in Hv.
    pose proof (range_check
      (fun v => existsb (fun e => snd e =? v) dowNames) 0 7 eq_refl v)
      as R.
    specialize (R ltac:(lia)). apply existsb_exists in R.
    destruct R as ([k v'] & I & E). cbn [snd] in E. apply Z.eqb_eq in E.
    subst v'. exists k.
    repeat (destruct I as [I|I]; [inversion I; reflexivity|]).
    destruct I.
Qed.

(** ** [Next] and [Prev] together *)

(** A time that matches is returned by [Prev] at once. *)
Lemma Prev_at_match (s : SpecSchedule) (t : time.Time) :
  matches s (inSchedule s t) = true ->
  Prev s t = Some (time.In (inSchedule s t) (time.LocationOf t)).
Proof.
  intros M. unfold matches in M.
  repeat (apply andb_true_iff in M; destruct M as [M ?]).
  unfold Prev.
  rewrite wrapLoop_Return
    with (r := time.In (inSchedule s t) (time.LocationOf t)); [reflexivity|].
  unfold prevPass. cbn [pT].
  assert (E : prevYearExceeded (time.Year (inSchedule s t) - 5)
                               (inSchedule s t) = false).
  { unfold prevYearExceeded. apply orb_false_iff. split.
    - apply Z.ltb_ge. lia.
    - unfold yearOk in M. apply negb_true_iff in M.
      apply orb_false_iff in M. tauto. }
  rewrite E. change loopFuel with (S 69).
  rewrite prevYearLoop_ok by assumption. cbn [andThen].
  unfold prevYearFix; cbn [addYear pT].
  rewrite prevMonthLoop_ok by assumption. cbn [andThen].
  unfold prevMonthFix; cbn [addMonth pT].
  rewrite prevDayLoop_ok by assumption. cbn [andThen].
  unfold prevDayFix; cbn [addDay pT].
  rewrite prevHourLoop_ok by assumption. cbn [andThen].
  unfold prevHourFix; cbn [addHour pT].
  rewrite prevMinuteLoop_ok by assumption. cbn [andThen].
  unfold prevMinuteFix; cbn [addMinute pT].
  rewrite prevSecondLoop_ok by assumption. cbn [andThen].
  reflexivity.
Qed.

(** C2, amended.  In locations with a fixed offset, a result of [Prev]
    that is not the zero time is not after the given time: it is the
    given time when that time, read in the location of the schedule,
    matches the schedule, and an earlier time when it does not. *)
Theorem Prev_not_after (s : SpecSchedule) (t r : time.Time) :
  time.Valid t ->
  Prev s t = Some r ->
  time.IsZero r = false ->
  time.UnixNano r <= time.UnixNano t /\
  (time.UnixNano r = time.UnixNano t <->
   matches s (inSchedule s t) = true).
Proof.
  intros V E Z.
  destruct (inSchedule_spec s t V) as (V0 & U0 & L0).
  destruct (matches s (inSchedule s t)) eqn:M.
  - rewrite (Prev_at_match s t M) in E. inversion E. subst r. clear E.
    destruct (In_spec (inSchedule s t) (time.LocationOf t) V0)
      as (_ & Ur & _).
    rewrite Ur, U0. split; [lia|]. split; reflexivity.
  - destruct (Prev_spec_full s t V) as (r' & E' & R).
    rewrite E in E'. inversion E'. subst r'. clear E'.
    destruct R as [->|(u & Ru & (Vu & Lu) & Wu & _ & X)]; [discriminate Z|].
    destruct X as [[_ X]|X]; [rewrite M in X; discriminate X|].
    destruct (In_spec u (time.LocationOf t) Vu) as (_ & Ur & _).
    rewrite Ru, Ur, <- U0, !wallNano_Unix, Lu, L0 in *.
    split; [lia|]. split; [lia|discriminate].
Qed.


Lemma Prev_not_after_witness :
  let t := time.Date 2024 5 5 10 3 20 500 time.UTC in
  let r := time.Date 2024 5 5 10 3 0 0 time.UTC in
  time.Valid t /\ Prev everyMinute t = Some r /\ time.IsZero r = false /\
  time.UnixNano r <= time.UnixNano t /\
  (time.UnixNano r = time.UnixNano t <->
   matches everyMinute (inSchedule everyMinute t) = true).
Proof.
  intros t r.
  assert (H1 : time.Valid t) by reflexivity.
  assert (H2 : Prev everyMinute t = Some r) by (vm_compute; reflexivity).
  assert (H3 : time.IsZero r = false) by (vm_compute; reflexivity).
  split; [exact H1|]. split; [exact H2|]. split; [exact H3|].
  apply (Prev_not_after everyMinute t r H1 H2 H3).
Defined.

(** X12.  [Prev] at a result of [Next] that is not the zero time returns that
    result. *)
Theorem Prev_of_Next (s : SpecSchedule) (t r : time.Time) :
  time.Valid t ->
  Next s t = Some r ->
  time.IsZero r = false ->
  Prev s r = Some r.
Proof.
  intros V E Z.
  destruct (Next_result s t r V E Z)
    as (u & Ru & Iu & (Vu & Lu & Nu) & Mu & _).
  destruct (In_spec u (time.LocationOf t) Vu) as (Vr & Ur & Lr).
  rewrite <- Ru in Vr, Ur, Lr.
  assert (Le : effectiveLocation s r = effectiveLocation s t).
  { unfold effectiveLocation, time.LocationOf. rewrite Lr. reflexivity. }
  destruct (inSchedule_spec s r Vr) as (Vi & Ui & Li).
  assert (S0 : inSchedule s r = u).
  { apply Time_ext; try assumption; congruence. }
  rewrite Prev_at_match; rewrite S0; [|exact Mu].
  unfold time.LocationOf. rewrite Lr. fold (time.LocationOf t).
  rewrite <- Ru. reflexivity.
Qed.

(** X9.  [Next] returns the zero time when no time matches within its
    horizon: when no time of the location of the schedule, from the start
    of the search on and in a year that is at most 2099 and at most 5 after
    that of the start, matches the schedule. *)
Theorem Next_zero_without_match (s : SpecSchedule) (t : time.Time) :
  time.Valid t ->
  (forall u, time.Valid u ->
             time.LocationOf u = effectiveLocation s t ->
             time.UnixNano (nextStart s t) <= time.UnixNano u ->
             time.Year u <= Z.min (time.Year (nextStart s t) + 5) maxYear ->
             matches s u = false) ->
  Next s t = Some time.zero.
Proof.
  intros V H.
  destruct (Next_spec_full s t V) as (r & E & R).
  destruct R as [->|(u & _ & (Vu & Lu & Nu) & Mu & Wu & Yu)]; [exact E|].
  destruct (nextStart_spec s t V) as (_ & _ & _ & Ls).
  destruct (nextStart_whole s t V) as (N0 & _).
  rewrite (H u Vu Lu) in Mu; [discriminate Mu| |exact Yu].
  apply wall_le_UnixNano; try assumption. congruence.
Qed.

(** X3.  In a location whose offset from UTC is a whole number of minutes,
    [Next] is monotone: for two given times of one location, the result at the
    earlier one is not after the result at the later one, when neither is the
    zero time. *)
Theorem Next_monotone (s : SpecSchedule) (t1 t2 r1 r2 : time.Time) :
  time.Valid t1 -> time.Valid t2 ->
  time.LocationOf t1 = time.LocationOf t2 ->
  time.zoneOffset (effectiveLocation s t1) mod 60 = 0 ->
  time.UnixNano t1 <= time.UnixNano t2 ->
  Next s t1 = Some r1 -> time.IsZero r1 = false ->
  Next s t2 = Some r2 -> time.IsZero r2 = false ->
  time.UnixNano r1 <= time.UnixNano r2.
Proof.
  intros V1 V2 L Hoff Le E1 Z1 E2 Z2.
  assert (Lo : effectiveLocation s t2 = effectiveLocation s t1).
  { unfold effectiveLocation. rewrite L. reflexivity. }
  destruct (Next_result s t2 r2 V2 E2 Z2)
    as (u2 & Ru2 & Iu2 & (Vu2 & Lu2 & Nu2) & Mu2 & Wu2 & _).
  destruct (Next_first_spec s t1 r1 V1 Hoff E1)
    as [[-> _]|(u1 & Ru1 & (Vu1 & Lu1 & Nu1) & _ & _ & Sk)];
    [discriminate Z1|].
  destruct (In_spec u1 (time.LocationOf t1) Vu1) as (_ & U1 & _).
  destruct (In_spec u2 (time.LocationOf t2) Vu2) as (_ & U2 & _).
  rewrite Ru1, Ru2, U1, U2.
  rewrite Lo in Lu2.
  apply wall_le_UnixNano; try assumption; try congruence.
  destruct (nextStart_spec s t1 V1) as (Vs1 & Us1 & _ & Ls1).
  destruct (nextStart_spec s t2 V2) as (Vs2 & Us2 & _ & Ls2).
  destruct (nextStart_whole s t1 V1) as (N1 & Ni1).
  destruct (nextStart_whole s t2 V2) as (N2 & Ni2).
  assert (W12 : time.wall (nextStart s t1) <= time.wall (nextStart s t2)).
  { rewrite Lo in Ls2.
    rewrite (UnixNano_wall (nextStart s t1)), Ls1, N1, Ni1 in Us1.
    rewrite (UnixNano_wall (nextStart s t2)), Ls2, N2, Ni2 in Us2.
    pose proof V1 as V1'. apply Valid_iff in V1'.
    pose proof V2 as V2'. apply Valid_iff in V2'. lia. }
  destruct (Z_le_gt_dec (time.wall u1) (time.wall u2)) as [Le'|Gt];
    [exact Le'|].
  rewrite (Sk u2 Vu2) in Mu2 by lia. discriminate Mu2.
Qed.

(** ** Schedules without a location of their own *)

Lemma andThen_ext {S : Type} (r : flow S) (k1 k2 : S -> flow S) :
  (forall st, k1 st = k2 st) -> andThen r k1 = andThen r k2.
Proof. intros H. destruct r; cbn [andThen]; auto. Qed.

(** The loops read the masks of the schedule and not its location. *)
Section OtherLocation.
Variables (sc mi hr dm mo dw yr : Z) (l1 l2 loc : time.Location).
Variable yearLimit : Z.

Lemma dayMatches_masks (t : time.Time) :
  dayMatches (mkSpecSchedule sc mi hr dm mo dw yr l1) t = dayMatches (mkSpecSchedule sc mi hr dm mo dw yr l2) t.
Proof. reflexivity. Qed.

Lemma nextPass_masks (orig : time.Location) (st : nextState) :
  nextPass (mkSpecSchedule sc mi hr dm mo dw yr l1) loc yearLimit orig st
  = nextPass (mkSpecSchedule sc mi hr dm mo dw yr l2) loc yearLimit orig st.
Proof.
  set (s1 := mkSpecSchedule sc mi hr dm mo dw yr l1).
  set (s2 := mkSpecSchedule sc mi hr dm mo dw yr l2).
  assert (Y : forall n st, nextYearLoop s1 loc yearLimit n st
                           = nextYearLoop s2 loc yearLimit n st).
  { induction n as [|n IH]; intros x; [reflexivity|].
    cbn [nextYearLoop Year s1 s2]. rewrite IH. reflexivity. }
  assert (M : forall n st, nextMonthLoop s1 loc n st
                           = nextMonthLoop s2 loc n st).
  { induction n as [|n IH]; intros x; [reflexivity|].
    cbn [nextMonthLoop Month s1 s2]. rewrite IH. reflexivity. }
  assert (D : forall n st, nextDayLoop s1 loc n st
                           = nextDayLoop s2 loc n st).
  { induction n as [|n IH]; intros x; [reflexivity|].
    cbn [nextDayLoop]. unfold s1 at 2. rewrite IH, dayMatches_masks. reflexivity. }
  assert (H : forall n st, nextHourLoop s1 loc n st
                           = nextHourLoop s2 loc n st).
  { induction n as [|n IH]; intros x; [reflexivity|].
    cbn [nextHourLoop Hour s1 s2]. rewrite IH. reflexivity. }
  assert (Mi : forall n st, nextMinuteLoop s1 n st = nextMinuteLoop s2 n st).
  { induction n as [|n IH]; intros x; [reflexivity|].
    cbn [nextMinuteLoop Minute s1 s2]. rewrite IH. reflexivity. }
  assert (S : forall n st, nextSecondLoop s1 n st = nextSecondLoop s2 n st).
  { induction n as [|n IH]; intros x; [reflexivity|].
    cbn [nextSecondLoop Second s1 s2]. rewrite IH. reflexivity. }
  unfold nextPass.
  destruct (nextYearExceeded yearLimit (nT st)); [reflexivity|].
  rewrite Y. apply andThen_ext. intros x1.
  rewrite M. apply andThen_ext. intros x2.
  rewrite D. apply andThen_ext. intros x3.
  rewrite H. apply andThen_ext. intros x4.
  rewrite Mi. apply andThen_ext. intros x5.
  rewrite S. reflexivity.
Qed.

Lemma prevPass_masks (orig : time.Location) (st : prevState) :
  prevPass (mkSpecSchedule sc mi hr dm mo dw yr l1) loc yearLimit orig st
  = prevPass (mkSpecSchedule sc mi hr dm mo dw yr l2) loc yearLimit orig st.
Proof.
  set (s1 := mkSpecSchedule sc mi hr dm mo dw yr l1).
  set (s2 := mkSpecSchedule sc mi hr dm mo dw yr l2).
  assert (Y : forall n st, prevYearLoop s1 loc yearLimit n st
                           = prevYearLoop s2 loc yearLimit n st).
  { induction n as [|n IH]; intros x; [reflexivity|].
    cbn [prevYearLoop Year s1 s2]. rewrite IH. reflexivity. }
  assert (M : forall n st, prevMonthLoop s1 loc n st
                           = prevMonthLoop s2 loc n st).
  { induction n as [|n IH]; intros x; [reflexivity|].
    cbn [prevMonthLoop Month s1 s2]. rewrite IH. reflexivity. }
  assert (D : forall n st, prevDayLoop s1 loc n st
                           = prevDayLoop s2 loc n st).
  { induction n as [|n IH]; intros x; [reflexivity|].
    cbn [prevDayLoop]. unfold s1 at 2. rewrite IH, dayMatches_masks. reflexivity. }
  assert (H : forall n st, prevHourLoop s1 loc n st
                           = prevHourLoop s2 loc n st).
  { induction n as [|n IH]; intros x; [reflexivity|].
    cbn [prevHourLoop Hour s1 s2]. rewrite IH. reflexivity. }
  assert (Mi : forall n st, prevMinuteLoop s1 n st = prevMinuteLoop s2 n st).
  { induction n as [|n IH]; intros x; [reflexivity|].
    cbn [prevMinuteLoop Minute s1 s2]. rewrite IH. reflexivity. }
  assert (S : forall n st, prevSecondLoop s1 n st = prevSecondLoop s2 n st).
  { induction n as [|n IH]; intros x; [reflexivity|].
    cbn [prevSecondLoop Second s1 s2]. rewrite IH. reflexivity. }
  unfold prevPass.
  destruct (prevYearExceeded yearLimit (pT st)); [reflexivity|].
  rewrite Y. apply andThen_ext. intros x1.
  rewrite M. apply andThen_ext. intros x2.
  rewrite D. apply andThen_ext. intros x3.
  rewrite H. apply andThen_ext. intros x4.
  rewrite Mi. apply andThen_ext. intros x5.
  rewrite S. reflexivity.
Qed.
End OtherLocation.

Lemma wrapLoop_ext {S : Type} (p1 p2 : S -> flow S) :
  (forall st, p1 st = p2 st) ->
  forall n st, wrapLoop p1 n st = wrapLoop p2 n st.
Proof.
  intros H. induction n as [|n IH]; intros st; cbn [wrapLoop].
  - apply H.
  - rewrite IH. destruct (wrapLoop p2 n st); try reflexivity. apply IH.
Qed.

(** X18.  A schedule with [time.Local] is read in the location of the given time:
    [Next] and [Prev] return for it what they return for the schedule with
    the same masks and the location of the given time. *)
Theorem Local_schedule (s : SpecSchedule) (t : time.Time) :
  time.Valid t ->
  time.isLocal (Location s) = true ->
  let s' := mkSpecSchedule (Second s) (Minute s) (Hour s) (Dom s) (Month s)
                           (Dow s) (Year s) (time.LocationOf t) in
  Next s' t = Next s t /\ Prev s' t = Prev s t.
Proof.
  intros V L s'. destruct s as [sc mi hr dm mo dw yr l].
  cbn [Second Minute Hour Dom Month Dow Year Location] in *.
  subst s'.
  set (s1 := mkSpecSchedule sc mi hr dm mo dw yr (time.LocationOf t)).
  set (s2 := mkSpecSchedule sc mi hr dm mo dw yr l).
  assert (Le : effectiveLocation s1 t = effectiveLocation s2 t).
  { unfold effectiveLocation, s1, s2. cbn [Location]. rewrite L.
    destruct (time.isLocal (time.LocationOf t)); reflexivity. }
  assert (Li : inSchedule s1 t = inSchedule s2 t).
  { unfold inSchedule, s1, s2. cbn [Location]. rewrite L. cbn [negb].
    destruct (time.isLocal (time.LocationOf t)); cbn [negb]; [reflexivity|].
    apply In_same. exact V. }
  assert (Ls : nextStart s1 t = nextStart s2 t).
  { unfold nextStart. rewrite Li. reflexivity. }
  split.
  - rewrite !Next_unfold, Le, Ls.
    rewrite (wrapLoop_ext _ _
      (nextPass_masks sc mi hr dm mo dw yr (time.LocationOf t) l
         (effectiveLocation s2 t) (time.Year (nextStart s2 t) + 5)
         (time.LocationOf t))).
    reflexivity.
  - rewrite !Prev_unfold, Le, Li.
    rewrite (wrapLoop_ext _ _
      (prevPass_masks sc mi hr dm mo dw yr (time.LocationOf t) l
         (effectiveLocation s2 t) (time.Year (inSchedule s2 t) - 5)
         (time.LocationOf t))).
    reflexivity.
Qed.

(** ** The further theorems at an input *)

Lemma Next_result_in_location_witness :
  let t := time.Date 2024 5 5 10 0 30 0 time.UTC in
  let r := time.Date 2024 5 5 10 1 0 0 time.UTC in
  time.Valid t /\ Next everyMinute t = Some r /\ time.IsZero r = false /\
  time.LocationOf r = time.LocationOf t /\ time.Nanosecond_ r = 0.
Proof.
  intros t r.
  assert (H1 : time.Valid t) by reflexivity.
  assert (H2 : Next everyMinute t = Some r) by (vm_compute; reflexivity).
  assert (H3 : time.IsZero r = false) by (vm_compute; reflexivity).
  split; [exact H1|]. split; [exact H2|]. split; [exact H3|].
  apply (Next_result_in_location everyMinute t r H1 H2 H3).
Defined.

Lemma Next_not_before_start_witness :
  let t := time.Date 2024 5 5 10 0 30 250 time.UTC in
  let r := time.Date 2024 5 5 10 0 29 0 time.UTC in
  time.Valid t /\ Next everySecond t = Some r /\ time.IsZero r = false /\
  time.UnixNano t - time.Nanosecond_ t * time.Nanosecond - 1 * time.Second
    <= time.UnixNano r.
Proof.
  intros t r.
  assert (H1 : time.Valid t) by reflexivity.
  assert (H2 : Next everySecond t = Some r) by (vm_compute; reflexivity).
  assert (H3 : time.IsZero r = false) by (vm_compute; reflexivity).
  split; [exact H1|]. split; [exact H2|]. split; [exact H3|].
  apply (Next_not_before_start everySecond t r H1 H2 H3).
Defined.

Lemma Next_year_range_witness :
  let t := time.Date 2024 5 5 10 0 30 0 time.UTC in
  let r := time.Date 2024 5 5 10 1 0 0 time.UTC in
  time.Valid t /\ Next everyMinute t = Some r /\ time.IsZero r = false /\
  minYear <= time.Year (time.In r (effectiveLocation everyMinute t))
    <= maxYear /\
  time.Year (time.In r (effectiveLocation everyMinute t))
    <= time.Year (inSchedule everyMinute t) + 5.
Proof.
  intros t r.
  assert (H1 : time.Valid t) by reflexivity.
  assert (H2 : Next everyMinute t = Some r) by (vm_compute; reflexivity).
  assert (H3 : time.IsZero r = false) by (vm_compute; reflexivity).
  split; [exact H1|]. split; [exact H2|]. split; [exact H3|].
  apply (Next_year_range everyMinute t r H1 H2 H3).
Defined.

Lemma Next_returns_matching_start_witness :
  let t := time.Date 2024 5 5 10 0 30 250 time.UTC in
  time.Valid t /\ matches everySecond (nextStart everySecond t) = true /\
  time.Year (nextStart everySecond t) <= maxYear /\
  Next everySecond t
  = Some (time.In (nextStart everySecond t) (time.LocationOf t)).
Proof.
  intros t.
  assert (H1 : time.Valid t) by reflexivity.
  assert (H2 : matches everySecond (nextStart everySecond t) = true)
    by (vm_compute; reflexivity).
  assert (Y : time.Year (nextStart everySecond t) = 2024)
    by (vm_compute; reflexivity).
  assert (H3 : time.Year (nextStart everySecond t) <= maxYear)
    by (rewrite Y; unfold maxYear; lia).
  split; [exact H1|]. split; [exact H2|]. split; [exact H3|].
  apply (Next_returns_matching_start everySecond t H1 H2 H3).
Defined.

Lemma Next_again_witness :
  let t := time.Date 2024 5 5 10 0 30 0 time.UTC in
  let r := time.Date 2024 5 5 10 1 0 0 time.UTC in
  time.Valid t /\ Next everyMinute t = Some r /\ time.IsZero r = false /\
  Next everyMinute (time.Add r (1 * time.Second)) = Some r.
Proof.
  intros t r.
  assert (H1 : time.Valid t) by reflexivity.
  assert (H2 : Next everyMinute t = Some r) by (vm_compute; reflexivity).
  assert (H3 : time.IsZero r = false) by (vm_compute; reflexivity).
  split; [exact H1|]. split; [exact H2|]. split; [exact H3|].
  apply (Next_again everyMinute t r H1 H2 H3).
Defined.

Lemma Next_any_location_witness :
  let t := time.Date 2024 5 5 10 0 0 0 time.UTC in
  let l := time.FixedZone (-18000) in
  time.Valid t /\ time.isLocal (Location hourlyEast) = false /\
  exists r r', Next hourlyEast t = Some r /\
               Next hourlyEast (time.In t l) = Some r' /\
               time.Equal r r' = true.
Proof.
  intros t l.
  assert (H1 : time.Valid t) by reflexivity.
  assert (H2 : time.isLocal (Location hourlyEast) = false) by reflexivity.
  split; [exact H1|]. split; [exact H2|].
  apply (Next_any_location hourlyEast t l H1 H2).
Defined.

Lemma Next_first_witness :
  let t := time.Date 2024 5 5 10 3 0 0 time.UTC in
  let r := time.Date 2024 5 5 10 5 0 0 time.UTC in
  let w := time.Date 2024 5 5 10 10 0 0 time.UTC in
  time.Valid t /\
  time.zoneOffset (effectiveLocation everyFiveMinutes t) mod 60 = 0 /\
  Next everyFiveMinutes t = Some r /\ time.IsZero r = false /\
  time.Valid w /\
  time.UnixNano (nextStart everyFiveMinutes t) <= time.UnixNano w /\
  matches everyFiveMinutes (time.In w (effectiveLocation everyFiveMinutes t))
    = true /\
  time.UnixNano r <= time.UnixNano w.
Proof.
  intros t r w.
  assert (H1 : time.Valid t) by reflexivity.
  assert (H2 : time.zoneOffset (effectiveLocation everyFiveMinutes t) mod 60
               = 0) by reflexivity.
  assert (H3 : Next everyFiveMinutes t = Some r) by (vm_compute; reflexivity).
  assert (H4 : time.IsZero r = false) by (vm_compute; reflexivity).
  assert (H5 : time.Valid w) by reflexivity.
  assert (H6 : time.UnixNano (nextStart everyFiveMinutes t)
               <= time.UnixNano w) by (apply Z.leb_le; vm_compute; reflexivity).
  assert (H7 : matches everyFiveMinutes
                 (time.In w (effectiveLocation everyFiveMinutes t)) = true)
    by (vm_compute; reflexivity).
  repeat (split; [assumption|]).
  apply (Next_first everyFiveMinutes t r w H1 H2 H3 H4 H5 H6 H7).
Defined.

Lemma Next_finds_witness :
  let t := time.Date 2024 5 5 10 3 0 0 time.UTC in
  let w := time.Date 2024 5 5 10 10 0 0 time.UTC in
  let l := effectiveLocation everyFiveMinutes t in
  time.Valid t /\ time.zoneOffset l mod 60 = 0 /\ time.Valid w /\
  time.UnixNano (nextStart everyFiveMinutes t) <= time.UnixNano w /\
  matches everyFiveMinutes (time.In w l) = true /\
  time.Year (time.In w l)
    <= Z.min (time.Year (nextStart everyFiveMinutes t) + 5) maxYear /\
  exists r, Next everyFiveMinutes t = Some r /\
            matches everyFiveMinutes (time.In r l) = true /\
            time.UnixNano (nextStart everyFiveMinutes t) <= time.UnixNano r
              <= time.UnixNano w.
Proof.
  intros t w l.
  assert (H1 : time.Valid t) by reflexivity.
  assert (H2 : time.zoneOffset l mod 60 = 0) by reflexivity.
  assert (H3 : time.Valid w) by reflexivity.
  assert (H4 : time.UnixNano (nextStart everyFiveMinutes t)
               <= time.UnixNano w) by (apply Z.leb_le; vm_compute; reflexivity).
  assert (H5 : matches everyFiveMinutes (time.In w l) = true)
    by (vm_compute; reflexivity).
  assert (Y1 : time.Year (time.In w l) = 2024) by (vm_compute; reflexivity).
  assert (Y2 : time.Year (nextStart everyFiveMinutes t) = 2024)
    by (vm_compute; reflexivity).
  assert (H6 : time.Year (time.In w l)
               <= Z.min (time.Year (nextStart everyFiveMinutes t) + 5)
                        maxYear)
    by (rewrite Y1, Y2; unfold maxYear; lia).
  repeat (split; [assumption|]).
  apply (Next_finds everyFiveMinutes t w H1 H2 H3 H4 H5 H6).
Defined.

Lemma Prev_result_in_location_witness :
  let t := time.Date 2024 5 5 10 3 20 500 time.UTC in
  let r := time.Date 2024 5 5 10 3 0 0 time.UTC in
  time.Valid t /\ Prev everyMinute t = Some r /\ time.IsZero r = false /\
  time.LocationOf r = time.LocationOf t.
Proof.
  intros t r.
  assert (H1 : time.Valid t) by reflexivity.
  assert (H2 : Prev everyMinute t = Some r) by (vm_compute; reflexivity).
  assert (H3 : time.IsZero r = false) by (vm_compute; reflexivity).
  split; [exact H1|]. split; [exact H2|]. split; [exact H3|].
  apply (Prev_result_in_location everyMinute t r H1 H2 H3).
Defined.

Lemma Prev_second_allowed_witness :
  let t := time.Date 2024 5 5 10 3 20 500 time.UTC in
  let r := time.Date 2024 5 5 10 3 0 0 time.UTC in
  time.Valid t /\ Prev everyMinute t = Some r /\ time.IsZero r = false /\
  Bit (Second everyMinute)
      (time.Second_ (time.In r (effectiveLocation everyMinute t))) = 1.
Proof.
  intros t r.
  assert (H1 : time.Valid t) by reflexivity.
  assert (H2 : Prev everyMinute t = Some r) by (vm_compute; reflexivity).
  assert (H3 : time.IsZero r = false) by (vm_compute; reflexivity).
  split; [exact H1|]. split; [exact H2|]. split; [exact H3|].
  apply (Prev_second_allowed everyMinute t r H1 H2 H3).
Defined.

Lemma Prev_zero_without_year_witness :
  let t := time.Date 2040 6 15 12 0 0 0 time.UTC in
  time.Valid t /\
  (forall y, 2035 <= y <= 2040 -> Bit (Year only2030) (y - minYear) = 0) /\
  Prev only2030 t = Some time.zero.
Proof.
  intros t.
  assert (H1 : time.Valid t) by reflexivity.
  assert (H2 : forall y, 2035 <= y <= 2040 ->
                 Bit (Year only2030) (y - minYear) = 0).
  { intros y Hy.
    assert (C : y = 2035 \/ y = 2036 \/ y = 2037 \/ y = 2038 \/
                y = 2039 \/ y = 2040) by lia.
    repeat (destruct C as [C|C]); subst y; vm_compute; reflexivity. }
  split; [exact H1|]. split; [exact H2|].
  apply (Prev_zero_without_year only2030 t H1).
  assert (Y : time.Year (inSchedule only2030 t) = 2040)
    by (vm_compute; reflexivity).
  rewrite Y. intros y Hy. apply H2. unfold minYear in Hy. lia.
Defined.

Lemma Prev_any_location_witness :
  let t := time.Date 2024 5 5 10 0 0 0 time.UTC in
  let l := time.FixedZone (-18000) in
  time.Valid t /\ time.isLocal (Location hourlyEast) = false /\
  exists r r', Prev hourlyEast t = Some r /\
               Prev hourlyEast (time.In t l) = Some r' /\
               time.Equal r r' = true.
Proof.
  intros t l.
  assert (H1 : time.Valid t) by reflexivity.
  assert (H2 : time.isLocal (Location hourlyEast) = false) by reflexivity.
  split; [exact H1|]. split; [exact H2|].
  apply (Prev_any_location hourlyEast t l H1 H2).
Defined.

Lemma dayMatches_star_field_witness :
  let t := time.Date 2024 1 8 0 0 0 0 time.UTC in
  let s := mkSpecSchedule (allBits 0 59) (allBits 0 59) (allBits 0 23)
             (Z.lor (allBits 1 31) starBit) (allBits 1 12)
             (oneBit 1) (allBits 0 129) (time.Local 0) in
  time.Valid t /\ Z.testbit (Dom s) maxBits = true /\
  (forall d, 1 <= d <= 31 -> Z.testbit (Dom s) d = true) /\
  dayMatches s t = Z.testbit (Dow s) (time.Weekday t).
Proof.
  intros t s.
  assert (H1 : time.Valid t) by reflexivity.
  assert (H2 : Z.testbit (Dom s) maxBits = true) by reflexivity.
  assert (H3 : forall d, 1 <= d <= 31 -> Z.testbit (Dom s) d = true).
  { intros d Hd. apply (testbit_range (Dom s) 1 31); [reflexivity|].
    change (Z.of_nat 31) with 31. lia. }
  split; [exact H1|]. split; [exact H2|]. split; [exact H3|].
  apply (proj1 (dayMatches_star_field s t H1) H2 H3).
Defined.

Lemma Prev_of_Next_witness :
  let t := time.Date 2024 5 5 10 0 30 0 time.UTC in
  let r := time.Date 2024 5 5 10 1 0 0 time.UTC in
  time.Valid t /\ Next everyMinute t = Some r /\ time.IsZero r = false /\
  Prev everyMinute r = Some r.
Proof.
  intros t r.
  assert (H1 : time.Valid t) by reflexivity.
  assert (H2 : Next everyMinute t = Some r) by (vm_compute; reflexivity).
  assert (H3 : time.IsZero r = false) by (vm_compute; reflexivity).
  split; [exact H1|]. split; [exact H2|]. split; [exact H3|].
  apply (Prev_of_Next everyMinute t r H1 H2 H3).
Defined.

(** No month has a 31st of February. *)
Lemma february31st_never (u : time.Time) :
  time.Valid u -> matches february31st u = false.
Proof.
  intros V. destruct (matches february31st u) eqn:M; [exfalso|reflexivity].
  apply matches_bits in M. destruct M as (_ & _ & _ & Mo & Dm & _).
  apply Valid_iff in V. destruct V as (Vm & Vd & _).
  assert (One : forall i m, 0 <= i -> Bit (oneBit i) m = 1 -> m = i).
  { intros i m Hi B. unfold Bit, oneBit in B.
    rewrite Z.shiftl_1_l, Z.pow2_bits_eqb in B by exact Hi.
    destruct (Z.eqb_spec i m); [auto|discriminate B]. }
  apply (One 2) in Mo; [|lia].
  unfold dayMatches in Dm. rewrite !Bit_set in Dm.
  change (Z.testbit (Dow february31st) maxBits) with true in Dm.
  rewrite orb_true_r in Dm.
  apply andb_true_iff in Dm. destruct Dm as [Dm _].
  assert (D : time.Day u = 31).
  { apply (One 31); [lia|]. unfold Bit.
    change (Dom february31st) with (oneBit 31) in Dm. rewrite Dm.
    reflexivity. }
  unfold time.Month, time.Day in *. rewrite Mo in Vd.
  unfold time.daysIn in Vd. destruct (time.isLeap _); lia.
Qed.

Lemma Next_zero_without_match_witness :
  let t := time.Date 2024 1 1 0 0 0 0 time.UTC in
  time.Valid t /\
  (forall u, time.Valid u ->
             time.LocationOf u = effectiveLocation february31st t ->
             time.UnixNano (nextStart february31st t) <= time.UnixNano u ->
             time.Year u
               <= Z.min (time.Year (nextStart february31st t) + 5) maxYear ->
             matches february31st u = false) /\
  Next february31st t = Some time.zero.
Proof.
  intros t.
  assert (H1 : time.Valid t) by reflexivity.
  assert (H2 : forall u, time.Valid u ->
             time.LocationOf u = effectiveLocation february31st t ->
             time.UnixNano (nextStart february31st t) <= time.UnixNano u ->
             time.Year u
               <= Z.min (time.Year (nextStart february31st t) + 5) maxYear ->
             matches february31st u = false)
    by (intros u Vu _ _ _; apply february31st_never; exact Vu).
  split; [exact H1|]. split; [exact H2|].
  apply (Next_zero_without_match february31st t H1 H2).
Defined.

Lemma Next_monotone_witness :
  let t1 := time.Date 2024 5 5 10 3 0 0 time.UTC in
  let t2 := time.Date 2024 5 5 10 7 0 0 time.UTC in
  let r1 := time.Date 2024 5 5 10 5 0 0 time.UTC in
  let r2 := time.Date 2024 5 5 10 10 0 0 time.UTC in
  time.Valid t1 /\ time.Valid t2 /\
  time.LocationOf t1 = time.LocationOf t2 /\
  time.zoneOffset (effectiveLocation everyFiveMinutes t1) mod 60 = 0 /\
  time.UnixNano t1 <= time.UnixNano t2 /\
  Next everyFiveMinutes t1 = Some r1 /\ time.IsZero r1 = false /\
  Next everyFiveMinutes t2 = Some r2 /\ time.IsZero r2 = false /\
  time.UnixNano r1 <= time.UnixNano r2.
Proof.
  intros t1 t2 r1 r2.
  assert (H1 : time.Valid t1) by reflexivity.
  assert (H2 : time.Valid t2) by reflexivity.
  assert (H3 : time.LocationOf t1 = time.LocationOf t2) by reflexivity.
  assert (H4 : time.zoneOffset (effectiveLocation everyFiveMinutes t1) mod 60
               = 0) by reflexivity.
  assert (H5 : time.UnixNano t1 <= time.UnixNano t2)
    by (apply Z.leb_le; vm_compute; reflexivity).
  assert (H6 : Next everyFiveMinutes t1 = Some r1)
    by (vm_compute; reflexivity).
  assert (H7 : time.IsZero r1 = false) by (vm_compute; reflexivity).
  assert (H8 : Next everyFiveMinutes t2 = Some r2)
    by (vm_compute; reflexivity).
  assert (H9 : time.IsZero r2 = false) by (vm_compute; reflexivity).
  repeat (split; [assumption|]).
  apply (Next_monotone everyFiveMinutes t1 t2 r1 r2
           H1 H2 H3 H4 H5 H6 H7 H8 H9).
Defined.

Lemma Prev_before_unless_match_witness :
  let t := time.Date 2024 5 5 10 3 20 500 time.UTC in
  let r := time.Date 2024 5 5 10 3 0 0 time.UTC in
  time.Valid t /\ Prev everyMinute t = Some r /\ time.IsZero r = false /\
  matches everyMinute (inSchedule everyMinute t) = false /\
  time.UnixNano r < time.UnixNano t.
Proof.
  intros t r.
  assert (H1 : time.Valid t) by reflexivity.
  assert (H2 : Prev everyMinute t = Some r) by (vm_compute; reflexivity).
  assert (H3 : time.IsZero r = false) by (vm_compute; reflexivity).
  assert (H4 : matches everyMinute (inSchedule everyMinute t) = false)
    by (vm_compute; reflexivity).
  split; [exact H1|]. split; [exact H2|]. split; [exact H3|].
  split; [exact H4|].
  apply (Prev_before_unless_match everyMinute t r H1 H2 H3 H4).
Defined.

Lemma Next_ignores_nanoseconds_witness :
  let t := time.Date 2024 5 5 10 0 30 250 time.UTC in
  time.Valid t /\
  Next everyMinute (time.Truncate t time.Second) = Next everyMinute t.
Proof.
  intros t.
  assert (H1 : time.Valid t) by reflexivity.
  split; [exact H1|].
  apply (Next_ignores_nanoseconds everyMinute t H1).
Defined.

Lemma Local_schedule_witness :
  let t := time.Date 2024 5 5 10 0 30 0 (time.FixedZone 3600) in
  time.Valid t /\ time.isLocal (Location everyMinute) = true /\
  let s' := mkSpecSchedule (Second everyMinute) (Minute everyMinute)
              (Hour everyMinute) (Dom everyMinute) (Month everyMinute)
              (Dow everyMinute) (Year everyMinute) (time.LocationOf t) in
  Next s' t = Next everyMinute t /\ Prev s' t = Prev everyMinute t.
Proof.
  intros t.
  assert (H1 : time.Valid t) by reflexivity.
  assert (H2 : time.isLocal (Location everyMinute) = true) by reflexivity.
  split; [exact H1|]. split; [exact H2|].
  apply (Local_schedule everyMinute t H1 H2).
Defined.

(** ** Locations with zone transitions

    The theorems above are about locations with a fixed offset.  On these
    the functions of [zoned] return what [Next] and [Prev] return.  At a
    transition of a location the steps of the search meet readings that the
    clock of the location leaves out or shows twice, and the theorems do
    not extend: the runs below are over the times of [tz]. *)

(** *** The times of [tz] *)

Lemma Date_Valid (y m d h mi sc ns : Z) (loc : time.Location) :
  time.Valid (time.Date y m d h mi sc ns loc).
Proof.
  unfold time.Date.
  destruct (time.normDate _ _ _) as [[y' m'] d'] eqn:E.
  apply normDate_spec in E.
  2:{ pose proof (Z.mod_pos_bound (m - 1) 12). lia. }
  destruct E as (_ & E2 & E3).
  apply Valid_iff; fields.
  pose proof (Z.mod_pos_bound ns 1000000000).
  pose proof (Z.mod_pos_bound (sc + ns / 1000000000) 60).
  pose proof (Z.mod_pos_bound (mi + (sc + ns / 1000000000) / 60) 60).
  pose proof (Z.mod_pos_bound
                (h + (mi + (sc + ns / 1000000000) / 60) / 60) 24).
  lia.
Qed.

(** The times that [tz.Date] makes are instants. *)
Lemma tz_Date_Valid (y m d h mi sc ns : Z) (loc : tz.Location) :
  time.Valid (tz.utc (tz.Date y m d h mi sc ns loc)) /\
  tz.LocationOf (tz.Date y m d h mi sc ns loc) = loc.
Proof.
  unfold tz.Date.
  destruct (tz.lookup loc _) as [[o a] b].
  cbn [tz.utc tz.LocationOf tz.tLoc]. split; [|reflexivity].
  apply Add_spec. apply Date_Valid.
Qed.

Lemma tz_Add_spec (t : tz.Time) (d : Z) :
  time.Valid (tz.utc t) ->
  time.Valid (tz.utc (tz.Add t d)) /\
  tz.UnixNano (tz.Add t d) = tz.UnixNano t + d /\
  tz.LocationOf (tz.Add t d) = tz.LocationOf t.
Proof.
  intros V. unfold tz.Add, tz.UnixNano, tz.LocationOf.
  cbn [tz.utc tz.tLoc].
  destruct (Add_spec (tz.utc t) d V) as (A1 & A2 & _). auto.
Qed.

(** *** The two models agree on locations with a fixed offset *)

Lemma Date_loc (y m d h mi sc ns : Z) (l : time.Location) :
  time.Date y m d h mi sc ns l =
  let u := time.Date y m d h mi sc ns time.UTC in
  time.mkTime (time.tYear u) (time.tMonth u) (time.tDay u) (time.tSod u)
              (time.tNsec u) l.
Proof.
  unfold time.Date.
  destruct (time.normDate _ _ _) as [[y' m'] d']. reflexivity.
Qed.

Lemma In_fields (t : time.Time) (l : time.Location) :
  time.Valid t -> time.zoneOffset l = time.zoneOffset (time.tLoc t) ->
  time.In t l =
  time.mkTime (time.tYear t) (time.tMonth t) (time.tDay t) (time.tSod t)
              (time.tNsec t) l.
Proof.
  intros V E.
  destruct (In_spec t l V) as (V1 & U1 & L1).
  apply Time_ext.
  - exact V1.
  - apply Valid_iff in V. apply Valid_iff. fields. exact V.
  - rewrite L1. reflexivity.
  - rewrite U1, !UnixNano_eq. unfold time.days. fields. rewrite E.
    reflexivity.
Qed.

Lemma abs_zonedTime (t : time.Time) :
  time.Valid t ->
  tz.abs (zonedTime t) =
  time.mkTime (time.tYear t) (time.tMonth t) (time.tDay t) (time.tSod t)
              (time.tNsec t)
              (time.FixedZone (time.zoneOffset (time.tLoc t))).
Proof.
  intros V. unfold tz.abs, tz.offsetOf, zonedTime, tz.lookup.
  cbn [tz.utc tz.tLoc zonedLocation tz.zoneOffset tz.tx tz.lookupFrom fst].
  rewrite In_In by exact V. apply In_fields; [exact V|reflexivity].
Qed.

Lemma zoned_fields (t : time.Time) :
  time.Valid t ->
  tz.Year (zonedTime t) = time.Year t /\
  tz.Month (zonedTime t) = time.Month t /\
  tz.Day (zonedTime t) = time.Day t /\
  tz.Hour_ (zonedTime t) = time.Hour_ t /\
  tz.Minute_ (zonedTime t) = time.Minute_ t /\
  tz.Second_ (zonedTime t) = time.Second_ t /\
  tz.Nanosecond_ (zonedTime t) = time.Nanosecond_ t /\
  tz.Weekday (zonedTime t) = time.Weekday t.
Proof.
  intros V.
  unfold tz.Year, tz.Month, tz.Day, tz.Hour_, tz.Minute_, tz.Second_,
    tz.Nanosecond_, tz.Weekday.
  rewrite abs_zonedTime by exact V.
  repeat split.
Qed.

Lemma zoned_Add (t : time.Time) (d : Z) :
  time.Valid t -> tz.Add (zonedTime t) d = zonedTime (time.Add t d).
Proof.
  intros V. unfold tz.Add, zonedTime. cbn [tz.utc tz.tLoc].
  destruct (Add_spec t d V) as (A1 & A2 & A3 & _).
  destruct (In_spec t time.UTC V) as (B1 & B2 & B3).
  destruct (Add_spec (time.In t time.UTC) d B1) as (C1 & C2 & C3 & _).
  destruct (In_spec (time.Add t d) time.UTC A1) as (D1 & D2 & D3).
  rewrite A3. f_equal. apply Time_ext; congruence.
Qed.

Lemma zoned_Date (y m d h mi sc ns : Z) (l : time.Location) :
  tz.Date y m d h mi sc ns (zonedLocation l) =
  zonedTime (time.Date y m d h mi sc ns l).
Proof.
  unfold tz.Date, tz.lookup.
  cbn [zonedLocation tz.zoneOffset tz.tx tz.lookupFrom fst].
  set (u := time.Date y m d h mi sc ns time.UTC).
  set (o := time.zoneOffset l).
  assert (O : (if negb (o =? 0)
               then if (time.Unix u - o <? tz.alpha)
                       || (time.Unix u - o >=? tz.omega)
                    then o else o
               else o) = o).
  { destruct (negb (o =? 0)); [|reflexivity].
    destruct ((time.Unix u - o <? tz.alpha)
              || (time.Unix u - o >=? tz.omega)); reflexivity. }
  rewrite O. clear O.
  pose proof (Date_Valid y m d h mi sc ns time.UTC) as Vu. fold u in Vu.
  pose proof (Date_Valid y m d h mi sc ns l) as Vl.
  pose proof (Date_loc y m d h mi sc ns l) as E. fold u in E.
  cbv zeta in E.
  unfold zonedTime. rewrite E at 2. cbn [time.tLoc]. f_equal.
  destruct (Add_spec u (- o * time.Second) Vu) as (A1 & A2 & A3 & _).
  destruct (In_spec _ time.UTC Vl) as (B1 & B2 & B3).
  apply Time_ext; try assumption.
  - rewrite A3, B3. unfold u. rewrite Date_loc. reflexivity.
  - rewrite A2, B2, E, !UnixNano_eq. unfold time.days. fields.
    replace (time.tLoc u) with time.UTC
      by (unfold u; rewrite Date_loc; reflexivity).
    fold o. unfold time.UTC, time.Second. fields. lia.
Qed.

Lemma zoned_AddDate (t : time.Time) (yy mm dd : Z) :
  time.Valid t ->
  tz.AddDate (zonedTime t) yy mm dd = zonedTime (time.AddDate t yy mm dd).
Proof.
  intros V. unfold tz.AddDate, time.AddDate.
  destruct (zoned_fields t V) as (-> & -> & -> & -> & -> & -> & -> & _).
  unfold tz.LocationOf, time.LocationOf. cbn [zonedTime tz.tLoc].
  apply zoned_Date.
Qed.

Lemma zoned_In (t : time.Time) (l : time.Location) :
  time.Valid t ->
  tz.In (zonedTime t) (zonedLocation l) = zonedTime (time.In t l).
Proof.
  intros V. unfold tz.In, zonedTime. cbn [tz.utc].
  destruct (In_spec t l V) as (_ & _ & L).
  rewrite In_In by exact V. rewrite L. reflexivity.
Qed.

Lemma zoned_Truncate (t : time.Time) (d : Z) :
  time.Valid t ->
  tz.Truncate (zonedTime t) d = zonedTime (time.Truncate t d).
Proof.
  intros V. unfold tz.Truncate.
  change (tz.utc (zonedTime t)) with (time.In t time.UTC).
  change (tz.tLoc (zonedTime t)) with (zonedLocation (time.tLoc t)).
  unfold time.Truncate.
  destruct (In_spec t time.UTC V) as (_ & U & _). rewrite U.
  destruct (d <=? 0); [reflexivity|].
  apply (zoned_Add t _ V).
Qed.

Lemma zoned_zero : zonedTime time.zero = tz.zero.
Proof. vm_compute. reflexivity. Qed.

Lemma Add_Valid (t : time.Time) (d : Z) :
  time.Valid t -> time.Valid (time.Add t d).
Proof. intros V. apply Add_spec. exact V. Qed.

Lemma AddDate_Valid (t : time.Time) (yy mm dd : Z) :
  time.Valid t -> time.Valid (time.AddDate t yy mm dd).
Proof. intros V. apply AddDate_spec. exact V. Qed.

Lemma Truncate_Valid (t : time.Time) (d : Z) :
  time.Valid t -> time.Valid (time.Truncate t d).
Proof.
  intros V. unfold time.Truncate.
  destruct (d <=? 0); [exact V|]. apply Add_Valid. exact V.
Qed.

Lemma In_Valid (t : time.Time) (l : time.Location) :
  time.Valid t -> time.Valid (time.In t l).
Proof. intros V. apply In_spec. exact V. Qed.

Lemma fixMidnight_Valid (t : time.Time) :
  time.Valid t -> time.Valid (fixMidnight t).
Proof.
  intros V. unfold fixMidnight.
  destruct (negb (time.Hour_ t =? 0)); [|exact V].
  destruct (time.Hour_ t >? 12); apply Add_Valid; exact V.
Qed.

Ltac zoned_valid :=
  repeat first
    [ assumption | simple apply AddDate_Valid | simple apply Add_Valid
    | simple apply Truncate_Valid | simple apply fixMidnight_Valid
    | simple apply In_Valid | simple apply Date_Valid ].

Lemma zoned_Year (t : time.Time) :
  time.Valid t -> tz.Year (zonedTime t) = time.Year t.
Proof. intros V. apply (zoned_fields t V). Qed.
Lemma zoned_Month (t : time.Time) :
  time.Valid t -> tz.Month (zonedTime t) = time.Month t.
Proof. intros V. apply (zoned_fields t V). Qed.
Lemma zoned_Day (t : time.Time) :
  time.Valid t -> tz.Day (zonedTime t) = time.Day t.
Proof. intros V. apply (zoned_fields t V). Qed.
Lemma zoned_Hour (t : time.Time) :
  time.Valid t -> tz.Hour_ (zonedTime t) = time.Hour_ t.
Proof. intros V. apply (zoned_fields t V). Qed.
Lemma zoned_Minute (t : time.Time) :
  time.Valid t -> tz.Minute_ (zonedTime t) = time.Minute_ t.
Proof. intros V. apply (zoned_fields t V). Qed.
Lemma zoned_Second (t : time.Time) :
  time.Valid t -> tz.Second_ (zonedTime t) = time.Second_ t.
Proof. intros V. apply (zoned_fields t V). Qed.
Lemma zoned_Nanosecond (t : time.Time) :
  time.Valid t -> tz.Nanosecond_ (zonedTime t) = time.Nanosecond_ t.
Proof. intros V. apply (zoned_fields t V). Qed.
Lemma zoned_Weekday (t : time.Time) :
  time.Valid t -> tz.Weekday (zonedTime t) = time.Weekday t.
Proof. intros V. apply (zoned_fields t V). Qed.

Ltac zoned_push_with tac :=
  repeat first
    [ rewrite zoned_Date
    | rewrite zoned_AddDate by zoned_valid
    | rewrite zoned_Add by zoned_valid
    | rewrite zoned_Truncate by zoned_valid
    | rewrite zoned_Year by zoned_valid
    | rewrite zoned_Month by zoned_valid
    | rewrite zoned_Day by zoned_valid
    | rewrite zoned_Hour by zoned_valid
    | rewrite zoned_Minute by zoned_valid
    | rewrite zoned_Second by zoned_valid
    | rewrite zoned_Nanosecond by zoned_valid
    | rewrite zoned_Weekday by zoned_valid
    | tac ].

Ltac zoned_push := zoned_push_with fail.

Ltac zoned_cbn :=
  cbn [zonedNext zonedPrev zonedSchedule zonedFlow
       zoned.nT zoned.nAdded zoned.pT zoned.pAdded zoned.addYear
       zoned.addMonth zoned.addDay zoned.addHour zoned.addMinute
       zoned.Second zoned.Minute zoned.Hour zoned.Dom zoned.Month zoned.Dow
       zoned.Year zoned.Location
       nT nAdded pT pAdded addYear addMonth addDay addHour addMinute negb].

Ltac zoned_IH IH :=
  match goal with
  | |- _ = zonedFlow _ (_ ?st') => apply (IH st')
  end;
  cbn [nT pT]; zoned_valid.

Lemma zoned_dayMatches (s : SpecSchedule) (t : time.Time) :
  time.Valid t ->
  zoned.dayMatches (zonedSchedule s) (zonedTime t) = dayMatches s t.
Proof.
  intros V. unfold zoned.dayMatches, dayMatches. zoned_cbn. zoned_push.
  reflexivity.
Qed.

Lemma zoned_fixMidnight (t : time.Time) :
  time.Valid t -> zoned.fixMidnight (zonedTime t) = zonedTime (fixMidnight t).
Proof.
  intros V. unfold zoned.fixMidnight, fixMidnight. zoned_push.
  destruct (negb (time.Hour_ t =? 0)); [|reflexivity].
  destruct (time.Hour_ t >? 12); reflexivity.
Qed.

Ltac zoned_more :=
  first [ rewrite zoned_dayMatches by zoned_valid
        | rewrite zoned_fixMidnight by zoned_valid ].

(** One turn of a loop in the two models. *)
Ltac zoned_turn IH flag :=
  zoned_cbn; zoned_push_with zoned_more;
  match goal with
  | |- (if ?g then _ else _) = _ => destruct g; [|reflexivity]
  end;
  destruct flag; zoned_cbn;
  unfold zoned.nextYearExceeded, nextYearExceeded,
    zoned.prevYearExceeded, prevYearExceeded;
  zoned_push_with zoned_more;
  (match goal with
   | |- (if ?c then _ else _) = _ => destruct c
   end;
   [zoned_cbn; try rewrite zoned_zero; reflexivity | zoned_IH IH]).

Section ZonedNextLoops.
Variable s : SpecSchedule.
Variable loc : time.Location.
Variable lim : Z.

Lemma zoned_nextYearLoop (n : nat) : forall st,
  time.Valid (nT st) ->
  zoned.nextYearLoop (zonedSchedule s) (zonedLocation loc) lim n
                     (zonedNext st)
  = zonedFlow zonedNext (nextYearLoop s loc lim n st).
Proof.
  induction n as [|n IH]; intros st V; [reflexivity|].
  cbn [zoned.nextYearLoop nextYearLoop]. zoned_turn IH (nAdded st).
Qed.

Lemma zoned_nextMonthLoop (n : nat) : forall st,
  time.Valid (nT st) ->
  zoned.nextMonthLoop (zonedSchedule s) (zonedLocation loc) n (zonedNext st)
  = zonedFlow zonedNext (nextMonthLoop s loc n st).
Proof.
  induction n as [|n IH]; intros st V; [reflexivity|].
  cbn [zoned.nextMonthLoop nextMonthLoop]. zoned_turn IH (nAdded st).
Qed.

Lemma zoned_nextDayLoop (n : nat) : forall st,
  time.Valid (nT st) ->
  zoned.nextDayLoop (zonedSchedule s) (zonedLocation loc) n (zonedNext st)
  = zonedFlow zonedNext (nextDayLoop s loc n st).
Proof.
  induction n as [|n IH]; intros st V; [reflexivity|].
  cbn [zoned.nextDayLoop nextDayLoop]. zoned_turn IH (nAdded st).
Qed.

Lemma zoned_nextHourLoop (n : nat) : forall st,
  time.Valid (nT st) ->
  zoned.nextHourLoop (zonedSchedule s) (zonedLocation loc) n (zonedNext st)
  = zonedFlow zonedNext (nextHourLoop s loc n st).
Proof.
  induction n as [|n IH]; intros st V; [reflexivity|].
  cbn [zoned.nextHourLoop nextHourLoop]. zoned_turn IH (nAdded st).
Qed.

Lemma zoned_nextMinuteLoop (n : nat) : forall st,
  time.Valid (nT st) ->
  zoned.nextMinuteLoop (zonedSchedule s) n (zonedNext st)
  = zonedFlow zonedNext (nextMinuteLoop s n st).
Proof.
  induction n as [|n IH]; intros st V; [reflexivity|].
  cbn [zoned.nextMinuteLoop nextMinuteLoop]. zoned_turn IH (nAdded st).
Qed.

Lemma zoned_nextSecondLoop (n : nat) : forall st,
  time.Valid (nT st) ->
  zoned.nextSecondLoop (zonedSchedule s) n (zonedNext st)
  = zonedFlow zonedNext (nextSecondLoop s n st).
Proof.
  induction n as [|n IH]; intros st V; [reflexivity|].
  cbn [zoned.nextSecondLoop nextSecondLoop]. zoned_turn IH (nAdded st).
Qed.
End ZonedNextLoops.

(** The loops of [Next] keep the times valid. *)
Ltac valid_turn IH flag :=
  match goal with
  | |- match (if ?g then _ else _) with _ => _ end => destruct g; [|assumption]
  end;
  destruct flag; cbn [negb];
  (match goal with
   | |- match (if ?c then _ else _) with _ => _ end => destruct c
   end;
   [first [exact I | cbn [nT pT]; zoned_valid]
   | apply IH; cbn [nT pT]; zoned_valid]).

Section ValidNextLoops.
Variable s : SpecSchedule.
Variable loc : time.Location.
Variable lim : Z.

Lemma nextYearLoop_Valid (n : nat) : forall st,
  time.Valid (nT st) ->
  match nextYearLoop s loc lim n st with
  | Fall st' | Wrap st' => time.Valid (nT st')
  | _ => True
  end.
Proof.
  induction n as [|n IH]; intros st V; [exact I|].
  cbn [nextYearLoop]. valid_turn IH (nAdded st).
Qed.

Lemma nextMonthLoop_Valid (n : nat) : forall st,
  time.Valid (nT st) ->
  match nextMonthLoop s loc n st with
  | Fall st' | Wrap st' => time.Valid (nT st')
  | _ => True
  end.
Proof.
  induction n as [|n IH]; intros st V; [exact I|].
  cbn [nextMonthLoop]. valid_turn IH (nAdded st).
Qed.

Lemma nextDayLoop_Valid (n : nat) : forall st,
  time.Valid (nT st) ->
  match nextDayLoop s loc n st with
  | Fall st' | Wrap st' => time.Valid (nT st')
  | _ => True
  end.
Proof.
  induction n as [|n IH]; intros st V; [exact I|].
  cbn [nextDayLoop]. valid_turn IH (nAdded st).
Qed.

Lemma nextHourLoop_Valid (n : nat) : forall st,
  time.Valid (nT st) ->
  match nextHourLoop s loc n st with
  | Fall st' | Wrap st' => time.Valid (nT st')
  | _ => True
  end.
Proof.
  induction n as [|n IH]; intros st V; [exact I|].
  cbn [nextHourLoop]. valid_turn IH (nAdded st).
Qed.

Lemma nextMinuteLoop_Valid (n : nat) : forall st,
  time.Valid (nT st) ->
  match nextMinuteLoop s n st with
  | Fall st' | Wrap st' => time.Valid (nT st')
  | _ => True
  end.
Proof.
  induction n as [|n IH]; intros st V; [exact I|].
  cbn [nextMinuteLoop]. valid_turn IH (nAdded st).
Qed.

Lemma nextSecondLoop_Valid (n : nat) : forall st,
  time.Valid (nT st) ->
  match nextSecondLoop s n st with
  | Fall st' | Wrap st' => time.Valid (nT st')
  | _ => True
  end.
Proof.
  induction n as [|n IH]; intros st V; [exact I|].
  cbn [nextSecondLoop]. valid_turn IH (nAdded st).
Qed.

(** A pass of [Next] in the two models. *)
Lemma zoned_nextPass (orig : time.Location) (st : nextState) :
  time.Valid (nT st) ->
  zoned.nextPass (zonedSchedule s) (zonedLocation loc) lim loopFuel
                 (zonedLocation orig) (zonedNext st)
  = zonedFlow zonedNext (nextPass s loc lim orig st) /\
  match nextPass s loc lim orig st with
  | Wrap st' => time.Valid (nT st')
  | _ => True
  end.
Proof.
  intros V. unfold zoned.nextPass, nextPass.
  unfold zoned.nextYearExceeded, nextYearExceeded.
  zoned_cbn. zoned_push.
  destruct ((time.Year (nT st) >? lim) || (time.Year (nT st) >? maxYear)).
  { zoned_cbn. rewrite zoned_zero. split; [reflexivity|exact I]. }
  rewrite zoned_nextYearLoop by exact V.
  pose proof (nextYearLoop_Valid loopFuel st V) as V1.
  destruct (nextYearLoop s loc lim loopFuel st) as [s1|s1|r|];
    cbn [zonedFlow zoned.andThen andThen]; try (split; [reflexivity|auto]).
  rewrite zoned_nextMonthLoop by exact V1.
  pose proof (nextMonthLoop_Valid loopFuel s1 V1) as V2.
  destruct (nextMonthLoop s loc loopFuel s1) as [s2|s2|r|];
    cbn [zonedFlow zoned.andThen andThen]; try (split; [reflexivity|auto]).
  rewrite zoned_nextDayLoop by exact V2.
  pose proof (nextDayLoop_Valid loopFuel s2 V2) as V3.
  destruct (nextDayLoop s loc loopFuel s2) as [s3|s3|r|];
    cbn [zonedFlow zoned.andThen andThen]; try (split; [reflexivity|auto]).
  rewrite zoned_nextHourLoop by exact V3.
  pose proof (nextHourLoop_Valid loopFuel s3 V3) as V4.
  destruct (nextHourLoop s loc loopFuel s3) as [s4|s4|r|];
    cbn [zonedFlow zoned.andThen andThen]; try (split; [reflexivity|auto]).
  rewrite zoned_nextMinuteLoop by exact V4.
  pose proof (nextMinuteLoop_Valid loopFuel s4 V4) as V5.
  destruct (nextMinuteLoop s loopFuel s4) as [s5|s5|r|];
    cbn [zonedFlow zoned.andThen andThen]; try (split; [reflexivity|auto]).
  rewrite zoned_nextSecondLoop by exact V5.
  pose proof (nextSecondLoop_Valid loopFuel s5 V5) as V6.
  destruct (nextSecondLoop s loopFuel s5) as [s6|s6|r|];
    cbn [zonedFlow zoned.andThen andThen]; try (split; [reflexivity|auto]).
  zoned_cbn. rewrite zoned_In by exact V6. split; [reflexivity|exact I].
Qed.
End ValidNextLoops.

(** The passes of the two models, as long as they agree on one pass. *)
Lemma zoned_wrapLoop {S S' : Type} (f : S -> S') (P : S -> Prop)
      (p : S -> flow S) (p' : S' -> zoned.flow S') :
  (forall st, P st ->
     p' (f st) = zonedFlow f (p st) /\
     match p st with Wrap st' => P st' | _ => True end) ->
  forall n st, P st ->
    zoned.wrapLoop p' n (f st) = zonedFlow f (wrapLoop p n st) /\
    match wrapLoop p n st with Wrap st' => P st' | _ => True end.
Proof.
  intros H. induction n as [|n IH]; intros st Pst.
  - cbn [zoned.wrapLoop wrapLoop]. apply H. exact Pst.
  - cbn [zoned.wrapLoop wrapLoop].
    destruct (IH st Pst) as (E & W). rewrite E.
    destruct (wrapLoop p n st) as [x|st1|r|]; cbn [zonedFlow];
      try (split; [reflexivity|exact I]).
    apply IH. exact W.
Qed.

Lemma zoned_effectiveLocation (s : SpecSchedule) (t : time.Time) :
  zoned.effectiveLocation (zonedSchedule s) (zonedTime t)
  = zonedLocation (effectiveLocation s t).
Proof.
  unfold zoned.effectiveLocation, effectiveLocation. zoned_cbn.
  cbn [zonedLocation tz.isLocal].
  destruct (time.isLocal (Location s)); reflexivity.
Qed.

Lemma zoned_inSchedule (s : SpecSchedule) (t : time.Time) :
  time.Valid t ->
  zoned.inSchedule (zonedSchedule s) (zonedTime t)
  = zonedTime (inSchedule s t).
Proof.
  intros V. unfold zoned.inSchedule, inSchedule. zoned_cbn.
  cbn [zonedLocation tz.isLocal].
  destruct (time.isLocal (Location s)); cbn [negb]; [reflexivity|].
  apply (zoned_In t (Location s) V).
Qed.

Lemma zoned_nextStart (s : SpecSchedule) (t : time.Time) :
  time.Valid t ->
  zoned.nextStart (zonedSchedule s) (zonedTime t)
  = zonedTime (nextStart s t).
Proof.
  intros V. unfold zoned.nextStart, nextStart.
  rewrite zoned_inSchedule by exact V.
  destruct (inSchedule_spec s t V) as (V0 & _).
  zoned_push. reflexivity.
Qed.

(** On locations with a fixed offset, [Next] of the second model is [Next]
    of the first. *)
Theorem zoned_Next (s : SpecSchedule) (t : time.Time) :
  time.Valid t ->
  zoned.Next (zonedSchedule s) (zonedTime t)
  = option_map zonedTime (Next s t).
Proof.
  intros V. unfold zoned.Next, zoned.NextWith. rewrite Next_unfold.
  rewrite zoned_effectiveLocation, zoned_nextStart by exact V.
  destruct (nextStart_spec s t V) as (V0 & _).
  rewrite zoned_Year by exact V0.
  change (tz.LocationOf (zonedTime t))
    with (zonedLocation (time.LocationOf t)).
  pose proof (zoned_wrapLoop zonedNext (fun st => time.Valid (nT st))
    (nextPass s (effectiveLocation s t) (time.Year (nextStart s t) + 5)
              (time.LocationOf t))
    (zoned.nextPass (zonedSchedule s)
       (zonedLocation (effectiveLocation s t))
       (time.Year (nextStart s t) + 5) loopFuel
       (zonedLocation (time.LocationOf t)))) as T.
  specialize (T (fun st Vst => zoned_nextPass s _ _ _ st Vst)).
  specialize (T wrapFuel (mkNext (nextStart s t) false) V0).
  destruct T as (E & _).
  change (zoned.mkNext (zonedTime (nextStart s t)) false)
    with (zonedNext (mkNext (nextStart s t) false)).
  revert E.
  generalize (wrapLoop
    (nextPass s (effectiveLocation s t) (time.Year (nextStart s t) + 5)
              (time.LocationOf t)) wrapFuel (mkNext (nextStart s t) false)).
  intros r E. rewrite E. destruct r; reflexivity.
Qed.

(** The loops and the corrections of [Prev] in the two models. *)
Section ZonedPrevLoops.
Variable s : SpecSchedule.
Variable loc : time.Location.
Variable lim : Z.

Lemma zoned_prevYearLoop (n : nat) : forall st,
  time.Valid (pT st) ->
  zoned.prevYearLoop (zonedSchedule s) (zonedLocation loc) lim n (zonedPrev st)
  = zonedFlow zonedPrev (prevYearLoop s loc lim n st).
Proof.
  induction n as [|n IH]; intros st V; [reflexivity|].
  cbn [zoned.prevYearLoop prevYearLoop]. zoned_turn IH (pAdded st).
Qed.

Lemma prevYearLoop_Valid (n : nat) : forall st,
  time.Valid (pT st) ->
  match prevYearLoop s loc lim n st with
  | Fall st' | Wrap st' => time.Valid (pT st')
  | _ => True
  end.
Proof.
  induction n as [|n IH]; intros st V; [exact I|].
  cbn [prevYearLoop]. valid_turn IH (pAdded st).
Qed.

Lemma zoned_prevMonthLoop (n : nat) : forall st,
  time.Valid (pT st) ->
  zoned.prevMonthLoop (zonedSchedule s) (zonedLocation loc) n (zonedPrev st)
  = zonedFlow zonedPrev (prevMonthLoop s loc n st).
Proof.
  induction n as [|n IH]; intros st V; [reflexivity|].
  cbn [zoned.prevMonthLoop prevMonthLoop]. zoned_turn IH (pAdded st).
Qed.

Lemma prevMonthLoop_Valid (n : nat) : forall st,
  time.Valid (pT st) ->
  match prevMonthLoop s loc n st with
  | Fall st' | Wrap st' => time.Valid (pT st')
  | _ => True
  end.
Proof.
  induction n as [|n IH]; intros st V; [exact I|].
  cbn [prevMonthLoop]. valid_turn IH (pAdded st).
Qed.

Lemma zoned_prevDayLoop (n : nat) : forall st,
  time.Valid (pT st) ->
  zoned.prevDayLoop (zonedSchedule s) (zonedLocation loc) n (zonedPrev st)
  = zonedFlow zonedPrev (prevDayLoop s loc n st).
Proof.
  induction n as [|n IH]; intros st V; [reflexivity|].
  cbn [zoned.prevDayLoop prevDayLoop]. zoned_turn IH (pAdded st).
Qed.

Lemma prevDayLoop_Valid (n : nat) : forall st,
  time.Valid (pT st) ->
  match prevDayLoop s loc n st with
  | Fall st' | Wrap st' => time.Valid (pT st')
  | _ => True
  end.
Proof.
  induction n as [|n IH]; intros st V; [exact I|].
  cbn [prevDayLoop]. valid_turn IH (pAdded st).
Qed.

Lemma zoned_prevHourLoop (n : nat) : forall st,
  time.Valid (pT st) ->
  zoned.prevHourLoop (zonedSchedule s) (zonedLocation loc) n (zonedPrev st)
  = zonedFlow zonedPrev (prevHourLoop s loc n st).
Proof.
  induction n as [|n IH]; intros st V; [reflexivity|].
  cbn [zoned.prevHourLoop prevHourLoop]. zoned_turn IH (pAdded st).
Qed.

Lemma prevHourLoop_Valid (n : nat) : forall st,
  time.Valid (pT st) ->
  match prevHourLoop s loc n st with
  | Fall st' | Wrap st' => time.Valid (pT st')
  | _ => True
  end.
Proof.
  induction n as [|n IH]; intros st V; [exact I|].
  cbn [prevHourLoop]. valid_turn IH (pAdded st).
Qed.

Lemma zoned_prevMinuteLoop (n : nat) : forall st,
  time.Valid (pT st) ->
  zoned.prevMinuteLoop (zonedSchedule s) n (zonedPrev st)
  = zonedFlow zonedPrev (prevMinuteLoop s n st).
Proof.
  induction n as [|n IH]; intros st V; [reflexivity|].
  cbn [zoned.prevMinuteLoop prevMinuteLoop]. zoned_turn IH (pAdded st).
Qed.

Lemma prevMinuteLoop_Valid (n : nat) : forall st,
  time.Valid (pT st) ->
  match prevMinuteLoop s n st with
  | Fall st' | Wrap st' => time.Valid (pT st')
  | _ => True
  end.
Proof.
  induction n as [|n IH]; intros st V; [exact I|].
  cbn [prevMinuteLoop]. valid_turn IH (pAdded st).
Qed.

Lemma zoned_prevSecondLoop (n : nat) : forall st,
  time.Valid (pT st) ->
  zoned.prevSecondLoop (zonedSchedule s) n (zonedPrev st)
  = zonedFlow zonedPrev (prevSecondLoop s n st).
Proof.
  induction n as [|n IH]; intros st V; [reflexivity|].
  cbn [zoned.prevSecondLoop prevSecondLoop]. zoned_turn IH (pAdded st).
Qed.

Lemma prevSecondLoop_Valid (n : nat) : forall st,
  time.Valid (pT st) ->
  match prevSecondLoop s n st with
  | Fall st' | Wrap st' => time.Valid (pT st')
  | _ => True
  end.
Proof.
  induction n as [|n IH]; intros st V; [exact I|].
  cbn [prevSecondLoop]. valid_turn IH (pAdded st).
Qed.

Lemma zoned_prevYearFix (st : prevState) :
  time.Valid (pT st) ->
  zoned.prevYearFix (zonedPrev st) = zonedPrev (prevYearFix st) /\
  time.Valid (pT (prevYearFix st)).
Proof.
  intros V. unfold zoned.prevYearFix, prevYearFix. zoned_cbn.
  destruct (addYear st); [|split; [reflexivity|exact V]].
  zoned_push. split; [reflexivity|]. cbn [pT]. zoned_valid.
Qed.

Lemma zoned_prevMonthFix (st : prevState) :
  time.Valid (pT st) ->
  zoned.prevMonthFix (zonedPrev st) = zonedPrev (prevMonthFix st) /\
  time.Valid (pT (prevMonthFix st)).
Proof.
  intros V. unfold zoned.prevMonthFix, prevMonthFix. zoned_cbn.
  destruct (addMonth st); [|split; [reflexivity|exact V]].
  zoned_push. split; [reflexivity|]. cbn [pT]. zoned_valid.
Qed.

Lemma zoned_prevDayFix (st : prevState) :
  time.Valid (pT st) ->
  zoned.prevDayFix (zonedPrev st) = zonedPrev (prevDayFix st) /\
  time.Valid (pT (prevDayFix st)).
Proof.
  intros V. unfold zoned.prevDayFix, prevDayFix. zoned_cbn.
  destruct (addDay st); [|split; [reflexivity|exact V]].
  zoned_push. split; [reflexivity|]. cbn [pT]. zoned_valid.
Qed.

Lemma zoned_prevHourFix (st : prevState) :
  time.Valid (pT st) ->
  zoned.prevHourFix (zonedPrev st) = zonedPrev (prevHourFix st) /\
  time.Valid (pT (prevHourFix st)).
Proof.
  intros V. unfold zoned.prevHourFix, prevHourFix. zoned_cbn.
  destruct (addHour st); [|split; [reflexivity|exact V]].
  zoned_push. split; [reflexivity|]. cbn [pT]. zoned_valid.
Qed.

Lemma zoned_prevMinuteFix (st : prevState) :
  time.Valid (pT st) ->
  zoned.prevMinuteFix (zonedPrev st) = zonedPrev (prevMinuteFix st) /\
  time.Valid (pT (prevMinuteFix st)).
Proof.
  intros V. unfold zoned.prevMinuteFix, prevMinuteFix. zoned_cbn.
  destruct (addMinute st); [|split; [reflexivity|exact V]].
  zoned_push. split; [reflexivity|]. cbn [pT]. zoned_valid.
Qed.

(** A pass of [Prev] in the two models. *)
Lemma zoned_prevPass (orig : time.Location) (st : prevState) :
  time.Valid (pT st) ->
  zoned.prevPass (zonedSchedule s) (zonedLocation loc) lim loopFuel
                 (zonedLocation orig) (zonedPrev st)
  = zonedFlow zonedPrev (prevPass s loc lim orig st) /\
  match prevPass s loc lim orig st with
  | Wrap st' => time.Valid (pT st')
  | _ => True
  end.
Proof.
  intros V. unfold zoned.prevPass, prevPass.
  unfold zoned.prevYearExceeded, prevYearExceeded.
  zoned_cbn. zoned_push.
  destruct ((time.Year (pT st) <? lim) || (time.Year (pT st) <? minYear)).
  { zoned_cbn. rewrite zoned_zero. split; [reflexivity|exact I]. }
  rewrite zoned_prevYearLoop by exact V.
  pose proof (prevYearLoop_Valid loopFuel st V) as V1.
  destruct (prevYearLoop s loc lim loopFuel st) as [s1|s1|r|];
    cbn [zonedFlow zoned.andThen andThen]; try (split; [reflexivity|auto]).
  destruct (zoned_prevYearFix s1 V1) as (E1 & W1). rewrite E1.
  rewrite zoned_prevMonthLoop by exact W1.
  pose proof (prevMonthLoop_Valid loopFuel _ W1) as V2.
  destruct (prevMonthLoop s loc loopFuel (prevYearFix s1)) as [s2|s2|r|];
    cbn [zonedFlow zoned.andThen andThen]; try (split; [reflexivity|auto]).
  destruct (zoned_prevMonthFix s2 V2) as (E2 & W2). rewrite E2.
  rewrite zoned_prevDayLoop by exact W2.
  pose proof (prevDayLoop_Valid loopFuel _ W2) as V3.
  destruct (prevDayLoop s loc loopFuel (prevMonthFix s2)) as [s3|s3|r|];
    cbn [zonedFlow zoned.andThen andThen]; try (split; [reflexivity|auto]).
  destruct (zoned_prevDayFix s3 V3) as (E3 & W3). rewrite E3.
  rewrite zoned_prevHourLoop by exact W3.
  pose proof (prevHourLoop_Valid loopFuel _ W3) as V4.
  destruct (prevHourLoop s loc loopFuel (prevDayFix s3)) as [s4|s4|r|];
    cbn [zonedFlow zoned.andThen andThen]; try (split; [reflexivity|auto]).
  destruct (zoned_prevHourFix s4 V4) as (E4 & W4). rewrite E4.
  rewrite zoned_prevMinuteLoop by exact W4.
  pose proof (prevMinuteLoop_Valid loopFuel _ W4) as V5.
  destruct (prevMinuteLoop s loopFuel (prevHourFix s4)) as [s5|s5|r|];
    cbn [zonedFlow zoned.andThen andThen]; try (split; [reflexivity|auto]).
  destruct (zoned_prevMinuteFix s5 V5) as (E5 & W5). rewrite E5.
  rewrite zoned_prevSecondLoop by exact W5.
  pose proof (prevSecondLoop_Valid loopFuel _ W5) as V6.
  destruct (prevSecondLoop s loopFuel (prevMinuteFix s5)) as [s6|s6|r|];
    cbn [zonedFlow zoned.andThen andThen]; try (split; [reflexivity|auto]).
  zoned_cbn. rewrite zoned_In by exact V6. split; [reflexivity|exact I].
Qed.
End ZonedPrevLoops.

(** On locations with a fixed offset, [Prev] of the second model is [Prev]
    of the first. *)
Theorem zoned_Prev (s : SpecSchedule) (t : time.Time) :
  time.Valid t ->
  zoned.Prev (zonedSchedule s) (zonedTime t)
  = option_map zonedTime (Prev s t).
Proof.
  intros V. unfold zoned.Prev, zoned.PrevWith. rewrite Prev_unfold.
  rewrite zoned_effectiveLocation, zoned_inSchedule by exact V.
  destruct (inSchedule_spec s t V) as (V0 & _).
  rewrite zoned_Year by exact V0.
  change (tz.LocationOf (zonedTime t))
    with (zonedLocation (time.LocationOf t)).
  pose proof (zoned_wrapLoop zonedPrev (fun st => time.Valid (pT st))
    (prevPass s (effectiveLocation s t) (time.Year (inSchedule s t) - 5)
              (time.LocationOf t))
    (zoned.prevPass (zonedSchedule s)
       (zonedLocation (effectiveLocation s t))
       (time.Year (inSchedule s t) - 5) loopFuel
       (zonedLocation (time.LocationOf t)))) as T.
  specialize (T (fun st Vst => zoned_prevPass s _ _ _ st Vst)).
  specialize (T wrapFuel
                (mkPrev (inSchedule s t) false false false false false false)
                V0).
  destruct T as (E & _).
  change (zoned.mkPrev (zonedTime (inSchedule s t)) false false false false
                       false false)
    with (zonedPrev (mkPrev (inSchedule s t) false false false false false
                            false)).
  revert E.
  generalize (wrapLoop
    (prevPass s (effectiveLocation s t) (time.Year (inSchedule s t) - 5)
              (time.LocationOf t)) wrapFuel
    (mkPrev (inSchedule s t) false false false false false false)).
  intros r E. rewrite E. destruct r; reflexivity.
Qed.

(** *** Results that do not match, or that are after the given time *)

(** C4 fails on the code.  In [saoPaulo] the hour after 23:00 of
    2018-11-03 is 01:00 of the 4th: the hour loop of [Next] passes to the
    next day without meeting hour 0, so that it does not go back to test
    the day.  With the schedule of hour 1 of the 3rd of every month, [Next]
    at noon of the 3rd returns 01:00 of the 4th, whose day is not in the
    schedule. *)
Theorem Next_returns_unmatched_day :
  let t := tz.Date 2018 11 3 12 0 0 0 saoPaulo in
  let r := tz.Date 2018 11 4 1 0 0 0 saoPaulo in
  zoned.Next thirdAtOne t = Some r /\ tz.IsZero r = false /\
  tz.Day (tz.In r (zoned.effectiveLocation thirdAtOne t)) = 4 /\
  Bit (zoned.Dom thirdAtOne)
      (tz.Day (tz.In r (zoned.effectiveLocation thirdAtOne t))) = 0 /\
  zoned.dayMatches thirdAtOne
      (tz.In r (zoned.effectiveLocation thirdAtOne t)) = false.
Proof.
  repeat split; vm_compute; reflexivity.
Qed.

(** In [kathmandu] the minute loop of [Next] passes from 1985 to 00:15 of
    1986-01-01 without meeting minute 0: the result has a year that is not
    in the schedule. *)
Example Next_returns_unmatched_year :
  let t := tz.Date 1985 12 31 23 30 0 0 kathmandu in
  let r := tz.Date 1986 1 1 0 15 0 0 kathmandu in
  zoned.Next quarterPast1985 t = Some r /\ tz.IsZero r = false /\
  tz.Year (tz.In r (zoned.effectiveLocation quarterPast1985 t)) = 1986 /\
  Bit (zoned.Year quarterPast1985)
      (tz.Year (tz.In r (zoned.effectiveLocation quarterPast1985 t))
       - minYear) = 0.
Proof.
  repeat split; vm_compute; reflexivity.
Qed.

(** In [troll] the hour from 01:00 to 02:00 of 2023-10-29 comes a second
    time after 03:00.  [Prev] with the schedule of hour 1, at 02:30 of the
    first time, returns 01:59 of the second time, which is 5340 seconds
    after the given time. *)
Example Prev_returns_later_instant :
  let t := tz.Date 2023 10 29 0 30 0 0 tz.UTC in
  let r := tz.Date 2023 10 29 1 59 0 0 tz.UTC in
  zoned.Prev hourOne t = Some r /\ tz.IsZero r = false /\
  tz.UnixNano r = tz.UnixNano t + 5340 * time.Second.
Proof.
  repeat split; vm_compute; reflexivity.
Qed.

(** *** A search that does not end *)

Lemma zoned_wrapLoop_Exhausted {S : Type} (pass : S -> zoned.flow S)
      (n : nat) (st : S) :
  pass st = zoned.Exhausted -> zoned.wrapLoop pass n st = zoned.Exhausted.
Proof.
  intros E. induction n as [|n IH]; cbn [zoned.wrapLoop].
  - exact E.
  - rewrite IH. reflexivity.
Qed.

Lemma zoned_nextYearLoop_fall (s : zoned.SpecSchedule) (loc : tz.Location)
      (lim : Z) (n : nat) (st : zoned.nextState) :
  (tz.Year (zoned.nT st) <? minYear)
  || (Bit (zoned.Year s) (tz.Year (zoned.nT st) - minYear) =? 0) = false ->
  zoned.nextYearLoop s loc lim (S n) st = zoned.Fall st.
Proof. intros G. cbn [zoned.nextYearLoop]. rewrite G. reflexivity. Qed.

Lemma zoned_nextMonthLoop_fall (s : zoned.SpecSchedule) (loc : tz.Location)
      (n : nat) (st : zoned.nextState) :
  (Bit (zoned.Month s) (tz.Month (zoned.nT st)) =? 0) = false ->
  zoned.nextMonthLoop s loc (S n) st = zoned.Fall st.
Proof. intros G. cbn [zoned.nextMonthLoop]. rewrite G. reflexivity. Qed.

(** A set of states with no matching day that the step of one day does not
    leave, and from which it does not reach a day 1: the day loop does not
    end. *)
Lemma zoned_nextDayLoop_stuck (s : zoned.SpecSchedule) (loc : tz.Location)
      (P : zoned.nextState -> Prop) :
  (forall st, P st ->
     zoned.dayMatches s (zoned.nT st) = false /\
     let t := zoned.nT st in
     let t := if negb (zoned.nAdded st)
              then tz.Date (tz.Year t) (tz.Month t) (tz.Day t) 0 0 0 0 loc
              else t in
     let t := zoned.fixMidnight (tz.AddDate t 0 0 1) in
     (tz.Day t =? 1) = false /\ P (zoned.mkNext t true)) ->
  forall n st, P st -> zoned.nextDayLoop s loc n st = zoned.Exhausted.
Proof.
  intros H. induction n as [|n IH]; intros st Pst; [reflexivity|].
  destruct (H st Pst) as (D & W & P').
  cbn [zoned.nextDayLoop]. rewrite D. cbn [negb].
  cbv zeta in W, P'. rewrite W. apply IH. exact P'.
Qed.

(** C8 fails on the code.  In [apia] the day after 2011-12-29 is the day
    that the location left out: [AddDate(0, 0, 1)] at 00:00 of the 29th
    returns the same instant.  With the schedule of the 31st of every
    month, the day loop of [Next] from 2011-12-15 reaches the 29th and
    stays there: whatever the bounds on the iterations and on the passes,
    the search does not return. *)
Theorem Next_does_not_end :
  let t29 := tz.Date 2011 12 29 0 0 0 0 apia in
  tz.AddDate t29 0 0 1 = t29 /\
  zoned.dayMatches the31st t29 = false /\
  forall fuel wfuel : nat,
    zoned.NextWith fuel wfuel the31st (tz.Date 2011 12 15 0 0 0 0 apia)
    = None.
Proof.
  split; [vm_compute; reflexivity|].
  split; [vm_compute; reflexivity|].
  intros fuel wfuel. unfold zoned.NextWith.
  set (t0 := tz.Date 2011 12 15 0 0 0 0 apia).
  set (st0 := zoned.mkNext (zoned.nextStart the31st t0) false).
  set (lim := tz.Year (zoned.nextStart the31st t0) + 5).
  set (loc := zoned.effectiveLocation the31st t0).
  rewrite zoned_wrapLoop_Exhausted; [reflexivity|].
  unfold zoned.nextPass.
  replace (zoned.nextYearExceeded lim (zoned.nT st0)) with false
    by (vm_compute; reflexivity).
  destruct fuel as [|fuel]; [reflexivity|].
  rewrite zoned_nextYearLoop_fall by (vm_compute; reflexivity).
  cbn [zoned.andThen].
  rewrite zoned_nextMonthLoop_fall by (vm_compute; reflexivity).
  cbn [zoned.andThen].
  rewrite (zoned_nextDayLoop_stuck the31st loc
    (fun st => st = st0 \/
               exists k, 15 <= k <= 29 /\
                 st = zoned.mkNext (tz.Date 2011 12 k 0 0 0 0 apia) true)).
  - reflexivity.
  - intros st [->|(k & Hk & ->)].
    + split; [vm_compute; reflexivity|].
      split; [vm_compute; reflexivity|].
      right. exists 15. split; [lia|]. vm_compute. reflexivity.
    + assert (C : k = 15 \/ k = 16 \/ k = 17 \/ k = 18 \/ k = 19 \/ k = 20 \/
                  k = 21 \/ k = 22 \/ k = 23 \/ k = 24 \/ k = 25 \/ k = 26 \/
                  k = 27 \/ k = 28 \/ k = 29) by lia.
      assert (N : k < 29 \/ k = 29) by lia.
      destruct N as [N| ->].
      * split; [|split].
        1,2: repeat (destruct C as [C|C]; [subst k; vm_compute; reflexivity|]);
             subst k; lia.
        right. exists (k + 1). split; [lia|].
        repeat (destruct C as [C|C]; [subst k; vm_compute; reflexivity|]).
        subst k; lia.
      * split; [vm_compute; reflexivity|].
        split; [vm_compute; reflexivity|].
        right. exists 29. split; [lia|]. vm_compute. reflexivity.
  - left. reflexivity.
Qed.

(** *** The correction of midnight at a transition *)

(** The correction moves the instant by the hours that it adds or takes
    off. *)
Lemma zoned_fixMidnight_spec (t : tz.Time) :
  time.Valid (tz.utc t) ->
  (tz.Hour_ t =? 0) = false ->
  zoned.fixMidnight t =
    tz.Add t (if tz.Hour_ t >? 12 then (24 - tz.Hour_ t) * time.Hour
              else - tz.Hour_ t * time.Hour) /\
  tz.UnixNano (zoned.fixMidnight t) =
    tz.UnixNano t
    + (if tz.Hour_ t >? 12 then 24 - tz.Hour_ t else - tz.Hour_ t)
      * 3600000000000 /\
  tz.LocationOf (zoned.fixMidnight t) = tz.LocationOf t.
Proof.
  intros V H. unfold zoned.fixMidnight. rewrite H. cbn [negb].
  destruct (tz.Hour_ t >? 12).
  - destruct (tz_Add_spec t ((24 - tz.Hour_ t) * time.Hour) V)
      as (_ & U & L).
    split; [reflexivity|]. split; [|exact L].
    rewrite U. unfold time.Hour, time.Minute, time.Second. lia.
  - destruct (tz_Add_spec t (- tz.Hour_ t * time.Hour) V) as (_ & U & L).
    split; [reflexivity|]. split; [|exact L].
    rewrite U. unfold time.Hour, time.Minute, time.Second. lia.
Qed.

(** C7.  In the day loops of [Next] and of [Prev], a turn whose day does
    not match steps one day, forward or back.  When the hour [h] of the
    time that the step reaches is not 0, the turn adds [24 - h] hours if
    [h > 12] and takes off [h] hours otherwise, which moves the instant by
    that many hours in the same location; then it leaves by [goto WRAP] on
    day 1 or tests the day again, on the corrected time. *)
Theorem day_step_corrects_midnight
        (s : zoned.SpecSchedule) (loc : tz.Location) (n : nat)
        (st : zoned.nextState) (pst : zoned.prevState) :
  let midnight (t : tz.Time) :=
    tz.Date (tz.Year t) (tz.Month t) (tz.Day t) 0 0 0 0 loc in
  let t1 := tz.AddDate (if zoned.nAdded st then zoned.nT st
                        else midnight (zoned.nT st)) 0 0 1 in
  let u1 := tz.AddDate (if zoned.pAdded pst then zoned.pT pst
                        else midnight (zoned.pT pst)) 0 0 (-1) in
  let hours (h : Z) := if h >? 12 then 24 - h else - h in
  zoned.dayMatches s (zoned.nT st) = false ->
  zoned.dayMatches s (zoned.pT pst) = false ->
  (tz.Hour_ t1 =? 0) = false ->
  (tz.Hour_ u1 =? 0) = false ->
  (exists t2,
     t2 = tz.Add t1 (hours (tz.Hour_ t1) * time.Hour) /\
     tz.UnixNano t2 =
       tz.UnixNano t1 + hours (tz.Hour_ t1) * 3600000000000 /\
     tz.LocationOf t2 = tz.LocationOf t1 /\
     zoned.nextDayLoop s loc (S n) st =
       (if tz.Day t2 =? 1 then zoned.Wrap (zoned.mkNext t2 true)
        else zoned.nextDayLoop s loc n (zoned.mkNext t2 true))) /\
  (exists u2,
     u2 = tz.Add u1 (hours (tz.Hour_ u1) * time.Hour) /\
     tz.UnixNano u2 =
       tz.UnixNano u1 + hours (tz.Hour_ u1) * 3600000000000 /\
     tz.LocationOf u2 = tz.LocationOf u1 /\
     let pst' := zoned.mkPrev u2 true (zoned.addYear pst)
                   (zoned.addMonth pst) true (zoned.addHour pst)
                   (zoned.addMinute pst) in
     zoned.prevDayLoop s loc (S n) pst =
       (if tz.Day u2 =? 1 then zoned.Wrap pst'
        else zoned.prevDayLoop s loc n pst')).
Proof.
  intros midnight t1 u1 hours D1 D2 H1 H2.
  assert (V1 : time.Valid (tz.utc t1)) by apply tz_Date_Valid.
  assert (V2 : time.Valid (tz.utc u1)) by apply tz_Date_Valid.
  destruct (zoned_fixMidnight_spec t1 V1 H1) as (F1 & N1 & L1).
  destruct (zoned_fixMidnight_spec u1 V2 H2) as (F2 & N2 & L2).
  split.
  - exists (zoned.fixMidnight t1).
    split; [|split; [exact N1|split; [exact L1|]]].
    + rewrite F1. unfold hours. destruct (tz.Hour_ t1 >? 12); reflexivity.
    + cbn [zoned.nextDayLoop]. rewrite D1. cbn [negb].
      fold (midnight (zoned.nT st)). unfold t1.
      destruct (zoned.nAdded st); reflexivity.
  - exists (zoned.fixMidnight u1).
    split; [|split; [exact N2|split; [exact L2|]]].
    + rewrite F2. unfold hours. destruct (tz.Hour_ u1 >? 12); reflexivity.
    + cbn [zoned.prevDayLoop]. rewrite D2. cbn [negb].
      fold (midnight (zoned.pT pst)). unfold u1.
      destruct (zoned.pAdded pst); reflexivity.
Qed.

Lemma day_step_corrects_midnight_witness :
  let st := zoned.mkNext (tz.Date 2018 11 3 12 0 0 0 saoPaulo) false in
  let pst := zoned.mkPrev (tz.Date 2018 11 5 12 0 0 0 saoPaulo) false
                          false false false false false in
  let t1 := tz.Date 2018 11 3 23 0 0 0 saoPaulo in
  let t2 := tz.Date 2018 11 4 1 0 0 0 saoPaulo in
  zoned.dayMatches midnight10th (zoned.nT st) = false /\
  zoned.dayMatches midnight10th (zoned.pT pst) = false /\
  tz.AddDate (tz.Date 2018 11 3 0 0 0 0 saoPaulo) 0 0 1 = t1 /\
  tz.AddDate (tz.Date 2018 11 5 0 0 0 0 saoPaulo) 0 0 (-1) = t1 /\
  tz.Hour_ t1 = 23 /\ tz.Hour_ t2 = 1 /\
  tz.UnixNano t2 = tz.UnixNano t1 + 1 * 3600000000000 /\
  zoned.nextDayLoop midnight10th saoPaulo 1 st =
    zoned.nextDayLoop midnight10th saoPaulo 0 (zoned.mkNext t2 true) /\
  zoned.prevDayLoop midnight10th saoPaulo 1 pst =
    zoned.prevDayLoop midnight10th saoPaulo 0
      (zoned.mkPrev t2 true false false true false false).
Proof.
  intros st pst t1 t2.
  assert (H1 : zoned.dayMatches midnight10th (zoned.nT st) = false)
    by (vm_compute; reflexivity).
  assert (H2 : zoned.dayMatches midnight10th (zoned.pT pst) = false)
    by (vm_compute; reflexivity).
  destruct (day_step_corrects_midnight midnight10th saoPaulo 0 st pst H1 H2)
    as ((a & Ea & _ & _ & Da) & (b & Eb & _ & _ & Db));
    [vm_compute; reflexivity|vm_compute; reflexivity|].
  assert (A : a = t2) by (rewrite Ea; vm_compute; reflexivity).
  assert (B : b = t2) by (rewrite Eb; vm_compute; reflexivity).
  subst a b.
  split; [exact H1|]. split; [exact H2|].
  split; [vm_compute; reflexivity|]. split; [vm_compute; reflexivity|].
  split; [vm_compute; reflexivity|]. split; [vm_compute; reflexivity|].
  split; [vm_compute; reflexivity|].
  split.
  - rewrite Da. replace (tz.Day t2 =? 1) with false
      by (vm_compute; reflexivity). reflexivity.
  - rewrite Db. replace (tz.Day t2 =? 1) with false
      by (vm_compute; reflexivity). reflexivity.
Defined.

(** In [saoPaulo], [Next] with the schedule of midnight of the 10th, from
    noon of 2018-11-03, steps over the midnight of the 4th that the
    location left out: the day loop goes from the 3rd to 01:00 of the 4th
    and from there to 00:00 of the 5th. *)
Example Next_over_the_gap :
  zoned.Next midnight10th (tz.Date 2018 11 3 12 0 0 0 saoPaulo)
  = Some (tz.Date 2018 11 10 0 0 0 0 saoPaulo) /\
  zoned.fixMidnight (tz.AddDate (tz.Date 2018 11 4 1 0 0 0 saoPaulo) 0 0 1)
  = tz.Date 2018 11 5 0 0 0 0 saoPaulo.
Proof.
  split; vm_compute; reflexivity.
Qed.
